(** * FoodEx2 validation engine: a shallow embedding and its properties

    The development follows the JavaScript sources of the validator:
    - [VBAValidator]            (structural validation),
    - [HierarchyHelper]         (ancestor queries with their memo table),
    - [BusinessRulesValidator]  (rules BR01 .. BR28),
    - [FoodEx2Validator]        (aggregation of the results),
    - [FoodEx2Service]          (choice of the validator instance).

    Conventions of the embedding:
    - strings are sequences of code units below 256 ([string]);
    - an asynchronous call is a function of the mutable state it can reach,
      with [None] for a call that yields no result (a recursive query that
      does not finish, or a rejected query);
    - the tables [terms] and [term_hierarchies] are lists of rows in which a
      primary key selects the first row that carries it;
    - the ordinal code of a process is the number read from the
      forbidden-process table, taken as an exact rational;
    - the soft-rules validator, which reads its arguments only, is a
      parameter of the validator. *)

From Stdlib Require Import String Ascii List ZArith QArith Qround Lia Bool.
From stdpp Require Import gmap strings list.
From Stdlib Require SpecFloat.
From Stdlib Require Import DecimalString.

Close Scope Q_scope.

(** ** Strings as JavaScript uses them *)

Definition code_of (c : ascii) : nat := nat_of_ascii c.

Definition in_range (lo hi : nat) (c : ascii) : bool :=
  Nat.leb lo (code_of c) && Nat.leb (code_of c) hi.

Definition is_upper (c : ascii) : bool := in_range 65 90 c.
Definition is_lower (c : ascii) : bool := in_range 97 122 c.
Definition is_digit (c : ascii) : bool := in_range 48 57 c.
Definition is_upper_alnum (c : ascii) : bool := is_upper c || is_digit c.

(** White space removed by [String.prototype.trim], restricted to code units
    below 256: TAB, LF, VT, FF, CR, SPACE and NBSP. *)
Definition is_space (c : ascii) : bool :=
  in_range 9 13 c || Nat.eqb (code_of c) 32 || Nat.eqb (code_of c) 160.

Fixpoint string_forall (p : ascii -> bool) (s : string) : bool :=
  match s with
  | EmptyString => true
  | String c s' => p c && string_forall p s'
  end.

Fixpoint string_exists (p : ascii -> bool) (s : string) : bool :=
  match s with
  | EmptyString => false
  | String c s' => p c || string_exists p s'
  end.

(** JavaScript truthiness of a string. *)
Definition truthy (s : string) : bool := negb (String.eqb s "").

Fixpoint ltrim (s : string) : string :=
  match s with
  | EmptyString => EmptyString
  | String c s' => if is_space c then ltrim s' else s
  end.

Fixpoint rtrim (s : string) : string :=
  match s with
  | EmptyString => EmptyString
  | String c s' =>
      let r := rtrim s' in
      if is_space c && String.eqb r "" then EmptyString else String c r
  end.

Definition trim (s : string) : string := rtrim (ltrim s).

(** [s.split(sep)] for a separator that is one code unit out of a class:
    [split_on p s] cuts [s] at every code unit satisfying [p]; the result
    always has at least one element. *)
Fixpoint split_on (p : ascii -> bool) (s : string) : list string :=
  match s with
  | EmptyString => [EmptyString]
  | String c s' =>
      if p c then EmptyString :: split_on p s'
      else match split_on p s' with
           | [] => [String c EmptyString]
           | w :: ws => String c w :: ws
           end
  end.

Definition is_dot (c : ascii) : bool := Ascii.eqb c ".".
Definition is_dollar (c : ascii) : bool := Ascii.eqb c "$".
Definition is_hash_or_dollar (c : ascii) : bool := Ascii.eqb c "#" || Ascii.eqb c "$".

(** [s.split('.')[i]]; an absent element ([undefined]) is rendered as the
    empty string, which the callers treat alike (both are falsy, and neither
    is a term code). *)
Definition split_dot_nth (i : nat) (s : string) : string :=
  nth i (split_on is_dot s) "".

Definition startsWith (s pre : string) : bool := String.prefix pre s.

(** [toLowerCase] on code units below 256: the letters A-Z and the accented
    capitals 192..222 (the multiplication sign 215 apart) move up by 32. *)
Definition lower_char (c : ascii) : ascii :=
  if is_upper c || (in_range 192 222 c && negb (Nat.eqb (code_of c) 215))
  then ascii_of_nat (code_of c + 32) else c.

Fixpoint toLowerCase (s : string) : string :=
  match s with
  | EmptyString => EmptyString
  | String c s' => String (lower_char c) (toLowerCase s')
  end.

(** [toUpperCase] on code units below 256: a-z and the accented small
    letters 224..254 (the division sign 247 apart) move down by 32. The
    remaining code units are kept; the few of them whose capital form lies
    elsewhere never occur in a severity word. *)
Definition upper_char (c : ascii) : ascii :=
  if is_lower c || (in_range 224 254 c && negb (Nat.eqb (code_of c) 247))
  then ascii_of_nat (code_of c - 32) else c.

Fixpoint toUpperCase (s : string) : string :=
  match s with
  | EmptyString => EmptyString
  | String c s' => String (upper_char c) (toUpperCase s')
  end.

(** [s.includes(sub)] *)
Fixpoint includes_str (s sub : string) : bool :=
  String.prefix sub s ||
  match s with
  | EmptyString => false
  | String _ s' => includes_str s' sub
  end.

(** [arr.includes(x)] on an array of strings *)
Definition includes (l : list string) (x : string) : bool :=
  existsb (String.eqb x) l.

(** [arr.join(sep)] *)
Definition join (sep : string) (l : list string) : string := String.concat sep l.

(** The regular expressions of the validator. Without the [m] flag [^] and
    [$] match only at the two ends of the input. *)

(** [/^[A-Z0-9]{5}$/.test(s)] *)
Definition re_code (s : string) : bool :=
  Nat.eqb (String.length s) 5 && string_forall is_upper_alnum s.

(** [/^F\d{2}$/.test(s)] *)
Definition re_group (s : string) : bool :=
  match s with
  | String f (String d1 (String d2 EmptyString)) =>
      Ascii.eqb f "F" && is_digit d1 && is_digit d2
  | _ => false
  end.

(** [[...new Set(l)]]: the elements of [l] without repetition, in the order
    of their first occurrence. *)
Fixpoint uniq_from (seen l : list string) : list string :=
  match l with
  | [] => []
  | x :: r => if includes seen x then uniq_from seen r else x :: uniq_from (x :: seen) r
  end.

Definition uniq (l : list string) : list string := uniq_from [] l.

(** [s.split(sep)] for a separator of two code units [a b]: [s] is cut at
    every occurrence of the pair, found from left to right. *)
Fixpoint split_two (a b : ascii) (s : string) : list string :=
  match s with
  | EmptyString => [EmptyString]
  | String c s' =>
      match s' with
      | String d s'' =>
          if Ascii.eqb c a && Ascii.eqb d b then EmptyString :: split_two a b s''
          else match split_two a b s' with
               | [] => [String c EmptyString]
               | w :: ws => String c w :: ws
               end
      | EmptyString => [String c EmptyString]
      end
  end.

(** ** Data model *)

(** A row of the [terms] table (the columns the validator reads). *)
Record TermRow := mkTermRow {
  term_code : string;
  extended_name : string;
  db_term_type : string;
  db_detail_level : option string;
  db_deprecated : bool;
  status : string;
  db_implicit_facets : option string
}.

(** A row of [term_hierarchies]; [(term_code, hierarchy_code)] is the primary
    key, [parent_code] is NULL for a root. *)
Record HierarchyRow := mkHierarchyRow {
  h_term_code : string;
  hierarchy_code : string;
  parent_code : option string
}.

Record Database := mkDatabase {
  terms : list TermRow;
  term_hierarchies : list HierarchyRow
}.

(** The object selected by [checkBaseTerm]:
    [term_code as code, extended_name as name, term_type as type, detail_level,
     deprecated, (status = 'DISMISSED') as dismissed, implicit_facets, term_type]. *)
Record Term := mkTerm {
  code : string;
  name : string;
  type : string;
  detail_level : option string;
  deprecated : bool;
  dismissed : bool;
  implicit_facets : option string;
  term_type : string
}.

Record Warning := mkWarning {
  rule : string;
  message : string;
  severity : string;
  w_type : string;
  facet : option string;
  involvedTerms : option string;
  termName : option string;
  groupName : option string;
  validGroups : option (list string)
}.

(** A warning with the four fields every warning carries. *)
Definition warning (r m sev ty : string) : Warning :=
  mkWarning r m sev ty None None None None None.

(** A record of the forbidden-process table as [DataLoader] builds it; the
    ordinal code is the number read from the table ([NaN] has already been
    replaced by 0 there), taken as an exact rational. *)
Record ForbiddenProcess := mkForbiddenProcess {
  rootGroupCode : string;
  forbiddenProcessCode : string;
  ordinalCode : Q
}.

Record WarningMessage := mkWarningMessage {
  text : string;
  msg_severity : string
}.

(** ** Queries *)

(** [SELECT ... FROM terms WHERE term_code = ?] *)
Definition select_term (db : Database) (c : string) : option TermRow :=
  find (fun r => String.eqb (term_code r) c) (terms db).

(** [SELECT ... FROM term_hierarchies WHERE term_code = ? AND hierarchy_code = ?] *)
Definition select_hierarchy_row (db : Database) (c h : string) : option HierarchyRow :=
  find (fun r => String.eqb (h_term_code r) c && String.eqb (hierarchy_code r) h)
       (term_hierarchies db).

(** Texts in ascending order, compared code unit by code unit. *)
Fixpoint insert_sorted (x : string) (l : list string) : list string :=
  match l with
  | [] => [x]
  | y :: r => if String.leb x y then x :: l else y :: insert_sorted x r
  end.

Definition sort_strings (l : list string) : list string :=
  fold_right insert_sorted [] l.

(** [SELECT DISTINCT hierarchy_code FROM term_hierarchies WHERE term_code = ?].
    The table has the primary key [(term_code, hierarchy_code)] and the query
    is answered from the index of that key, so the codes come in ascending
    order. *)
Definition select_hierarchies_of (db : Database) (c : string) : list string :=
  sort_strings
    (uniq (map hierarchy_code
             (List.filter (fun r => String.eqb (h_term_code r) c) (term_hierarchies db)))).

Definition term_of_row (r : TermRow) : Term :=
  mkTerm (term_code r) (extended_name r) (db_term_type r) (db_detail_level r)
         (db_deprecated r) (String.eqb (status r) "DISMISSED")
         (db_implicit_facets r) (db_term_type r).

(** Property lookup in an object literal with string keys. *)
Fixpoint assoc {V : Type} (k : string) (l : list (string * V)) : option V :=
  match l with
  | [] => None
  | (k', v) :: r => if String.eqb k k' then Some v else assoc k r
  end.

(** ** VBAValidator *)

Module VBAValidator.

Definition SINGLE_CARDINALITY_GROUPS : list string :=
  ["F01"; "F02"; "F03"; "F07"; "F11"; "F22"; "F24"; "F26"; "F30"; "F32"; "F34"].

Record BaseTermResult := mkBaseTermResult {
  bt_valid : bool;
  bt_term : option Term
}.

(** [checkBaseTerm]: the result and the warnings array after the call. *)
Definition checkBaseTerm (db : Database) (baseTermCode : string) (warnings : list Warning)
  : BaseTermResult * list Warning :=
  if negb (re_code baseTermCode) then
    (mkBaseTermResult false None,
     warnings ++ [warning "VBA-STRUCT"
       "Base term contains invalid characters or wrong length (must be 5 alphanumeric characters)"
       "ERROR" "STRUCTURE"])
  else
    match select_term db baseTermCode with
    | None =>
        (mkBaseTermResult false None,
         warnings ++ [warning "VBA-NOTFOUND"
           ("Base term " +:+ baseTermCode +:+ " not found in database")
           "ERROR" "NOT_FOUND"])
    | Some row => (mkBaseTermResult true (Some (term_of_row row)), warnings)
    end.

(** [parseFacetString]: split at [#] or [$], drop the fragments whose trimmed
    text is empty. *)
Definition parseFacetString (facetString : string) : list string :=
  if negb (truthy facetString) then []
  else List.filter (fun f => truthy (trim f)) (split_on is_hash_or_dollar facetString).

(** The body of the loop of [checkCorrectFacet] for one fragment: the warning
    it pushes, if any. *)
Definition facetFormatWarning (facet : string) : option Warning :=
  let parts := split_on is_dot facet in
  if negb (Nat.eqb (length parts) 2) then
    Some (warning "VBA-FORMAT"
      ("Invalid facet format: Expected '.' separator in '" +:+ facet +:+
       "' (format should be Fxx.YYYYY)") "ERROR" "STRUCTURE")
  else
    let groupId := nth 0 parts "" in
    let descriptor := nth 1 parts "" in
    if negb (re_group groupId) then
      Some (warning "VBA-GROUP"
        ("Invalid facet group '" +:+ groupId +:+
         "' (must be F followed by 2 digits, e.g., F01, F28)") "ERROR" "STRUCTURE")
    else if negb (re_code descriptor) then
      Some (warning "VBA-DESCRIPTOR"
        ("Invalid facet descriptor '" +:+ descriptor +:+ "' in " +:+ groupId +:+
         " (must be 5 alphanumeric characters)") "ERROR" "STRUCTURE")
    else None.

(** [checkCorrectFacet]: [isValid] and the warnings array after the loop. *)
Fixpoint checkCorrectFacet_loop (facets : list string) (isValid : bool)
  (warnings : list Warning) : bool * list Warning :=
  match facets with
  | [] => (isValid, warnings)
  | facet :: rest =>
      match facetFormatWarning facet with
      | Some w => checkCorrectFacet_loop rest false (warnings ++ [w])
      | None => checkCorrectFacet_loop rest isValid warnings
      end
  end.

Definition checkCorrectFacet (facets : list string) (warnings : list Warning)
  : bool * list Warning :=
  checkCorrectFacet_loop facets true warnings.

(** [getImplicitFacets]: split at [$] only, drop the empty fragments. *)
Definition getImplicitFacets (t : Term) : list string :=
  match implicit_facets t with
  | None => []
  | Some s =>
      if negb (truthy s) then []
      else List.filter truthy (split_on is_dollar s)
  end.

Fixpoint removeImplicit_loop (explicitFacets implicitFacets cleanedFacets : list string)
  (implicitRemoved : bool) : list string * bool :=
  match explicitFacets with
  | [] => (cleanedFacets, implicitRemoved)
  | facet :: rest =>
      if includes implicitFacets facet
      then removeImplicit_loop rest implicitFacets cleanedFacets true
      else removeImplicit_loop rest implicitFacets (cleanedFacets ++ [facet]) implicitRemoved
  end.

(** [checkAndRemoveImplicitFacets]: [{cleanedFacets, implicitRemoved}] and the
    warnings array after the call. *)
Definition checkAndRemoveImplicitFacets (explicitFacets implicitFacets : list string)
  (warnings : list Warning) : (list string * bool) * list Warning :=
  let '(cleanedFacets, implicitRemoved) :=
    removeImplicit_loop explicitFacets implicitFacets [] false in
  if implicitRemoved then
    ((cleanedFacets, implicitRemoved),
     warnings ++ [warning "VBA-IMPLICIT"
       "Implicit facets were automatically removed (already included in base term)"
       "HIGH" "IMPLICIT_REMOVED"])
  else ((cleanedFacets, implicitRemoved), warnings).

(** The facet-group to hierarchy mapping of [validateFacetDescriptor]. *)
Definition hierarchyMap : list (string * string) :=
  [("F01", "source"); ("F02", "part"); ("F03", "state"); ("F04", "ingred");
   ("F06", "medium"); ("F07", "fat"); ("F08", "sweet"); ("F09", "fort");
   ("F10", "qual"); ("F11", "alcohol"); ("F12", "dough"); ("F17", "cookext");
   ("F18", "packformat"); ("F19", "packmat"); ("F20", "partcon"); ("F21", "prod");
   ("F22", "place"); ("F23", "targcon"); ("F24", "use"); ("F25", "riskingred");
   ("F26", "gen"); ("F27", "racsource"); ("F28", "process"); ("F29", "fpurpose");
   ("F30", "replev"); ("F31", "animage"); ("F32", "gender"); ("F33", "legis");
   ("F34", "hostsampled")].

(** [hierarchyMap[groupId] || groupId.toLowerCase()] *)
Definition hierarchyCodeOf (groupId : string) : string :=
  match assoc groupId hierarchyMap with
  | Some h => h
  | None => toLowerCase groupId
  end.

Definition facetGroupNames : list (string * string) :=
  [("F01", "Source (animal/plant origin)");
   ("F02", "Part-nature (part of plant/animal)");
   ("F03", "Physical state"); ("F04", "Ingredient"); ("F05", "Reserved");
   ("F06", "Medium"); ("F07", "Fat content"); ("F08", "Sweetening agent");
   ("F09", "Fortification agent"); ("F10", "Qualitative info");
   ("F11", "Alcohol content"); ("F12", "Dough"); ("F13", "Reserved");
   ("F14", "Reserved"); ("F15", "Reserved"); ("F16", "Reserved");
   ("F17", "Extent of cooking"); ("F18", "Packing format");
   ("F19", "Packing material");
   ("F20", "Part consumed/analysed (form when consumed)");
   ("F21", "Production method"); ("F22", "Preparation/production place");
   ("F23", "Target consumer"); ("F24", "Use/Intended use");
   ("F25", "Risk ingredient"); ("F26", "Generic term");
   ("F27", "Source commodities"); ("F28", "Process");
   ("F29", "Purpose of raising/breeding"); ("F30", "Reporting level");
   ("F31", "Animal age"); ("F32", "Gender"); ("F33", "Legislative classes");
   ("F34", "Host sampled")].

Definition hierarchyToFacetMap : list (string * string) :=
  map (fun gh => (snd gh, fst gh)) hierarchyMap.

(** The [validFacetGroups] array built for the VBA-CATEGORY message. *)
Definition validFacetGroupsOf (correctGroups : list string) : list string :=
  flat_map (fun h =>
    match assoc h hierarchyToFacetMap with
    | Some facetGroup =>
        match assoc facetGroup facetGroupNames with
        | Some n => if truthy facetGroup && truthy n
                    then [facetGroup +:+ " (" +:+ n +:+ ")"] else []
        | None => []
        end
    | None => []
    end) correctGroups.

(** [validateFacetDescriptor]: the answer and the warnings array after the call. *)
Definition validateFacetDescriptor (db : Database) (facetCode : string)
  (warnings : list Warning) : bool * list Warning :=
  let groupId := split_dot_nth 0 facetCode in
  let descriptor := split_dot_nth 1 facetCode in
  match select_term db descriptor with
  | None =>
      (false,
       warnings ++ [mkWarning "VBA-FACET404"
         ("Facet descriptor '" +:+ descriptor +:+ "' not found in database")
         "ERROR" "NOT_FOUND" (Some facetCode) None None None None])
  | Some row =>
      let hierarchyCode := hierarchyCodeOf groupId in
      match select_hierarchy_row db descriptor hierarchyCode with
      | Some _ => (true, warnings)
      | None =>
          let gName := match assoc groupId facetGroupNames with
                       | Some n => if truthy n then n else groupId
                       | None => groupId
                       end in
          let validFacetGroups := validFacetGroupsOf (select_hierarchies_of db descriptor) in
          let suggestion :=
            if Nat.ltb 0 (length validFacetGroups)
            then " This term belongs to: " +:+ join ", " validFacetGroups +:+ "."
            else "" in
          (false,
           warnings ++ [mkWarning "VBA-CATEGORY"
             ("'" +:+ descriptor +:+ "' (" +:+ extended_name row +:+ ") is not valid for " +:+
              groupId +:+ " (" +:+ gName +:+ ")." +:+ suggestion +:+ " (BR31)")
             "ERROR" "WRONG_CATEGORY" (Some facetCode) None
             (Some (extended_name row)) (Some gName) (Some validFacetGroups)])
      end
  end.

(** Step 6 of [validateFoodEx2Code]: keep the facets whose descriptor is valid. *)
Fixpoint validateFacets_loop (db : Database) (cleanedFacets validatedFacets : list string)
  (warnings : list Warning) : list string * list Warning :=
  match cleanedFacets with
  | [] => (validatedFacets, warnings)
  | facet :: rest =>
      let '(isValid, warnings') := validateFacetDescriptor db facet warnings in
      validateFacets_loop db rest
        (if isValid then validatedFacets ++ [facet] else validatedFacets) warnings'
  end.

(** [obj[k] = (obj[k] || 0) + 1] on an object whose keys are enumerated in
    insertion order (the keys here have the form Fdd). *)
Fixpoint count_incr (k : string) (obj : list (string * nat)) : list (string * nat) :=
  match obj with
  | [] => [(k, 1)]
  | (k', n) :: r => if String.eqb k k' then (k', S n) :: r else (k', n) :: count_incr k r
  end.

Definition countGroups (facets : list string) : list (string * nat) :=
  fold_left (fun obj facet => count_incr (split_dot_nth 0 facet) obj) facets [].

Definition checkSingleCardinalityFacets (facets : list string) (warnings : list Warning)
  : list Warning :=
  fold_left (fun ws (e : string * nat) =>
      let '(groupId, count) := e in
      if includes SINGLE_CARDINALITY_GROUPS groupId && Nat.ltb 1 count then
        ws ++ [warning "VBA-CARDINALITY"
          ("Multiple instances of facet group " +:+ groupId +:+
           " not allowed (BR25: Single cardinality enforcement)")
          "HIGH" "CARDINALITY_VIOLATION"]
      else ws)
    (countGroups facets) warnings.

(** The two sets of [checkDuplicateFacets], as lists in insertion order. *)
Fixpoint duplicates_loop (facets seen duplicates : list string) : list string :=
  match facets with
  | [] => duplicates
  | facet :: rest =>
      let duplicates' :=
        if includes seen facet
        then (if includes duplicates facet then duplicates else duplicates ++ [facet])
        else duplicates in
      let seen' := if includes seen facet then seen else seen ++ [facet] in
      duplicates_loop rest seen' duplicates'
  end.

Definition checkDuplicateFacets (facets : list string) (warnings : list Warning)
  : list Warning :=
  warnings ++
  map (fun duplicate =>
         warning "VBA-DUPLICATE"
           ("Duplicate facet '" +:+ duplicate +:+
            "' found (same facet cannot be used multiple times)")
           "HIGH" "DUPLICATE_FACET")
      (duplicates_loop facets [] []).

(** [buildFacetString]: [#] before the first facet, [$] before the others. *)
Definition buildFacetString (facets : list string) : string :=
  if Nat.eqb (length facets) 0 then ""
  else join "" (imap (fun index facet =>
                        (if Nat.eqb index 0 then "#" else "$") +:+ facet) facets).

(** The object returned by [validateFoodEx2Code]; [cleanedFacets] is absent
    from the two early results. *)
Record Result := mkResult {
  valid : bool;
  warnings : list Warning;
  originalCode : string;
  cleanedCode : option string;
  cleanedFacets : option (list string);
  baseTerm : option Term
}.

Definition validateFoodEx2Code (db : Database) (baseTermCode facetString : string) : Result :=
  let warnings0 : list Warning := [] in
  let '(baseTermResult, warnings1) := checkBaseTerm db baseTermCode warnings0 in
  match bt_valid baseTermResult, bt_term baseTermResult with
  | true, Some term =>
      let facets := parseFacetString facetString in
      let '(ok, warnings2) := checkCorrectFacet facets warnings1 in
      if negb ok then
        mkResult false warnings2 (baseTermCode +:+ facetString) None None (Some term)
      else
        let implicitFacets := getImplicitFacets term in
        let '((cleaned, implicitRemoved), warnings3) :=
          checkAndRemoveImplicitFacets facets implicitFacets warnings2 in
        let '(validatedFacets, warnings4) := validateFacets_loop db cleaned [] warnings3 in
        let warnings5 := checkSingleCardinalityFacets validatedFacets warnings4 in
        let warnings6 := checkDuplicateFacets validatedFacets warnings5 in
        let finalCode := baseTermCode +:+ buildFacetString validatedFacets in
        mkResult
          (Nat.eqb (length (List.filter (fun w => String.eqb (severity w) "ERROR") warnings6)) 0)
          warnings6 (baseTermCode +:+ facetString)
          (if implicitRemoved then Some finalCode else None)
          (Some validatedFacets) (Some term)
  | _, _ =>
      mkResult false warnings1 (baseTermCode +:+ facetString) None None None
  end.

End VBAValidator.

(** ** DataLoader *)

Module DataLoader.

(** [getDefaultWarningMessages]: the table used when the message file cannot
    be read. *)
Definition getDefaultWarningMessages : gmap string WarningMessage :=
  list_to_map
    [("BR01", mkWarningMessage "For mixed raw primary commodity terms it is only allowed to add under F27 source-commodities children of the already present implicit facet." "HIGH");
     ("BR03", mkWarningMessage "The F01 source facet is not allowed in composite food. Choose instead an F04 ingredient facet." "HIGH");
     ("BR04", mkWarningMessage "The F27 source-commodities facet is not allowed in composite food. Choose instead an F04 ingredient facet." "HIGH");
     ("BR05", mkWarningMessage "The F27 source-commodities facet which are not better specifing the already present implicit one are not allowed." "HIGH");
     ("BR06", mkWarningMessage "The F01 source facet is only allowed in derivatives with an F27 source-commodities facet implicitly present." "HIGH");
     ("BR07", mkWarningMessage "The F01 source facet can only be populated for derivatives having a single F27 source-commodities facet." "HIGH");
     ("BR08", mkWarningMessage "The use of this term is forbidden in the reporting hierarchy." "HIGH");
     ("BR10", mkWarningMessage "The use of non-specific terms as base term is discouraged." "LOW");
     ("BR11", mkWarningMessage "The use of generic terms under F28 process facet is discouraged." "LOW");
     ("BR12", mkWarningMessage "The F04 ingredient facet can only be used as a minor ingredient to derivative or raw primary commodity terms." "LOW");
     ("BR13", mkWarningMessage "The F03 physical state facet reported creates a new derivative nature and therefore cannot be applied to raw primary commodity." "HIGH");
     ("BR14", mkWarningMessage "This br is only applied on ICT and DCF." "HIGH");
     ("BR15", mkWarningMessage "This br is only applied on DCF." "LOW");
     ("BR16", mkWarningMessage "Reporting facets less detailed than the implicit facets is discouraged." "HIGH");
     ("BR17", mkWarningMessage "Reporting facets as base term is forbidden." "HIGH");
     ("BR19", mkWarningMessage "Processes that create a new derivative nature cannot be applied to raw commodity base terms." "HIGH");
     ("BR20", mkWarningMessage "The selected term cannot be used since it is deprecated." "HIGH");
     ("BR21", mkWarningMessage "The selected term cannot be used since it is dismissed." "HIGH");
     ("BR22", mkWarningMessage "Base term successfully added." "NONE");
     ("BR23", mkWarningMessage "The use of hierarchy terms as base term is discouraged." "LOW");
     ("BR24", mkWarningMessage "The hierarchy term selected does not belong to the exposure hierarchy." "HIGH");
     ("BR25", mkWarningMessage "Reporting more than one facet is forbidden for this category." "HIGH");
     ("BR26", mkWarningMessage "The selected processes cannot be used together for derivative base term." "HIGH");
     ("BR27", mkWarningMessage "Processes that create a new derivative nature cannot be applied to existing derivative base terms." "HIGH");
     ("BR28", mkWarningMessage "Processes that create a new derivative nature cannot be applied to existing derivative base terms. Start from the reconstituted/diluted term instead." "HIGH");
     ("BR29", mkWarningMessage "The code does not follow the required structure or is misspelled." "ERROR");
     ("BR30", mkWarningMessage "The category does not exist." "ERROR");
     ("BR31", mkWarningMessage "The facet is not valid for the facet category." "ERROR")].

End DataLoader.

(** ** Asynchronous code with mutable state

    The objects an asynchronous method of [BusinessRulesValidator] can mutate:
    the memo table [ancestorCache] of its [HierarchyHelper] (a [Map] from
    cache keys to arrays of ancestor codes) and the [warnings] array of the
    running validation. *)

Record State := mkState {
  ancestorCache : gmap string (list (option string));
  warnings : list Warning
}.

Definition M (A : Type) : Type := State -> option (A * State).

#[global] Instance M_ret : MRet M := fun A x s => Some (x, s).

#[global] Instance M_bind : MBind M := fun A B f c s =>
  match c s with
  | Some (x, s') => f x s'
  | None => None
  end.

(** [warnings.push(w)] *)
Definition push (w : Warning) : M unit :=
  fun s => Some (tt, mkState (ancestorCache s) (warnings s ++ [w])).

Definition getWarnings : M (list Warning) := fun s => Some (warnings s, s).

(** [for (const x of l) { await f(x) }] *)
Fixpoint for_each {A : Type} (l : list A) (f : A -> M unit) : M unit :=
  match l with
  | [] => mret tt
  | x :: r => _ ← f x; for_each r f
  end.

(** A loop that sets a flag and leaves at the first element for which the
    awaited test holds. *)
Fixpoint some_await {A : Type} (l : list A) (f : A -> M bool) : M bool :=
  match l with
  | [] => mret false
  | x :: r => b ← f x; if (b : bool) then mret true else some_await r f
  end.

(** ** HierarchyHelper *)

Module HierarchyHelper.

Section Helper.

Variable db : Database.

(** The number of levels the recursive query may unfold. *)
Variable fuel : nat.

Definition cacheKey (termCode hierarchyCode : string) : string :=
  termCode +:+ ":" +:+ hierarchyCode.

(** The recursive query of [getAncestors]. Level 1 is the parent of the term,
    level n+1 the parents of level n; with one row per (term, hierarchy) the
    rows form a chain, listed by level. A root contributes its NULL parent
    ([None]), after which the join finds nothing. Rows differ by their level,
    so on a cycle the query never stops adding rows: no result. *)
Fixpoint ancestorsQuery (n : nat) (termCode hierarchyCode : string)
  : option (list (option string)) :=
  match n with
  | O => None
  | S n' =>
      match select_hierarchy_row db termCode hierarchyCode with
      | None => Some []
      | Some row =>
          match parent_code row with
          | None => Some [None]
          | Some p =>
              match ancestorsQuery n' p hierarchyCode with
              | Some l => Some (Some p :: l)
              | None => None
              end
          end
      end
  end.

(** [getAncestors]: the array returned is the one stored in the memo table. *)
Definition getAncestors (termCode hierarchyCode : string) : M (list (option string)) :=
  fun s =>
    let key := cacheKey termCode hierarchyCode in
    match ancestorCache s !! key with
    | Some l => Some (l, s)
    | None =>
        match ancestorsQuery fuel termCode hierarchyCode with
        | Some l => Some (l, mkState (<[key := l]> (ancestorCache s)) (warnings s))
        | None => None
        end
    end.

(** [ancestors.push(x)] on the array [getAncestors] returned for [key]: the
    entry of the memo table is that same array. *)
Definition pushToAncestors (key : string) (x : option string) : M unit :=
  fun s => Some (tt, mkState (alter (fun l => l ++ [x]) key (ancestorCache s)) (warnings s)).

(** [ancestors.includes(c)] for a string [c] *)
Definition includesCode (ancestors : list (option string)) (c : string) : bool :=
  existsb (fun a => match a with Some x => String.eqb c x | None => false end) ancestors.

Definition isChildOf (childCode parentCode hierarchyCode : string) : M bool :=
  if String.eqb childCode parentCode then mret false
  else
    ancestors ← getAncestors childCode hierarchyCode;
    mret (includesCode ancestors parentCode).

Definition isChildOfAny (childCode : string) (parentCodes : list string)
  (hierarchyCode : string) : M bool :=
  ancestors ← getAncestors childCode hierarchyCode;
  mret (existsb (fun parent => includesCode ancestors parent) parentCodes).

Definition isParentOf (parentCode childCode hierarchyCode : string) : M bool :=
  isChildOf childCode parentCode hierarchyCode.

Definition belongsToHierarchy (termCode hierarchyCode : string) : bool :=
  match select_hierarchy_row db termCode hierarchyCode with
  | Some _ => true
  | None => false
  end.

(** [getParent]: [null] without a row, else the row's [parent_code]. *)
Definition getParent (termCode hierarchyCode : string) : option string :=
  match select_hierarchy_row db termCode hierarchyCode with
  | Some row => parent_code row
  | None => None
  end.

(** [areSiblings]: the truth value of [parent1 && parent2 && parent1 === parent2]. *)
Definition areSiblings (term1Code term2Code hierarchyCode : string) : bool :=
  match getParent term1Code hierarchyCode, getParent term2Code hierarchyCode with
  | Some parent1, Some parent2 =>
      truthy parent1 && truthy parent2 && String.eqb parent1 parent2
  | _, _ => false
  end.

End Helper.

Definition isRawCommodity (t : Term) : bool := String.eqb (type t) "r".
Definition isDerivative (t : Term) : bool := String.eqb (type t) "d".
Definition isComposite (t : Term) : bool :=
  String.eqb (type t) "c" || String.eqb (type t) "s".
Definition isHierarchyTerm (t : Term) : bool :=
  match detail_level t with
  | Some l => String.eqb l "H"
  | None => false
  end.
Definition isFacetTerm (t : Term) : bool := String.eqb (term_type t) "f".
Definition isNonSpecific (t : Term) : bool := String.eqb (term_type t) "n".

(** [parseImplicitFacets]: split at [$] only, drop the empty fragments. *)
Definition parseImplicitFacets (implicitFacetsString : option string) : list string :=
  match implicitFacetsString with
  | None => []
  | Some s =>
      if negb (truthy s) then []
      else List.filter truthy (split_on is_dollar s)
  end.

(** [isConcentrateOrPowder]: the selected term object has a [name] and no
    [extended_name], so [termName] is [term.name || '']. *)
Definition isConcentrateOrPowder (t : Term) : bool :=
  let indicators := ["concentrate"; "powder"; "dried"; "dehydrated"] in
  let termName := name t in
  existsb (fun ind => includes_str (toLowerCase termName) ind) indicators.

End HierarchyHelper.

(** ** Objects keyed by numbers

    [obj[k] = obj[k] || []; obj[k].push(v)] with a number [k]: the property
    name is the decimal rendering of [k], so equal numbers name the same
    property. [Object.entries] lists the array-index names (the integers
    from 0 to 2^32 - 2) in ascending order first and the other names in
    insertion order after them. *)

Definition Qnonzero (q : Q) : bool := negb (Qeq_bool q (inject_Z 0)).

(** [q % 1 === 0] *)
Definition Qis_integer (q : Q) : bool := Qeq_bool q (inject_Z (Qfloor q)).

Fixpoint obj_push {V : Type} (k : Q) (v : V) (obj : list (Q * list V)) : list (Q * list V) :=
  match obj with
  | [] => [(k, [v])]
  | (k', vs) :: r =>
      if Qeq_bool k k' then (k', vs ++ [v]) :: r else (k', vs) :: obj_push k v r
  end.

Definition is_array_index (q : Q) : bool :=
  Qis_integer q && Z.leb 0 (Qfloor q) && Z.ltb (Qfloor q) 4294967295.

Fixpoint insert_by_key {V : Type} (e : Q * V) (l : list (Q * V)) : list (Q * V) :=
  match l with
  | [] => [e]
  | e' :: r =>
      if Z.leb (Qfloor (fst e)) (Qfloor (fst e')) then e :: l
      else e' :: insert_by_key e r
  end.

Definition sort_by_key {V : Type} (l : list (Q * V)) : list (Q * V) :=
  fold_right insert_by_key [] l.

Definition object_entries {V : Type} (obj : list (Q * V)) : list (Q * V) :=
  sort_by_key (List.filter (fun e => is_array_index (fst e)) obj) ++
  List.filter (fun e => negb (is_array_index (fst e))) obj.

(** ** BusinessRulesValidator *)

Module BusinessRulesValidator.

Import HierarchyHelper.

Record Process := mkProcess {
  p_code : string;
  p_ordinalCode : Q;
  isImplicit : bool
}.

Section Rules.

Variable db : Database.
Variable fuel : nat.
Variable warningMessages : gmap string WarningMessage.
Variable forbiddenProcesses : list ForbiddenProcess.

(** [createWarning] *)
Definition createWarning (messageId involved : string) : Warning :=
  let m := match warningMessages !! messageId with
           | Some m => m
           | None => mkWarningMessage ("Unknown warning: " +:+ messageId) "HIGH"
           end in
  mkWarning messageId (text m) (msg_severity m) "BUSINESS_RULE"
            None (Some involved) None None None.

Definition facetsOf (group : string) (facets : list string) : list string :=
  List.filter (fun f => startsWith f (group +:+ ".")) facets.

Definition checkBR01 (baseTerm : Term) (explicitFacets : list string) : M unit :=
  if negb (isRawCommodity baseTerm) then mret tt
  else
    let explicitF27 := facetsOf "F27" explicitFacets in
    if Nat.eqb (length explicitF27) 0 then mret tt
    else
      let implicitF27 :=
        map (split_dot_nth 1)
            (facetsOf "F27" (parseImplicitFacets (implicit_facets baseTerm))) in
      for_each explicitF27 (fun facet =>
        let facetCode := split_dot_nth 1 facet in
        isValidChild ← isChildOfAny db fuel facetCode
                         (implicitF27 ++ [code baseTerm]) "racsource";
        if negb isValidChild then push (createWarning "BR01" facetCode) else mret tt).

Definition checkBR03 (baseTerm : Term) (explicitFacets : list string) : M unit :=
  if isComposite baseTerm then
    if existsb (fun f => startsWith f "F01.") explicitFacets
    then push (createWarning "BR03" (code baseTerm)) else mret tt
  else mret tt.

Definition checkBR04 (baseTerm : Term) (explicitFacets : list string) : M unit :=
  if isComposite baseTerm then
    if existsb (fun f => startsWith f "F27.") explicitFacets
    then push (createWarning "BR04" (code baseTerm)) else mret tt
  else mret tt.

Definition checkBR05 (baseTerm : Term) (explicitFacets : list string) : M unit :=
  if negb (isDerivative baseTerm) then mret tt
  else
    let implicitF27 := facetsOf "F27" (parseImplicitFacets (implicit_facets baseTerm)) in
    let explicitF27 := facetsOf "F27" explicitFacets in
    for_each explicitF27 (fun explicit =>
      isMoreSpecific ← some_await implicitF27 (fun implicit =>
        isChildOf db fuel (split_dot_nth 1 explicit) (split_dot_nth 1 implicit) "racsource");
      if negb isMoreSpecific && Nat.ltb 0 (length implicitF27)
      then push (createWarning "BR05" explicit) else mret tt).

Definition checkBR06 (baseTerm : Term) (explicitFacets : list string) : M unit :=
  if negb (isDerivative baseTerm) then mret tt
  else
    let hasF01 := existsb (fun f => startsWith f "F01.") explicitFacets in
    if negb hasF01 then mret tt
    else
      let implicitF27 := facetsOf "F27" (parseImplicitFacets (implicit_facets baseTerm)) in
      let explicitF27 := facetsOf "F27" explicitFacets in
      if Nat.eqb (length implicitF27) 0 && Nat.eqb (length explicitF27) 0
      then push (createWarning "BR06" (code baseTerm)) else mret tt.

Definition checkBR07 (baseTerm : Term) (explicitFacets : list string) : M unit :=
  if negb (isDerivative baseTerm) then mret tt
  else
    let hasF01 := existsb (fun f => startsWith f "F01.") explicitFacets in
    if negb hasF01 then mret tt
    else
      let implicitF27 := facetsOf "F27" (parseImplicitFacets (implicit_facets baseTerm)) in
      let explicitF27 := facetsOf "F27" explicitFacets in
      let totalF27 := length implicitF27 + length explicitF27 in
      if Nat.ltb 1 totalF27
      then push (createWarning "BR07" (code baseTerm)) else mret tt.

Definition checkBR08 (baseTerm : Term) : M unit :=
  if dismissed baseTerm then mret tt
  else
    let hasReporting := belongsToHierarchy db (code baseTerm) "report" in
    if negb hasReporting then push (createWarning "BR08" (code baseTerm)) else mret tt.

Definition checkBR10 (baseTerm : Term) : M unit :=
  if isNonSpecific baseTerm then push (createWarning "BR10" (code baseTerm)) else mret tt.

(** The inner loop of [checkBR11]: warn and leave at the first generic
    process the code equals or descends from. *)
Fixpoint checkBR11_generics (processCode : string) (genericProcesses : list string)
  : M unit :=
  match genericProcesses with
  | [] => mret tt
  | generic :: rest =>
      hit ← (if String.eqb processCode generic then mret true
             else isChildOf db fuel processCode generic "process");
      if (hit : bool) then push (createWarning "BR11" processCode)
      else checkBR11_generics processCode rest
  end.

Definition checkBR11 (baseTerm : Term) (explicitFacets : list string) : M unit :=
  let genericProcesses := ["A07XS"] in
  for_each (facetsOf "F28" explicitFacets) (fun facet =>
    let processCode := split_dot_nth 1 facet in
    checkBR11_generics processCode genericProcesses).

Definition checkBR12 (baseTerm : Term) (explicitFacets : list string) : M unit :=
  let f04Facets := facetsOf "F04" explicitFacets in
  for_each f04Facets (fun facet =>
    if isComposite baseTerm then mret tt
    else
      let facetCode := split_dot_nth 1 facet in
      let implicitF04 := facetsOf "F04" (parseImplicitFacets (implicit_facets baseTerm)) in
      isMoreSpecific ← some_await implicitF04 (fun implicit =>
        isChildOf db fuel facetCode (split_dot_nth 1 implicit) "ingred");
      if negb isMoreSpecific && Nat.ltb 0 (length implicitF04)
      then push (createWarning "BR12" facet) else mret tt).

Definition checkBR13 (baseTerm : Term) (explicitFacets : list string) : M unit :=
  if negb (isRawCommodity baseTerm) then mret tt
  else
    let forbiddenPhysicalStates := ["A0C0D"; "A0C0E"; "A0C0F"; "A0C0G"; "A0C0H"] in
    for_each (facetsOf "F03" explicitFacets) (fun facet =>
      let stateCode := split_dot_nth 1 facet in
      if includes forbiddenPhysicalStates stateCode
      then push (createWarning "BR13" (code baseTerm)) else mret tt).

(** [checkBR14] and [checkBR15] have empty bodies. *)
Definition checkBR14 (baseTerm : Term) (explicitFacets : list string) (context : string)
  : M unit := mret tt.

Definition checkBR15 (baseTerm : Term) (explicitFacets : list string) : M unit := mret tt.

(** The inner loop of [checkBR16] over the implicit descriptors of the group. *)
Fixpoint checkBR16_implicit (facetGroup facetCode : string) (matchingImplicit : list string)
  : M unit :=
  match matchingImplicit with
  | [] => mret tt
  | implicitCode :: rest =>
      let siblings := areSiblings db facetCode implicitCode (toLowerCase facetGroup) in
      hit ← (if negb siblings
             then isParentOf db fuel facetCode implicitCode (toLowerCase facetGroup)
             else mret false);
      if (hit : bool) then push (createWarning "BR16" facetCode)
      else checkBR16_implicit facetGroup facetCode rest
  end.

Definition checkBR16 (baseTerm : Term) (explicitFacets : list string) : M unit :=
  let implicitFacets := parseImplicitFacets (implicit_facets baseTerm) in
  for_each explicitFacets (fun explicit =>
    let facetGroup := split_dot_nth 0 explicit in
    let facetCode := split_dot_nth 1 explicit in
    if negb (truthy facetGroup) || negb (truthy facetCode) then mret tt
    else
      let matchingImplicit :=
        map (split_dot_nth 1)
            (List.filter (fun f => startsWith f (facetGroup +:+ ".")) implicitFacets) in
      checkBR16_implicit facetGroup facetCode matchingImplicit).

Definition checkBR17 (baseTerm : Term) : M unit :=
  if isFacetTerm baseTerm then push (createWarning "BR17" (code baseTerm)) else mret tt.

(** The forbidden process codes recorded for each code of [ancestors]. *)
Definition forbiddenOf (ancestors : list (option string)) : list string :=
  flat_map (fun ancestorCode =>
      map forbiddenProcessCode
        (List.filter (fun fp =>
            match ancestorCode with
            | Some a => String.eqb (rootGroupCode fp) a
            | None => false
            end) forbiddenProcesses))
    ancestors.

(** [getForbiddenProcesses]: the term is pushed onto the array obtained from
    [getAncestors], which is the array of the memo table. *)
Definition getForbiddenProcesses (termCode : string) : M (list string) :=
  ancestors ← getAncestors db fuel termCode "report";
  _ ← pushToAncestors (cacheKey termCode "report") (Some termCode);
  mret (uniq (forbiddenOf (ancestors ++ [Some termCode]))).

(** The warning [checkBR19] builds for a forbidden process facet: the BR19
    warning with a message of its own and the facet attached. *)
Definition specificWarning (baseTerm : Term) (facet : string) : Warning :=
  let processCode := split_dot_nth 1 facet in
  let processName := match select_term db processCode with
                     | Some row => extended_name row
                     | None => processCode
                     end in
  let baseTermName := if truthy (name baseTerm) then name baseTerm
                      else code baseTerm in
  let w := createWarning "BR19" processCode in
  mkWarning (rule w)
    ("BR19> Process " +:+ facet +:+ " (" +:+ processName +:+
     ") creates a derivative from raw commodity " +:+ code baseTerm +:+
     " (" +:+ baseTermName +:+
     ") and is forbidden. Start from the existing derivative base term instead.")
    (severity w) (w_type w) (Some facet) (involvedTerms w)
    (termName w) (groupName w) (validGroups w).

Definition checkBR19 (baseTerm : Term) (explicitFacets : list string) : M unit :=
  if negb (isRawCommodity baseTerm) then mret tt
  else
    forbiddenForTerm ← getForbiddenProcesses (code baseTerm);
    for_each (facetsOf "F28" explicitFacets) (fun facet =>
      let processCode := split_dot_nth 1 facet in
      if includes forbiddenForTerm processCode
      then push (specificWarning baseTerm facet) else mret tt).

Definition checkBR20 (baseTerm : Term) : M unit :=
  if deprecated baseTerm then push (createWarning "BR20" (code baseTerm)) else mret tt.

Definition checkBR21 (baseTerm : Term) : M unit :=
  if dismissed baseTerm then push (createWarning "BR21" (code baseTerm)) else mret tt.

Definition checkBR22 (baseTerm : Term) : M unit :=
  ws ← getWarnings;
  let hasHighWarnings :=
    existsb (fun w => String.eqb (severity w) "HIGH" || String.eqb (severity w) "ERROR") ws in
  if negb hasHighWarnings && negb (isHierarchyTerm baseTerm)
  then push (createWarning "BR22" (code baseTerm)) else mret tt.

Definition checkBR23 (baseTerm : Term) : M unit :=
  if isHierarchyTerm baseTerm then
    let inExposure := belongsToHierarchy db (code baseTerm) "expo" in
    if inExposure then push (createWarning "BR23" (code baseTerm)) else mret tt
  else mret tt.

Definition checkBR24 (baseTerm : Term) : M unit :=
  if isHierarchyTerm baseTerm then
    let inExposure := belongsToHierarchy db (code baseTerm) "expo" in
    if negb inExposure then push (createWarning "BR24" (code baseTerm)) else mret tt
  else mret tt.

Definition checkBR25 (explicitFacets : list string) : M unit :=
  let SINGLE_CARDINALITY :=
    ["F01"; "F02"; "F03"; "F07"; "F11"; "F22"; "F24"; "F26"; "F30"; "F32"; "F34"] in
  let facetGroups := VBAValidator.countGroups explicitFacets in
  for_each facetGroups (fun e =>
    let '(group, count) := e in
    if includes SINGLE_CARDINALITY group && Nat.ltb 1 count
    then push (createWarning "BR25" group) else mret tt).

(** The loop of [getProcessOrdinalCode] over the ancestors. *)
Fixpoint ordinalAmong (ancestors : list (option string)) (processCode : string) : Q :=
  match ancestors with
  | [] => inject_Z 0
  | ancestorCode :: rest =>
      match find (fun fp =>
                    match ancestorCode with
                    | Some a => String.eqb (rootGroupCode fp) a &&
                                String.eqb (forbiddenProcessCode fp) processCode
                    | None => false
                    end) forbiddenProcesses with
      | Some fp => ordinalCode fp
      | None => ordinalAmong rest processCode
      end
  end.

Definition getProcessOrdinalCode (termCode processCode : string) : M Q :=
  ancestors ← getAncestors db fuel termCode "report";
  _ ← pushToAncestors (cacheKey termCode "report") (Some termCode);
  mret (ordinalAmong (ancestors ++ [Some termCode]) processCode).

(** One of the two loops of [getProcessesWithOrdinalCodes]. *)
Fixpoint collectProcesses (termCode : string) (facets : list string) (implicit : bool)
  (processes : list Process) : M (list Process) :=
  match facets with
  | [] => mret processes
  | facet :: rest =>
      let processCode := split_dot_nth 1 facet in
      ordinal ← getProcessOrdinalCode termCode processCode;
      collectProcesses termCode rest implicit
        (processes ++ [mkProcess processCode ordinal implicit])
  end.

Definition getProcessesWithOrdinalCodes (baseTerm : Term) (explicitFacets : list string)
  : M (list Process) :=
  let implicitFacets := parseImplicitFacets (implicit_facets baseTerm) in
  processes ← collectProcesses (code baseTerm) (facetsOf "F28" implicitFacets) true [];
  collectProcesses (code baseTerm) (facetsOf "F28" explicitFacets) false processes.

(** The object [ordinalGroups] of [checkBR26]. *)
Definition ordinalGroupsOf (processes : list Process) : list (Q * list string) :=
  fold_left (fun groups proc =>
      if Qnonzero (p_ordinalCode proc)
      then obj_push (p_ordinalCode proc) (p_code proc) groups
      else groups)
    processes [].

Definition checkBR26 (baseTerm : Term) (explicitFacets : list string) : M unit :=
  if negb (isDerivative baseTerm) then mret tt
  else
    processes ← getProcessesWithOrdinalCodes baseTerm explicitFacets;
    let ordinalGroups := ordinalGroupsOf processes in
    for_each (object_entries ordinalGroups) (fun e =>
      let codes := snd e in
      if Nat.ltb 1 (length codes)
      then push (createWarning "BR26" (join " - " codes)) else mret tt).

(** The object [integerGroups] of [checkBR27]. *)
Definition integerGroupsOf (decimalProcesses : list Process) : list (Q * list Process) :=
  fold_left (fun groups proc =>
      obj_push (inject_Z (Qfloor (p_ordinalCode proc))) proc groups)
    decimalProcesses [].

Definition checkBR27 (baseTerm : Term) (explicitFacets : list string) : M unit :=
  if negb (isDerivative baseTerm) then mret tt
  else
    processes ← getProcessesWithOrdinalCodes baseTerm explicitFacets;
    let decimalProcesses :=
      List.filter (fun p => negb (Qis_integer (p_ordinalCode p))) processes in
    let integerGroups := integerGroupsOf decimalProcesses in
    for_each (object_entries integerGroups) (fun e =>
      let procs := snd e in
      let hasImplicit := existsb isImplicit procs in
      let hasExplicit := existsb (fun p => negb (isImplicit p)) procs in
      let explicitProcs := List.filter (fun p => negb (isImplicit p)) procs in
      if (hasImplicit && hasExplicit && Nat.ltb 1 (length procs)) ||
         (negb hasImplicit && Nat.ltb 1 (length explicitProcs))
      then push (createWarning "BR27" (join " - " (map p_code explicitProcs)))
      else mret tt).

Definition checkBR28 (baseTerm : Term) (explicitFacets : list string) : M unit :=
  if negb (isConcentrateOrPowder baseTerm) then mret tt
  else
    let reconstitutionProcesses := ["A07MR"; "A07MQ"] in
    for_each (facetsOf "F28" explicitFacets) (fun facet =>
      let processCode := split_dot_nth 1 facet in
      if includes reconstitutionProcesses processCode
      then push (createWarning "BR28" processCode) else mret tt).

(** The sequence of rules of [validateBusinessRules], run on the state. *)
Definition runRules (baseTerm : Term) (explicitFacets : list string) (context : string)
  : M unit :=
  _ ← checkBR01 baseTerm explicitFacets;
  _ ← checkBR03 baseTerm explicitFacets;
  _ ← checkBR04 baseTerm explicitFacets;
  _ ← checkBR05 baseTerm explicitFacets;
  _ ← checkBR06 baseTerm explicitFacets;
  _ ← checkBR07 baseTerm explicitFacets;
  _ ← checkBR08 baseTerm;
  _ ← checkBR10 baseTerm;
  _ ← checkBR11 baseTerm explicitFacets;
  _ ← checkBR12 baseTerm explicitFacets;
  _ ← checkBR13 baseTerm explicitFacets;
  _ ← (if String.eqb context "ICT" || String.eqb context "DCF"
       then checkBR14 baseTerm explicitFacets context else mret tt);
  _ ← (if String.eqb context "DCF" then checkBR15 baseTerm explicitFacets else mret tt);
  _ ← checkBR16 baseTerm explicitFacets;
  _ ← checkBR17 baseTerm;
  _ ← checkBR19 baseTerm explicitFacets;
  _ ← checkBR20 baseTerm;
  _ ← checkBR21 baseTerm;
  _ ← checkBR22 baseTerm;
  _ ← checkBR23 baseTerm;
  _ ← checkBR24 baseTerm;
  _ ← checkBR25 explicitFacets;
  _ ← checkBR26 baseTerm explicitFacets;
  _ ← checkBR27 baseTerm explicitFacets;
  checkBR28 baseTerm explicitFacets.

(** [validateBusinessRules]: a fresh [warnings] array, the rules in order; the
    result is the array and the memo table the helper is left with. *)
Definition validateBusinessRules (baseTerm : Term) (explicitFacets : list string)
  (context : string) (cache : gmap string (list (option string)))
  : option (list Warning * gmap string (list (option string))) :=
  match runRules baseTerm explicitFacets context (mkState cache []) with
  | Some (_, s) => Some (warnings s, ancestorCache s)
  | None => None
  end.

End Rules.

End BusinessRulesValidator.

(** ** SoftRulesValidator *)

Module SoftRulesValidator.

Import HierarchyHelper.

(** [initializeSoftRuleMessages] *)
Definition softRuleMessages : list (string * WarningMessage) :=
  [("SR1", mkWarningMessage "Info: When using a generic base term, consider adding facet F26.A07XE to indicate that the detailed term was missing" "NONE");
   ("SR2", mkWarningMessage "Info: Consider providing detailed description in free text field when using generic terms or multiple refinement facets" "NONE");
   ("SR3", mkWarningMessage "Info: F04 (Ingredient) detected on raw/derivative - ensure ingredient is in small, negligible amount (minor ingredient approach)" "NONE");
   ("SR4", mkWarningMessage "Info: Mixed raw commodities should use F27 (Source-commodities) instead of F01 (Source)" "NONE");
   ("SR5", mkWarningMessage "Info: Consider reporting both process (F28) and new physical state (F03) for mechanical processes that change physical state" "NONE");
   ("SR6", mkWarningMessage "Info: F33 (Legislative-classes) or F03 (Physical-state) may be required for additives/flavourings domain" "NONE");
   ("SR7", mkWarningMessage "Info: F01 (Source) facet is recommended for VMPR derivatives" "NONE");
   ("SR8", mkWarningMessage "Info: F17 (Extent-of-cooking) is recommended for high-temperature processed foods (acrylamide/furans monitoring)" "NONE")].

(** [createSoftWarning]: the severity is the constant NONE, whatever the
    table says. *)
Definition createSoftWarning (ruleId involved : string) : Warning :=
  let m := match assoc ruleId softRuleMessages with
           | Some m => m
           | None => mkWarningMessage ("Unknown soft rule: " +:+ ruleId) "NONE"
           end in
  mkWarning ruleId (text m) "NONE" "INFO" None (Some involved) None None None.

(** The four helpers on the name of the term. The selected term object has
    a [name] and neither [extended_name] nor [short_name], so [termName] is
    [baseTerm.name || '']. *)
Definition isGenericTerm (baseTerm : Term) : bool :=
  let termName := name baseTerm in
  let genericPatterns :=
    ["other"; "unspecified"; "not otherwise"; "n.o.s"; "generic";
     "miscellaneous"; "various"; "mixed"; "assorted"] in
  existsb (fun pattern => includes_str (toLowerCase termName) pattern) genericPatterns.

Definition isAdditivesMatrix (baseTerm : Term) : bool :=
  let termName := name baseTerm in
  let additivesPatterns :=
    ["beverage"; "sauce"; "confection"; "candy"; "sweet"; "flavour"] in
  existsb (fun pattern => includes_str (toLowerCase termName) pattern) additivesPatterns.

Definition isVMPRDerivative (baseTerm : Term) : bool :=
  let termName := name baseTerm in
  let vmprPatterns :=
    ["milk powder"; "dried milk"; "cheese"; "yogurt"; "butter";
     "egg powder"; "dried egg"; "egg white"; "egg yolk"] in
  existsb (fun pattern => includes_str (toLowerCase termName) pattern) vmprPatterns.

Definition isHighTempProcessedFood (baseTerm : Term) : bool :=
  let termName := name baseTerm in
  let highTempPatterns :=
    ["baked"; "fried"; "roasted"; "toasted"; "grilled";
     "bakery"; "bread"; "biscuit"; "cookie"; "cracker";
     "potato chip"; "french fr"; "crisp"; "coffee"] in
  existsb (fun pattern => includes_str (toLowerCase termName) pattern) highTempPatterns.

(** Each rule takes the [warnings] array and gives it back, with its
    warning pushed or not. *)
Definition checkSR1 (baseTerm : Term) (explicitFacets : list string)
  (warnings : list Warning) : list Warning :=
  if isGenericTerm baseTerm then
    let hasF26Flag := existsb (fun f => String.eqb f "F26.A07XE") explicitFacets in
    if negb hasF26Flag
    then warnings ++ [createSoftWarning "SR1" (code baseTerm)] else warnings
  else warnings.

Definition checkSR2 (baseTerm : Term) (explicitFacets : list string) (textInfo : string)
  (warnings : list Warning) : list Warning :=
  let isGeneric := isGenericTerm baseTerm in
  let refinementFacets :=
    List.filter (fun f => startsWith f "F27." || startsWith f "F04.") explicitFacets in
  let needsTextInfo := isGeneric || Nat.ltb 1 (length refinementFacets) in
  if needsTextInfo && (negb (truthy textInfo) || String.eqb (trim textInfo) "")
  then warnings ++ [createSoftWarning "SR2" (code baseTerm)] else warnings.

Definition checkSR3 (baseTerm : Term) (explicitFacets : list string)
  (warnings : list Warning) : list Warning :=
  let isRawOrDerivative := isRawCommodity baseTerm || isDerivative baseTerm in
  if isRawOrDerivative then
    let hasF04 := existsb (fun f => startsWith f "F04.") explicitFacets in
    if hasF04 then warnings ++ [createSoftWarning "SR3" (code baseTerm)] else warnings
  else warnings.

Definition checkSR4 (baseTerm : Term) (explicitFacets : list string)
  (warnings : list Warning) : list Warning :=
  if negb (isRawCommodity baseTerm) then warnings
  else
    let hasF01 := existsb (fun f => startsWith f "F01.") explicitFacets in
    let multipleF01 :=
      Nat.ltb 1 (length (List.filter (fun f => startsWith f "F01.") explicitFacets)) in
    if hasF01 && multipleF01
    then warnings ++ [createSoftWarning "SR4" (code baseTerm)] else warnings.

(** The loop of [checkSR5]: it leaves at the first mechanical process. *)
Fixpoint checkSR5_loop (mechanicalProcesses hasF28 : list string) (hasF03 : bool)
  (warnings : list Warning) : list Warning :=
  match hasF28 with
  | [] => warnings
  | facet :: rest =>
      let processCode := split_dot_nth 1 facet in
      if includes mechanicalProcesses processCode && negb hasF03
      then warnings ++ [createSoftWarning "SR5" processCode]
      else checkSR5_loop mechanicalProcesses rest hasF03 warnings
  end.

Definition checkSR5 (baseTerm : Term) (explicitFacets : list string)
  (warnings : list Warning) : list Warning :=
  let mechanicalProcesses := ["A0CRK"; "A07KY"; "A0BYT"; "A0C0N"; "A0DQP"] in
  let hasF28 := List.filter (fun f => startsWith f "F28.") explicitFacets in
  let hasF03 := existsb (fun f => startsWith f "F03.") explicitFacets in
  checkSR5_loop mechanicalProcesses hasF28 hasF03 warnings.

Definition checkSR6 (baseTerm : Term) (explicitFacets : list string)
  (warnings : list Warning) : list Warning :=
  let additivesMatrices := isAdditivesMatrix baseTerm in
  if additivesMatrices then
    let hasF33 := existsb (fun f => startsWith f "F33.") explicitFacets in
    let hasF03 := existsb (fun f => startsWith f "F03.") explicitFacets in
    let implicitFacets := parseImplicitFacets (implicit_facets baseTerm) in
    let hasImplicitF03 := existsb (fun f => startsWith f "F03.") implicitFacets in
    if negb hasF33 && negb hasF03 && negb hasImplicitF03
    then warnings ++ [createSoftWarning "SR6" (code baseTerm)] else warnings
  else warnings.

Definition checkSR7 (baseTerm : Term) (explicitFacets : list string)
  (warnings : list Warning) : list Warning :=
  if negb (isDerivative baseTerm) then warnings
  else
    if isVMPRDerivative baseTerm then
      let hasF01 := existsb (fun f => startsWith f "F01.") explicitFacets in
      let implicitFacets := parseImplicitFacets (implicit_facets baseTerm) in
      let hasImplicitF01 := existsb (fun f => startsWith f "F01.") implicitFacets in
      if negb hasF01 && negb hasImplicitF01
      then warnings ++ [createSoftWarning "SR7" (code baseTerm)] else warnings
    else warnings.

Definition checkSR8 (baseTerm : Term) (explicitFacets : list string)
  (warnings : list Warning) : list Warning :=
  let highTempMatrices := isHighTempProcessedFood baseTerm in
  if highTempMatrices then
    let hasF17 := existsb (fun f => startsWith f "F17.") explicitFacets in
    if negb hasF17
    then warnings ++ [createSoftWarning "SR8" (code baseTerm)] else warnings
  else warnings.

(** [validateSoftRules]: a fresh array, the eight rules in order. *)
Definition validateSoftRules (baseTerm : Term) (explicitFacets : list string)
  (context textInfo : string) : list Warning :=
  let warnings := [] in
  let warnings := checkSR1 baseTerm explicitFacets warnings in
  let warnings := checkSR2 baseTerm explicitFacets textInfo warnings in
  let warnings := checkSR3 baseTerm explicitFacets warnings in
  let warnings := checkSR4 baseTerm explicitFacets warnings in
  let warnings := checkSR5 baseTerm explicitFacets warnings in
  let warnings := checkSR6 baseTerm explicitFacets warnings in
  let warnings := checkSR7 baseTerm explicitFacets warnings in
  checkSR8 baseTerm explicitFacets warnings.

End SoftRulesValidator.

(** ** Numbers as JavaScript prints them

    A Number is a binary64 floating-point number; [Number.prototype.toFixed]
    prints the decimal fraction nearest to its exact value. *)

Definition double : Type := SpecFloat.spec_float.

(** The Number that holds a non-negative integer. *)
Definition double_of_nat (n : nat) : double :=
  SpecFloat.binary_normalize 53 1024 (Z.of_nat n) 0 false.

Definition double_div (x y : double) : double := SpecFloat.SFdiv 53 1024 x y.
Definition double_mul (x y : double) : double := SpecFloat.SFmul 53 1024 x y.

(** The decimal digits of a natural number. *)
Definition digits_of_N (n : N) : string := NilZero.string_of_uint (N.to_uint n).

(** [x.toFixed(2)] for a Number [x] with [|x| < 10^21]: with [n] the integer
    nearest to [100 x] (the larger one of two), the digits of [n], filled
    with zeros on the left to three places, and a point before the last
    two. *)
Definition toFixed2 (x : double) : string :=
  match x with
  | SpecFloat.S754_nan => "NaN"
  | SpecFloat.S754_infinity s => if s then "-Infinity" else "Infinity"
  | SpecFloat.S754_zero _ => "0.00"
  | SpecFloat.S754_finite s m e =>
      let v := (inject_Z (Z.pos m) * Qpower (inject_Z 2) e)%Q in
      let n := Z.to_N (Qfloor (v * inject_Z 100 + (1 # 2))%Q) in
      let m := digits_of_N n in
      let m := if Nat.leb (String.length m) 2
               then String.substring 0 (3 - String.length m) "000" +:+ m else m in
      let k := String.length m in
      (if s then "-" else "") +:+
      String.substring 0 (k - 2) m +:+ "." +:+ String.substring (k - 2) 2 m
  end.

(** ** FoodEx2Validator *)

Module FoodEx2Validator.

(** The options of a validator; an absent flag counts as [false]. *)
Record Options := mkOptions {
  context : string;
  skipBusinessRules : bool;
  skipVBAValidation : bool;
  skipSoftRules : bool;
  stopOnStructuralError : bool;
  allowHighWarnings : bool
}.

Record Color := mkColor {
  rgb : string;
  description : string
}.

(** [getDefaultWarningColors] *)
Definition getDefaultWarningColors : list (string * Color) :=
  [("NONE", mkColor "255,255,255" "White - No warning");
   ("LOW", mkColor "255,255,0" "Yellow - Low severity");
   ("HIGH", mkColor "255,165,0" "Orange - High severity");
   ("ERROR", mkColor "255,0,0" "Red - Error")].

Record WarningCounts := mkWarningCounts {
  error : nat;
  high : nat;
  low : nat;
  info : nat;
  total : nat
}.

(** [parseFullCode]: [(baseTermCode, facetString)] *)
Definition parseFullCode (fullCode : string) : string * string :=
  if negb (truthy fullCode) || Nat.ltb (String.length fullCode) 5 then (fullCode, "")
  else (String.substring 0 5 fullCode,
        String.substring 5 (String.length fullCode - 5) fullCode).

Definition isSeverity (sev : string) (w : Warning) : bool :=
  String.eqb (severity w) sev.

Definition getOverallSeverity (ws : list Warning) : string :=
  if existsb (isSeverity "ERROR") ws then "ERROR"
  else if existsb (isSeverity "HIGH") ws then "HIGH"
  else if existsb (isSeverity "LOW") ws then "LOW"
  else "NONE".

Definition getWarningCounts (ws : list Warning) : WarningCounts :=
  mkWarningCounts
    (length (List.filter (isSeverity "ERROR") ws))
    (length (List.filter (isSeverity "HIGH") ws))
    (length (List.filter (isSeverity "LOW") ws))
    (length (List.filter (isSeverity "NONE") ws))
    (length ws).

(** The bucket [categorizeWarnings] puts a warning in: 0 hard, 1 soft, 2 info. *)
Definition bucketOf (w : Warning) : nat :=
  let sev := toUpperCase (severity w) in
  if String.eqb sev "ERROR" || String.eqb sev "HIGH" then 0
  else if String.eqb sev "LOW" then 1
  else if String.eqb sev "NONE" then 2
  else 1.

Definition categorizeWarnings (ws : list Warning)
  : list Warning * list Warning * list Warning :=
  (List.filter (fun w => Nat.eqb (bucketOf w) 0) ws,
   List.filter (fun w => Nat.eqb (bucketOf w) 1) ws,
   List.filter (fun w => Nat.eqb (bucketOf w) 2) ws).

Record Result := mkResult {
  valid : bool;
  originalCode : string;
  cleanedCode : option string;
  baseTerm : option Term;
  facets : list string;
  interpretedDescription : option string;
  warnings : list Warning;
  hardWarnings : list Warning;
  softWarnings : list Warning;
  infoWarnings : list Warning;
  severity : string;
  warningCounts : WarningCounts;
  semaphoreColor : option Color
}.

Definition groupNames : list (string * string) :=
  [("F01", "Source"); ("F02", "Part consumed/analysed"); ("F03", "Physical state");
   ("F04", "Ingredient"); ("F27", "Source-commodities"); ("F28", "Process")].

Definition getFacetGroupName (groupId : string) : string :=
  match assoc groupId groupNames with
  | Some n => n
  | None => groupId
  end.

Section Validator.

Variable db : Database.
Variable fuel : nat.
Variable warningMessages : gmap string WarningMessage.
Variable forbiddenProcesses : list ForbiddenProcess.
Variable warningColors : list (string * Color).

(** [SoftRulesValidator.validateSoftRules baseTerm facets context textInfo]: it
    reads its arguments only and returns its own fresh array of warnings. *)
Variable validateSoftRules : Term -> list string -> string -> string -> list Warning.

Variable options : Options.

Definition getSemaphoreColor (sev : string) : option Color :=
  match assoc sev warningColors with
  | Some c => Some c
  | None => assoc "NONE" warningColors
  end.

(** [getInterpretedDescription] for a present base term; [None] is
    [undefined], which [+=] renders as the text "undefined". *)
Definition getInterpretedDescription (baseTerm : Term) (facets : list string)
  : option string :=
  fold_left (fun (description : option string) facet =>
      let groupId := split_dot_nth 0 facet in
      let descriptorCode := split_dot_nth 1 facet in
      let gName := getFacetGroupName groupId in
      match select_term db descriptorCode with
      | Some descriptor =>
          if truthy gName then
            Some (default "undefined" description +:+ ", " +:+ gName +:+ " = " +:+
                  extended_name descriptor)
          else description
      | None => description
      end)
    facets
    (if truthy (name baseTerm) then Some (name baseTerm) else None).

(** [runVBAValidation]. With [skipVBAValidation] the method selects from
    [terms] by a column [code], which the table does not have: the query is
    rejected and there is no result. *)
Definition runVBAValidation (baseTermCode facetString : string)
  : option VBAValidator.Result :=
  if skipVBAValidation options then None
  else Some (VBAValidator.validateFoodEx2Code db baseTermCode facetString).

Definition runBusinessRulesValidation (baseTerm : option Term) (facets : list string)
  (cache : gmap string (list (option string)))
  : option (list Warning * gmap string (list (option string))) :=
  match baseTerm with
  | Some t =>
      if skipBusinessRules options then Some ([], cache)
      else BusinessRulesValidator.validateBusinessRules db fuel warningMessages
             forbiddenProcesses t facets (context options) cache
  | None => Some ([], cache)
  end.

Definition runSoftRulesValidation (baseTerm : option Term) (facets : list string)
  : list Warning :=
  match baseTerm with
  | Some t =>
      if skipSoftRules options then []
      else validateSoftRules t facets (context options) ""
  | None => []
  end.

(** [formatResult]; an absent [brResult] or [srResult] is [None]. *)
Definition formatResult (vbaResult : VBAValidator.Result)
  (brResult srResult : option (list Warning)) : Result :=
  let allWarnings :=
    VBAValidator.warnings vbaResult ++ default [] brResult ++ default [] srResult in
  let '(hard, soft, inf) := categorizeWarnings allWarnings in
  let overallSeverity := getOverallSeverity allWarnings in
  let hasBlockingIssues :=
    existsb (fun w => isSeverity "ERROR" w || isSeverity "HIGH" w) allWarnings in
  let isValid := negb hasBlockingIssues in
  let cleanedFacets := default [] (VBAValidator.cleanedFacets vbaResult) in
  let interpreted :=
    match VBAValidator.baseTerm vbaResult with
    | Some t => getInterpretedDescription t cleanedFacets
    | None => None
    end in
  mkResult isValid
    (VBAValidator.originalCode vbaResult)
    (VBAValidator.cleanedCode vbaResult)
    (VBAValidator.baseTerm vbaResult)
    cleanedFacets interpreted allWarnings hard soft inf overallSeverity
    (getWarningCounts allWarnings)
    (getSemaphoreColor overallSeverity).

(** [validateCode] on a validator whose helper holds the memo table [cache]:
    the result and the memo table afterwards. *)
Definition validateCode (fullCode : string) (cache : gmap string (list (option string)))
  : option (Result * gmap string (list (option string))) :=
  let '(baseTermCode, facetString) := parseFullCode fullCode in
  match runVBAValidation baseTermCode facetString with
  | None => None
  | Some vbaResult =>
      if negb (VBAValidator.valid vbaResult) && stopOnStructuralError options then
        Some (formatResult vbaResult None None, cache)
      else
        let facets := default [] (VBAValidator.cleanedFacets vbaResult) in
        match runBusinessRulesValidation (VBAValidator.baseTerm vbaResult) facets cache with
        | None => None
        | Some (brWarnings, cache') =>
            let srWarnings :=
              runSoftRulesValidation (VBAValidator.baseTerm vbaResult) facets in
            Some (formatResult vbaResult (Some brWarnings) (Some srWarnings), cache')
        end
  end.

(** The validity test of the revision of [formatResult] that consults
    [allowHighWarnings]:
    [!hasErrors && (!hasHighWarnings || !!this.options.allowHighWarnings)]. *)
Definition isValid_allowHigh (allWarnings : list Warning) : bool :=
  let hasErrors := existsb (isSeverity "ERROR") allWarnings in
  let hasHighWarnings := existsb (isSeverity "HIGH") allWarnings in
  negb hasErrors && (negb hasHighWarnings || allowHighWarnings options).

(** [validateBatch]: the codes are validated in order on the one memo
    table; [results] collects [{ code, ...result }], and a progress callback,
    when there is one, is called with [(i + 1, total)] after each code
    ([progress] records its calls). *)
Fixpoint validateBatch_loop (codes : list string) (i total : nat) (progressCallback : bool)
  (results : list (string * Result)) (progress : list (nat * nat))
  (cache : gmap string (list (option string)))
  : option (list (string * Result) * list (nat * nat) * gmap string (list (option string))) :=
  match codes with
  | [] => Some (results, progress, cache)
  | c :: rest =>
      match validateCode c cache with
      | None => None
      | Some (result, cache') =>
          validateBatch_loop rest (S i) total progressCallback
            (results ++ [(c, result)])
            (if progressCallback then progress ++ [(i + 1, total)] else progress)
            cache'
      end
  end.

Definition validateBatch (codes : list string) (progressCallback : bool)
  (cache : gmap string (list (option string)))
  : option (list (string * Result) * list (nat * nat) * gmap string (list (option string))) :=
  validateBatch_loop codes 0 (length codes) progressCallback [] [] cache.

End Validator.

Record ValidationStats := mkValidationStats {
  stats_total : nat;
  stats_valid : nat;
  stats_invalid : nat;
  stats_errors : nat;
  stats_highWarnings : nat;
  stats_lowWarnings : nat;
  stats_softWarnings : nat;
  stats_infoMessages : nat;
  stats_successRate : string
}.

(** [getValidationStats] on the results of a batch. *)
Definition getValidationStats (results : list (string * Result)) : ValidationStats :=
  let total := length results in
  let nvalid := length (List.filter (fun r => valid (snd r)) results) in
  let errors :=
    length (List.filter (fun r => String.eqb (severity (snd r)) "ERROR") results) in
  let highWarnings :=
    length (List.filter (fun r => String.eqb (severity (snd r)) "HIGH") results) in
  let lowWarnings :=
    length (List.filter (fun r => String.eqb (severity (snd r)) "LOW") results) in
  let nsoft :=
    fold_left (fun total result => total + length (softWarnings (snd result))) results 0 in
  let infoMessages :=
    fold_left (fun total result => total + length (infoWarnings (snd result))) results 0 in
  mkValidationStats total nvalid (total - nvalid) errors highWarnings lowWarnings
    nsoft infoMessages
    (toFixed2 (double_mul (double_div (double_of_nat nvalid) (double_of_nat total))
                          (double_of_nat 100)) +:+ "%").

(** [cleanRuleText]: the text after the first ["> "], or the text itself
    when it has none. *)
Definition cleanRuleText (rawText : string) : string :=
  if negb (truthy rawText) then ""
  else
    let parts := split_two ">" " " rawText in
    if Nat.ltb 1 (length parts) then join "> " (tl parts) else rawText.


End FoodEx2Validator.

(** ** FoodEx2Service *)

Module FoodEx2Service.

Import FoodEx2Validator.

(** The [options] argument of [validateCode]; [None] is an absent property. *)
Record ServiceOptions := mkServiceOptions {
  o_context : option string;
  o_stopOnStructuralError : option bool;
  o_allowHighWarnings : option bool
}.

(** [validateCode(code)] is called with [options = {}]. *)
Definition noOptions : ServiceOptions := mkServiceOptions None None None.

(** The options of the validator [initialize] creates:
    [{ context: 'ICT', dataPath: ... }]. *)
Definition defaultOptions : Options :=
  mkOptions "ICT" false false false false false.

(** [validatorOptions] as the validator built from them holds them. *)
Definition validatorOptions (o : ServiceOptions) : Options :=
  mkOptions
    (match o_context o with
     | Some c => if truthy c then c else "ICT"
     | None => "ICT"
     end)
    false false false
    (match o_stopOnStructuralError o with
     | Some false => false
     | _ => true
     end)
    (match o_allowHighWarnings o with
     | Some true => true
     | _ => false
     end).

Section Service.

Variable db : Database.
Variable fuel : nat.
Variable warningMessages : gmap string WarningMessage.
Variable forbiddenProcesses : list ForbiddenProcess.
Variable warningColors : list (string * Color).
Variable validateSoftRules : Term -> list string -> string -> string -> list Warning.

(** [validateCode(code, options)]: a context other than ICT gets a validator
    of its own, built from [validatorOptions] and with an empty memo table;
    otherwise the call goes to [this.validator], whose memo table is [cache]. *)
Definition validateCode (fullCode : string) (o : ServiceOptions)
  (cache : gmap string (list (option string)))
  : option (Result * gmap string (list (option string))) :=
  let fresh :=
    match o_context o with
    | Some c => truthy c && negb (String.eqb c "ICT")
    | None => false
    end in
  if fresh then
    match FoodEx2Validator.validateCode db fuel warningMessages forbiddenProcesses
            warningColors validateSoftRules (validatorOptions o) fullCode ∅ with
    | Some (r, _) => Some (r, cache)
    | None => None
    end
  else
    FoodEx2Validator.validateCode db fuel warningMessages forbiddenProcesses
      warningColors validateSoftRules defaultOptions fullCode cache.

(** [validateBatch(codes, options)]: the batch always goes to
    [this.validator]; of the options only [onProgress] is read. *)
Definition validateBatch (codes : list string) (onProgress : bool)
  (cache : gmap string (list (option string)))
  : option (list (string * Result) * list (nat * nat) * gmap string (list (option string))) :=
  FoodEx2Validator.validateBatch db fuel warningMessages forbiddenProcesses
    warningColors validateSoftRules defaultOptions codes onProgress cache.

End Service.

End FoodEx2Service.

(** ** DataLoader: the colour file *)

Definition is_newline (c : ascii) : bool := Ascii.eqb c "010".
Definition is_semicolon (c : ascii) : bool := Ascii.eqb c ";".
Definition is_comma (c : ascii) : bool := Ascii.eqb c ",".

(** [obj[k] = v] on an object with string keys: the value of an existing
    property is replaced in place, a new property comes last. *)
Fixpoint obj_set {V : Type} (k : string) (v : V) (obj : list (string * V))
  : list (string * V) :=
  match obj with
  | [] => [(k, v)]
  | (k', v') :: r =>
      if String.eqb k k' then (k', v) :: r else (k', v') :: obj_set k v r
  end.

(** The body of the [forEach] of [loadWarningColors] for one line. *)
Definition parseColorLine (colors : list (string * FoodEx2Validator.Color)) (line : string)
  : list (string * FoodEx2Validator.Color) :=
  let parts := split_on is_semicolon line in
  let severity := nth 0 parts "" in
  match nth_error parts 1 with
  | Some colorInfo =>
      if truthy severity && truthy colorInfo then
        let cparts := split_on is_comma colorInfo in
        let rgb := nth 0 cparts "" in
        let description :=
          match nth_error cparts 1 with
          | Some d => if truthy d then trim d else ""
          | None => ""
          end in
        obj_set (trim severity) (FoodEx2Validator.mkColor (trim rgb) description) colors
      else colors
  | None => colors
  end.

(** [loadWarningColors] on the content of warningColors.txt; [None] is a
    file that cannot be read, for which the default colours are returned. *)
Definition loadWarningColors (fileContent : option string)
  : list (string * FoodEx2Validator.Color) :=
  match fileContent with
  | None => FoodEx2Validator.getDefaultWarningColors
  | Some content =>
      let lines := List.filter (fun line => truthy (trim line)) (split_on is_newline content) in
      fold_left parseColorLine lines []
  end.

(** * Vocabulary of the properties *)

(** ** Shapes of codes and facets *)

(** No code unit of [s] satisfies [p]. *)
Definition clean (p : ascii -> bool) (s : string) : bool :=
  string_forall (fun c => negb (p c)) s.

(** [^[A-Z0-9]{5}$] *)
Definition CodeShape (s : string) : Prop :=
  String.length s = 5 /\ string_forall is_upper_alnum s = true.

(** [^F\d{2}$] *)
Definition GroupShape (s : string) : Prop :=
  exists d1 d2, s = String "F" (String d1 (String d2 EmptyString)) /\
                is_digit d1 = true /\ is_digit d2 = true.

(** The number of dots in [s]. *)
Fixpoint count_dots (s : string) : nat :=
  match s with
  | EmptyString => 0
  | String c s' => (if is_dot c then 1 else 0) + count_dots s'
  end.

(** Exactly one dot, a group on its left and a code on its right. *)
Definition FacetShape (f : string) : Prop :=
  count_dots f = 1 /\
  exists l r, f = l +:+ "." +:+ r /\ GroupShape l /\ CodeShape r.

(** The warnings [checkCorrectFacet] pushes for a list of fragments. *)
Definition formatWarnings (facets : list string) : list Warning :=
  omap VBAValidator.facetFormatWarning facets.

(** The loop of [checkCorrectFacet] leaves [isValid] alone at [f]. *)
Definition facetAccepted (f : string) : bool :=
  match VBAValidator.facetFormatWarning f with
  | Some _ => false
  | None => true
  end.

(** The rules of the warnings the structural validator pushes once the base
    term has the right shape. *)
Definition laterRules : list string :=
  ["VBA-NOTFOUND"; "VBA-FORMAT"; "VBA-GROUP"; "VBA-DESCRIPTOR"; "VBA-IMPLICIT";
   "VBA-FACET404"; "VBA-CATEGORY"; "VBA-CARDINALITY"; "VBA-DUPLICATE"].

Definition laterRule (w : Warning) : Prop := In (rule w) laterRules.

(** ** Serialization and parsing *)

(** The canonical text of an expression: [baseTermCode + buildFacetString(facets)]. *)
Definition serialize (e : string * list string) : string :=
  fst e +:+ VBAValidator.buildFacetString (snd e).

(** Parsing as [validateCode] does it: [parseFullCode], then [parseFacetString]
    on the facet string. *)
Definition parse (s : string) : string * list string :=
  let '(baseTermCode, facetString) := FoodEx2Validator.parseFullCode s in
  (baseTermCode, VBAValidator.parseFacetString facetString).

(** The text [buildFacetString] puts after the first facet. *)
Fixpoint dollarTail (facets : list string) : string :=
  match facets with
  | [] => ""
  | f :: r => "$" +:+ f +:+ dollarTail r
  end.

(** A non-empty piece of an [implicit_facets] string without a [$]. *)
Definition fragmentOk (f : string) : Prop := f <> "" /\ clean is_dollar f = true.

(** ** Hierarchies and the memo table *)

Section Hierarchy.

Variable db : Database.

(** [p] is the parent of [t] in hierarchy [h]. *)
Definition ParentIn (h t p : string) : Prop :=
  exists row, select_hierarchy_row db t h = Some row /\ parent_code row = Some p.

(** [a] is an ancestor of [t] in hierarchy [h]: the transitive closure of the
    parent relation. *)
Inductive Ancestor (h : string) : string -> string -> Prop :=
| Ancestor_parent a t : ParentIn h t a -> Ancestor h a t
| Ancestor_step a p t : ParentIn h t p -> Ancestor h a p -> Ancestor h a t.

(** The rows the recursive query of [getAncestors] returns when it stops. *)
Inductive Chain (h : string) : string -> list (option string) -> Prop :=
| Chain_absent t : select_hierarchy_row db t h = None -> Chain h t []
| Chain_root t row :
    select_hierarchy_row db t h = Some row -> parent_code row = None ->
    Chain h t [None]
| Chain_parent t row p l :
    select_hierarchy_row db t h = Some row -> parent_code row = Some p ->
    Chain h p l -> Chain h t (Some p :: l).

Definition is_colon (c : ascii) : bool := Ascii.eqb c ":".

(** A term code without a colon: the cache key [code:hierarchy] of such a
    code determines the code and the hierarchy. *)
Definition noColon (s : string) : Prop := clean is_colon s = true.

(** What the memo table may hold for [(t, h)]: the chain of [t], followed by
    the copies of [t] that callers have pushed onto the shared array. *)
Definition CachedFor (t h : string) (l : list (option string)) : Prop :=
  exists l0 n, Chain h t l0 /\ l = l0 ++ repeat (Some t) n.

(** A memo table as [getAncestors] and the pushes of its callers leave it. *)
Definition CacheOk (c : gmap string (list (option string))) : Prop :=
  forall t h l, noColon t -> c !! HierarchyHelper.cacheKey t h = Some l -> CachedFor t h l.

End Hierarchy.

(** ** Forbidden processes and ordinal codes *)

(** [forbidden_processes_for]: the processes recorded for the term itself or
    for one of its ancestors in the reporting hierarchy. *)
Definition ForbiddenFor (db : Database) (fps : list ForbiddenProcess) (t p : string) : Prop :=
  exists fp, In fp fps /\ forbiddenProcessCode fp = p /\
             (rootGroupCode fp = t \/ Ancestor db "report" (rootGroupCode fp) t).

(** The severity [createWarning] gives to a rule. *)
Definition ruleSeverity (msgs : gmap string WarningMessage) (messageId : string) : string :=
  match msgs !! messageId with
  | Some m => msg_severity m
  | None => "HIGH"
  end.

(** The property [k] of an object, if present. *)
Fixpoint lookupQ {V : Type} (k : Q) (obj : list (Q * V)) : option V :=
  match obj with
  | [] => None
  | (k', v) :: r => if Qeq_bool k k' then Some v else lookupQ k r
  end.

(** No two entries of an object have equal keys. *)
Fixpoint keysDistinct {V : Type} (obj : list (Q * V)) : Prop :=
  match obj with
  | [] => True
  | (k, _) :: r => (forall e, In e r -> Qred k <> Qred (fst e)) /\ keysDistinct r
  end.

(** The codes [ordinalGroups] holds under the key [k]. *)
Definition codesWith (k : Q) (processes : list BusinessRulesValidator.Process) : list string :=
  map BusinessRulesValidator.p_code
    (List.filter (fun p => Qnonzero (BusinessRulesValidator.p_ordinalCode p) &&
                           Qeq_bool (BusinessRulesValidator.p_ordinalCode p) k) processes).

(** Two process facets with one non-zero ordinal code. *)
Definition ShareOrdinal (processes : list BusinessRulesValidator.Process) : Prop :=
  exists i j p q, i <> j /\ processes !! i = Some p /\ processes !! j = Some q /\
    Qnonzero (BusinessRulesValidator.p_ordinalCode p) = true /\
    Qeq (BusinessRulesValidator.p_ordinalCode p) (BusinessRulesValidator.p_ordinalCode q).

(** The ordinal code of a process for a base term whose chain of ancestors
    in the reporting hierarchy is [l0]: the first record found for an
    ancestor, the nearest first, and then for the term; 0 without a record. *)
Definition processOrdinal (fps : list ForbiddenProcess) (l0 : list (option string))
  (t p : string) : Q :=
  BusinessRulesValidator.ordinalAmong fps (l0 ++ [Some t]) p.

(** The entry [getProcessesWithOrdinalCodes] makes for a facet. *)
Definition processOf (fps : list ForbiddenProcess) (l0 : list (option string))
  (t : string) (implicit : bool) (facet : string) : BusinessRulesValidator.Process :=
  BusinessRulesValidator.mkProcess (split_dot_nth 1 facet)
    (processOrdinal fps l0 t (split_dot_nth 1 facet)) implicit.

(** The F28 process facets of an expression, the implicit ones first, each
    with its ordinal code. *)
Definition processFacets (fps : list ForbiddenProcess) (l0 : list (option string))
  (baseTerm : Term) (explicitFacets : list string) : list BusinessRulesValidator.Process :=
  map (processOf fps l0 (code baseTerm) true)
      (BusinessRulesValidator.facetsOf "F28"
         (HierarchyHelper.parseImplicitFacets (implicit_facets baseTerm))) ++
  map (processOf fps l0 (code baseTerm) false)
      (BusinessRulesValidator.facetsOf "F28" explicitFacets).

(** ** Results *)

(** The two checks of [validateFacetDescriptor]. *)
Definition descriptorOk (db : Database) (facetCode : string) : bool :=
  match select_term db (split_dot_nth 1 facetCode) with
  | Some _ =>
      HierarchyHelper.belongsToHierarchy db (split_dot_nth 1 facetCode)
        (VBAValidator.hierarchyCodeOf (split_dot_nth 0 facetCode))
  | None => false
  end.

(** A warning that makes a code invalid. *)
Definition blocking (w : Warning) : Prop := severity w = "ERROR" \/ severity w = "HIGH".

(** [s] has [sub] as a contiguous part. *)
Definition Contains (s sub : string) : Prop := exists pre post, s = pre +:+ sub +:+ post.

(** The name of the term has one of the four words in it, whatever the case
    of its letters. *)
Definition NameIndicatesDehydration (n : string) : Prop :=
  exists ind, In ind ["concentrate"; "powder"; "dried"; "dehydrated"] /\
              Contains (toLowerCase n) ind.

(** ** A small catalogue for the examples *)

Definition demoDb : Database :=
  mkDatabase
    [mkTermRow "A000L" "Cereal grains" "r" (Some "C") false "APPROVED" None;
     mkTermRow "A0BXM" "Cow milk" "d" (Some "E") false "APPROVED" (Some "F28.A07KG$F28.A07KH");
     mkTermRow "A07XS" "Processed" "f" (Some "C") false "APPROVED" None;
     mkTermRow "A07LG" "Flaking" "f" (Some "C") false "APPROVED" None;
     mkTermRow "A07KG" "Drying" "f" (Some "C") false "APPROVED" None;
     mkTermRow "A07KH" "Dehydration" "f" (Some "C") false "APPROVED" None;
     mkTermRow "A07MR" "Reconstitution" "f" (Some "C") false "APPROVED" None]
    [mkHierarchyRow "A000L" "report" (Some "A000K");
     mkHierarchyRow "A000K" "report" (Some "A000J");
     mkHierarchyRow "A000J" "report" None;
     mkHierarchyRow "A0BXM" "report" (Some "A02LR");
     mkHierarchyRow "A02LR" "report" None;
     mkHierarchyRow "A07XS" "process" None;
     mkHierarchyRow "A07LG" "process" (Some "A07XS");
     mkHierarchyRow "A07KG" "process" (Some "A07XS");
     mkHierarchyRow "A07KH" "process" (Some "A07XS");
     mkHierarchyRow "A07MR" "process" (Some "A07XS")].

Definition demoForbidden : list ForbiddenProcess :=
  [mkForbiddenProcess "A000K" "A07LG" (inject_Z 1);
   mkForbiddenProcess "A02LR" "A07KG" (inject_Z 1);
   mkForbiddenProcess "A02LR" "A07KH" (inject_Z 1);
   mkForbiddenProcess "A039K" "A07LG" (3 # 2)%Q;
   mkForbiddenProcess "A039K" "A07MR" (3 # 2)%Q].

(** A soft-rules validator that has nothing to say. *)
Definition noSoftRules (t : Term) (facets : list string) (context textInfo : string)
  : list Warning := [].

(** The term objects [checkBaseTerm] selects for A000L and A0BXM, and two
    derivatives that are not in the small catalogue. *)
Definition demoCereal : Term :=
  mkTerm "A000L" "Cereal grains" "r" (Some "C") false false None "r".

Definition demoMilk : Term :=
  mkTerm "A0BXM" "Cow milk" "d" (Some "E") false false (Some "F28.A07KG$F28.A07KH") "d".

Definition demoJuice : Term :=
  mkTerm "A039K" "Fruit juice" "d" (Some "E") false false None "d".

Definition emptyState : State := mkState ∅ [].

(** The warnings an action leaves, started on [emptyState]. *)
Definition warningsOf (c : M unit) : option (list Warning) :=
  match c emptyState with
  | Some (_, s) => Some (warnings s)
  | None => None
  end.

(** The process descriptors the earlier implementation of BR28
    ([CompleteBusinessRules.checkBR28]) lists as signs of dehydration among
    the implicit facets. *)
Definition dehydrationFacets : list string :=
  ["F28.A07KG"; "F28.A07KH"; "F28.A07KJ"; "F28.A0C0C"; "F28.A07KK"].

Definition demoPowder : Term :=
  mkTerm "A03NL" "Milk Powder" "d" (Some "E") false false None "d".

(** A raw term with the given [implicit_facets] string. *)
Definition demoTermWith (s : string) : Term :=
  mkTerm "A0B9Z" "Bovine meat" "r" None false false (Some s) "r".

(** The result of validating A000L#F28.A07LG with the default service. *)
Definition demoOutcome : option (FoodEx2Validator.Result * gmap string (list (option string))) :=
  Eval vm_compute in
    FoodEx2Service.validateCode demoDb 10 DataLoader.getDefaultWarningMessages demoForbidden
      FoodEx2Validator.getDefaultWarningColors noSoftRules "A000L#F28.A07LG"
      FoodEx2Service.noOptions ∅.

(** The result of validating A000L#F28.A07LG$F28.ZZZZZ$F01.A07KG. *)
Definition demoOutcome3 : option (FoodEx2Validator.Result * gmap string (list (option string))) :=
  Eval vm_compute in
    FoodEx2Validator.validateCode demoDb 10 DataLoader.getDefaultWarningMessages demoForbidden
      FoodEx2Validator.getDefaultWarningColors noSoftRules FoodEx2Service.defaultOptions
      "A000L#F28.A07LG$F28.ZZZZZ$F01.A07KG" ∅.

(** ** Termination *)

(** The recursive query of [getAncestors] finishes within [fuel] levels on
    every term of every hierarchy. *)
Definition QueriesFinish (db : Database) (fuel : nat) : Prop :=
  forall t h, exists l, HierarchyHelper.ancestorsQuery db fuel t h = Some l.

(** An action that yields a value from every state. *)
Definition Returns {A : Type} (c : M A) : Prop :=
  forall s, exists x s', c s = Some (x, s').

(** The test of [QueriesFinish] on the rows of the table. *)
Definition queriesFinishOnRows (db : Database) (fuel : nat) : bool :=
  forallb (fun row =>
      match HierarchyHelper.ancestorsQuery db fuel (h_term_code row) (hierarchy_code row) with
      | Some _ => true
      | None => false
      end) (term_hierarchies db).

(** ** The outcomes of the structural validation *)

(** The four ways [validateFoodEx2Code] returns. *)
Inductive StructuralOutcome (db : Database) (b fs : string) : VBAValidator.Result -> Prop :=
| Outcome_shape w :
    ~ CodeShape b -> rule w = "VBA-STRUCT" -> severity w = "ERROR" ->
    StructuralOutcome db b fs
      (VBAValidator.mkResult false [w] (b +:+ fs) None None None)
| Outcome_unknown w :
    CodeShape b -> select_term db b = None ->
    rule w = "VBA-NOTFOUND" -> severity w = "ERROR" ->
    StructuralOutcome db b fs
      (VBAValidator.mkResult false [w] (b +:+ fs) None None None)
| Outcome_format row :
    CodeShape b -> select_term db b = Some row ->
    ~ Forall FacetShape (VBAValidator.parseFacetString fs) ->
    StructuralOutcome db b fs
      (VBAValidator.mkResult false (formatWarnings (VBAValidator.parseFacetString fs))
         (b +:+ fs) None None (Some (term_of_row row)))
| Outcome_checked row cl ir ws3 vf ws4 :
    CodeShape b -> select_term db b = Some row ->
    Forall FacetShape (VBAValidator.parseFacetString fs) ->
    VBAValidator.checkAndRemoveImplicitFacets (VBAValidator.parseFacetString fs)
      (VBAValidator.getImplicitFacets (term_of_row row)) [] = ((cl, ir), ws3) ->
    VBAValidator.validateFacets_loop db cl [] ws3 = (vf, ws4) ->
    let ws6 := VBAValidator.checkDuplicateFacets vf
                 (VBAValidator.checkSingleCardinalityFacets vf ws4) in
    StructuralOutcome db b fs
      (VBAValidator.mkResult
         (Nat.eqb (length (List.filter (fun w => String.eqb (severity w) "ERROR") ws6)) 0)
         ws6 (b +:+ fs)
         (if ir then Some (b +:+ VBAValidator.buildFacetString vf) else None)
         (Some vf) (Some (term_of_row row))).


(** ** Runs of the rules *)

(** An action that leaves the warnings it finds in place and adds warnings
    that satisfy [P]. *)
Definition Emits {A : Type} (P : Warning -> Prop) (c : M A) : Prop :=
  forall s x s', c s = Some (x, s') ->
    exists emitted, warnings s' = warnings s ++ emitted /\ Forall P emitted.

(** The rules [validateBusinessRules] can report. *)
Definition businessRules : list string :=
  ["BR01"; "BR03"; "BR04"; "BR05"; "BR06"; "BR07"; "BR08"; "BR10"; "BR11"; "BR12";
   "BR13"; "BR16"; "BR17"; "BR19"; "BR20"; "BR21"; "BR22"; "BR23"; "BR24"; "BR25";
   "BR26"; "BR27"; "BR28"].

(** A warning of the rule [id], with the severity the message table gives to
    that rule. *)
Definition IsRule (msgs : gmap string WarningMessage) (id : string) (w : Warning) : Prop :=
  rule w = id /\ severity w = ruleSeverity msgs id /\ w_type w = "BUSINESS_RULE".

Definition FromTable (msgs : gmap string WarningMessage) (w : Warning) : Prop :=
  exists id, In id businessRules /\ IsRule msgs id w.

(** ** The memo table in use *)

Section Memo.

Variable db : Database.
Variable fuel : nat.

(** What the memo table holds under a key: for some term [t] and some
    hierarchy [h] without a colon, the rows the query of [getAncestors]
    returns for them, followed by copies of [t]; only the reporting
    hierarchy ever gets such copies. *)
Definition MemoEntry (key : string) (l : list (option string)) : Prop :=
  exists t h l0 n,
    key = HierarchyHelper.cacheKey t h /\ noColon h /\
    HierarchyHelper.ancestorsQuery db fuel t h = Some l0 /\
    l = l0 ++ repeat (Some t) n /\ (h <> "report" -> n = 0).

Definition MemoOk (c : gmap string (list (option string))) : Prop :=
  forall key l, c !! key = Some l -> MemoEntry key l.

(** Two states with the same warnings, each with a memo table in order. *)
Definition Alike (s1 s2 : State) : Prop :=
  warnings s1 = warnings s2 /\ MemoOk (ancestorCache s1) /\ MemoOk (ancestorCache s2).

(** The outcomes of an action on two states: no result on either, or the
    same value on both and states that are alike again. *)
Definition SameOutcome {A : Type} (o1 o2 : option (A * State)) : Prop :=
  match o1, o2 with
  | Some (x1, s1), Some (x2, s2) => x1 = x2 /\ Alike s1 s2
  | None, None => True
  | _, _ => False
  end.

(** An action whose value and warnings do not depend on what the memo table
    already holds. *)
Definition Transparent {A : Type} (c : M A) : Prop :=
  forall s1 s2, Alike s1 s2 -> SameOutcome (c s1) (c s2).

End Memo.

(** ** Runs on the small catalogue *)

(** A validation on the small catalogue, with the default tables, the
    soft rules and the options of the default validator. *)
Definition demoValidate (fullCode : string) (cache : gmap string (list (option string)))
  : option (FoodEx2Validator.Result * gmap string (list (option string))) :=
  FoodEx2Validator.validateCode demoDb 10 DataLoader.getDefaultWarningMessages demoForbidden
    FoodEx2Validator.getDefaultWarningColors SoftRulesValidator.validateSoftRules
    FoodEx2Service.defaultOptions fullCode cache.

Definition demoBatchOf (codes : list string)
  : option (list (string * FoodEx2Validator.Result) * list (nat * nat) *
            gmap string (list (option string))) :=
  FoodEx2Service.validateBatch demoDb 10 DataLoader.getDefaultWarningMessages demoForbidden
    FoodEx2Validator.getDefaultWarningColors SoftRulesValidator.validateSoftRules
    codes true ∅.

(** A raw term with a forbidden process. *)
Definition demoFirst : option (FoodEx2Validator.Result * gmap string (list (option string))) :=
  Eval vm_compute in demoValidate "A000L#F28.A07LG" ∅.

(** A code whose base term is not in the catalogue. *)
Definition demoUnknown : option (FoodEx2Validator.Result * gmap string (list (option string))) :=
  Eval vm_compute in demoValidate "ZZZZZ#F28.A07LG" ∅.

(** A code that writes an implicit facet of its base term. *)
Definition demoCleaned : option (FoodEx2Validator.Result * gmap string (list (option string))) :=
  Eval vm_compute in demoValidate "A0BXM#F28.A07KG$F28.A07MR" ∅.

Definition demoBatch
  : option (list (string * FoodEx2Validator.Result) * list (nat * nat) *
            gmap string (list (option string))) :=
  Eval vm_compute in demoBatchOf ["A000L#F28.A07LG"; "ZZZZZ"; "A000L"].

(** A catalogue in which two terms are each the parent of the other in the
    reporting hierarchy. *)
Definition demoCyclicDb : Database :=
  mkDatabase
    [mkTermRow "A0C1A" "First" "r" (Some "C") false "APPROVED" None;
     mkTermRow "A0C1B" "Second" "r" (Some "C") false "APPROVED" None;
     mkTermRow "A0C1C" "Third" "r" (Some "C") false "APPROVED" None]
    [mkHierarchyRow "A0C1A" "report" (Some "A0C1B");
     mkHierarchyRow "A0C1B" "report" (Some "A0C1A");
     mkHierarchyRow "A0C1C" "report" (Some "A0C1A")].

(** An action that takes warnings satisfying [Pre] to warnings satisfying
    [Post]. *)
Definition Carries {A : Type} (Pre : list Warning -> Prop) (c : M A)
  (Post : list Warning -> Prop) : Prop :=
  forall s x s', Pre (warnings s) -> c s = Some (x, s') -> Post (warnings s').

(** No warning of the success message BR22 yet. *)
Definition NoSuccessYet (ws : list Warning) : Prop :=
  forall w, In w ws -> rule w <> "BR22".

(** Where the success message BR22 stands among the warnings of the rules:
    after warnings that do not block, only once, and for a base term that
    is not a hierarchy term. *)
Definition SuccessInPlace (baseTerm : Term) (ws : list Warning) : Prop :=
  forall pre w post,
    ws = pre ++ w :: post -> rule w = "BR22" ->
    (forall x, In x pre -> ~ blocking x) /\
    (forall x, In x (pre ++ post) -> rule x <> "BR22") /\
    HierarchyHelper.isHierarchyTerm baseTerm = false.

(** The business rules on the cow milk of the small catalogue, with drying
    and reconstitution as explicit processes. *)
Definition demoRules : option (list Warning * gmap string (list (option string))) :=
  Eval vm_compute in
    BusinessRulesValidator.validateBusinessRules demoDb 10
      DataLoader.getDefaultWarningMessages demoForbidden demoMilk
      ["F28.A07KG"; "F28.A07MR"] "" ∅.

Definition demoRulesWarnings : list Warning :=
  Eval vm_compute in match demoRules with Some (ws, _) => ws | None => [] end.

Definition demoRulesCache : gmap string (list (option string)) :=
  Eval vm_compute in match demoRules with Some (_, c) => c | None => ∅ end.

(** The small catalogue with the mechanical process A0CRK, and the result of
    validating A000L#F28.A0CRK on it. *)
Definition demoSoftDb : Database :=
  mkDatabase
    (terms demoDb ++ [mkTermRow "A0CRK" "Milling" "f" (Some "C") false "APPROVED" None])
    (term_hierarchies demoDb ++ [mkHierarchyRow "A0CRK" "process" (Some "A07XS")]).

Definition demoSoft : option (FoodEx2Validator.Result * gmap string (list (option string))) :=
  Eval vm_compute in
    FoodEx2Validator.validateCode demoSoftDb 10 DataLoader.getDefaultWarningMessages
      demoForbidden FoodEx2Validator.getDefaultWarningColors
      SoftRulesValidator.validateSoftRules FoodEx2Service.defaultOptions
      "A000L#F28.A0CRK" ∅.

(** An action whose value, when it has one, satisfies [Q]. *)
Definition Yields {A : Type} (Q : A -> Prop) (c : M A) : Prop :=
  forall s x s', c s = Some (x, s') -> Q x.

(** The business rules on the same term and facets with no record of a
    forbidden process. *)
Definition demoRulesNoData : option (list Warning * gmap string (list (option string))) :=
  Eval vm_compute in
    BusinessRulesValidator.validateBusinessRules demoDb 10
      DataLoader.getDefaultWarningMessages [] demoMilk
      ["F28.A07KG"; "F28.A07MR"] "" ∅.

(** ** The words of the specification *)

(** The facet group to hierarchy mapping that the specification gives as
    authoritative (its section 6). *)
Definition specGroupHierarchy : list (string * string) :=
  [("F01", "source"); ("F02", "part"); ("F03", "state"); ("F04", "ingred");
   ("F06", "medium"); ("F07", "fat"); ("F08", "sweet"); ("F09", "fort");
   ("F10", "qual"); ("F11", "alcohol"); ("F12", "dough"); ("F17", "cookext");
   ("F18", "packformat"); ("F19", "packmat"); ("F20", "partcon"); ("F21", "prod");
   ("F22", "place"); ("F23", "targcon"); ("F24", "use"); ("F25", "riskingred");
   ("F26", "gen"); ("F27", "racsource"); ("F28", "process"); ("F29", "fpurpose");
   ("F30", "replev"); ("F31", "animage"); ("F32", "gender"); ("F33", "legis");
   ("F34", "hostsampled")].

(** The term [d] is in the catalogue. *)
Definition TermExists (db : Database) (d : string) : Prop :=
  exists row, In row (terms db) /\ term_code row = d.

(** The term [d] is a member of the hierarchy [h]. *)
Definition InHierarchy (db : Database) (d h : string) : Prop :=
  exists row, In row (term_hierarchies db) /\ h_term_code row = d /\ hierarchy_code row = h.

(** [s] cut at its separators: the pieces hold no separator, and [s] is the
    pieces in their order with one separator between each two. *)
Inductive Pieces (sep : ascii -> bool) : string -> list string -> Prop :=
| Pieces_last p : clean sep p = true -> Pieces sep p [p]
| Pieces_more p c rest ps :
    clean sep p = true -> sep c = true -> Pieces sep rest ps ->
    Pieces sep (p +:+ String c rest) (p :: ps).

(** Nothing but white space (or nothing at all). *)
Definition Blank (f : string) : Prop := string_forall is_space f = true.

(** The pieces that are not empty. *)
Definition nonEmpty (pieces : list string) : list string :=
  List.filter (fun p => negb (String.eqb p "")) pieces.

(** The pieces that are not blank. *)
Definition nonBlank (pieces : list string) : list string :=
  List.filter (fun p => negb (string_forall is_space p)) pieces.

(** The small catalogue with a term in a hierarchy named f05, the lower-case
    name of a reserved facet group, and the result of validating
    A000L#F05.A0F5A on it with the default options. *)
Definition demoReservedDb : Database :=
  mkDatabase
    (terms demoDb ++ [mkTermRow "A0F5A" "Somewhere" "f" (Some "C") false "APPROVED" None])
    (term_hierarchies demoDb ++ [mkHierarchyRow "A0F5A" "f05" None]).

Definition demoReserved : option (FoodEx2Validator.Result * gmap string (list (option string))) :=
  Eval vm_compute in
    FoodEx2Validator.validateCode demoReservedDb 10 DataLoader.getDefaultWarningMessages
      demoForbidden FoodEx2Validator.getDefaultWarningColors noSoftRules
      FoodEx2Service.defaultOptions "A000L#F05.A0F5A" ∅.

(** A warning of the check of the shape of the fragments. *)
Definition formatRule (w : Warning) : Prop :=
  In (rule w) ["VBA-FORMAT"; "VBA-GROUP"; "VBA-DESCRIPTOR"].

(** * Properties *)

Lemma re_code_CodeShape s : re_code s = true <-> CodeShape s.
Proof.
  unfold re_code, CodeShape. rewrite andb_true_iff, Nat.eqb_eq. tauto.
Qed.

Lemma re_group_GroupShape s : re_group s = true <-> GroupShape s.
Proof.
  unfold re_group, GroupShape. split.
  - destruct s as [|f [|d1 [|d2 [|? ?]]]]; try discriminate.
    rewrite !andb_true_iff, Ascii.eqb_eq. intros [[-> H1] H2]. eauto.
  - intros (d1 & d2 & -> & H1 & H2). rewrite H1, H2. reflexivity.
Qed.

Lemma split_on_not_nil p s : split_on p s <> [].
Proof.
  destruct s as [|c s]; simpl; [discriminate|].
  destruct (p c); [discriminate|]. destruct (split_on p s); discriminate.
Qed.

Lemma split_on_clean p s : clean p s = true -> split_on p s = [s].
Proof.
  unfold clean. induction s as [|c s IH]; simpl; [reflexivity|].
  rewrite andb_true_iff, negb_true_iff. intros [-> H]. rewrite (IH H). reflexivity.
Qed.

Lemma split_on_app p l c r :
  clean p l = true -> p c = true ->
  split_on p (l +:+ String c r) = l :: split_on p r.
Proof.
  unfold clean. intros Hl Hc. induction l as [|a l IH]; simpl in *.
  - rewrite Hc. reflexivity.
  - apply andb_true_iff in Hl as [Ha Hl]. apply negb_true_iff in Ha.
    rewrite Ha, (IH Hl). reflexivity.
Qed.

Lemma split_on_one p s r : split_on p s = [r] -> s = r /\ clean p s = true.
Proof.
  unfold clean. revert r. induction s as [|c s IH]; simpl; intros r H.
  - injection H as <-. auto.
  - destruct (p c) eqn:Hc.
    + injection H as <- H. exfalso. exact (split_on_not_nil _ _ H).
    + destruct (split_on p s) as [|w ws] eqn:Hs; [exfalso; exact (split_on_not_nil _ _ Hs)|].
      injection H as <- ->. destruct (IH w eq_refl) as [-> H']. simpl. auto.
Qed.

Lemma split_on_two p s l r :
  split_on p s = [l; r] ->
  exists c, p c = true /\ s = l +:+ String c r /\ clean p l = true /\ clean p r = true.
Proof.
  revert l. induction s as [|a s IH]; simpl; intros l H; [discriminate|].
  destruct (p a) eqn:Ha.
  - injection H as <- H. apply split_on_one in H as [-> H].
    exists a. auto.
  - destruct (split_on p s) as [|w ws] eqn:Hs; [discriminate|].
    injection H as <- ->.
    destruct (IH w eq_refl) as (c & Hc & -> & Hw & Hr).
    exists c. unfold clean in *. simpl. rewrite Ha, Hw. auto.
Qed.

Lemma is_dot_eq c : is_dot c = true -> c = "."%char.
Proof. unfold is_dot. apply Ascii.eqb_eq. Qed.

Lemma upper_alnum_not_dot c : is_upper_alnum c = true -> is_dot c = false.
Proof.
  unfold is_dot. destruct (Ascii.eqb_spec c "."%char) as [->|]; [discriminate|reflexivity].
Qed.

Lemma digit_not_dot c : is_digit c = true -> is_dot c = false.
Proof.
  unfold is_dot. destruct (Ascii.eqb_spec c "."%char) as [->|]; [discriminate|reflexivity].
Qed.

Lemma string_forall_impl (p q : ascii -> bool) s :
  (forall c, p c = true -> q c = true) ->
  string_forall p s = true -> string_forall q s = true.
Proof.
  intros Hpq. induction s as [|c s IH]; simpl; [reflexivity|].
  rewrite !andb_true_iff. intros [H1 H2]. auto.
Qed.

Lemma CodeShape_no_dot s : CodeShape s -> clean is_dot s = true.
Proof.
  intros [_ H]. unfold clean. revert H. apply string_forall_impl.
  intros c Hc. rewrite (upper_alnum_not_dot _ Hc). reflexivity.
Qed.

Lemma GroupShape_no_dot s : GroupShape s -> clean is_dot s = true.
Proof.
  intros (d1 & d2 & -> & H1 & H2). unfold clean. simpl.
  rewrite (digit_not_dot _ H1), (digit_not_dot _ H2). reflexivity.
Qed.

Lemma count_dots_clean s : clean is_dot s = true -> count_dots s = 0.
Proof.
  unfold clean. induction s as [|c s IH]; simpl; [reflexivity|].
  rewrite andb_true_iff, negb_true_iff. intros [-> H]. auto.
Qed.

Lemma count_dots_app l r : count_dots (l +:+ r) = count_dots l + count_dots r.
Proof. induction l as [|c l IH]; simpl; [reflexivity|]. rewrite IH. lia. Qed.

(** The loop body of [checkCorrectFacet] accepts exactly the fragments of
    the required shape. *)
Lemma facetFormatWarning_None f :
  VBAValidator.facetFormatWarning f = None <-> FacetShape f.
Proof.
  unfold VBAValidator.facetFormatWarning, FacetShape. split.
  - destruct (split_on is_dot f) as [|l [|r [|? ?]]] eqn:Hs; simpl; try discriminate.
    destruct (re_group l) eqn:Hl; simpl; [|discriminate].
    destruct (re_code r) eqn:Hr; simpl; [|discriminate]. intros _.
    apply split_on_two in Hs as (c & Hc & -> & Hcl & Hcr).
    apply is_dot_eq in Hc as ->.
    apply re_group_GroupShape in Hl. apply re_code_CodeShape in Hr. split.
    + rewrite count_dots_app. simpl.
      rewrite (count_dots_clean _ Hcl), (count_dots_clean _ Hcr). reflexivity.
    + exists l, r. auto.
  - intros (_ & l & r & -> & Hl & Hr).
    change (l +:+ "." +:+ r) with (l +:+ String "."%char r).
    rewrite split_on_app; [|apply GroupShape_no_dot; exact Hl|reflexivity].
    rewrite split_on_clean; [|apply CodeShape_no_dot; exact Hr]. simpl.
    apply re_group_GroupShape in Hl. apply re_code_CodeShape in Hr.
    rewrite Hl, Hr. reflexivity.
Qed.

Lemma facetFormatWarning_ERROR f w :
  VBAValidator.facetFormatWarning f = Some w ->
  severity w = "ERROR" /\ w_type w = "STRUCTURE".
Proof.
  unfold VBAValidator.facetFormatWarning.
  repeat match goal with |- context [if ?b then _ else _] => destruct b end;
    intros H; inversion H; subst; auto.
Qed.

(** *** The structural checks *)

Lemma checkCorrectFacet_loop_spec facets isValid ws :
  VBAValidator.checkCorrectFacet_loop facets isValid ws =
  (isValid && forallb facetAccepted facets, ws ++ formatWarnings facets).
Proof.
  revert isValid ws. induction facets as [|f facets IH]; intros isValid ws; simpl.
  - rewrite andb_true_r, app_nil_r. reflexivity.
  - unfold formatWarnings, facetAccepted in *. simpl.
    destruct (VBAValidator.facetFormatWarning f) as [w|]; rewrite IH; simpl.
    + rewrite andb_false_r, <- app_assoc. reflexivity.
    + reflexivity.
Qed.

Lemma In_formatWarnings w facets :
  In w (formatWarnings facets) <->
  exists f, In f facets /\ VBAValidator.facetFormatWarning f = Some w.
Proof.
  unfold formatWarnings. rewrite <- list_elem_of_In, list_elem_of_omap.
  setoid_rewrite list_elem_of_In. reflexivity.
Qed.

Lemma forallb_facetAccepted facets :
  forallb facetAccepted facets = true <-> Forall FacetShape facets.
Proof.
  rewrite forallb_forall, List.Forall_forall. unfold facetAccepted.
  split; intros H f Hf; specialize (H f Hf).
  - apply facetFormatWarning_None. destruct (VBAValidator.facetFormatWarning f); [discriminate|reflexivity].
  - apply facetFormatWarning_None in H. rewrite H. reflexivity.
Qed.

Lemma facetFormatWarning_rule f w :
  VBAValidator.facetFormatWarning f = Some w -> laterRule w.
Proof.
  unfold VBAValidator.facetFormatWarning, laterRule.
  repeat match goal with |- context [if ?b then _ else _] => destruct b end;
    intros H; inversion H; subst; simpl; tauto.
Qed.

Lemma formatWarnings_rules facets : Forall laterRule (formatWarnings facets).
Proof.
  apply List.Forall_forall. intros w Hw. apply In_formatWarnings in Hw as (f & _ & Hf).
  exact (facetFormatWarning_rule _ _ Hf).
Qed.

Lemma validateFacetDescriptor_rules db f ws b ws' :
  VBAValidator.validateFacetDescriptor db f ws = (b, ws') ->
  Forall laterRule ws -> Forall laterRule ws'.
Proof.
  unfold VBAValidator.validateFacetDescriptor.
  destruct (select_term db _); [destruct (select_hierarchy_row db _ _)|];
    intros H; inversion H; subst; intros Hws; auto;
    apply Forall_app; split; auto; constructor; auto; unfold laterRule; simpl; tauto.
Qed.

Lemma validateFacets_loop_rules db cleaned acc ws acc' ws' :
  VBAValidator.validateFacets_loop db cleaned acc ws = (acc', ws') ->
  Forall laterRule ws -> Forall laterRule ws'.
Proof.
  revert acc ws. induction cleaned as [|f cleaned IH]; intros acc ws; simpl.
  - intros H; inversion H; subst; auto.
  - destruct (VBAValidator.validateFacetDescriptor db f ws) as [b ws1] eqn:Hd.
    intros H Hws. eapply IH; [exact H|]. eapply validateFacetDescriptor_rules; eauto.
Qed.

Lemma checkSingleCardinalityFacets_rules facets ws :
  Forall laterRule ws -> Forall laterRule (VBAValidator.checkSingleCardinalityFacets facets ws).
Proof.
  unfold VBAValidator.checkSingleCardinalityFacets.
  generalize (VBAValidator.countGroups facets). intros groups. revert ws.
  induction groups as [|[g n] groups IH]; intros ws Hws; simpl; [exact Hws|].
  apply IH. destruct (_ && _); [|exact Hws].
  apply Forall_app; split; auto. constructor; auto. unfold laterRule; simpl; tauto.
Qed.

Lemma checkDuplicateFacets_rules facets ws :
  Forall laterRule ws -> Forall laterRule (VBAValidator.checkDuplicateFacets facets ws).
Proof.
  intros Hws. unfold VBAValidator.checkDuplicateFacets. apply Forall_app; split; auto.
  apply List.Forall_forall. intros w Hw. apply in_map_iff in Hw as (d & <- & _).
  unfold laterRule; simpl; tauto.
Qed.

Lemma checkAndRemoveImplicitFacets_rules e i ws res ws' :
  VBAValidator.checkAndRemoveImplicitFacets e i ws = (res, ws') ->
  Forall laterRule ws -> Forall laterRule ws'.
Proof.
  unfold VBAValidator.checkAndRemoveImplicitFacets.
  destruct (VBAValidator.removeImplicit_loop e i [] false) as [c [|]];
    intros H; inversion H; subst; intros Hws; auto.
  apply Forall_app; split; auto. constructor; auto. unfold laterRule; simpl; tauto.
Qed.

Lemma substring_0_short s : String.length s <= 5 -> String.substring 0 5 s = s.
Proof.
  destruct s as [|c1 [|c2 [|c3 [|c4 [|c5 [|c6 s]]]]]]; simpl; try reflexivity; lia.
Qed.

Lemma parseFullCode_base fullCode :
  fst (FoodEx2Validator.parseFullCode fullCode) = String.substring 0 5 fullCode.
Proof.
  unfold FoodEx2Validator.parseFullCode.
  destruct (negb (truthy fullCode) || Nat.ltb (String.length fullCode) 5) eqn:H; simpl; [|reflexivity].
  symmetry. apply substring_0_short.
  apply orb_true_iff in H as [H|H].
  - destruct fullCode; simpl in *; [lia|discriminate].
  - apply Nat.ltb_lt in H. lia.
Qed.

Lemma length_substring_short s n : String.length s < n -> String.length (String.substring 0 n s) < n.
Proof.
  revert n. induction s as [|c s IH]; intros [|n]; simpl; try lia.
  intros H. specialize (IH n). lia.
Qed.

(** *** Cutting at separators *)

Lemma Pieces_cons sep c s w ws :
  sep c = false -> Pieces sep s (w :: ws) -> Pieces sep (String c s) (String c w :: ws).
Proof.
  intros Hc H. inversion H as [p Hp|p c' rest ps Hp Hc' Hrest]; subst.
  - apply Pieces_last. unfold clean in *. simpl. rewrite Hc. exact Hp.
  - change (String c (w +:+ String c' rest)) with (String c w +:+ String c' rest).
    apply Pieces_more; [|exact Hc'|exact Hrest].
    unfold clean in *. simpl. rewrite Hc. exact Hp.
Qed.

(** Every text is cut into pieces, in one way: the way of [split]. *)
Lemma Pieces_split_on sep s : Pieces sep s (split_on sep s).
Proof.
  induction s as [|c s IH]; simpl.
  - apply Pieces_last. reflexivity.
  - destruct (sep c) eqn:Hc.
    + apply (Pieces_more sep EmptyString c s); [reflexivity|exact Hc|exact IH].
    + destruct (split_on sep s) as [|w ws] eqn:Hs.
      * exfalso. exact (split_on_not_nil _ _ Hs).
      * apply Pieces_cons; assumption.
Qed.

Lemma Pieces_unique sep s ps : Pieces sep s ps -> ps = split_on sep s.
Proof.
  induction 1 as [p Hp|p c rest ps Hp Hc _ IH].
  - symmetry. apply split_on_clean. exact Hp.
  - rewrite split_on_app by assumption. rewrite IH. reflexivity.
Qed.

(** [f.trim()] is falsy exactly for a blank [f]. *)
Lemma trim_blank f : truthy (trim f) = negb (string_forall is_space f).
Proof.
  unfold trim. induction f as [|c f IH]; [reflexivity|]. simpl.
  destruct (is_space c) eqn:Hc; simpl; [exact IH|].
  rewrite Hc. reflexivity.
Qed.

Lemma parseFacetString_pieces fs pieces :
  Pieces is_hash_or_dollar fs pieces -> VBAValidator.parseFacetString fs = nonBlank pieces.
Proof.
  intros H. apply Pieces_unique in H. subst pieces.
  unfold VBAValidator.parseFacetString, nonBlank.
  destruct fs as [|c fs]; [reflexivity|].
  change (negb (truthy (String c fs))) with false. cbv iota.
  apply filter_ext. intros f. apply trim_blank.
Qed.

Lemma select_term_TermExists db c : select_term db c <> None <-> TermExists db c.
Proof.
  unfold select_term, TermExists. split.
  - destruct (find _ (terms db)) as [row|] eqn:Hf; [|congruence]. intros _.
    apply find_some in Hf as [Hin Heq]. apply String.eqb_eq in Heq. eauto.
  - intros (row & Hin & Heq) Hnone.
    pose proof (find_none _ _ Hnone row Hin) as H. simpl in H.
    rewrite Heq, String.eqb_refl in H. discriminate.
Qed.

Lemma formatWarnings_nil facets :
  Forall FacetShape facets -> formatWarnings facets = [].
Proof.
  induction 1 as [|f facets Hf _ IH]; [reflexivity|].
  unfold formatWarnings in *. simpl.
  apply facetFormatWarning_None in Hf. rewrite Hf. exact IH.
Qed.

(** The four ways in which [validateFoodEx2Code] returns. *)
Lemma validateFoodEx2Code_outcome db b fs :
  StructuralOutcome db b fs (VBAValidator.validateFoodEx2Code db b fs).
Proof.
  unfold VBAValidator.validateFoodEx2Code, VBAValidator.checkBaseTerm.
  destruct (re_code b) eqn:Hre; simpl.
  - assert (Hshape : CodeShape b) by (apply re_code_CodeShape; exact Hre).
    destruct (select_term db b) as [row|] eqn:Hrow; simpl.
    + unfold VBAValidator.checkCorrectFacet. rewrite checkCorrectFacet_loop_spec. simpl.
      destruct (forallb facetAccepted (VBAValidator.parseFacetString fs)) eqn:Hall; simpl.
      * apply forallb_facetAccepted in Hall.
        rewrite (formatWarnings_nil _ Hall).
        destruct (VBAValidator.checkAndRemoveImplicitFacets _ _ _) as [[cl ir] ws3] eqn:H3.
        destruct (VBAValidator.validateFacets_loop db cl [] ws3) as [vf ws4] eqn:H4.
        eapply Outcome_checked; eauto.
      * eapply Outcome_format; eauto.
        intros H. apply forallb_facetAccepted in H. congruence.
    + apply Outcome_unknown; auto.
  - apply Outcome_shape; auto.
    intros H. apply re_code_CodeShape in H. congruence.
Qed.

(** The checks that follow the check of the shape push warnings of five
    rules only. *)
Section AfterTheShape.

Variable P : Warning -> Prop.
Hypothesis HP : forall w,
  In (rule w) ["VBA-IMPLICIT"; "VBA-FACET404"; "VBA-CATEGORY"; "VBA-CARDINALITY";
               "VBA-DUPLICATE"] -> P w.

Lemma validateFacetDescriptor_pushes db f ws b ws' :
  VBAValidator.validateFacetDescriptor db f ws = (b, ws') -> Forall P ws -> Forall P ws'.
Proof.
  unfold VBAValidator.validateFacetDescriptor.
  destruct (select_term db _); [destruct (select_hierarchy_row db _ _)|];
    intros H; inversion H; subst; intros Hws; auto;
    apply Forall_app; split; auto; constructor; auto; apply HP; simpl; tauto.
Qed.

Lemma validateFacets_loop_pushes db cleaned acc ws acc' ws' :
  VBAValidator.validateFacets_loop db cleaned acc ws = (acc', ws') ->
  Forall P ws -> Forall P ws'.
Proof.
  revert acc ws. induction cleaned as [|f cleaned IH]; intros acc ws; simpl.
  - intros H; inversion H; subst; auto.
  - destruct (VBAValidator.validateFacetDescriptor db f ws) as [b ws1] eqn:Hd.
    intros H Hws. eapply IH; [exact H|]. eapply validateFacetDescriptor_pushes; eauto.
Qed.

Lemma checkSingleCardinalityFacets_pushes facets ws :
  Forall P ws -> Forall P (VBAValidator.checkSingleCardinalityFacets facets ws).
Proof.
  unfold VBAValidator.checkSingleCardinalityFacets.
  generalize (VBAValidator.countGroups facets). intros groups. revert ws.
  induction groups as [|[g n] groups IH]; intros ws Hws; simpl; [exact Hws|].
  apply IH. destruct (_ && _); [|exact Hws].
  apply Forall_app; split; auto. constructor; auto. apply HP; simpl; tauto.
Qed.

Lemma checkDuplicateFacets_pushes facets ws :
  Forall P ws -> Forall P (VBAValidator.checkDuplicateFacets facets ws).
Proof.
  intros Hws. unfold VBAValidator.checkDuplicateFacets. apply Forall_app; split; auto.
  apply List.Forall_forall. intros w Hw. apply in_map_iff in Hw as (d & <- & _).
  apply HP; simpl; tauto.
Qed.

Lemma checkAndRemoveImplicitFacets_pushes e i ws res ws' :
  VBAValidator.checkAndRemoveImplicitFacets e i ws = (res, ws') ->
  Forall P ws -> Forall P ws'.
Proof.
  unfold VBAValidator.checkAndRemoveImplicitFacets.
  destruct (VBAValidator.removeImplicit_loop e i [] false) as [c [|]];
    intros H; inversion H; subst; intros Hws; auto.
  apply Forall_app; split; auto. constructor; auto. apply HP; simpl; tauto.
Qed.

Lemma Outcome_checked_pushes db cl i ws3 vf ws4 e :
  VBAValidator.checkAndRemoveImplicitFacets e i [] = (cl, ws3) ->
  VBAValidator.validateFacets_loop db (fst cl) [] ws3 = (vf, ws4) ->
  Forall P (VBAValidator.checkDuplicateFacets vf
              (VBAValidator.checkSingleCardinalityFacets vf ws4)).
Proof.
  intros H3 H4.
  apply checkDuplicateFacets_pushes, checkSingleCardinalityFacets_pushes.
  eapply validateFacets_loop_pushes; [exact H4|].
  eapply checkAndRemoveImplicitFacets_pushes; [exact H3|]. constructor.
Qed.

End AfterTheShape.

(** C8, as the code has it. The structural validator answers an input with
    the warning VBA-STRUCT of severity ERROR exactly when its base prefix
    (the first five code units, or the whole input when it is shorter) is
    not of the shape [A-Z0-9]{5}, which includes every input shorter than
    five; for such an input, and for one whose base prefix names no term of
    the catalogue, that one ERROR is the only warning and the fragments are
    not looked at. When the base prefix names a term, the remainder is cut
    at every [#] and [$]; a piece that is not blank gets its ERROR warning
    exactly when it is not of the shape one dot, [F\d{2}] on the left,
    [A-Z0-9]{5} on the right, and the result is then invalid and carries
    these warnings only; a blank piece (empty or white space only) is
    dropped without a warning. *)
Theorem parser_rejects_malformed (db : Database) (fullCode : string) :
  let base := fst (FoodEx2Validator.parseFullCode fullCode) in
  let fs := snd (FoodEx2Validator.parseFullCode fullCode) in
  let r := VBAValidator.validateFoodEx2Code db base fs in
  base = String.substring 0 5 fullCode /\
  ((exists w, In w (VBAValidator.warnings r) /\ rule w = "VBA-STRUCT" /\
              severity w = "ERROR") <-> ~ CodeShape base) /\
  (~ CodeShape base ->
     VBAValidator.valid r = false /\ exists w, VBAValidator.warnings r = [w]) /\
  (String.length fullCode < 5 -> ~ CodeShape base) /\
  (CodeShape base -> ~ TermExists db base ->
     VBAValidator.valid r = false /\
     exists w, VBAValidator.warnings r = [w] /\ rule w = "VBA-NOTFOUND" /\
               severity w = "ERROR") /\
  (exists pieces, Pieces is_hash_or_dollar fs pieces) /\
  (forall pieces, Pieces is_hash_or_dollar fs pieces ->
     CodeShape base -> TermExists db base ->
     (forall f, In f pieces -> ~ Blank f ->
        ((exists w, VBAValidator.facetFormatWarning f = Some w /\
                    In w (VBAValidator.warnings r) /\ severity w = "ERROR")
         <-> ~ FacetShape f) /\
        (~ FacetShape f -> VBAValidator.valid r = false)) /\
     (~ Forall FacetShape (nonBlank pieces) ->
        VBAValidator.warnings r = formatWarnings (nonBlank pieces)) /\
     (Forall FacetShape (nonBlank pieces) ->
        Forall (fun w => ~ formatRule w) (VBAValidator.warnings r))).
Proof.
  intros base fs r.
  assert (Hbase : base = String.substring 0 5 fullCode) by apply parseFullCode_base.
  split; [exact Hbase|].
  assert (Hshort : String.length fullCode < 5 -> ~ CodeShape base).
  { intros Hlen [Hl _]. rewrite Hbase in Hl.
    pose proof (length_substring_short fullCode 5 Hlen). lia. }
  assert (Hpieces : exists pieces, Pieces is_hash_or_dollar fs pieces)
    by (eexists; apply Pieces_split_on).
  pose proof (validateFoodEx2Code_outcome db base fs) as Ho. fold r in Ho. clearbody r.
  destruct Ho as [w Hs Hr Hsev|w Hs Hrow Hr Hsev|row Hs Hrow Hall
                 |row cl ir ws3 vf ws4 Hs Hrow Hall H3 H4 ws6]; simpl.
  - (* the base prefix is malformed *)
    split; [split; [tauto|intros _; exists w; simpl; auto]|].
    split; [intros _; eauto|]. split; [exact Hshort|].
    split; [tauto|]. split; [exact Hpieces|]. tauto.
  - (* the base prefix names no term *)
    assert (Hno : ~ TermExists db base).
    { intros H. apply select_term_TermExists in H. congruence. }
    split; [split; [|tauto]|].
    { intros (w' & [<-|[]] & Hr' & _). congruence. }
    split; [tauto|]. split; [exact Hshort|].
    split; [intros _ _; split; [reflexivity|]; exists w; auto|].
    split; [exact Hpieces|]. tauto.
  - (* a fragment is malformed *)
    assert (Hyes : TermExists db base).
    { apply select_term_TermExists. congruence. }
    split; [split; [|tauto]|].
    { intros (w' & Hw' & Hr' & _).
      pose proof (formatWarnings_rules (VBAValidator.parseFacetString fs)) as Hl.
      rewrite List.Forall_forall in Hl. specialize (Hl w' Hw').
      unfold laterRule in Hl. rewrite Hr' in Hl. simpl in Hl. intuition discriminate. }
    split; [tauto|]. split; [exact Hshort|]. split; [tauto|].
    split; [exact Hpieces|].
    intros pieces Hp _ _. rewrite (parseFacetString_pieces fs pieces Hp) in *.
    split; [|split; [reflexivity|tauto]].
    intros f Hf Hnb. split; [|reflexivity].
    assert (Hin : In f (nonBlank pieces)).
    { unfold nonBlank. apply filter_In. split; [exact Hf|].
      apply negb_true_iff. unfold Blank in Hnb.
      destruct (string_forall is_space f); congruence. }
    split.
    + intros (w & Hw & _) Hsh. apply facetFormatWarning_None in Hsh. congruence.
    + intros Hsh. destruct (VBAValidator.facetFormatWarning f) as [w|] eqn:Hw.
      * exists w. split; [reflexivity|]. split.
        -- apply In_formatWarnings. eauto.
        -- apply (facetFormatWarning_ERROR f w Hw).
      * exfalso. apply Hsh, facetFormatWarning_None, Hw.
  - (* every fragment has the shape *)
    assert (Hyes : TermExists db base).
    { apply select_term_TermExists. congruence. }
    split; [split; [|tauto]|].
    { intros (w' & Hw' & Hr' & _).
      assert (Hl : Forall laterRule ws6).
      { apply (Outcome_checked_pushes laterRule) with (db := db) (cl := (cl, ir))
          (i := VBAValidator.getImplicitFacets (term_of_row row)) (ws3 := ws3) (ws4 := ws4)
          (e := VBAValidator.parseFacetString fs); [|exact H3|exact H4].
        intros w Hw. unfold laterRule, laterRules. simpl in *. tauto. }
      rewrite List.Forall_forall in Hl. specialize (Hl w' Hw').
      unfold laterRule in Hl. rewrite Hr' in Hl. simpl in Hl. intuition discriminate. }
    split; [tauto|]. split; [exact Hshort|]. split; [tauto|].
    split; [exact Hpieces|].
    intros pieces Hp _ _. rewrite (parseFacetString_pieces fs pieces Hp) in *.
    split; [|split; [tauto|]].
    + intros f Hf Hnb.
      assert (Hin : In f (nonBlank pieces)).
      { unfold nonBlank. apply filter_In. split; [exact Hf|].
        apply negb_true_iff. unfold Blank in Hnb.
        destruct (string_forall is_space f); congruence. }
      rewrite List.Forall_forall in Hall. specialize (Hall f Hin).
      split; [|tauto]. split; [|tauto].
      intros (w & Hw & _). apply facetFormatWarning_None in Hall. congruence.
    + intros _.
      apply (Outcome_checked_pushes (fun w => ~ formatRule w)) with (db := db) (cl := (cl, ir))
        (i := VBAValidator.getImplicitFacets (term_of_row row)) (ws3 := ws3) (ws4 := ws4)
        (e := nonBlank pieces); [|exact H3|exact H4].
      intros w Hw. unfold formatRule. simpl in *.
      intros Hf. repeat (destruct Hw as [Hw|Hw]; [rewrite <- Hw in Hf; intuition discriminate|]).
      exact Hw.
Qed.

(** *** Serialization and parsing *)

Lemma append_cons c (s t : string) : String c s +:+ t = String c (s +:+ t).
Proof. reflexivity. Qed.

Lemma append_nil_r s : s +:+ "" = s.
Proof. induction s as [|c s IH]; [reflexivity|]. rewrite append_cons, IH. reflexivity. Qed.

Lemma append_assoc (a b c : string) : (a +:+ b) +:+ c = a +:+ (b +:+ c).
Proof. induction a as [|x a IH]; [reflexivity|]. rewrite !append_cons, IH. reflexivity. Qed.

Lemma join_empty_cons x xs : join "" (x :: xs) = x +:+ join "" xs.
Proof.
  unfold join. destruct xs as [|y ys]; simpl; [symmetry; apply append_nil_r|reflexivity].
Qed.

Lemma join_dollar_map facets :
  join "" (map (fun f => "$" +:+ f) facets) = dollarTail facets.
Proof.
  induction facets as [|f r IH]; [reflexivity|].
  cbn [map]. rewrite join_empty_cons, IH. reflexivity.
Qed.

Lemma buildFacetString_cons f r :
  VBAValidator.buildFacetString (f :: r) = "#" +:+ f +:+ dollarTail r.
Proof.
  unfold VBAValidator.buildFacetString. cbn [length Nat.eqb imap].
  rewrite join_empty_cons. cbn [Nat.eqb].
  replace (imap _ r) with (map (fun f => "$" +:+ f) r).
  - rewrite join_dollar_map. reflexivity.
  - symmetry. etransitivity; [|apply (imap_const (fun f => "$" +:+ f))].
    apply imap_ext. intros i x _. reflexivity.
Qed.

Lemma string_forall_app p a b :
  string_forall p (a +:+ b) = string_forall p a && string_forall p b.
Proof. induction a as [|c a IH]; simpl; [reflexivity|]. rewrite IH, andb_assoc. reflexivity. Qed.

Lemma upper_alnum_not_sep c : is_upper_alnum c = true -> is_hash_or_dollar c = false.
Proof.
  unfold is_hash_or_dollar.
  destruct (Ascii.eqb_spec c "#"%char) as [->|]; [discriminate|].
  destruct (Ascii.eqb_spec c "$"%char) as [->|]; [discriminate|reflexivity].
Qed.

Lemma digit_not_sep c : is_digit c = true -> is_hash_or_dollar c = false.
Proof.
  unfold is_hash_or_dollar.
  destruct (Ascii.eqb_spec c "#"%char) as [->|]; [discriminate|].
  destruct (Ascii.eqb_spec c "$"%char) as [->|]; [discriminate|reflexivity].
Qed.

Lemma FacetShape_no_sep f : FacetShape f -> clean is_hash_or_dollar f = true.
Proof.
  intros (_ & l & r & -> & (d1 & d2 & -> & H1 & H2) & (_ & Hr)).
  unfold clean. simpl.
  rewrite (digit_not_sep _ H1), (digit_not_sep _ H2). simpl.
  revert Hr. apply string_forall_impl. intros c Hc.
  rewrite (upper_alnum_not_sep _ Hc). reflexivity.
Qed.

Lemma FacetShape_trim f : FacetShape f -> truthy (trim f) = true.
Proof.
  intros (_ & l & r & -> & (d1 & d2 & -> & H1 & H2) & _). reflexivity.
Qed.

Lemma split_on_facets f r :
  Forall FacetShape (f :: r) ->
  split_on is_hash_or_dollar (f +:+ dollarTail r) = f :: r.
Proof.
  revert f. induction r as [|g r IH]; intros f Hall.
  - simpl. rewrite append_nil_r. apply split_on_clean, FacetShape_no_sep.
    inversion Hall; assumption.
  - inversion Hall as [|? ? Hf Hrest]; subst.
    cbn [dollarTail]. change ("$" +:+ g +:+ dollarTail r) with (String "$"%char (g +:+ dollarTail r)).
    rewrite split_on_app; [|apply FacetShape_no_sep; exact Hf|reflexivity].
    rewrite (IH g Hrest). reflexivity.
Qed.

Lemma filter_all {A} (p : A -> bool) l : Forall (fun x => p x = true) l -> List.filter p l = l.
Proof.
  induction 1 as [|x l Hx _ IH]; simpl; [reflexivity|]. rewrite Hx, IH. reflexivity.
Qed.

Lemma parseFacetString_buildFacetString facets :
  Forall FacetShape facets ->
  VBAValidator.parseFacetString (VBAValidator.buildFacetString facets) = facets.
Proof.
  intros Hall. destruct facets as [|f r]; [reflexivity|].
  rewrite buildFacetString_cons. unfold VBAValidator.parseFacetString.
  change ("#" +:+ f +:+ dollarTail r) with (String "#"%char (f +:+ dollarTail r)).
  cbn [truthy String.eqb negb split_on is_hash_or_dollar Ascii.eqb Bool.eqb orb].
  rewrite split_on_facets by exact Hall.
  transitivity (List.filter (fun x => truthy (trim x)) (f :: r)); [reflexivity|].
  apply filter_all. eapply List.Forall_impl; [|exact Hall]. intros x. apply FacetShape_trim.
Qed.

Lemma substring_0_length s : String.substring 0 (String.length s) s = s.
Proof. induction s as [|c s IH]; simpl; [reflexivity|]. rewrite IH. reflexivity. Qed.

Lemma parseFullCode_append base rest :
  String.length base = 5 ->
  FoodEx2Validator.parseFullCode (base +:+ rest) = (base, rest).
Proof.
  destruct base as [|c1 [|c2 [|c3 [|c4 [|c5 [|c6 s]]]]]]; simpl; try discriminate.
  intros _. rewrite !append_cons. change ("" +:+ rest) with rest.
  unfold FoodEx2Validator.parseFullCode. simpl.
  rewrite Nat.sub_0_r, substring_0_length.
  destruct rest; reflexivity.
Qed.

(** C10. Parsing the canonical text of a well-formed expression gives the
    expression back. *)
Theorem parse_serialize (base : string) (facets : list string) :
  CodeShape base -> Forall FacetShape facets ->
  parse (serialize (base, facets)) = (base, facets).
Proof.
  intros [Hlen _] Hall. unfold parse, serialize. simpl.
  rewrite parseFullCode_append by exact Hlen.
  rewrite parseFacetString_buildFacetString by exact Hall. reflexivity.
Qed.

(** *** Implicit facets *)

Lemma join_dollar_cons x y r : join "$" (x :: y :: r) = x +:+ String "$"%char (join "$" (y :: r)).
Proof. reflexivity. Qed.

Lemma split_on_join_dollar f r :
  Forall fragmentOk (f :: r) -> split_on is_dollar (join "$" (f :: r)) = f :: r.
Proof.
  revert f. induction r as [|g r IH]; intros f Hall.
  - inversion Hall as [|? ? [_ Hf] _]; subst. apply split_on_clean. exact Hf.
  - inversion Hall as [|? ? [_ Hf] Hrest]; subst.
    rewrite join_dollar_cons, split_on_app; [|exact Hf|reflexivity].
    rewrite (IH g Hrest). reflexivity.
Qed.

Lemma truthy_true s : truthy s = true <-> s <> "".
Proof.
  unfold truthy. rewrite negb_true_iff. destruct (String.eqb_spec s ""); split; congruence.
Qed.

Lemma parseImplicitFacets_join frags :
  Forall fragmentOk frags ->
  HierarchyHelper.parseImplicitFacets (Some (join "$" frags)) = frags.
Proof.
  intros Hall. destruct frags as [|f r]; [reflexivity|].
  unfold HierarchyHelper.parseImplicitFacets.
  assert (Hne : truthy (join "$" (f :: r)) = true).
  { apply truthy_true. inversion Hall as [|? ? [Hf _] _]; subst.
    destruct r; [exact Hf|]. rewrite join_dollar_cons. destruct f; [congruence|discriminate]. }
  rewrite Hne. simpl negb. cbv iota.
  rewrite split_on_join_dollar by exact Hall.
  apply filter_all. eapply List.Forall_impl; [|exact Hall].
  intros x [Hx _]. apply truthy_true. exact Hx.
Qed.

(** C3, as the code has it. For every term, the implicit facets are the
    pieces of its [implicit_facets] string between the [$] signs, without
    the empty ones (a missing string counts as the empty string): [$] is the
    only separator, so a [#] stays inside its piece, and two [$] in a row or
    a [$] at either end add nothing. Both parsers of the validator agree. *)
Theorem implicit_facets_split_at_dollar (t : Term) :
  (exists pieces, Pieces is_dollar (default "" (implicit_facets t)) pieces) /\
  (forall pieces,
     Pieces is_dollar (default "" (implicit_facets t)) pieces ->
     HierarchyHelper.parseImplicitFacets (implicit_facets t) = nonEmpty pieces /\
     VBAValidator.getImplicitFacets t = nonEmpty pieces).
Proof.
  split; [eexists; apply Pieces_split_on|].
  intros pieces H. apply Pieces_unique in H. subst pieces.
  unfold HierarchyHelper.parseImplicitFacets, VBAValidator.getImplicitFacets, nonEmpty.
  destruct (implicit_facets t) as [s|]; [|split; reflexivity].
  destruct s as [|c s]; [split; reflexivity|].
  change (negb (truthy (String c s))) with false. cbv iota.
  change (default "" (Some (String c s))) with (String c s).
  split; reflexivity.
Qed.

(** C3 as stated fails: the same two facets written with [#] between them
    are read as one fragment. *)
Lemma implicit_facets_hash_not_accepted :
  HierarchyHelper.parseImplicitFacets (implicit_facets (demoTermWith "F01.A0F6E#F27.A0F6E"))
    = ["F01.A0F6E#F27.A0F6E"] /\
  HierarchyHelper.parseImplicitFacets (implicit_facets (demoTermWith "F01.A0F6E$F27.A0F6E"))
    = ["F01.A0F6E"; "F27.A0F6E"] /\
  VBAValidator.getImplicitFacets (demoTermWith "F01.A0F6E#F27.A0F6E")
    <> VBAValidator.getImplicitFacets (demoTermWith "F01.A0F6E$F27.A0F6E").
Proof. repeat split. discriminate. Qed.

(** *** The hierarchy and the memo table *)

Lemma ancestorsQuery_Chain db n t h l :
  HierarchyHelper.ancestorsQuery db n t h = Some l -> Chain db h t l.
Proof.
  revert t l. induction n as [|n IH]; intros t l; simpl; [discriminate|].
  destruct (select_hierarchy_row db t h) as [row|] eqn:Hrow.
  - destruct (parent_code row) as [p|] eqn:Hp.
    + destruct (HierarchyHelper.ancestorsQuery db n p h) as [l'|] eqn:Hq; [|discriminate].
      intros H; injection H as <-. eapply Chain_parent; eauto.
    + intros H; injection H as <-. eapply Chain_root; eauto.
  - intros H; injection H as <-. apply Chain_absent. exact Hrow.
Qed.

Lemma Chain_ancestorsQuery db h t l :
  Chain db h t l -> forall n, length l < n -> HierarchyHelper.ancestorsQuery db n t h = Some l.
Proof.
  induction 1 as [t Hrow|t row Hrow Hp|t row p l Hrow Hp _ IH]; intros [|n] Hn;
    simpl in *; try lia; rewrite Hrow; try rewrite Hp; try reflexivity.
  rewrite IH by lia. reflexivity.
Qed.

Lemma Chain_functional db h t l l' : Chain db h t l -> Chain db h t l' -> l = l'.
Proof.
  intros H. revert l'.
  induction H as [t Hrow|t row Hrow Hp|t row p l Hrow Hp _ IH]; intros l' H';
    inversion H'; subst; try congruence.
  assert (row0 = row) by congruence. subst.
  assert (p0 = p) by congruence. subst. f_equal. auto.
Qed.

Lemma Chain_In db h t l a :
  Chain db h t l -> (In (Some a) l <-> Ancestor db h a t).
Proof.
  induction 1 as [t Hrow|t row Hrow Hp|t row p l Hrow Hp _ IH]; simpl.
  - split; [tauto|]. intros HA. inversion HA as [? ? (r & Hr & _)|? ? ? (r & Hr & _) _]; congruence.
  - split; [intros [?|[]]; discriminate|].
    intros HA. inversion HA as [? ? (r & Hr & Hpr)|? ? ? (r & Hr & Hpr) _]; congruence.
  - split.
    + intros [Heq|Hin].
      * injection Heq as ->. apply Ancestor_parent. exists row. auto.
      * eapply Ancestor_step; [exists row; eauto|]. apply IH. exact Hin.
    + intros HA. inversion HA as [? ? (r & Hr & Hpr)|? q ? (r & Hr & Hpr) Hq]; subst.
      * left. congruence.
      * right. apply IH. assert (q = p) by congruence. subst. exact Hq.
Qed.

Lemma cacheKey_nil h : HierarchyHelper.cacheKey "" h = String ":"%char h.
Proof. reflexivity. Qed.

Lemma cacheKey_cons c t h :
  HierarchyHelper.cacheKey (String c t) h = String c (HierarchyHelper.cacheKey t h).
Proof. reflexivity. Qed.

Lemma cacheKey_inj t h t' h' :
  noColon t -> noColon t' ->
  HierarchyHelper.cacheKey t h = HierarchyHelper.cacheKey t' h' -> t = t' /\ h = h'.
Proof.
  unfold noColon, clean. revert t'.
  induction t as [|c t IH]; intros [|c' t']; simpl; intros Ht Ht' H;
    rewrite ?cacheKey_nil, ?cacheKey_cons in H.
  - injection H as ->. auto.
  - injection H as <- _. simpl in Ht'. discriminate.
  - injection H as -> _. simpl in Ht. discriminate.
  - injection H as -> H.
    apply andb_true_iff in Ht as [_ Ht]. apply andb_true_iff in Ht' as [_ Ht'].
    destruct (IH t' Ht Ht' H) as [-> ->]. auto.
Qed.

Lemma CacheOk_empty db : CacheOk db ∅.
Proof. intros t h l _ H. rewrite lookup_empty in H. discriminate. Qed.

Lemma CacheOk_insert db c t h l :
  CacheOk db c -> noColon t -> CachedFor db t h l ->
  CacheOk db (<[HierarchyHelper.cacheKey t h := l]> c).
Proof.
  intros Hc Ht Hl t' h' l' Ht' H.
  destruct (decide (HierarchyHelper.cacheKey t h = HierarchyHelper.cacheKey t' h')) as [Heq|Hne].
  - rewrite Heq, lookup_insert_eq in H. injection H as <-.
    destruct (cacheKey_inj _ _ _ _ Ht Ht' Heq) as [<- <-]. exact Hl.
  - rewrite lookup_insert_ne in H by exact Hne. eapply Hc; eauto.
Qed.

Lemma CacheOk_push db c t h :
  CacheOk db c -> noColon t ->
  CacheOk db (alter (fun l => l ++ [Some t]) (HierarchyHelper.cacheKey t h) c).
Proof.
  intros Hc Ht t' h' l' Ht' H.
  destruct (decide (HierarchyHelper.cacheKey t h = HierarchyHelper.cacheKey t' h')) as [Heq|Hne].
  - rewrite Heq, lookup_alter_eq in H.
    destruct (c !! HierarchyHelper.cacheKey t' h') as [l|] eqn:Hl; [|discriminate].
    injection H as <-.
    destruct (cacheKey_inj _ _ _ _ Ht Ht' Heq) as [<- <-].
    destruct (Hc t h l Ht Hl) as (l0 & n & Hch & ->).
    exists l0, (S n). split; [exact Hch|].
    rewrite <- app_assoc. f_equal. change [Some t] with (repeat (Some t) 1).
    rewrite <- repeat_app. f_equal. lia.
  - rewrite lookup_alter_ne in H by exact Hne. eapply Hc; eauto.
Qed.

(** Running an action: value, memo table and warnings afterwards. *)
Lemma bind_run {A B} (c : M A) (f : A -> M B) s :
  (c ≫= f) s = match c s with Some (x, s') => f x s' | None => None end.
Proof. reflexivity. Qed.

Lemma for_each_push {A} (l : list A) (c : A -> bool) (w : A -> Warning) s :
  for_each l (fun x => if c x then push (w x) else mret tt) s =
  Some (tt, mkState (ancestorCache s) (warnings s ++ map w (List.filter c l))).
Proof.
  revert s. induction l as [|x l IH]; intros [ca ws]; simpl.
  - rewrite app_nil_r. reflexivity.
  - rewrite bind_run. destruct (c x); simpl; rewrite IH; simpl; [|reflexivity].
    rewrite <- app_assoc. reflexivity.
Qed.

(** [getAncestors] on a sound memo table: the answer is the chain of the
    term with the pushed copies, and it is the entry of the table afterwards. *)
Lemma getAncestors_spec db fuel t h s l0 :
  CacheOk db (ancestorCache s) -> noColon t ->
  Chain db h t l0 -> length l0 < fuel ->
  exists n s',
    HierarchyHelper.getAncestors db fuel t h s = Some (l0 ++ repeat (Some t) n, s') /\
    ancestorCache s' !! HierarchyHelper.cacheKey t h = Some (l0 ++ repeat (Some t) n) /\
    CacheOk db (ancestorCache s') /\ warnings s' = warnings s.
Proof.
  intros Hc Ht Hch Hlen. unfold HierarchyHelper.getAncestors.
  destruct (ancestorCache s !! HierarchyHelper.cacheKey t h) as [l|] eqn:Hl.
  - destruct (Hc t h l Ht Hl) as (l0' & n & Hch' & ->).
    rewrite (Chain_functional _ _ _ _ _ Hch' Hch) in *.
    exists n, s. auto.
  - rewrite (Chain_ancestorsQuery _ _ _ _ Hch fuel Hlen).
    exists 0, (mkState (<[HierarchyHelper.cacheKey t h := l0]> (ancestorCache s)) (warnings s)).
    simpl. rewrite app_nil_r. repeat split.
    + apply lookup_insert_eq.
    + apply CacheOk_insert; auto. exists l0, 0. simpl. rewrite app_nil_r. auto.
Qed.

(** *** Forbidden processes and BR19 *)

Lemma createWarning_fields msgs messageId x :
  let w := BusinessRulesValidator.createWarning msgs messageId x in
  rule w = messageId /\ severity w = ruleSeverity msgs messageId /\
  involvedTerms w = Some x /\ w_type w = "BUSINESS_RULE".
Proof.
  unfold BusinessRulesValidator.createWarning, ruleSeverity.
  destruct (msgs !! messageId); simpl; auto.
Qed.

Lemma includes_In l x : includes l x = true <-> In x l.
Proof.
  unfold includes. rewrite existsb_exists. split.
  - intros (y & Hy & Heq). apply String.eqb_eq in Heq. subst. exact Hy.
  - intros H. exists x. split; [exact H|apply String.eqb_refl].
Qed.

Lemma uniq_from_In seen l x :
  In x (uniq_from seen l) <-> In x l /\ ~ In x seen.
Proof.
  revert seen. induction l as [|y l IH]; intros seen; simpl; [tauto|].
  destruct (includes seen y) eqn:Hy.
  - apply includes_In in Hy. rewrite IH. split; [tauto|].
    intros [[->|H] Hn]; tauto.
  - assert (~ In y seen) by (rewrite <- includes_In; congruence).
    simpl. rewrite IH. simpl. split.
    + intros [->|[H1 H2]]; tauto.
    + intros [[->|H1] H2]; [tauto|].
      destruct (String.eqb_spec y x); [tauto|]. right. tauto.
Qed.

Lemma uniq_In l x : In x (uniq l) <-> In x l.
Proof. unfold uniq. rewrite uniq_from_In. simpl. tauto. Qed.

Lemma In_forbiddenOf fps l p :
  In p (BusinessRulesValidator.forbiddenOf fps l) <->
  exists fp, In fp fps /\ forbiddenProcessCode fp = p /\ In (Some (rootGroupCode fp)) l.
Proof.
  unfold BusinessRulesValidator.forbiddenOf. rewrite in_flat_map. split.
  - intros (a & Ha & Hp). apply in_map_iff in Hp as (fp & <- & Hfp).
    apply filter_In in Hfp as [Hfp Hroot]. destruct a as [a|]; [|discriminate].
    apply String.eqb_eq in Hroot. subst. eauto.
  - intros (fp & Hfp & <- & Hin). exists (Some (rootGroupCode fp)). split; [exact Hin|].
    apply in_map, filter_In. split; [exact Hfp|apply String.eqb_refl].
Qed.

Lemma In_chain_with_copies db t l0 n a :
  Chain db "report" t l0 ->
  (In (Some a) ((l0 ++ repeat (Some t) n) ++ [Some t]) <->
   a = t \/ Ancestor db "report" a t).
Proof.
  intros Hch. rewrite !in_app_iff, (Chain_In _ _ _ _ a Hch). simpl. split.
  - intros [[H|H]|[H|[]]]; auto.
    + apply repeat_spec in H. injection H as ->. auto.
    + injection H as ->. auto.
  - intros [->|H]; auto.
Qed.

Lemma CodeShape_noColon s : CodeShape s -> noColon s.
Proof.
  intros [_ H]. unfold noColon, clean. revert H. apply string_forall_impl.
  intros c Hc. unfold is_colon.
  destruct (Ascii.eqb_spec c ":"%char) as [->|]; [discriminate|reflexivity].
Qed.

(** [getForbiddenProcesses] computes [forbidden_processes_for], whatever
    copies of the term earlier calls have left in the memo table. *)
Lemma getForbiddenProcesses_spec db fuel fps t s l0 :
  CacheOk db (ancestorCache s) -> noColon t ->
  Chain db "report" t l0 -> length l0 < fuel ->
  exists l s',
    BusinessRulesValidator.getForbiddenProcesses db fuel fps t s = Some (l, s') /\
    CacheOk db (ancestorCache s') /\ warnings s' = warnings s /\
    forall p, In p l <-> ForbiddenFor db fps t p.
Proof.
  intros Hc Ht Hch Hlen.
  destruct (getAncestors_spec db fuel t "report" s l0 Hc Ht Hch Hlen)
    as (n & s1 & Hg & _ & Hc1 & Hw1).
  unfold BusinessRulesValidator.getForbiddenProcesses.
  rewrite bind_run, Hg. simpl. eexists _, _. split; [reflexivity|]. simpl.
  split; [apply CacheOk_push; auto|]. split; [exact Hw1|].
  intros p. rewrite uniq_In, In_forbiddenOf. unfold ForbiddenFor.
  split; intros (fp & Hfp & Hp & H); exists fp; repeat split; auto.
  - apply (In_chain_with_copies db t l0 n _ Hch) in H. exact H.
  - apply (In_chain_with_copies db t l0 n _ Hch). exact H.
Qed.

Lemma specificWarning_fields db msgs baseTerm f :
  let w := BusinessRulesValidator.specificWarning db msgs baseTerm f in
  rule w = "BR19" /\ severity w = ruleSeverity msgs "BR19" /\ facet w = Some f.
Proof.
  unfold BusinessRulesValidator.specificWarning, BusinessRulesValidator.createWarning,
    ruleSeverity.
  destruct (msgs !! "BR19"); simpl; auto.
Qed.

(** C7. For a raw commodity whose chain of ancestors in the reporting
    hierarchy is found by the query, [checkBR19] ends, and it pushes a BR19
    warning of severity HIGH for an explicit F28 facet exactly when the
    descriptor of the facet is forbidden for the base term or for one of its
    ancestors in the reporting hierarchy. *)
Theorem BR19_forbidden_processes
  (db : Database) (fuel : nat) (msgs : gmap string WarningMessage)
  (fps : list ForbiddenProcess) (baseTerm : Term) (explicitFacets : list string)
  (s : State) (l0 : list (option string)) :
  type baseTerm = "r" ->
  CodeShape (code baseTerm) ->
  CacheOk db (ancestorCache s) ->
  Chain db "report" (code baseTerm) l0 -> length l0 < fuel ->
  ruleSeverity msgs "BR19" = "HIGH" ->
  exists emitted s',
    BusinessRulesValidator.checkBR19 db fuel msgs fps baseTerm explicitFacets s = Some (tt, s') /\
    warnings s' = warnings s ++ emitted /\
    CacheOk db (ancestorCache s') /\
    forall f, In f explicitFacets -> startsWith f "F28." = true ->
      ((exists w, In w emitted /\ rule w = "BR19" /\ severity w = "HIGH" /\ facet w = Some f)
       <-> ForbiddenFor db fps (code baseTerm) (split_dot_nth 1 f)).
Proof.
  intros Hraw Hcode Hc Hch Hlen Hsev.
  destruct (getForbiddenProcesses_spec db fuel fps (code baseTerm) s l0 Hc
              (CodeShape_noColon _ Hcode) Hch Hlen) as (forb & s1 & Hg & Hc1 & Hw1 & Hforb).
  assert (Hr : HierarchyHelper.isRawCommodity baseTerm = true).
  { unfold HierarchyHelper.isRawCommodity. rewrite Hraw. reflexivity. }
  pose proof (for_each_push (BusinessRulesValidator.facetsOf "F28" explicitFacets)
    (fun facet => includes forb (split_dot_nth 1 facet))
    (BusinessRulesValidator.specificWarning db msgs baseTerm) s1) as Hloop.
  eexists _, _. split.
  { unfold BusinessRulesValidator.checkBR19. rewrite Hr. change (negb true) with false.
    cbv iota. rewrite bind_run, Hg. exact Hloop. }
  simpl.
  split; [rewrite Hw1; reflexivity|]. split; [exact Hc1|].
  intros f Hf HF28. rewrite <- Hforb, <- includes_In.
  split.
  - intros (w & Hw & _ & _ & Hfacet).
    apply in_map_iff in Hw as (f' & <- & Hf').
    apply filter_In in Hf' as [_ Hinc].
    destruct (specificWarning_fields db msgs baseTerm f') as (_ & _ & Hfa).
    rewrite Hfa in Hfacet. injection Hfacet as ->. exact Hinc.
  - intros Hinc. exists (BusinessRulesValidator.specificWarning db msgs baseTerm f).
    destruct (specificWarning_fields db msgs baseTerm f) as (Hrule & Hs & Hfa).
    split; [|rewrite Hrule, Hs, Hsev, Hfa; auto].
    apply in_map, filter_In. split; [|exact Hinc].
    apply filter_In. split; [exact Hf|exact HF28].
Qed.

(** *** Ordinal codes and BR26 *)

(** Equal numbers, decided by [Qeq_bool], are the numbers with the same
    reduced fraction. *)
Lemma Qeq_bool_reflect (a b : Q) : reflect (Qred a = Qred b) (Qeq_bool a b).
Proof.
  destruct (Qeq_bool a b) eqn:H; constructor.
  - apply Qred_complete, Qeq_bool_iff, H.
  - intros E. apply Qeq_bool_neq in H. apply H.
    rewrite <- (Qred_correct a), <- (Qred_correct b), E. reflexivity.
Qed.

Ltac qeq_cases :=
  repeat match goal with
  | |- context [Qeq_bool ?a ?b] => destruct (Qeq_bool_reflect a b)
  | H : context [Qeq_bool ?a ?b] |- _ => destruct (Qeq_bool_reflect a b)
  end.

Lemma lookupQ_Qeq {V} (k k' : Q) (obj : list (Q * V)) :
  Qred k = Qred k' -> lookupQ k obj = lookupQ k' obj.
Proof.
  intros H. induction obj as [|[k0 v] r IH]; simpl; [reflexivity|].
  qeq_cases; congruence.
Qed.

Lemma lookupQ_obj_push {V} (k k' : Q) (v : V) obj :
  lookupQ k' (obj_push k v obj) =
  if Qeq_bool k k' then Some (default [] (lookupQ k obj) ++ [v]) else lookupQ k' obj.
Proof.
  induction obj as [|[k0 vs] r IH]; simpl.
  - qeq_cases; congruence.
  - destruct (Qeq_bool_reflect k k0); simpl.
    + qeq_cases; congruence.
    + rewrite IH. qeq_cases; congruence.
Qed.

Lemma obj_push_keys {V} (k : Q) (v : V) obj e :
  In e (obj_push k v obj) -> fst e = k \/ exists e', In e' obj /\ fst e = fst e'.
Proof.
  induction obj as [|[k0 vs] r IH]; simpl.
  - intros [<-|[]]. auto.
  - destruct (Qeq_bool k k0); simpl.
    + intros [<-|H]; right; [exists (k0, vs)|exists e]; auto.
    + intros [<-|H]; [right; exists (k0, vs); auto|].
      destruct (IH H) as [?|(e' & He' & Hfst)]; [auto|]. right. exists e'. auto.
Qed.

Lemma keysDistinct_obj_push {V} (k : Q) (v : V) obj :
  keysDistinct obj -> keysDistinct (obj_push k v obj).
Proof.
  induction obj as [|[k0 vs] r IH]; simpl.
  - intros _. split; [intros e []|exact I].
  - intros [Hk0 Hr]. destruct (Qeq_bool_reflect k k0); simpl.
    + auto.
    + split; [|auto]. intros e He.
      destruct (obj_push_keys _ _ _ _ He) as [->|(e' & He' & ->)]; [congruence|auto].
Qed.

Lemma lookupQ_In {V} (k : Q) (vs : V) obj :
  keysDistinct obj -> In (k, vs) obj -> lookupQ k obj = Some vs.
Proof.
  induction obj as [|[k0 vs0] r IH]; simpl; [tauto|].
  intros [Hk0 Hr] [Heq|Hin].
  - injection Heq as -> ->. destruct (Qeq_bool_reflect k k); congruence.
  - destruct (Qeq_bool_reflect k k0) as [E|E]; [|auto].
    exfalso. apply (Hk0 _ Hin). simpl. congruence.
Qed.

Lemma lookupQ_Some {V} (k : Q) (vs : V) obj :
  lookupQ k obj = Some vs -> exists k0, In (k0, vs) obj /\ Qred k = Qred k0.
Proof.
  induction obj as [|[k0 vs0] r IH]; simpl; [discriminate|].
  destruct (Qeq_bool_reflect k k0) as [E|E].
  - intros H; injection H as ->. eauto.
  - intros H. destruct (IH H) as (k1 & H1 & H2). eauto.
Qed.

Lemma ordinalGroupsOf_snoc pre p :
  BusinessRulesValidator.ordinalGroupsOf (pre ++ [p]) =
  if Qnonzero (BusinessRulesValidator.p_ordinalCode p)
  then obj_push (BusinessRulesValidator.p_ordinalCode p) (BusinessRulesValidator.p_code p)
                (BusinessRulesValidator.ordinalGroupsOf pre)
  else BusinessRulesValidator.ordinalGroupsOf pre.
Proof. unfold BusinessRulesValidator.ordinalGroupsOf. rewrite fold_left_app. reflexivity. Qed.

Lemma codesWith_snoc k pre p :
  codesWith k (pre ++ [p]) =
  codesWith k pre ++
  (if Qnonzero (BusinessRulesValidator.p_ordinalCode p) &&
      Qeq_bool (BusinessRulesValidator.p_ordinalCode p) k
   then [BusinessRulesValidator.p_code p] else []).
Proof.
  unfold codesWith. rewrite List.filter_app, map_app. simpl.
  destruct (_ && _); reflexivity.
Qed.

Lemma ordinalGroupsOf_keysDistinct processes :
  keysDistinct (BusinessRulesValidator.ordinalGroupsOf processes).
Proof.
  induction processes as [|p pre IH] using rev_ind; [exact I|].
  rewrite ordinalGroupsOf_snoc. destruct (Qnonzero _); [|exact IH].
  apply keysDistinct_obj_push, IH.
Qed.

Lemma lookupQ_ordinalGroupsOf k processes :
  lookupQ k (BusinessRulesValidator.ordinalGroupsOf processes) =
  match codesWith k processes with
  | [] => None
  | c => Some c
  end.
Proof.
  induction processes as [|p pre IH] using rev_ind; [reflexivity|].
  rewrite ordinalGroupsOf_snoc, codesWith_snoc.
  destruct (Qnonzero (BusinessRulesValidator.p_ordinalCode p)); simpl.
  - rewrite lookupQ_obj_push.
    destruct (Qeq_bool_reflect (BusinessRulesValidator.p_ordinalCode p) k) as [E|E].
    + rewrite (lookupQ_Qeq _ _ _ E), IH.
      destruct (codesWith k pre); reflexivity.
    + rewrite IH, app_nil_r. reflexivity.
  - rewrite IH, app_nil_r. reflexivity.
Qed.

(** A filtered list has two elements at least exactly when two positions of
    the list pass the filter. *)
Lemma filter_two {A} (P : A -> bool) (l : list A) :
  1 < length (List.filter P l) <->
  exists i j x y, i <> j /\ l !! i = Some x /\ l !! j = Some y /\ P x = true /\ P y = true.
Proof.
  assert (Hone : forall l : list A, 0 < length (List.filter P l) <->
                   exists j y, l !! j = Some y /\ P y = true).
  { clear l. induction l as [|a l IH]; simpl.
    - split; [lia|]. intros (j & y & H & _). discriminate.
    - destruct (P a) eqn:Ha; simpl.
      + split; [|lia]. intros _. exists 0, a. auto.
      + rewrite IH. split.
        * intros (j & y & H1 & H2). exists (S j), y. auto.
        * intros ([|j] & y & H1 & H2); simpl in H1; [congruence|eauto]. }
  induction l as [|a l IH]; simpl.
  - split; [lia|]. intros (i & j & x & y & _ & H & _). discriminate.
  - destruct (P a) eqn:Ha; simpl.
    + split.
      * intros H. assert (H' : 0 < length (List.filter P l)) by lia.
        apply Hone in H' as (j & y & H1 & H2). exists 0, (S j), a, y. auto.
      * intros (i & j & x & y & Hij & Hi & Hj & Hx & Hy).
        assert (0 < length (List.filter P l)); [|lia]. apply Hone.
        destruct i as [|i], j as [|j]; simpl in *; try congruence; eauto.
    + rewrite IH. split.
      * intros (i & j & x & y & Hij & Hi & Hj & Hx & Hy).
        exists (S i), (S j), x, y. simpl. auto.
      * intros (i & j & x & y & Hij & Hi & Hj & Hx & Hy).
        destruct i as [|i], j as [|j]; simpl in *; try congruence.
        exists i, j, x, y. auto.
Qed.

Lemma Qnonzero_Qred a b : Qred a = Qred b -> Qnonzero a = Qnonzero b.
Proof. unfold Qnonzero. intros H. qeq_cases; congruence. Qed.

Lemma ordinalGroups_two processes :
  (exists e, In e (BusinessRulesValidator.ordinalGroupsOf processes) /\ 1 < length (snd e))
  <-> ShareOrdinal processes.
Proof.
  split.
  - intros ([k vs] & Hin & Hlen). simpl in Hlen.
    pose proof (lookupQ_In _ _ _ (ordinalGroupsOf_keysDistinct processes) Hin) as Hl.
    rewrite lookupQ_ordinalGroupsOf in Hl.
    assert (vs = codesWith k processes) as -> by (destruct (codesWith k processes); congruence).
    unfold codesWith in Hlen. rewrite length_map in Hlen.
    apply filter_two in Hlen as (i & j & p & q & Hij & Hi & Hj & Hp & Hq).
    apply andb_true_iff in Hp as [Hp1 Hp2]. apply andb_true_iff in Hq as [Hq1 Hq2].
    exists i, j, p, q. repeat split; auto.
    apply Qeq_bool_iff in Hp2, Hq2. rewrite Hp2, Hq2. reflexivity.
  - intros (i & j & p & q & Hij & Hi & Hj & Hp & Hpq).
    set (k := BusinessRulesValidator.p_ordinalCode p).
    assert (Hlen : 1 < length (codesWith k processes)).
    { unfold codesWith. rewrite length_map. apply filter_two.
      exists i, j, p, q. repeat split; auto.
      - rewrite Hp. apply Qeq_bool_iff. reflexivity.
      - apply andb_true_iff. split.
        + rewrite <- Hp. symmetry. apply Qnonzero_Qred, Qred_complete, Hpq.
        + apply Qeq_bool_iff. symmetry. exact Hpq. }
    pose proof (lookupQ_ordinalGroupsOf k processes) as Hl.
    destruct (codesWith k processes) as [|c cs] eqn:Hc; [simpl in Hlen; lia|].
    apply lookupQ_Some in Hl as (k0 & Hin & _).
    exists (k0, c :: cs). auto.
Qed.

Lemma In_insert_by_key {V} (e x : Q * V) l :
  In e (insert_by_key x l) <-> e = x \/ In e l.
Proof.
  induction l as [|y l IH]; simpl; [intuition congruence|].
  destruct (Z.leb _ _); simpl; [intuition congruence|]. rewrite IH. intuition congruence.
Qed.

Lemma In_sort_by_key {V} (e : Q * V) l : In e (sort_by_key l) <-> In e l.
Proof.
  unfold sort_by_key. induction l as [|y l IH]; simpl; [tauto|].
  rewrite In_insert_by_key, IH. intuition congruence.
Qed.

Lemma In_object_entries {V} (e : Q * V) obj : In e (object_entries obj) <-> In e obj.
Proof.
  unfold object_entries. rewrite in_app_iff, In_sort_by_key, !filter_In.
  destruct (is_array_index (fst e)); simpl; intuition congruence.
Qed.

Lemma ordinalAmong_app_congr fps l x y p :
  BusinessRulesValidator.ordinalAmong fps x p = BusinessRulesValidator.ordinalAmong fps y p ->
  BusinessRulesValidator.ordinalAmong fps (l ++ x) p =
  BusinessRulesValidator.ordinalAmong fps (l ++ y) p.
Proof.
  intros H. induction l as [|a l IH]; simpl; [exact H|].
  destruct (find _ fps); [reflexivity|exact IH].
Qed.

Lemma ordinalAmong_copies fps t n p :
  BusinessRulesValidator.ordinalAmong fps (repeat (Some t) n ++ [Some t]) p =
  BusinessRulesValidator.ordinalAmong fps [Some t] p.
Proof.
  induction n as [|n IH]; [reflexivity|].
  cbn [repeat app]. cbn [BusinessRulesValidator.ordinalAmong] in *.
  destruct (find _ fps); [reflexivity|exact IH].
Qed.

Lemma getProcessOrdinalCode_spec db fuel fps t p s l0 :
  CacheOk db (ancestorCache s) -> noColon t ->
  Chain db "report" t l0 -> length l0 < fuel ->
  exists s',
    BusinessRulesValidator.getProcessOrdinalCode db fuel fps t p s
      = Some (processOrdinal fps l0 t p, s') /\
    CacheOk db (ancestorCache s') /\ warnings s' = warnings s.
Proof.
  intros Hc Ht Hch Hlen.
  destruct (getAncestors_spec db fuel t "report" s l0 Hc Ht Hch Hlen)
    as (n & s1 & Hg & _ & Hc1 & Hw1).
  assert (Heq : BusinessRulesValidator.ordinalAmong fps
                  ((l0 ++ repeat (Some t) n) ++ [Some t]) p = processOrdinal fps l0 t p).
  { unfold processOrdinal. rewrite <- app_assoc.
    apply ordinalAmong_app_congr, ordinalAmong_copies. }
  unfold BusinessRulesValidator.getProcessOrdinalCode.
  eexists. split.
  - rewrite bind_run, Hg. cbv beta iota. rewrite bind_run.
    unfold HierarchyHelper.pushToAncestors. cbv beta iota.
    unfold mret, M_ret. rewrite Heq. reflexivity.
  - simpl. split; [apply CacheOk_push; auto|exact Hw1].
Qed.

Lemma collectProcesses_spec db fuel fps t facets implicit acc s l0 :
  CacheOk db (ancestorCache s) -> noColon t ->
  Chain db "report" t l0 -> length l0 < fuel ->
  exists s',
    BusinessRulesValidator.collectProcesses db fuel fps t facets implicit acc s
      = Some (acc ++ map (processOf fps l0 t implicit) facets, s') /\
    CacheOk db (ancestorCache s') /\ warnings s' = warnings s.
Proof.
  intros Hc Ht Hch Hlen. revert acc s Hc.
  induction facets as [|f facets IH]; intros acc s Hc; simpl.
  - exists s. rewrite app_nil_r. auto.
  - destruct (getProcessOrdinalCode_spec db fuel fps t (split_dot_nth 1 f) s l0 Hc Ht Hch Hlen)
      as (s1 & Hg & Hc1 & Hw1).
    rewrite bind_run, Hg.
    destruct (IH (acc ++ [BusinessRulesValidator.mkProcess (split_dot_nth 1 f)
                            (processOrdinal fps l0 t (split_dot_nth 1 f)) implicit]) s1 Hc1)
      as (s2 & Hg2 & Hc2 & Hw2).
    exists s2. rewrite Hg2, <- app_assoc. simpl. repeat split; auto. congruence.
Qed.

Lemma getProcessesWithOrdinalCodes_spec db fuel fps baseTerm explicitFacets s l0 :
  CacheOk db (ancestorCache s) -> noColon (code baseTerm) ->
  Chain db "report" (code baseTerm) l0 -> length l0 < fuel ->
  exists s',
    BusinessRulesValidator.getProcessesWithOrdinalCodes db fuel fps baseTerm explicitFacets s
      = Some (processFacets fps l0 baseTerm explicitFacets, s') /\
    CacheOk db (ancestorCache s') /\ warnings s' = warnings s.
Proof.
  intros Hc Ht Hch Hlen. unfold BusinessRulesValidator.getProcessesWithOrdinalCodes.
  destruct (collectProcesses_spec db fuel fps (code baseTerm)
              (BusinessRulesValidator.facetsOf "F28"
                 (HierarchyHelper.parseImplicitFacets (implicit_facets baseTerm)))
              true [] s l0 Hc Ht Hch Hlen) as (s1 & Hg1 & Hc1 & Hw1).
  rewrite bind_run, Hg1.
  destruct (collectProcesses_spec db fuel fps (code baseTerm)
              (BusinessRulesValidator.facetsOf "F28" explicitFacets)
              false ([] ++ map (processOf fps l0 (code baseTerm) true)
                       (BusinessRulesValidator.facetsOf "F28"
                          (HierarchyHelper.parseImplicitFacets (implicit_facets baseTerm))))
              s1 l0 Hc1 Ht Hch Hlen) as (s2 & Hg2 & Hc2 & Hw2).
  exists s2. rewrite Hg2. repeat split; auto. congruence.
Qed.

(** C4, as the code has it. For a base term whose chain of ancestors in the
    reporting hierarchy is found by the query, [checkBR26] ends, and it
    pushes a BR26 warning of severity HIGH exactly when the base term is a
    derivative and two of its F28 process facets, implicit or explicit,
    have one non-zero ordinal code. *)
Theorem BR26_same_ordinal
  (db : Database) (fuel : nat) (msgs : gmap string WarningMessage)
  (fps : list ForbiddenProcess) (baseTerm : Term) (explicitFacets : list string)
  (s : State) (l0 : list (option string)) :
  CodeShape (code baseTerm) ->
  CacheOk db (ancestorCache s) ->
  Chain db "report" (code baseTerm) l0 -> length l0 < fuel ->
  ruleSeverity msgs "BR26" = "HIGH" ->
  exists emitted s',
    BusinessRulesValidator.checkBR26 db fuel msgs fps baseTerm explicitFacets s = Some (tt, s') /\
    warnings s' = warnings s ++ emitted /\
    CacheOk db (ancestorCache s') /\
    ((exists w, In w emitted /\ rule w = "BR26" /\ severity w = "HIGH") <->
     (type baseTerm = "d" /\ ShareOrdinal (processFacets fps l0 baseTerm explicitFacets))).
Proof.
  intros Hcode Hc Hch Hlen Hsev. unfold BusinessRulesValidator.checkBR26.
  destruct (HierarchyHelper.isDerivative baseTerm) eqn:Hd.
  - apply String.eqb_eq in Hd.
    destruct (getProcessesWithOrdinalCodes_spec db fuel fps baseTerm explicitFacets s l0 Hc
                (CodeShape_noColon _ Hcode) Hch Hlen) as (s1 & Hg & Hc1 & Hw1).
    set (procs := processFacets fps l0 baseTerm explicitFacets) in *.
    pose proof (for_each_push
      (object_entries (BusinessRulesValidator.ordinalGroupsOf procs))
      (fun e => Nat.ltb 1 (length (snd e)))
      (fun e => BusinessRulesValidator.createWarning msgs "BR26" (join " - " (snd e))) s1)
      as Hloop.
    eexists _, _. split.
    { change (negb true) with false. cbv iota. rewrite bind_run, Hg. exact Hloop. }
    simpl. split; [rewrite Hw1; reflexivity|]. split; [exact Hc1|].
    rewrite <- ordinalGroups_two. split.
    + intros (w & Hw & _). apply in_map_iff in Hw as (e & _ & He).
      apply filter_In in He as [He Hlen2]. apply (proj1 (In_object_entries _ _)) in He.
      apply Nat.ltb_lt in Hlen2. split; [exact Hd|]. exists e. split; assumption.
    + intros (_ & e & He & Hlen2).
      exists (BusinessRulesValidator.createWarning msgs "BR26" (join " - " (snd e))).
      destruct (createWarning_fields msgs "BR26" (join " - " (snd e))) as (Hr & Hs & _).
      split; [|rewrite Hr, Hs, Hsev; auto].
      apply in_map_iff. exists e. split; [reflexivity|].
      apply filter_In. split; [apply In_object_entries; exact He|].
      apply Nat.ltb_lt. exact Hlen2.
  - exists [], s. change (negb false) with true. cbv iota.
    split; [reflexivity|]. split; [rewrite app_nil_r; reflexivity|]. split; [exact Hc|].
    split; [intros (w & [] & _)|].
    intros [Ht _]. unfold HierarchyHelper.isDerivative in Hd. rewrite Ht in Hd. discriminate.
Qed.

(** *** The facets of the result *)

Lemma validateFacetDescriptor_fst db f ws :
  fst (VBAValidator.validateFacetDescriptor db f ws) = descriptorOk db f.
Proof.
  unfold VBAValidator.validateFacetDescriptor, descriptorOk, HierarchyHelper.belongsToHierarchy.
  destruct (select_term db _); [|reflexivity].
  destruct (select_hierarchy_row db _ _); reflexivity.
Qed.

Lemma validateFacets_loop_fst db cleaned acc ws :
  fst (VBAValidator.validateFacets_loop db cleaned acc ws) =
  acc ++ List.filter (descriptorOk db) cleaned.
Proof.
  revert acc ws. induction cleaned as [|f cleaned IH]; intros acc ws; simpl.
  - rewrite app_nil_r. reflexivity.
  - pose proof (validateFacetDescriptor_fst db f ws) as Hf.
    destruct (VBAValidator.validateFacetDescriptor db f ws) as [b ws1]. simpl in Hf.
    rewrite IH, <- Hf. destruct b; [rewrite <- app_assoc|]; reflexivity.
Qed.

Lemma removeImplicit_loop_fst e i acc b :
  fst (VBAValidator.removeImplicit_loop e i acc b) =
  acc ++ List.filter (fun f => negb (includes i f)) e.
Proof.
  revert acc b. induction e as [|f e IH]; intros acc b; simpl.
  - rewrite app_nil_r. reflexivity.
  - destruct (includes i f); simpl; rewrite IH; [|rewrite <- app_assoc]; reflexivity.
Qed.

(** The facets [validateFoodEx2Code] keeps, and the code it rebuilds. *)
Lemma validateFoodEx2Code_facets db baseTermCode facetString :
  let r := VBAValidator.validateFoodEx2Code db baseTermCode facetString in
  (forall f, In f (default [] (VBAValidator.cleanedFacets r)) ->
     In f (VBAValidator.parseFacetString facetString) /\ FacetShape f /\
     descriptorOk db f = true) /\
  (forall c, VBAValidator.cleanedCode r = Some c ->
     c = baseTermCode +:+
         VBAValidator.buildFacetString (default [] (VBAValidator.cleanedFacets r))).
Proof.
  unfold VBAValidator.validateFoodEx2Code.
  destruct (VBAValidator.checkBaseTerm db baseTermCode []) as [[bv [t|]] ws1];
    destruct bv; simpl; try (split; [intros f []|discriminate]).
  unfold VBAValidator.checkCorrectFacet. rewrite checkCorrectFacet_loop_spec. simpl.
  destruct (forallb facetAccepted (VBAValidator.parseFacetString facetString)) eqn:Hall;
    simpl; [|split; [intros f []|discriminate]].
  apply forallb_facetAccepted in Hall. rewrite List.Forall_forall in Hall.
  unfold VBAValidator.checkAndRemoveImplicitFacets.
  pose proof (removeImplicit_loop_fst (VBAValidator.parseFacetString facetString)
                (VBAValidator.getImplicitFacets t) [] false) as Hcl.
  destruct (VBAValidator.removeImplicit_loop _ _ [] false) as [cl ir]. simpl in Hcl.
  assert (Hres : forall ws, forall f,
            In f (fst (VBAValidator.validateFacets_loop db cl [] ws)) ->
            In f (VBAValidator.parseFacetString facetString) /\ FacetShape f /\
            descriptorOk db f = true).
  { intros ws f Hf. rewrite validateFacets_loop_fst in Hf. simpl in Hf.
    apply filter_In in Hf as [Hf Hok].
    rewrite Hcl in Hf. apply filter_In in Hf as [Hf _]. auto. }
  destruct ir; cbv iota beta;
    match goal with |- context [VBAValidator.validateFacets_loop db cl [] ?ws] =>
      specialize (Hres ws);
      destruct (VBAValidator.validateFacets_loop db cl [] ws) as [vf ws4]
    end; simpl in *; (split; [exact Hres|]); [|discriminate].
  intros c Hc. injection Hc as <-. reflexivity.
Qed.

Lemma select_hierarchy_row_InHierarchy db d h :
  select_hierarchy_row db d h <> None <-> InHierarchy db d h.
Proof.
  unfold select_hierarchy_row, InHierarchy. split.
  - destruct (find _ (term_hierarchies db)) as [row|] eqn:Hf; [|congruence]. intros _.
    apply find_some in Hf as [Hin Heq]. apply andb_true_iff in Heq as [H1 H2].
    apply String.eqb_eq in H1. apply String.eqb_eq in H2. eauto.
  - intros (row & Hin & H1 & H2) Hnone.
    pose proof (find_none _ _ Hnone row Hin) as H. simpl in H.
    rewrite H1, H2, !String.eqb_refl in H. discriminate.
Qed.

(** The map of the code is the map of the specification. *)
Lemma hierarchyMap_is_the_assigned_one : VBAValidator.hierarchyMap = specGroupHierarchy.
Proof. reflexivity. Qed.

Lemma FacetShape_parts f :
  FacetShape f ->
  exists g d, f = g +:+ "." +:+ d /\ GroupShape g /\ CodeShape d /\
              split_dot_nth 0 f = g /\ split_dot_nth 1 f = d.
Proof.
  intros (_ & g & d & -> & Hg & Hd). exists g, d.
  split; [reflexivity|]. split; [exact Hg|]. split; [exact Hd|].
  unfold split_dot_nth.
  change (g +:+ "." +:+ d) with (g +:+ String "."%char d).
  rewrite split_on_app; [|apply GroupShape_no_dot; exact Hg|reflexivity].
  rewrite split_on_clean; [|apply CodeShape_no_dot; exact Hd]. split; reflexivity.
Qed.

(** C9, as the code has it. In a result produced with the default options
    every facet of the facet list is a piece of the input of the shape
    [Fdd.XXXXX] whose descriptor is a term of the catalogue; when its group
    is one of the twenty-nine groups of the facet group to hierarchy mapping
    of the specification, the term is a member of the hierarchy assigned to
    the group; for a group outside the mapping (the reserved F05 and F13 to
    F16 among them) the term is a member of the hierarchy named by the
    group id in lower case. The rebuilt code, when there is one, is the base
    term code followed by exactly these facets. *)
Theorem facets_resolve_in_group_hierarchy
  (db : Database) (fuel : nat) (msgs : gmap string WarningMessage)
  (fps : list ForbiddenProcess) (colors : list (string * FoodEx2Validator.Color))
  (sr : Term -> list string -> string -> string -> list Warning)
  (fullCode : string) (cache : gmap string (list (option string)))
  (r : FoodEx2Validator.Result) (cache' : gmap string (list (option string))) :
  FoodEx2Validator.validateCode db fuel msgs fps colors sr
    FoodEx2Service.defaultOptions fullCode cache = Some (r, cache') ->
  (forall f, In f (FoodEx2Validator.facets r) ->
     (exists pieces,
        Pieces is_hash_or_dollar (snd (FoodEx2Validator.parseFullCode fullCode)) pieces /\
        In f pieces) /\
     FacetShape f /\
     exists g d,
       f = g +:+ "." +:+ d /\ GroupShape g /\ CodeShape d /\
       TermExists db d /\
       (forall h, assoc g specGroupHierarchy = Some h -> InHierarchy db d h) /\
       (assoc g specGroupHierarchy = None -> InHierarchy db d (toLowerCase g))) /\
  (forall c, FoodEx2Validator.cleanedCode r = Some c ->
     c = fst (FoodEx2Validator.parseFullCode fullCode) +:+
         VBAValidator.buildFacetString (FoodEx2Validator.facets r)).
Proof.
  unfold FoodEx2Validator.validateCode, FoodEx2Validator.runVBAValidation.
  destruct (FoodEx2Validator.parseFullCode fullCode) as [b fs]. simpl.
  rewrite andb_false_r.
  destruct (FoodEx2Validator.runBusinessRulesValidation _ _ _ _ _ _ _ _)
    as [[brw c1]|]; [|discriminate].
  intros H. injection H as <- _.
  destruct (validateFoodEx2Code_facets db b fs) as [Hf Hc].
  unfold FoodEx2Validator.formatResult.
  destruct (FoodEx2Validator.categorizeWarnings _) as [[hard soft] inf]. simpl.
  split; [|exact Hc].
  intros f Hin. destruct (Hf f Hin) as (H1 & H2 & H3).
  split.
  { exists (split_on is_hash_or_dollar fs). split; [apply Pieces_split_on|].
    rewrite (parseFacetString_pieces fs _ (Pieces_split_on _ fs)) in H1.
    unfold nonBlank in H1. apply filter_In in H1 as [H1 _]. exact H1. }
  split; [exact H2|].
  destruct (FacetShape_parts f H2) as (g & d & Hfgd & Hg & Hd & H0 & Hd1).
  exists g, d. split; [exact Hfgd|]. split; [exact Hg|]. split; [exact Hd|].
  unfold descriptorOk in H3. rewrite Hd1, H0 in H3.
  destruct (select_term db d) as [row|] eqn:Hrow; [|discriminate].
  split; [apply select_term_TermExists; congruence|].
  unfold HierarchyHelper.belongsToHierarchy, VBAValidator.hierarchyCodeOf in H3.
  rewrite hierarchyMap_is_the_assigned_one in H3.
  split.
  - intros h Hh. change (assoc g specGroupHierarchy = Some h) in Hh.
    rewrite Hh in H3. apply select_hierarchy_row_InHierarchy.
    destruct (select_hierarchy_row db d h); [discriminate|discriminate H3].
  - intros Hn. change (assoc g specGroupHierarchy = None) in Hn.
    rewrite Hn in H3. apply select_hierarchy_row_InHierarchy.
    destruct (select_hierarchy_row db d (toLowerCase g)); [discriminate|discriminate H3].
Qed.

(** *** The valid flag *)

Lemma existsb_blocking ws :
  existsb (fun w => FoodEx2Validator.isSeverity "ERROR" w ||
                    FoodEx2Validator.isSeverity "HIGH" w) ws = false <->
  (forall w, In w ws -> ~ blocking w).
Proof.
  unfold blocking, FoodEx2Validator.isSeverity. split.
  - intros H w Hw [Hs|Hs].
    + assert (existsb (fun w => String.eqb (severity w) "ERROR" || String.eqb (severity w) "HIGH") ws = true);
        [|congruence]. apply existsb_exists. exists w. rewrite Hs. auto.
    + assert (existsb (fun w => String.eqb (severity w) "ERROR" || String.eqb (severity w) "HIGH") ws = true);
        [|congruence]. apply existsb_exists. exists w. rewrite Hs. auto.
  - intros H. destruct (existsb _ ws) eqn:E; [|reflexivity].
    apply existsb_exists in E as (w & Hw & Hs). exfalso. apply (H w Hw).
    apply orb_true_iff in Hs as [Hs|Hs]; apply String.eqb_eq in Hs; auto.
Qed.

Lemma isValid_allowHigh_default ws :
  FoodEx2Validator.isValid_allowHigh FoodEx2Service.defaultOptions ws =
  negb (existsb (fun w => FoodEx2Validator.isSeverity "ERROR" w ||
                          FoodEx2Validator.isSeverity "HIGH" w) ws).
Proof.
  unfold FoodEx2Validator.isValid_allowHigh. simpl. rewrite orb_false_r.
  induction ws as [|w ws IH]; simpl; [reflexivity|].
  destruct (FoodEx2Validator.isSeverity "ERROR" w),
           (FoodEx2Validator.isSeverity "HIGH" w); simpl;
    rewrite ?andb_false_r; auto.
Qed.

(** C1. Under the default configuration the warnings of a result are the
    warnings of the structural validator on the input, followed by those
    the business rules return for the base term and the facets the
    structural validator kept (none when there is no base term), followed by
    those of the soft rules; the valid flag is true exactly when none of
    these has severity ERROR or HIGH, so a structural or business-rule
    warning of such a severity makes the result invalid. The revision of the
    aggregator that consults [allowHighWarnings] agrees under the default
    options. *)
Theorem valid_iff_no_blocking_warning
  (db : Database) (fuel : nat) (msgs : gmap string WarningMessage)
  (fps : list ForbiddenProcess) (colors : list (string * FoodEx2Validator.Color))
  (sr : Term -> list string -> string -> string -> list Warning)
  (fullCode : string) (cache : gmap string (list (option string)))
  (r : FoodEx2Validator.Result) (cache' : gmap string (list (option string))) :
  FoodEx2Service.validateCode db fuel msgs fps colors sr fullCode
    FoodEx2Service.noOptions cache = Some (r, cache') ->
  let vba := VBAValidator.validateFoodEx2Code db
               (fst (FoodEx2Validator.parseFullCode fullCode))
               (snd (FoodEx2Validator.parseFullCode fullCode)) in
  let kept := default [] (VBAValidator.cleanedFacets vba) in
  let structural := VBAValidator.warnings vba in
  let soft := match VBAValidator.baseTerm vba with
              | Some t => sr t kept "ICT" ""
              | None => []
              end in
  exists business,
    match VBAValidator.baseTerm vba with
    | Some t =>
        BusinessRulesValidator.validateBusinessRules db fuel msgs fps t kept "ICT" cache
          = Some (business, cache')
    | None => business = [] /\ cache' = cache
    end /\
    FoodEx2Validator.warnings r = structural ++ business ++ soft /\
    (FoodEx2Validator.valid r = true <->
     forall w, In w structural \/ In w business \/ In w soft -> ~ blocking w) /\
    (forall w, In w structural \/ In w business -> blocking w ->
               FoodEx2Validator.valid r = false) /\
    (FoodEx2Validator.valid r = true <->
     forall w, In w (FoodEx2Validator.warnings r) -> ~ blocking w) /\
    (FoodEx2Validator.isValid_allowHigh FoodEx2Service.defaultOptions
       (FoodEx2Validator.warnings r) = FoodEx2Validator.valid r).
Proof.
  unfold FoodEx2Service.validateCode. simpl.
  unfold FoodEx2Validator.validateCode, FoodEx2Validator.runVBAValidation.
  destruct (FoodEx2Validator.parseFullCode fullCode) as [b fs]. simpl.
  rewrite andb_false_r.
  destruct (FoodEx2Validator.runBusinessRulesValidation _ _ _ _ _ _ _ _)
    as [[brw c1]|] eqn:Hbr; [|discriminate].
  intros H. injection H as <- <-.
  exists brw. split.
  { unfold FoodEx2Validator.runBusinessRulesValidation in Hbr. simpl in Hbr.
    destruct (VBAValidator.baseTerm _); [exact Hbr|].
    injection Hbr as <- <-. auto. }
  assert (Hsoft :
    FoodEx2Validator.runSoftRulesValidation sr FoodEx2Service.defaultOptions
      (VBAValidator.baseTerm (VBAValidator.validateFoodEx2Code db b fs))
      (default [] (VBAValidator.cleanedFacets (VBAValidator.validateFoodEx2Code db b fs)))
    = match VBAValidator.baseTerm (VBAValidator.validateFoodEx2Code db b fs) with
      | Some t => sr t (default [] (VBAValidator.cleanedFacets
                                      (VBAValidator.validateFoodEx2Code db b fs))) "ICT" ""
      | None => []
      end).
  { unfold FoodEx2Validator.runSoftRulesValidation.
    destruct (VBAValidator.baseTerm _); reflexivity. }
  rewrite Hsoft. clear Hsoft Hbr.
  set (soft := match VBAValidator.baseTerm _ with Some t => _ | None => [] end).
  unfold FoodEx2Validator.formatResult.
  destruct (FoodEx2Validator.categorizeWarnings _) as [[hard sft] inf].
  cbn [FoodEx2Validator.warnings FoodEx2Validator.valid default from_option id].
  assert (Hiff : negb (existsb (fun w => FoodEx2Validator.isSeverity "ERROR" w ||
                                          FoodEx2Validator.isSeverity "HIGH" w)
                         (VBAValidator.warnings (VBAValidator.validateFoodEx2Code db b fs) ++ brw ++ soft)) = true <->
                 forall w, In w (VBAValidator.warnings (VBAValidator.validateFoodEx2Code db b fs) ++ brw ++ soft) -> ~ blocking w).
  { rewrite negb_true_iff. apply existsb_blocking. }
  split; [reflexivity|]. split; [|split; [|split]].
  - rewrite Hiff. split; intros Hall w Hw; apply Hall.
    + rewrite !in_app_iff. exact Hw.
    + rewrite !in_app_iff in Hw. exact Hw.
  - intros w Hw Hb. apply not_true_is_false. intros Hv.
    destruct Hiff as [Hf _]. apply (Hf Hv w); [|exact Hb].
    rewrite !in_app_iff. tauto.
  - exact Hiff.
  - apply isValid_allowHigh_default.
Qed.

(** *** BR28 *)

Lemma prefix_spec sub s : String.prefix sub s = true <-> exists post, s = sub +:+ post.
Proof.
  revert s. induction sub as [|c sub IH]; intros s; simpl.
  - split; [intros _; exists s; reflexivity|intros _; destruct s; reflexivity].
  - destruct s as [|d s]; simpl.
    + split; [discriminate|]. intros (post & H). rewrite append_cons in H. discriminate.
    + destruct (Ascii.ascii_dec c d) as [->|Hne].
      * rewrite IH. split; intros (post & H); exists post.
        -- rewrite append_cons, H. reflexivity.
        -- rewrite append_cons in H. injection H as ->. reflexivity.
      * split; [discriminate|]. intros (post & H). rewrite append_cons in H. congruence.
Qed.

Lemma includes_str_nil sub : includes_str "" sub = String.prefix sub "" || false.
Proof. reflexivity. Qed.

Lemma includes_str_cons c s sub :
  includes_str (String c s) sub = String.prefix sub (String c s) || includes_str s sub.
Proof. reflexivity. Qed.

Lemma includes_str_Contains s sub : includes_str s sub = true <-> Contains s sub.
Proof.
  unfold Contains. induction s as [|c s IH];
    [rewrite includes_str_nil|rewrite includes_str_cons].
  - rewrite orb_false_r, prefix_spec. split.
    + intros (post & H). exists "", post. exact H.
    + intros (pre & post & H). destruct pre; [exists post; exact H|].
      rewrite append_cons in H. discriminate.
  - rewrite orb_true_iff, prefix_spec, IH. split.
    + intros [(post & H)|(pre & post & H)].
      * exists "", post. exact H.
      * exists (String c pre), post. rewrite append_cons, H. reflexivity.
    + intros (pre & post & H). destruct pre as [|d pre].
      * left. exists post. exact H.
      * right. rewrite append_cons in H. injection H as -> ->. eauto.
Qed.

Lemma isConcentrateOrPowder_spec t :
  HierarchyHelper.isConcentrateOrPowder t = true <-> NameIndicatesDehydration (name t).
Proof.
  unfold HierarchyHelper.isConcentrateOrPowder, NameIndicatesDehydration.
  rewrite existsb_exists. split; intros (ind & Hin & H); exists ind; split; auto;
    apply includes_str_Contains; exact H.
Qed.

(** C6, as the code has it. [checkBR28] pushes a BR28 warning of severity
    HIGH for an explicit F28 facet with the reconstitution or the dilution
    descriptor exactly when the name of the base term has one of the words
    concentrate, powder, dried, dehydrated in it, whatever the case of the
    letters; the implicit facets of the base term are not looked at. *)
Theorem BR28_by_name
  (msgs : gmap string WarningMessage) (baseTerm : Term) (explicitFacets : list string)
  (s : State) :
  ruleSeverity msgs "BR28" = "HIGH" ->
  exists emitted,
    BusinessRulesValidator.checkBR28 msgs baseTerm explicitFacets s
      = Some (tt, mkState (ancestorCache s) (warnings s ++ emitted)) /\
    forall f, In f explicitFacets -> startsWith f "F28." = true ->
      In (split_dot_nth 1 f) ["A07MR"; "A07MQ"] ->
      ((exists w, In w emitted /\ rule w = "BR28" /\ severity w = "HIGH" /\
                  involvedTerms w = Some (split_dot_nth 1 f))
       <-> NameIndicatesDehydration (name baseTerm)).
Proof.
  intros Hsev. unfold BusinessRulesValidator.checkBR28.
  destruct (HierarchyHelper.isConcentrateOrPowder baseTerm) eqn:Hn.
  - apply isConcentrateOrPowder_spec in Hn.
    eexists. split.
    { change (negb true) with false. cbv iota.
      exact (for_each_push (BusinessRulesValidator.facetsOf "F28" explicitFacets)
               (fun facet => includes ["A07MR"; "A07MQ"] (split_dot_nth 1 facet))
               (fun facet => BusinessRulesValidator.createWarning msgs "BR28"
                               (split_dot_nth 1 facet)) s). }
    intros f Hf HF28 Hrec. split; [intros _; exact Hn|]. intros _.
    exists (BusinessRulesValidator.createWarning msgs "BR28" (split_dot_nth 1 f)).
    destruct (createWarning_fields msgs "BR28" (split_dot_nth 1 f)) as (Hr & Hs & Hi & _).
    split; [|rewrite Hr, Hs, Hsev, Hi; auto].
    apply in_map_iff. exists f. split; [reflexivity|].
    apply filter_In. split; [apply filter_In; split; [exact Hf|exact HF28]|].
    apply includes_In. exact Hrec.
  - exists []. split.
    { change (negb false) with true. cbv iota. destruct s. simpl. rewrite app_nil_r. reflexivity. }
    intros f _ _ _. split; [intros (w & [] & _)|].
    intros H. apply isConcentrateOrPowder_spec in H. congruence.
Qed.

(** *** The validator returns *)

Lemma queriesFinishOnRows_sound db fuel :
  0 < fuel -> queriesFinishOnRows db fuel = true -> QueriesFinish db fuel.
Proof.
  intros Hfuel Hall t h. unfold queriesFinishOnRows in Hall. rewrite forallb_forall in Hall.
  destruct (select_hierarchy_row db t h) as [row|] eqn:Hrow.
  - unfold select_hierarchy_row in Hrow. apply find_some in Hrow as [Hin Heq].
    apply andb_true_iff in Heq as [H1 H2].
    apply String.eqb_eq in H1, H2. subst.
    specialize (Hall row Hin).
    destruct (HierarchyHelper.ancestorsQuery db fuel (h_term_code row) (hierarchy_code row));
      [eauto|discriminate].
  - destruct fuel as [|n]; [lia|]. simpl. rewrite Hrow. eauto.
Qed.

Lemma Returns_ret {A} (x : A) : Returns (mret x).
Proof. intros s. exists x, s. reflexivity. Qed.

Lemma Returns_bind {A B} (c : M A) (f : A -> M B) :
  Returns c -> (forall x, Returns (f x)) -> Returns (c ≫= f).
Proof.
  intros Hc Hf s. destruct (Hc s) as (x & s1 & H1). destruct (Hf x s1) as (y & s2 & H2).
  exists y, s2. rewrite bind_run, H1. exact H2.
Qed.

Lemma Returns_push w : Returns (push w).
Proof. intros s. eexists _, _. reflexivity. Qed.

Lemma Returns_getWarnings : Returns getWarnings.
Proof. intros s. eexists _, _. reflexivity. Qed.

Lemma Returns_for_each {A} (l : list A) (f : A -> M unit) :
  (forall x, Returns (f x)) -> Returns (for_each l f).
Proof.
  intros Hf. induction l as [|x l IH]; simpl; [apply Returns_ret|].
  apply Returns_bind; [apply Hf|intros _; exact IH].
Qed.

Lemma Returns_some_await {A} (l : list A) (f : A -> M bool) :
  (forall x, Returns (f x)) -> Returns (some_await l f).
Proof.
  intros Hf. induction l as [|x l IH]; simpl; [apply Returns_ret|].
  apply Returns_bind; [apply Hf|]. intros [|]; [apply Returns_ret|exact IH].
Qed.

Lemma Returns_pushToAncestors key x : Returns (HierarchyHelper.pushToAncestors key x).
Proof. intros s. eexists _, _. reflexivity. Qed.

Section Returning.

Variable db : Database.
Variable fuel : nat.
Variable msgs : gmap string WarningMessage.
Variable fps : list ForbiddenProcess.
Hypothesis Hfinish : QueriesFinish db fuel.

Lemma Returns_getAncestors t h : Returns (HierarchyHelper.getAncestors db fuel t h).
Proof.
  intros s. unfold HierarchyHelper.getAncestors.
  destruct (ancestorCache s !! HierarchyHelper.cacheKey t h); [eauto|].
  destruct (Hfinish t h) as [l ->]. eauto.
Qed.

Lemma Returns_isChildOf c p h : Returns (HierarchyHelper.isChildOf db fuel c p h).
Proof.
  unfold HierarchyHelper.isChildOf. destruct (String.eqb c p); [apply Returns_ret|].
  apply Returns_bind; [apply Returns_getAncestors|intros; apply Returns_ret].
Qed.

Lemma Returns_isChildOfAny c ps h : Returns (HierarchyHelper.isChildOfAny db fuel c ps h).
Proof.
  unfold HierarchyHelper.isChildOfAny.
  apply Returns_bind; [apply Returns_getAncestors|intros; apply Returns_ret].
Qed.

Lemma Returns_isParentOf p c h : Returns (HierarchyHelper.isParentOf db fuel p c h).
Proof. apply Returns_isChildOf. Qed.

Create HintDb returns.

#[local] Hint Resolve Returns_ret Returns_push Returns_getWarnings Returns_pushToAncestors
  Returns_getAncestors Returns_isChildOf Returns_isChildOfAny Returns_isParentOf : returns.

(** One step of a proof that a composed action returns. *)
Ltac returns_step :=
  match goal with
  | |- Returns (if ?b then _ else _) => destruct b
  | |- Returns (match ?x with _ => _ end) => destruct x
  | |- Returns (_ ≫= _) => apply Returns_bind; [|intros]
  | |- Returns (for_each _ _) => apply Returns_for_each; intros
  | |- Returns (some_await _ _) => apply Returns_some_await; intros
  | |- Returns _ => solve [auto with returns]
  end.

Ltac returns := cbv zeta; repeat returns_step.

Lemma Returns_getForbiddenProcesses t :
  Returns (BusinessRulesValidator.getForbiddenProcesses db fuel fps t).
Proof. unfold BusinessRulesValidator.getForbiddenProcesses. returns. Qed.

Lemma Returns_getProcessOrdinalCode t p :
  Returns (BusinessRulesValidator.getProcessOrdinalCode db fuel fps t p).
Proof. unfold BusinessRulesValidator.getProcessOrdinalCode. returns. Qed.

Lemma Returns_collectProcesses t facets implicit acc :
  Returns (BusinessRulesValidator.collectProcesses db fuel fps t facets implicit acc).
Proof.
  revert acc. induction facets as [|f facets IH]; intros acc; simpl; [apply Returns_ret|].
  apply Returns_bind; [apply Returns_getProcessOrdinalCode|intros; apply IH].
Qed.

Lemma Returns_getProcessesWithOrdinalCodes t facets :
  Returns (BusinessRulesValidator.getProcessesWithOrdinalCodes db fuel fps t facets).
Proof.
  unfold BusinessRulesValidator.getProcessesWithOrdinalCodes. cbv zeta.
  apply Returns_bind; intros; apply Returns_collectProcesses.
Qed.

Lemma Returns_checkBR11_generics p gs :
  Returns (BusinessRulesValidator.checkBR11_generics db fuel msgs p gs).
Proof. induction gs as [|g gs IH]; simpl; returns. Qed.

Lemma Returns_checkBR16_implicit g c l :
  Returns (BusinessRulesValidator.checkBR16_implicit db fuel msgs g c l).
Proof. induction l as [|x l IH]; simpl; returns. Qed.

#[local] Hint Resolve Returns_getForbiddenProcesses Returns_getProcessOrdinalCode
  Returns_getProcessesWithOrdinalCodes Returns_checkBR11_generics
  Returns_checkBR16_implicit : returns.

Lemma Returns_runRules baseTerm facets context :
  Returns (BusinessRulesValidator.runRules db fuel msgs fps baseTerm facets context).
Proof.
  unfold BusinessRulesValidator.runRules,
    BusinessRulesValidator.checkBR01, BusinessRulesValidator.checkBR03,
    BusinessRulesValidator.checkBR04, BusinessRulesValidator.checkBR05,
    BusinessRulesValidator.checkBR06, BusinessRulesValidator.checkBR07,
    BusinessRulesValidator.checkBR08, BusinessRulesValidator.checkBR10,
    BusinessRulesValidator.checkBR11, BusinessRulesValidator.checkBR12,
    BusinessRulesValidator.checkBR13, BusinessRulesValidator.checkBR14,
    BusinessRulesValidator.checkBR15, BusinessRulesValidator.checkBR16,
    BusinessRulesValidator.checkBR17, BusinessRulesValidator.checkBR19,
    BusinessRulesValidator.checkBR20, BusinessRulesValidator.checkBR21,
    BusinessRulesValidator.checkBR22, BusinessRulesValidator.checkBR23,
    BusinessRulesValidator.checkBR24, BusinessRulesValidator.checkBR25,
    BusinessRulesValidator.checkBR26, BusinessRulesValidator.checkBR27,
    BusinessRulesValidator.checkBR28.
  returns.
Qed.

End Returning.

(** Where the recursive query finishes, a validator with the default
    options answers every input, from every state of its memo table. *)
Theorem validateCode_returns
  (db : Database) (fuel : nat) (msgs : gmap string WarningMessage)
  (fps : list ForbiddenProcess) (colors : list (string * FoodEx2Validator.Color))
  (sr : Term -> list string -> string -> string -> list Warning)
  (fullCode : string) (cache : gmap string (list (option string))) :
  QueriesFinish db fuel ->
  exists r cache',
    FoodEx2Service.validateCode db fuel msgs fps colors sr fullCode
      FoodEx2Service.noOptions cache = Some (r, cache').
Proof.
  intros Hfinish. unfold FoodEx2Service.validateCode. simpl.
  unfold FoodEx2Validator.validateCode, FoodEx2Validator.runVBAValidation.
  destruct (FoodEx2Validator.parseFullCode fullCode) as [b fs]. simpl.
  rewrite andb_false_r.
  unfold FoodEx2Validator.runBusinessRulesValidation. simpl.
  destruct (VBAValidator.baseTerm _) as [t|]; [|eauto].
  unfold BusinessRulesValidator.validateBusinessRules.
  destruct (Returns_runRules db fuel msgs fps Hfinish t
              (default [] (VBAValidator.cleanedFacets (VBAValidator.validateFoodEx2Code db b fs)))
              "ICT" (mkState cache [])) as ([] & s' & ->).
  eauto.
Qed.

(** *** The claims on the small catalogue *)

Lemma defaults_severity :
  ruleSeverity DataLoader.getDefaultWarningMessages "BR19" = "HIGH" /\
  ruleSeverity DataLoader.getDefaultWarningMessages "BR26" = "HIGH" /\
  ruleSeverity DataLoader.getDefaultWarningMessages "BR28" = "HIGH" /\
  ruleSeverity DataLoader.getDefaultWarningMessages "BR16" = "HIGH".
Proof. vm_compute. auto. Qed.

Lemma demo_chain_cereal : Chain demoDb "report" "A000L" [Some "A000K"; Some "A000J"; None].
Proof. apply (ancestorsQuery_Chain demoDb 10). reflexivity. Qed.

Lemma demo_chain_milk : Chain demoDb "report" "A0BXM" [Some "A02LR"; None].
Proof. apply (ancestorsQuery_Chain demoDb 10). reflexivity. Qed.

Lemma demo_facet_shape : Forall FacetShape ["F28.A07JS"; "F01.A0F6E"].
Proof. repeat constructor; apply facetFormatWarning_None; reflexivity. Qed.

Lemma demoOutcome_run :
  FoodEx2Service.validateCode demoDb 10 DataLoader.getDefaultWarningMessages demoForbidden
    FoodEx2Validator.getDefaultWarningColors noSoftRules "A000L#F28.A07LG"
    FoodEx2Service.noOptions ∅ = demoOutcome.
Proof. vm_compute. reflexivity. Qed.

Lemma valid_iff_no_blocking_warning_witness :
  exists r c,
    FoodEx2Service.validateCode demoDb 10 DataLoader.getDefaultWarningMessages demoForbidden
      FoodEx2Validator.getDefaultWarningColors noSoftRules "A000L#F28.A07LG"
      FoodEx2Service.noOptions ∅ = Some (r, c) /\
    let vba := VBAValidator.validateFoodEx2Code demoDb
                 (fst (FoodEx2Validator.parseFullCode "A000L#F28.A07LG"))
                 (snd (FoodEx2Validator.parseFullCode "A000L#F28.A07LG")) in
    let kept := default [] (VBAValidator.cleanedFacets vba) in
    let structural := VBAValidator.warnings vba in
    let soft := match VBAValidator.baseTerm vba with
                | Some t => noSoftRules t kept "ICT" ""
                | None => []
                end in
    exists business,
      match VBAValidator.baseTerm vba with
      | Some t =>
          BusinessRulesValidator.validateBusinessRules demoDb 10
            DataLoader.getDefaultWarningMessages demoForbidden t kept "ICT" ∅
            = Some (business, c)
      | None => business = [] /\ c = ∅
      end /\
      FoodEx2Validator.warnings r = structural ++ business ++ soft /\
      (FoodEx2Validator.valid r = true <->
       forall w, In w structural \/ In w business \/ In w soft -> ~ blocking w) /\
      (forall w, In w structural \/ In w business -> blocking w ->
                 FoodEx2Validator.valid r = false) /\
      (FoodEx2Validator.valid r = true <->
       forall w, In w (FoodEx2Validator.warnings r) -> ~ blocking w) /\
      (FoodEx2Validator.isValid_allowHigh FoodEx2Service.defaultOptions
         (FoodEx2Validator.warnings r) = FoodEx2Validator.valid r).
Proof.
  pose proof demoOutcome_run as Hrun. unfold demoOutcome in Hrun.
  eexists _, _. split; [exact Hrun|].
  exact (valid_iff_no_blocking_warning _ _ _ _ _ _ _ _ _ _ Hrun).
Defined.

Lemma implicit_facets_split_at_dollar_witness :
  Pieces is_dollar "$F01.A0F6E#F27.A0F6E$$F28.A07JS$"
    [""; "F01.A0F6E#F27.A0F6E"; ""; "F28.A07JS"; ""] /\
  HierarchyHelper.parseImplicitFacets
    (implicit_facets (demoTermWith "$F01.A0F6E#F27.A0F6E$$F28.A07JS$"))
    = ["F01.A0F6E#F27.A0F6E"; "F28.A07JS"] /\
  VBAValidator.getImplicitFacets (demoTermWith "$F01.A0F6E#F27.A0F6E$$F28.A07JS$")
    = ["F01.A0F6E#F27.A0F6E"; "F28.A07JS"].
Proof.
  assert (H : Pieces is_dollar "$F01.A0F6E#F27.A0F6E$$F28.A07JS$"
                [""; "F01.A0F6E#F27.A0F6E"; ""; "F28.A07JS"; ""]).
  { apply (Pieces_more is_dollar "" "$"); [reflexivity|reflexivity|].
    apply (Pieces_more is_dollar "F01.A0F6E#F27.A0F6E" "$"); [reflexivity|reflexivity|].
    apply (Pieces_more is_dollar "" "$"); [reflexivity|reflexivity|].
    apply (Pieces_more is_dollar "F28.A07JS" "$"); [reflexivity|reflexivity|].
    apply Pieces_last. reflexivity. }
  split; [exact H|].
  exact (proj2 (implicit_facets_split_at_dollar
                  (demoTermWith "$F01.A0F6E#F27.A0F6E$$F28.A07JS$")) _ H).
Defined.

Lemma BR26_same_ordinal_witness :
  exists emitted s',
    BusinessRulesValidator.checkBR26 demoDb 10 DataLoader.getDefaultWarningMessages
      demoForbidden demoMilk [] emptyState = Some (tt, s') /\
    warnings s' = warnings emptyState ++ emitted /\
    CacheOk demoDb (ancestorCache s') /\
    ((exists w, In w emitted /\ rule w = "BR26" /\ severity w = "HIGH") <->
     (type demoMilk = "d" /\
      ShareOrdinal (processFacets demoForbidden [Some "A02LR"; None] demoMilk []))).
Proof.
  apply (BR26_same_ordinal demoDb 10 DataLoader.getDefaultWarningMessages demoForbidden
           demoMilk [] emptyState [Some "A02LR"; None]).
  - split; reflexivity.
  - apply CacheOk_empty.
  - exact demo_chain_milk.
  - simpl; lia.
  - reflexivity.
Defined.

(** C4 as stated fails. The two implicit processes of the first term have
    the ordinal code 1 and no process facet is explicit: BR26 is pushed. The
    two explicit processes of the second term have the ordinal code 3/2,
    which is not an integer: BR26 is pushed as well. *)
Lemma BR26_without_explicit_process :
  (HierarchyHelper.parseImplicitFacets (implicit_facets demoMilk) = ["F28.A07KG"; "F28.A07KH"] /\
   BusinessRulesValidator.facetsOf "F28" ([] : list string) = [] /\
   exists w,
     warningsOf (BusinessRulesValidator.checkBR26 demoDb 10 DataLoader.getDefaultWarningMessages
                   demoForbidden demoMilk []) = Some [w] /\
     rule w = "BR26" /\ severity w = "HIGH" /\ involvedTerms w = Some "A07KG - A07KH") /\
  (map BusinessRulesValidator.p_ordinalCode
     (processFacets demoForbidden [] demoJuice ["F28.A07LG"; "F28.A07MR"])
     = [(3 # 2)%Q; (3 # 2)%Q] /\
   exists w,
     warningsOf (BusinessRulesValidator.checkBR26 demoDb 10 DataLoader.getDefaultWarningMessages
                   demoForbidden demoJuice ["F28.A07LG"; "F28.A07MR"]) = Some [w] /\
     rule w = "BR26" /\ severity w = "HIGH" /\ involvedTerms w = Some "A07LG - A07MR").
Proof.
  split.
  - split; [reflexivity|]. split; [reflexivity|].
    eexists. split; [vm_compute; reflexivity|]. repeat split.
  - split; [reflexivity|].
    eexists. split; [vm_compute; reflexivity|]. repeat split.
Qed.

Lemma BR28_by_name_witness :
  ruleSeverity DataLoader.getDefaultWarningMessages "BR28" = "HIGH" /\
  exists emitted,
    BusinessRulesValidator.checkBR28 DataLoader.getDefaultWarningMessages demoPowder
      ["F28.A07MR"] emptyState
      = Some (tt, mkState (ancestorCache emptyState) (warnings emptyState ++ emitted)) /\
    forall f, In f ["F28.A07MR"] -> startsWith f "F28." = true ->
      In (split_dot_nth 1 f) ["A07MR"; "A07MQ"] ->
      ((exists w, In w emitted /\ rule w = "BR28" /\ severity w = "HIGH" /\
                  involvedTerms w = Some (split_dot_nth 1 f))
       <-> NameIndicatesDehydration (name demoPowder)).
Proof.
  split; [reflexivity|].
  apply (BR28_by_name DataLoader.getDefaultWarningMessages demoPowder ["F28.A07MR"] emptyState).
  reflexivity.
Defined.

(** C6 as stated fails: the term has an implicit F28 descriptor that signals
    dehydration and a name without any of the four words; the explicit
    reconstitution facet gets no BR28 warning. *)
Lemma BR28_ignores_implicit_facets :
  In "F28.A07KG" dehydrationFacets /\
  In "F28.A07KG" (HierarchyHelper.parseImplicitFacets (implicit_facets demoMilk)) /\
  warningsOf (BusinessRulesValidator.checkBR28 DataLoader.getDefaultWarningMessages
                demoMilk ["F28.A07MR"]) = Some [].
Proof. split; [simpl; auto|]. split; [simpl; auto|]. reflexivity. Qed.

Lemma BR19_forbidden_processes_witness :
  exists emitted s',
    BusinessRulesValidator.checkBR19 demoDb 10 DataLoader.getDefaultWarningMessages
      demoForbidden demoCereal ["F28.A07LG"] emptyState = Some (tt, s') /\
    warnings s' = warnings emptyState ++ emitted /\
    CacheOk demoDb (ancestorCache s') /\
    forall f, In f ["F28.A07LG"] -> startsWith f "F28." = true ->
      ((exists w, In w emitted /\ rule w = "BR19" /\ severity w = "HIGH" /\ facet w = Some f)
       <-> ForbiddenFor demoDb demoForbidden (code demoCereal) (split_dot_nth 1 f)).
Proof.
  apply (BR19_forbidden_processes demoDb 10 DataLoader.getDefaultWarningMessages
           demoForbidden demoCereal ["F28.A07LG"] emptyState
           [Some "A000K"; Some "A000J"; None]).
  - reflexivity.
  - split; reflexivity.
  - apply CacheOk_empty.
  - exact demo_chain_cereal.
  - simpl; lia.
  - reflexivity.
Defined.

Lemma demoOutcome3_run :
  FoodEx2Validator.validateCode demoDb 10 DataLoader.getDefaultWarningMessages demoForbidden
    FoodEx2Validator.getDefaultWarningColors noSoftRules FoodEx2Service.defaultOptions
    "A000L#F28.A07LG$F28.ZZZZZ$F01.A07KG" ∅ = demoOutcome3.
Proof. vm_compute. reflexivity. Qed.

Lemma facets_resolve_in_group_hierarchy_witness :
  exists r c,
    FoodEx2Validator.validateCode demoDb 10 DataLoader.getDefaultWarningMessages demoForbidden
      FoodEx2Validator.getDefaultWarningColors noSoftRules FoodEx2Service.defaultOptions
      "A000L#F28.A07LG$F28.ZZZZZ$F01.A07KG" ∅ = Some (r, c) /\
    FoodEx2Validator.facets r = ["F28.A07LG"] /\
    (forall f, In f (FoodEx2Validator.facets r) ->
       (exists pieces,
          Pieces is_hash_or_dollar
            (snd (FoodEx2Validator.parseFullCode "A000L#F28.A07LG$F28.ZZZZZ$F01.A07KG"))
            pieces /\
          In f pieces) /\
       FacetShape f /\
       exists g d,
         f = g +:+ "." +:+ d /\ GroupShape g /\ CodeShape d /\
         TermExists demoDb d /\
         (forall h, assoc g specGroupHierarchy = Some h -> InHierarchy demoDb d h) /\
         (assoc g specGroupHierarchy = None -> InHierarchy demoDb d (toLowerCase g))) /\
    (forall c0, FoodEx2Validator.cleanedCode r = Some c0 ->
       c0 = fst (FoodEx2Validator.parseFullCode "A000L#F28.A07LG$F28.ZZZZZ$F01.A07KG") +:+
            VBAValidator.buildFacetString (FoodEx2Validator.facets r)).
Proof.
  pose proof demoOutcome3_run as Hrun. unfold demoOutcome3 in Hrun.
  eexists _, _. split; [exact Hrun|]. split; [reflexivity|].
  exact (facets_resolve_in_group_hierarchy _ _ _ _ _ _ _ _ _ _ Hrun).
Defined.

Lemma demoReserved_run :
  FoodEx2Validator.validateCode demoReservedDb 10 DataLoader.getDefaultWarningMessages
    demoForbidden FoodEx2Validator.getDefaultWarningColors noSoftRules
    FoodEx2Service.defaultOptions "A000L#F05.A0F5A" ∅ = demoReserved.
Proof. vm_compute. reflexivity. Qed.

(** C9 as stated fails. F05 is a reserved group: the mapping of the
    specification assigns no hierarchy to it. The validator looks the
    descriptor up in the hierarchy f05, finds it there, and keeps the facet
    in the facet list of a valid result. *)
Lemma facet_of_reserved_group_kept :
  exists r c,
    FoodEx2Validator.validateCode demoReservedDb 10 DataLoader.getDefaultWarningMessages
      demoForbidden FoodEx2Validator.getDefaultWarningColors noSoftRules
      FoodEx2Service.defaultOptions "A000L#F05.A0F5A" ∅ = Some (r, c) /\
    FoodEx2Validator.facets r = ["F05.A0F5A"] /\
    FoodEx2Validator.valid r = true /\
    assoc "F05" specGroupHierarchy = None /\
    (forall h, In ("F05", h) specGroupHierarchy -> False) /\
    (forall h, InHierarchy demoReservedDb "A0F5A" h -> h = "f05").
Proof.
  pose proof demoReserved_run as Hrun. unfold demoReserved in Hrun.
  eexists _, _. split; [exact Hrun|]. split; [reflexivity|]. split; [reflexivity|].
  split; [reflexivity|]. split.
  - intros h Hin. simpl in Hin.
    repeat (destruct Hin as [Hin|Hin]; [discriminate Hin|]). exact Hin.
  - intros h (row & Hin & H1 & H2). simpl in Hin.
    repeat (destruct Hin as [Hin|Hin]; [subst row; simpl in H1, H2; try discriminate H1|]);
      [symmetry; exact H2|contradiction].
Qed.

(** C8 as stated fails. The remainder of A000L# $F28.A07LG is cut into an
    empty piece, a piece that is one space and the piece F28.A07LG. The
    piece of one space is not empty and not of the shape of a facet, and it
    gets no warning: the result is valid and has no warning at all. *)
Lemma blank_fragment_is_not_rejected :
  let r := VBAValidator.validateFoodEx2Code demoDb
             (fst (FoodEx2Validator.parseFullCode "A000L# $F28.A07LG"))
             (snd (FoodEx2Validator.parseFullCode "A000L# $F28.A07LG")) in
  snd (FoodEx2Validator.parseFullCode "A000L# $F28.A07LG") = "# $F28.A07LG" /\
  Pieces is_hash_or_dollar "# $F28.A07LG" [""; " "; "F28.A07LG"] /\
  " " <> "" /\ ~ FacetShape " " /\
  VBAValidator.valid r = true /\ VBAValidator.warnings r = [].
Proof.
  cbv zeta. split; [reflexivity|]. split.
  { apply (Pieces_more is_hash_or_dollar "" "#"); [reflexivity|reflexivity|].
    apply (Pieces_more is_hash_or_dollar " " "$"); [reflexivity|reflexivity|].
    apply Pieces_last. reflexivity. }
  split; [discriminate|]. split.
  { intros [H _]. discriminate H. }
  split; reflexivity.
Qed.

Lemma parser_rejects_malformed_witness :
  let r := VBAValidator.validateFoodEx2Code demoDb "A000L" "# $F28#F28.A07LG" in
  VBAValidator.valid r = false /\
  map rule (VBAValidator.warnings r) = ["VBA-FORMAT"] /\
  (forall f, In f [""; " "; "F28"; "F28.A07LG"] -> ~ Blank f ->
     ((exists w, VBAValidator.facetFormatWarning f = Some w /\
                 In w (VBAValidator.warnings r) /\ severity w = "ERROR")
      <-> ~ FacetShape f) /\
     (~ FacetShape f -> VBAValidator.valid r = false)).
Proof.
  cbv zeta. split; [reflexivity|]. split; [reflexivity|].
  assert (Hp : Pieces is_hash_or_dollar "# $F28#F28.A07LG" [""; " "; "F28"; "F28.A07LG"]).
  { apply (Pieces_more is_hash_or_dollar "" "#"); [reflexivity|reflexivity|].
    apply (Pieces_more is_hash_or_dollar " " "$"); [reflexivity|reflexivity|].
    apply (Pieces_more is_hash_or_dollar "F28" "#"); [reflexivity|reflexivity|].
    apply Pieces_last. reflexivity. }
  assert (Hc : CodeShape "A000L") by (split; reflexivity).
  assert (Ht : TermExists demoDb "A000L").
  { eexists. split; [left; reflexivity|reflexivity]. }
  exact (proj1 (proj2 (proj2 (proj2 (proj2 (proj2 (proj2
           (parser_rejects_malformed demoDb "A000L# $F28#F28.A07LG")))))) _ Hp Hc Ht)).
Defined.

Lemma parse_serialize_witness :
  CodeShape "A0B9Z" /\ Forall FacetShape ["F28.A07JS"; "F01.A0F6E"] /\
  parse (serialize ("A0B9Z", ["F28.A07JS"; "F01.A0F6E"])) = ("A0B9Z", ["F28.A07JS"; "F01.A0F6E"]).
Proof.
  assert (Hc : CodeShape "A0B9Z") by (split; reflexivity).
  split; [exact Hc|]. split; [exact demo_facet_shape|].
  apply (parse_serialize "A0B9Z" ["F28.A07JS"; "F01.A0F6E"] Hc demo_facet_shape).
Defined.

(** C2 on the code. The descriptor of the facet is not in the catalogue, so
    the structural validator reports an ERROR; under the default
    configuration the rules run all the same and the result carries the
    warning of BR22 next to the structural one. A call for the context DCF
    is served by a validator built with [stopOnStructuralError] and returns
    the structural warning alone. *)
Lemma structural_error_does_not_stop_rules :
  option_map (fun rc => map (fun w => (rule w, severity w, w_type w))
                            (FoodEx2Validator.warnings (fst rc)))
    (FoodEx2Service.validateCode demoDb 10 DataLoader.getDefaultWarningMessages demoForbidden
       FoodEx2Validator.getDefaultWarningColors noSoftRules "A000L#F28.ZZZZZ"
       FoodEx2Service.noOptions ∅)
    = Some [("VBA-FACET404", "ERROR", "NOT_FOUND"); ("BR22", "NONE", "BUSINESS_RULE")] /\
  option_map (fun rc => map (fun w => (rule w, severity w, w_type w))
                            (FoodEx2Validator.warnings (fst rc)))
    (FoodEx2Service.validateCode demoDb 10 DataLoader.getDefaultWarningMessages demoForbidden
       FoodEx2Validator.getDefaultWarningColors noSoftRules "A000L#F28.ZZZZZ"
       (FoodEx2Service.mkServiceOptions (Some "DCF") None None) ∅)
    = Some [("VBA-FACET404", "ERROR", "NOT_FOUND")].
Proof. split; vm_compute; reflexivity. Qed.

(** C5 on the code. Processed (A07XS) is the parent of Drying (A07KG) in the
    hierarchy [process], the one assigned to F28, and the two are not
    siblings there; the base term has Drying as an implicit F28 facet. The
    rule looks into a hierarchy named [f28] and pushes nothing for the
    explicit facet F28.A07XS. *)
Lemma BR16_wrong_hierarchy :
  VBAValidator.hierarchyCodeOf "F28" = "process" /\
  In "F28.A07KG" (HierarchyHelper.parseImplicitFacets (implicit_facets demoMilk)) /\
  Ancestor demoDb "process" "A07XS" "A07KG" /\
  HierarchyHelper.areSiblings demoDb "A07XS" "A07KG" "process" = false /\
  toLowerCase "F28" = "f28" /\
  warningsOf (BusinessRulesValidator.checkBR16 demoDb 10 DataLoader.getDefaultWarningMessages
                demoMilk ["F28.A07XS"]) = Some [].
Proof.
  split; [reflexivity|]. split; [simpl; auto|]. split.
  - apply Ancestor_parent. eexists. split; reflexivity.
  - repeat split.
Qed.

Lemma demo_queries_finish : QueriesFinish demoDb 10.
Proof. apply queriesFinishOnRows_sound; [lia|reflexivity]. Qed.

Lemma validateCode_returns_witness :
  QueriesFinish demoDb 10 /\
  exists r cache',
    FoodEx2Service.validateCode demoDb 10 DataLoader.getDefaultWarningMessages demoForbidden
      FoodEx2Validator.getDefaultWarningColors noSoftRules "A000L#F28.A07LG"
      FoodEx2Service.noOptions ∅ = Some (r, cache').
Proof.
  split; [exact demo_queries_finish|].
  apply (validateCode_returns demoDb 10 _ _ _ _ _ _ demo_queries_finish).
Defined.

(** * Further properties of the code *)


(** ** Runs on the small catalogue *)

Lemma demoFirst_run : demoValidate "A000L#F28.A07LG" ∅ = demoFirst.
Proof. vm_compute. reflexivity. Qed.

Lemma demoUnknown_run : demoValidate "ZZZZZ#F28.A07LG" ∅ = demoUnknown.
Proof. vm_compute. reflexivity. Qed.

Lemma demoCleaned_run : demoValidate "A0BXM#F28.A07KG$F28.A07MR" ∅ = demoCleaned.
Proof. vm_compute. reflexivity. Qed.

Lemma demoBatch_run : demoBatchOf ["A000L#F28.A07LG"; "ZZZZZ"; "A000L"] = demoBatch.
Proof. vm_compute. reflexivity. Qed.

Lemma demoSoft_run :
  FoodEx2Validator.validateCode demoSoftDb 10 DataLoader.getDefaultWarningMessages
    demoForbidden FoodEx2Validator.getDefaultWarningColors
    SoftRulesValidator.validateSoftRules FoodEx2Service.defaultOptions
    "A000L#F28.A0CRK" ∅ = demoSoft.
Proof. vm_compute. reflexivity. Qed.

Lemma demoCyclic_run :
  FoodEx2Validator.validateCode demoCyclicDb 10 DataLoader.getDefaultWarningMessages
    demoForbidden FoodEx2Validator.getDefaultWarningColors
    SoftRulesValidator.validateSoftRules FoodEx2Service.defaultOptions "A0C1C" ∅ = None.
Proof. vm_compute. reflexivity. Qed.


(** ** The result of a validation *)

Lemma substring_split n s :
  n <= String.length s ->
  String.substring 0 n s +:+ String.substring n (String.length s - n) s = s.
Proof.
  revert n. induction s as [|c s IH]; intros [|n] H; simpl in *; try lia.
  - reflexivity.
  - rewrite substring_0_length. reflexivity.
  - rewrite append_cons, IH by lia. reflexivity.
Qed.

(** [parseFullCode] loses nothing of its input. *)
Lemma parseFullCode_join fullCode :
  fst (FoodEx2Validator.parseFullCode fullCode) +:+
  snd (FoodEx2Validator.parseFullCode fullCode) = fullCode.
Proof.
  unfold FoodEx2Validator.parseFullCode.
  destruct (negb (truthy fullCode) || Nat.ltb (String.length fullCode) 5) eqn:H; simpl.
  - apply append_nil_r.
  - apply orb_false_iff in H as [_ H]. apply Nat.ltb_ge in H.
    apply substring_split. exact H.
Qed.

(** What [validateCode] returns: [formatResult] of the structural result and
    of the warnings of the two rule sets, which are absent when the
    validation stops at a structural error. *)
Lemma validateCode_inv db fuel msgs fps colors sr o fullCode cache r cache' :
  FoodEx2Validator.validateCode db fuel msgs fps colors sr o fullCode cache = Some (r, cache') ->
  let vba := VBAValidator.validateFoodEx2Code db
               (fst (FoodEx2Validator.parseFullCode fullCode))
               (snd (FoodEx2Validator.parseFullCode fullCode)) in
  (r = FoodEx2Validator.formatResult db colors vba None None /\ cache' = cache /\
   VBAValidator.valid vba = false) \/
  (exists brw,
     FoodEx2Validator.runBusinessRulesValidation db fuel msgs fps o
       (VBAValidator.baseTerm vba) (default [] (VBAValidator.cleanedFacets vba)) cache
       = Some (brw, cache') /\
     r = FoodEx2Validator.formatResult db colors vba (Some brw)
           (Some (FoodEx2Validator.runSoftRulesValidation sr o (VBAValidator.baseTerm vba)
                    (default [] (VBAValidator.cleanedFacets vba))))).
Proof.
  unfold FoodEx2Validator.validateCode, FoodEx2Validator.runVBAValidation.
  destruct (FoodEx2Validator.parseFullCode fullCode) as [b fs]. simpl.
  destruct (FoodEx2Validator.skipVBAValidation o); [discriminate|].
  destruct (negb (VBAValidator.valid _) && FoodEx2Validator.stopOnStructuralError o) eqn:Hstop.
  - intros H. injection H as <- <-. left.
    apply andb_true_iff in Hstop as [Hv _]. apply negb_true_iff in Hv. auto.
  - destruct (FoodEx2Validator.runBusinessRulesValidation _ _ _ _ _ _ _ _)
      as [[brw c1]|] eqn:Hbr; [|discriminate].
    intros H. injection H as <- <-. right. eauto.
Qed.

Lemma formatResult_fields db colors vba brw srw :
  let r := FoodEx2Validator.formatResult db colors vba brw srw in
  let all := VBAValidator.warnings vba ++ default [] brw ++ default [] srw in
  FoodEx2Validator.warnings r = all /\
  FoodEx2Validator.valid r =
    negb (existsb (fun w => FoodEx2Validator.isSeverity "ERROR" w ||
                            FoodEx2Validator.isSeverity "HIGH" w) all) /\
  FoodEx2Validator.severity r = FoodEx2Validator.getOverallSeverity all /\
  FoodEx2Validator.originalCode r = VBAValidator.originalCode vba /\
  FoodEx2Validator.cleanedCode r = VBAValidator.cleanedCode vba /\
  FoodEx2Validator.baseTerm r = VBAValidator.baseTerm vba /\
  FoodEx2Validator.facets r = default [] (VBAValidator.cleanedFacets vba) /\
  (FoodEx2Validator.hardWarnings r, FoodEx2Validator.softWarnings r,
   FoodEx2Validator.infoWarnings r) = FoodEx2Validator.categorizeWarnings all /\
  FoodEx2Validator.warningCounts r = FoodEx2Validator.getWarningCounts all.
Proof. unfold FoodEx2Validator.formatResult. simpl. repeat split. Qed.

Lemma outcome_originalCode db b fs r :
  StructuralOutcome db b fs r -> VBAValidator.originalCode r = b +:+ fs.
Proof. destruct 1; reflexivity. Qed.

(** X1. Whatever the options and the state of the memo table, the result of
    a validation carries the code it was asked to validate in
    [originalCode]: the base prefix and the facet string that [parseFullCode]
    cuts the input into are put together again unchanged. *)
Theorem result_keeps_original_code
  (db : Database) (fuel : nat) (msgs : gmap string WarningMessage)
  (fps : list ForbiddenProcess) (colors : list (string * FoodEx2Validator.Color))
  (sr : Term -> list string -> string -> string -> list Warning)
  (o : FoodEx2Validator.Options)
  (fullCode : string) (cache : gmap string (list (option string)))
  (r : FoodEx2Validator.Result) (cache' : gmap string (list (option string))) :
  FoodEx2Validator.validateCode db fuel msgs fps colors sr o fullCode cache = Some (r, cache') ->
  FoodEx2Validator.originalCode r = fullCode.
Proof.
  intros H. apply validateCode_inv in H. cbv zeta in H.
  pose proof (outcome_originalCode _ _ _ _
                (validateFoodEx2Code_outcome db
                   (fst (FoodEx2Validator.parseFullCode fullCode))
                   (snd (FoodEx2Validator.parseFullCode fullCode)))) as Ho.
  rewrite parseFullCode_join in Ho.
  destruct H as [(-> & _ & _)|(brw & _ & ->)];
    rewrite (proj1 (proj2 (proj2 (proj2 (formatResult_fields _ _ _ _ _))))); exact Ho.
Qed.

Lemma result_keeps_original_code_witness :
  exists r c,
    FoodEx2Validator.validateCode demoDb 10 DataLoader.getDefaultWarningMessages demoForbidden
      FoodEx2Validator.getDefaultWarningColors noSoftRules FoodEx2Service.defaultOptions
      "A000L#F28.A07LG$F28.ZZZZZ$F01.A07KG" ∅ = Some (r, c) /\
    FoodEx2Validator.originalCode r = "A000L#F28.A07LG$F28.ZZZZZ$F01.A07KG".
Proof.
  pose proof demoOutcome3_run as Hrun. unfold demoOutcome3 in Hrun.
  eexists _, _. split; [exact Hrun|].
  exact (result_keeps_original_code _ _ _ _ _ _ _ _ _ _ _ Hrun).
Defined.

(** *** Warnings are only ever added *)

Lemma validateFacetDescriptor_extends db f ws :
  exists ext, snd (VBAValidator.validateFacetDescriptor db f ws) = ws ++ ext /\
              Forall (fun w => severity w = "ERROR") ext.
Proof.
  unfold VBAValidator.validateFacetDescriptor.
  destruct (select_term db _) as [row|]; simpl.
  - destruct (select_hierarchy_row db _ _); simpl.
    + exists []. rewrite app_nil_r. auto.
    + eexists. split; [reflexivity|]. repeat constructor.
  - eexists. split; [reflexivity|]. repeat constructor.
Qed.

Lemma validateFacets_loop_extends db cleaned acc ws :
  exists ext, snd (VBAValidator.validateFacets_loop db cleaned acc ws) = ws ++ ext /\
              Forall (fun w => severity w = "ERROR") ext.
Proof.
  revert acc ws. induction cleaned as [|f cleaned IH]; intros acc ws; simpl.
  - exists []. rewrite app_nil_r. auto.
  - destruct (validateFacetDescriptor_extends db f ws) as (e1 & H1 & F1).
    destruct (VBAValidator.validateFacetDescriptor db f ws) as [b ws1]. simpl in H1. subst ws1.
    destruct (IH (if b then acc ++ [f] else acc) (ws ++ e1)) as (e2 & H2 & F2).
    exists (e1 ++ e2). rewrite H2, <- app_assoc. split; [reflexivity|].
    apply Forall_app. auto.
Qed.

Lemma fold_left_extends {A} (P : Warning -> Prop) (step : list Warning -> A -> list Warning) l :
  (forall ws x, exists ext, step ws x = ws ++ ext /\ Forall P ext) ->
  forall ws, exists ext, fold_left step l ws = ws ++ ext /\ Forall P ext.
Proof.
  intros Hstep. induction l as [|x l IH]; intros ws; simpl.
  - exists []. rewrite app_nil_r. auto.
  - destruct (Hstep ws x) as (e1 & -> & F1).
    destruct (IH (ws ++ e1)) as (e2 & -> & F2).
    exists (e1 ++ e2). rewrite <- app_assoc. split; [reflexivity|]. apply Forall_app. auto.
Qed.

Lemma checkSingleCardinalityFacets_extends facets ws :
  exists ext, VBAValidator.checkSingleCardinalityFacets facets ws = ws ++ ext /\
              Forall (fun w => severity w = "HIGH") ext.
Proof.
  unfold VBAValidator.checkSingleCardinalityFacets.
  apply fold_left_extends. intros ws0 [g n].
  destruct (includes _ g && Nat.ltb 1 n).
  - eexists. split; [reflexivity|]. repeat constructor.
  - exists []. rewrite app_nil_r. auto.
Qed.

Lemma checkDuplicateFacets_extends facets ws :
  exists ext, VBAValidator.checkDuplicateFacets facets ws = ws ++ ext /\
              Forall (fun w => severity w = "HIGH") ext.
Proof.
  unfold VBAValidator.checkDuplicateFacets. eexists. split; [reflexivity|].
  apply Forall_map. apply Forall_forall. intros; reflexivity.
Qed.

Lemma filter_length_0 {A} (p : A -> bool) l :
  Nat.eqb (length (List.filter p l)) 0 = true <-> forall x, In x l -> p x = false.
Proof.
  rewrite Nat.eqb_eq. induction l as [|x l IH]; simpl.
  - split; [intros _ ? []|reflexivity].
  - destruct (p x) eqn:Hp; simpl.
    + split; [discriminate|]. intros H. specialize (H x (or_introl eq_refl)). congruence.
    + rewrite IH. split; [intros H y [<-|Hy]; auto|intros H y Hy; auto].
Qed.

Lemma formatWarnings_some facets :
  ~ Forall FacetShape facets ->
  exists w, In w (formatWarnings facets) /\ severity w = "ERROR".
Proof.
  induction facets as [|f facets IH]; intros H.
  - exfalso. apply H. constructor.
  - destruct (VBAValidator.facetFormatWarning f) as [w|] eqn:E.
    + exists w. split; [apply In_formatWarnings; exists f; simpl; auto|].
      apply (facetFormatWarning_ERROR _ _ E).
    + destruct IH as (w & Hw & Hsev).
      { intros Hall. apply H. constructor; [|exact Hall].
        apply facetFormatWarning_None. exact E. }
      exists w. split; [|exact Hsev].
      apply In_formatWarnings in Hw as (g & Hg & Hgw).
      apply In_formatWarnings. exists g. simpl. auto.
Qed.

(** X2. The flag [valid] of a structural result is true exactly when none of
    its warnings has severity ERROR, on each of the four paths by which
    [validateFoodEx2Code] returns: the three early returns with
    [valid: false] all carry an ERROR warning, and the structural warnings
    of severity HIGH (implicit facet removed, cardinality, duplicate) leave
    the flag alone. A valid structural result has a base term and a facet
    list. *)
Theorem structural_valid_iff_no_error (db : Database) (baseTermCode facetString : string) :
  let r := VBAValidator.validateFoodEx2Code db baseTermCode facetString in
  (VBAValidator.valid r = true <->
   forall w, In w (VBAValidator.warnings r) -> severity w <> "ERROR") /\
  (VBAValidator.valid r = true ->
   VBAValidator.baseTerm r <> None /\ VBAValidator.cleanedFacets r <> None).
Proof.
  intros r. subst r.
  destruct (validateFoodEx2Code_outcome db baseTermCode facetString)
    as [w Hs Hr Hsev|w Hs Hrow Hr Hsev|row Hs Hrow Hall|row cl ir ws3 vf ws4 Hs Hrow Hall H3 H4 ws6];
    simpl.
  - split; [|discriminate]. split; [discriminate|].
    intros H. exfalso. apply (H w); simpl; auto.
  - split; [|discriminate]. split; [discriminate|].
    intros H. exfalso. apply (H w); simpl; auto.
  - split; [|discriminate]. split; [discriminate|].
    intros H. exfalso. destruct (formatWarnings_some _ Hall) as (w & Hw & Hsev).
    apply (H w Hw Hsev).
  - split; [|intros _; split; discriminate].
    rewrite filter_length_0. split.
    + intros H w Hw Hsev. specialize (H w Hw). rewrite Hsev in H. discriminate.
    + intros H w Hw. destruct (String.eqb_spec (severity w) "ERROR") as [E|E]; [|reflexivity].
      exfalso. exact (H w Hw E).
Qed.

(** X3. When the base prefix of the input is malformed or names no term of
    the catalogue, the result carries exactly one warning, of severity
    ERROR (VBA-STRUCT for a malformed prefix, VBA-NOTFOUND for an unknown
    term); it is invalid, has no base term, no facets, no cleaned code and
    no description, and the memo table is left as it was. No rule runs on
    such an input, whether or not the validator is told to stop at
    structural errors. *)
Theorem unknown_base_term_single_error
  (db : Database) (fuel : nat) (msgs : gmap string WarningMessage)
  (fps : list ForbiddenProcess) (colors : list (string * FoodEx2Validator.Color))
  (sr : Term -> list string -> string -> string -> list Warning)
  (o : FoodEx2Validator.Options)
  (fullCode : string) (cache : gmap string (list (option string)))
  (r : FoodEx2Validator.Result) (cache' : gmap string (list (option string))) :
  FoodEx2Validator.validateCode db fuel msgs fps colors sr o fullCode cache = Some (r, cache') ->
  ~ CodeShape (fst (FoodEx2Validator.parseFullCode fullCode)) \/
  select_term db (fst (FoodEx2Validator.parseFullCode fullCode)) = None ->
  exists w,
    FoodEx2Validator.warnings r = [w] /\ severity w = "ERROR" /\
    (rule w = "VBA-STRUCT" \/ rule w = "VBA-NOTFOUND") /\
    (rule w = "VBA-STRUCT" <-> ~ CodeShape (fst (FoodEx2Validator.parseFullCode fullCode))) /\
    FoodEx2Validator.valid r = false /\
    FoodEx2Validator.severity r = "ERROR" /\
    FoodEx2Validator.hardWarnings r = [w] /\
    FoodEx2Validator.baseTerm r = None /\
    FoodEx2Validator.facets r = [] /\
    FoodEx2Validator.cleanedCode r = None /\
    FoodEx2Validator.interpretedDescription r = None /\
    cache' = cache.
Proof.
  intros H Hbad. apply validateCode_inv in H. cbv zeta in H.
  set (b := fst (FoodEx2Validator.parseFullCode fullCode)) in *.
  set (fs := snd (FoodEx2Validator.parseFullCode fullCode)) in *.
  assert (Hout : exists w, severity w = "ERROR" /\
            (rule w = "VBA-STRUCT" \/ rule w = "VBA-NOTFOUND") /\
            (rule w = "VBA-STRUCT" <-> ~ CodeShape b) /\
            VBAValidator.validateFoodEx2Code db b fs =
              VBAValidator.mkResult false [w] (b +:+ fs) None None None).
  { destruct (validateFoodEx2Code_outcome db b fs)
      as [w Hs Hr Hsev|w Hs Hrow Hr Hsev|row Hs Hrow Hall|row cl ir ws3 vf ws4 Hs Hrow Hall H3 H4 ws6].
    - exists w. repeat split; auto.
    - exists w. repeat split; auto.
      + rewrite Hr. discriminate.
      + intros Hn. contradiction.
    - exfalso. destruct Hbad; [contradiction|congruence].
    - exfalso. destruct Hbad; [contradiction|congruence]. }
  destruct Hout as (w & Hsev & Hrule & Hiff & Hvba). rewrite Hvba in H.
  exists w.
  assert (Hfmt : forall brw srw, default [] brw = [] -> default [] srw = [] ->
            let r0 := FoodEx2Validator.formatResult db colors
                        (VBAValidator.mkResult false [w] (b +:+ fs) None None None) brw srw in
            FoodEx2Validator.warnings r0 = [w] /\ FoodEx2Validator.valid r0 = false /\
            FoodEx2Validator.severity r0 = "ERROR" /\ FoodEx2Validator.hardWarnings r0 = [w] /\
            FoodEx2Validator.baseTerm r0 = None /\ FoodEx2Validator.facets r0 = [] /\
            FoodEx2Validator.cleanedCode r0 = None /\
            FoodEx2Validator.interpretedDescription r0 = None).
  { intros brw srw Hb Hsr. unfold FoodEx2Validator.formatResult. simpl.
    rewrite Hb, Hsr. simpl.
    unfold FoodEx2Validator.getOverallSeverity, FoodEx2Validator.bucketOf,
      FoodEx2Validator.isSeverity. simpl. rewrite Hsev. simpl. repeat split. }
  destruct H as [(-> & -> & _)|(brw & Hbr & ->)].
  - destruct (Hfmt None None eq_refl eq_refl) as (H1 & H2 & H3 & H4 & H5 & H6 & H7 & H8).
    repeat (split; [assumption|]). reflexivity.
  - simpl in Hbr. injection Hbr as <- <-.
    destruct (Hfmt (Some []) (Some []) eq_refl eq_refl) as (H1 & H2 & H3 & H4 & H5 & H6 & H7 & H8).
    repeat (split; [assumption|]). reflexivity.
Qed.

Lemma unknown_base_term_single_error_witness :
  exists r c,
    demoValidate "ZZZZZ#F28.A07LG" ∅ = Some (r, c) /\
    (~ CodeShape (fst (FoodEx2Validator.parseFullCode "ZZZZZ#F28.A07LG")) \/
     select_term demoDb (fst (FoodEx2Validator.parseFullCode "ZZZZZ#F28.A07LG")) = None) /\
    exists w,
      FoodEx2Validator.warnings r = [w] /\ severity w = "ERROR" /\
      (rule w = "VBA-STRUCT" \/ rule w = "VBA-NOTFOUND") /\
      (rule w = "VBA-STRUCT" <->
       ~ CodeShape (fst (FoodEx2Validator.parseFullCode "ZZZZZ#F28.A07LG"))) /\
      FoodEx2Validator.valid r = false /\
      FoodEx2Validator.severity r = "ERROR" /\
      FoodEx2Validator.hardWarnings r = [w] /\
      FoodEx2Validator.baseTerm r = None /\
      FoodEx2Validator.facets r = [] /\
      FoodEx2Validator.cleanedCode r = None /\
      FoodEx2Validator.interpretedDescription r = None /\
      c = ∅.
Proof.
  pose proof demoUnknown_run as Hrun. unfold demoUnknown in Hrun.
  eexists _, _. split; [exact Hrun|].
  assert (Hbad : ~ CodeShape (fst (FoodEx2Validator.parseFullCode "ZZZZZ#F28.A07LG")) \/
                 select_term demoDb (fst (FoodEx2Validator.parseFullCode "ZZZZZ#F28.A07LG")) = None)
    by (right; reflexivity).
  split; [exact Hbad|].
  exact (unknown_base_term_single_error _ _ _ _ _ _ _ _ _ _ _ Hrun Hbad).
Defined.

Lemma removeImplicit_loop_snd e i acc b :
  snd (VBAValidator.removeImplicit_loop e i acc b) = b || existsb (includes i) e.
Proof.
  revert acc b. induction e as [|f e IH]; intros acc b; simpl.
  - rewrite orb_false_r. reflexivity.
  - destruct (includes i f); simpl; rewrite IH; [|reflexivity].
    rewrite orb_true_r. reflexivity.
Qed.

(** [checkAndRemoveImplicitFacets]: the explicit facets that are not implicit,
    in order; the flag tells whether one was dropped, and the warning
    VBA-IMPLICIT is pushed once in that case. *)
Lemma checkAndRemoveImplicitFacets_spec e i ws :
  VBAValidator.checkAndRemoveImplicitFacets e i ws =
  ((List.filter (fun f => negb (includes i f)) e, existsb (includes i) e),
   ws ++ (if existsb (includes i) e
          then [warning "VBA-IMPLICIT"
                  "Implicit facets were automatically removed (already included in base term)"
                  "HIGH" "IMPLICIT_REMOVED"]
          else [])).
Proof.
  unfold VBAValidator.checkAndRemoveImplicitFacets.
  pose proof (removeImplicit_loop_fst e i [] false) as H1.
  pose proof (removeImplicit_loop_snd e i [] false) as H2.
  destruct (VBAValidator.removeImplicit_loop e i [] false) as [cl ir].
  simpl in H1, H2. subst cl ir.
  destruct (existsb (includes i) e); [reflexivity|]. rewrite app_nil_r. reflexivity.
Qed.

Lemma filter_filter {A} (p q : A -> bool) l :
  List.filter p (List.filter q l) = List.filter (fun x => q x && p x) l.
Proof.
  induction l as [|x l IH]; simpl; [reflexivity|].
  destruct (q x); simpl; [destruct (p x)|]; rewrite IH; reflexivity.
Qed.

(** X4. The facet list of a result, in full: when the base term is known and
    every fragment of the facet string is well formed, it is the list of the
    fragments, in their order and with their repetitions, without those that
    are implicit facets of the base term and without those whose descriptor
    is unknown or outside the hierarchy of its group; in every other case it
    is empty. *)
Theorem facets_of_the_result
  (db : Database) (fuel : nat) (msgs : gmap string WarningMessage)
  (fps : list ForbiddenProcess) (colors : list (string * FoodEx2Validator.Color))
  (sr : Term -> list string -> string -> string -> list Warning)
  (o : FoodEx2Validator.Options)
  (fullCode : string) (cache : gmap string (list (option string)))
  (r : FoodEx2Validator.Result) (cache' : gmap string (list (option string))) :
  FoodEx2Validator.validateCode db fuel msgs fps colors sr o fullCode cache = Some (r, cache') ->
  let base := fst (FoodEx2Validator.parseFullCode fullCode) in
  let frags := VBAValidator.parseFacetString (snd (FoodEx2Validator.parseFullCode fullCode)) in
  (forall row, CodeShape base -> select_term db base = Some row -> Forall FacetShape frags ->
     FoodEx2Validator.facets r =
     List.filter (fun f => negb (includes (VBAValidator.getImplicitFacets (term_of_row row)) f)
                           && descriptorOk db f) frags) /\
  (~ (CodeShape base /\ (exists row, select_term db base = Some row) /\
      Forall FacetShape frags) ->
   FoodEx2Validator.facets r = []).
Proof.
  intros H base frags. apply validateCode_inv in H. cbv zeta in H.
  fold base in H. set (fs := snd (FoodEx2Validator.parseFullCode fullCode)) in *.
  assert (Hf : FoodEx2Validator.facets r =
               default [] (VBAValidator.cleanedFacets (VBAValidator.validateFoodEx2Code db base fs))).
  { destruct H as [(-> & _ & _)|(brw & _ & ->)]; reflexivity. }
  rewrite Hf. clear H Hf.
  destruct (validateFoodEx2Code_outcome db base fs)
    as [w Hs Hr Hsev|w Hs Hrow Hr Hsev|row Hs Hrow Hall|row cl ir ws3 vf ws4 Hs Hrow Hall H3 H4 ws6];
    simpl.
  - split; [intros; contradiction|reflexivity].
  - split; [intros; congruence|reflexivity].
  - split; [intros; contradiction|reflexivity].
  - split.
    + intros row' _ Hrow' _. assert (row' = row) as -> by congruence.
      rewrite checkAndRemoveImplicitFacets_spec in H3. injection H3 as <- _ _.
      pose proof (validateFacets_loop_fst db
                    (List.filter (fun f => negb (includes
                       (VBAValidator.getImplicitFacets (term_of_row row)) f)) frags) [] ws3) as Hv.
      subst frags. rewrite H4 in Hv. simpl in Hv. rewrite Hv. apply filter_filter.
    + intros Hn. exfalso. apply Hn. eauto.
Qed.

Lemma facets_of_the_result_witness :
  exists r c,
    FoodEx2Validator.validateCode demoDb 10 DataLoader.getDefaultWarningMessages demoForbidden
      FoodEx2Validator.getDefaultWarningColors noSoftRules FoodEx2Service.defaultOptions
      "A000L#F28.A07LG$F28.ZZZZZ$F01.A07KG" ∅ = Some (r, c) /\
    FoodEx2Validator.facets r = ["F28.A07LG"] /\
    let base := fst (FoodEx2Validator.parseFullCode "A000L#F28.A07LG$F28.ZZZZZ$F01.A07KG") in
    let frags := VBAValidator.parseFacetString
                   (snd (FoodEx2Validator.parseFullCode "A000L#F28.A07LG$F28.ZZZZZ$F01.A07KG")) in
    (forall row, CodeShape base -> select_term demoDb base = Some row ->
       Forall FacetShape frags ->
       FoodEx2Validator.facets r =
       List.filter (fun f => negb (includes (VBAValidator.getImplicitFacets (term_of_row row)) f)
                             && descriptorOk demoDb f) frags) /\
    (~ (CodeShape base /\ (exists row, select_term demoDb base = Some row) /\
        Forall FacetShape frags) ->
     FoodEx2Validator.facets r = []).
Proof.
  pose proof demoOutcome3_run as Hrun. unfold demoOutcome3 in Hrun.
  eexists _, _. split; [exact Hrun|]. split; [reflexivity|].
  exact (facets_of_the_result _ _ _ _ _ _ _ _ _ _ _ Hrun).
Defined.

(** X5. A result that offers a cleaned code is never valid. The cleaned code
    is given exactly when the base prefix is well formed and names a term,
    every fragment of the facet string is well formed, and one of the
    fragments is an implicit facet of the base term (it is then removed);
    the removal is reported by the warning VBA-IMPLICIT, whose severity HIGH
    blocks validity, and the cleaned code is the base prefix followed by the
    facets of the result. *)
Theorem cleaned_code_means_invalid
  (db : Database) (fuel : nat) (msgs : gmap string WarningMessage)
  (fps : list ForbiddenProcess) (colors : list (string * FoodEx2Validator.Color))
  (sr : Term -> list string -> string -> string -> list Warning)
  (o : FoodEx2Validator.Options)
  (fullCode : string) (cache : gmap string (list (option string)))
  (r : FoodEx2Validator.Result) (cache' : gmap string (list (option string))) :
  FoodEx2Validator.validateCode db fuel msgs fps colors sr o fullCode cache = Some (r, cache') ->
  let base := fst (FoodEx2Validator.parseFullCode fullCode) in
  let fragments :=
    VBAValidator.parseFacetString (snd (FoodEx2Validator.parseFullCode fullCode)) in
  (FoodEx2Validator.cleanedCode r <> None <->
   exists row f,
     CodeShape base /\ select_term db base = Some row /\
     Forall FacetShape fragments /\
     In f fragments /\ In f (VBAValidator.getImplicitFacets (term_of_row row))) /\
  (forall c, FoodEx2Validator.cleanedCode r = Some c ->
     FoodEx2Validator.valid r = false /\
     (exists w, In w (FoodEx2Validator.warnings r) /\ rule w = "VBA-IMPLICIT" /\
                severity w = "HIGH") /\
     (exists t f, FoodEx2Validator.baseTerm r = Some t /\
                  In f fragments /\ In f (VBAValidator.getImplicitFacets t)) /\
     c = base +:+ VBAValidator.buildFacetString (FoodEx2Validator.facets r)).
Proof.
  intros H. apply validateCode_inv in H. cbv zeta in H. cbv zeta.
  set (b := fst (FoodEx2Validator.parseFullCode fullCode)) in *.
  set (fs := snd (FoodEx2Validator.parseFullCode fullCode)) in *.
  set (vba := VBAValidator.validateFoodEx2Code db b fs) in *.
  assert (Hr : exists brw srw, r = FoodEx2Validator.formatResult db colors vba brw srw).
  { destruct H as [(-> & _ & _)|(brw & _ & ->)]; eauto. }
  destruct Hr as (brw & srw & ->). clear H.
  destruct (formatResult_fields db colors vba brw srw)
    as (Hw & Hv & _ & _ & Hcc & Hbt & Hfa & _).
  rewrite Hw, Hv, Hbt, Hfa, Hcc. clear Hw Hv Hcc Hbt Hfa.
  subst vba.
  destruct (validateFoodEx2Code_outcome db b fs)
    as [w Hs Hr Hsev|w Hs Hrow Hr Hsev|row Hs Hrow Hall|row cl ir ws3 vf ws4 Hs Hrow Hall H3 H4 ws6];
    simpl.
  - split; [|discriminate]. split; [congruence|].
    intros (row & f & Hc & _). contradiction.
  - split; [|discriminate]. split; [congruence|].
    intros (row & f & _ & Hr' & _). congruence.
  - split; [|discriminate]. split; [congruence|].
    intros (row' & f & _ & _ & Hall' & _). contradiction.
  - rewrite checkAndRemoveImplicitFacets_spec in H3. injection H3 as <- Hir <-.
    split.
    + split.
      * intros Hne. destruct ir; [|congruence].
        apply existsb_exists in Hir as (f & Hf & Hi).
        apply includes_In in Hi. exists row, f. auto.
      * intros (row' & f & _ & Hrow' & _ & Hf & Hi).
        assert (row' = row) by congruence. subst row'.
        assert (Hex : existsb (includes (VBAValidator.getImplicitFacets (term_of_row row)))
                        (VBAValidator.parseFacetString fs) = true).
        { apply existsb_exists. exists f. split; [exact Hf|]. apply includes_In. exact Hi. }
        rewrite Hex in Hir. subst ir. discriminate.
    + intros c Hc. destruct ir; [|discriminate]. injection Hc as <-.
      rewrite Hir in *.
      match type of H4 with
      | VBAValidator.validateFacets_loop ?d ?c ?a ?w = _ =>
          destruct (validateFacets_loop_extends d c a w) as (e1 & He1 & _)
      end.
      rewrite H4 in He1. simpl in He1.
      destruct (checkSingleCardinalityFacets_extends vf ws4) as (e2 & He2 & _).
      destruct (checkDuplicateFacets_extends vf
                  (VBAValidator.checkSingleCardinalityFacets vf ws4)) as (e3 & He3 & _).
      assert (Hin : In (warning "VBA-IMPLICIT"
                      "Implicit facets were automatically removed (already included in base term)"
                      "HIGH" "IMPLICIT_REMOVED") ws6).
      { subst ws6. rewrite He3, He2, He1. simpl. auto. }
      split; [|split; [|split]].
      * apply negb_false_iff, existsb_exists. eexists. split.
        -- apply in_or_app. left. exact Hin.
        -- reflexivity.
      * eexists. split; [apply in_or_app; left; exact Hin|]. split; reflexivity.
      * apply existsb_exists in Hir as (f & Hf & Hi).
        apply includes_In in Hi. exists (term_of_row row), f. auto.
      * reflexivity.
Qed.

Lemma cleaned_code_means_invalid_witness :
  exists r c,
    demoValidate "A0BXM#F28.A07KG$F28.A07MR" ∅ = Some (r, c) /\
    FoodEx2Validator.cleanedCode r = Some "A0BXM#F28.A07MR" /\
    let base := fst (FoodEx2Validator.parseFullCode "A0BXM#F28.A07KG$F28.A07MR") in
    let fragments :=
      VBAValidator.parseFacetString
        (snd (FoodEx2Validator.parseFullCode "A0BXM#F28.A07KG$F28.A07MR")) in
    (FoodEx2Validator.cleanedCode r <> None <->
     exists row f,
       CodeShape base /\ select_term demoDb base = Some row /\
       Forall FacetShape fragments /\
       In f fragments /\ In f (VBAValidator.getImplicitFacets (term_of_row row))) /\
    (forall c0, FoodEx2Validator.cleanedCode r = Some c0 ->
       FoodEx2Validator.valid r = false /\
       (exists w, In w (FoodEx2Validator.warnings r) /\ rule w = "VBA-IMPLICIT" /\
                  severity w = "HIGH") /\
       (exists t f, FoodEx2Validator.baseTerm r = Some t /\
                    In f fragments /\ In f (VBAValidator.getImplicitFacets t)) /\
       c0 = base +:+ VBAValidator.buildFacetString (FoodEx2Validator.facets r)).
Proof.
  pose proof demoCleaned_run as Hrun. unfold demoCleaned in Hrun.
  eexists _, _. split; [exact Hrun|]. split; [reflexivity|].
  exact (cleaned_code_means_invalid _ _ _ _ _ _ _ _ _ _ _ Hrun).
Defined.


(** ** Severities, buckets and counts *)

Lemma bucketOf_cases w :
  FoodEx2Validator.bucketOf w = 0 \/ FoodEx2Validator.bucketOf w = 1 \/
  FoodEx2Validator.bucketOf w = 2.
Proof.
  unfold FoodEx2Validator.bucketOf.
  repeat match goal with |- context [if ?b then _ else _] => destruct b end; auto.
Qed.

Lemma bucketOf_hard w :
  FoodEx2Validator.bucketOf w = 0 <->
  toUpperCase (severity w) = "ERROR" \/ toUpperCase (severity w) = "HIGH".
Proof.
  unfold FoodEx2Validator.bucketOf.
  destruct (String.eqb_spec (toUpperCase (severity w)) "ERROR") as [E|E]; simpl;
    [tauto|].
  destruct (String.eqb_spec (toUpperCase (severity w)) "HIGH") as [H|H]; simpl;
    [tauto|].
  split; [|tauto]. intros H0.
  repeat match type of H0 with (if ?b then _ else _) = _ => destruct b end; discriminate.
Qed.

Lemma bucketOf_info w :
  FoodEx2Validator.bucketOf w = 2 <-> toUpperCase (severity w) = "NONE".
Proof.
  unfold FoodEx2Validator.bucketOf.
  destruct (String.eqb_spec (toUpperCase (severity w)) "ERROR") as [E|E]; simpl.
  { rewrite E. split; discriminate. }
  destruct (String.eqb_spec (toUpperCase (severity w)) "HIGH") as [H|H]; simpl.
  { rewrite H. split; discriminate. }
  destruct (String.eqb_spec (toUpperCase (severity w)) "LOW") as [L|L]; simpl.
  { rewrite L. split; discriminate. }
  destruct (String.eqb_spec (toUpperCase (severity w)) "NONE") as [N|N]; simpl;
    [tauto|]. split; [discriminate|contradiction].
Qed.

Lemma In_hardWarnings ws w :
  In w (fst (fst (FoodEx2Validator.categorizeWarnings ws))) <->
  In w ws /\ (toUpperCase (severity w) = "ERROR" \/ toUpperCase (severity w) = "HIGH").
Proof.
  unfold FoodEx2Validator.categorizeWarnings. simpl.
  rewrite filter_In, Nat.eqb_eq, bucketOf_hard. tauto.
Qed.

Lemma filter_isSeverity_0 sev ws :
  length (List.filter (FoodEx2Validator.isSeverity sev) ws) = 0 <->
  existsb (FoodEx2Validator.isSeverity sev) ws = false.
Proof.
  induction ws as [|w ws IH]; simpl; [tauto|].
  destruct (FoodEx2Validator.isSeverity sev w); simpl; [split; [lia|discriminate]|].
  exact IH.
Qed.

(** X6. [categorizeWarnings] deals the warnings into three buckets without
    losing or repeating any: the three lists together are a rearrangement of
    the input. A warning is hard exactly when its severity, put in capitals,
    is ERROR or HIGH, it is informational exactly when that is NONE, and
    every other warning, whatever its severity says, is soft. *)
Theorem warnings_fall_in_one_bucket (ws : list Warning) :
  let hard := fst (fst (FoodEx2Validator.categorizeWarnings ws)) in
  let soft := snd (fst (FoodEx2Validator.categorizeWarnings ws)) in
  let inf := snd (FoodEx2Validator.categorizeWarnings ws) in
  Permutation (hard ++ soft ++ inf) ws /\
  (forall w, In w hard <->
     In w ws /\ (toUpperCase (severity w) = "ERROR" \/ toUpperCase (severity w) = "HIGH")) /\
  (forall w, In w inf <-> In w ws /\ toUpperCase (severity w) = "NONE") /\
  (forall w, In w soft <->
     In w ws /\ toUpperCase (severity w) <> "ERROR" /\ toUpperCase (severity w) <> "HIGH" /\
     toUpperCase (severity w) <> "NONE").
Proof.
  unfold FoodEx2Validator.categorizeWarnings. simpl. split; [|split; [|split]].
  - induction ws as [|w ws IH]; simpl; [constructor|].
    destruct (bucketOf_cases w) as [H|[H|H]]; rewrite H; simpl.
    + constructor. exact IH.
    + rewrite <- Permutation_middle. constructor. exact IH.
    + rewrite app_assoc, <- Permutation_middle, <- app_assoc. constructor. exact IH.
  - intros w. rewrite filter_In, Nat.eqb_eq, bucketOf_hard. tauto.
  - intros w. rewrite filter_In, Nat.eqb_eq, bucketOf_info. tauto.
  - intros w. rewrite filter_In, Nat.eqb_eq.
    pose proof (bucketOf_hard w). pose proof (bucketOf_info w).
    destruct (bucketOf_cases w) as [H1|[H1|H1]]; rewrite H1 in *;
      intuition (try discriminate; try congruence).
Qed.

Lemma existsb_isSeverity sev ws :
  existsb (FoodEx2Validator.isSeverity sev) ws = true <->
  exists w, In w ws /\ severity w = sev.
Proof.
  rewrite existsb_exists. unfold FoodEx2Validator.isSeverity.
  split; intros (w & Hw & H); exists w; (split; [exact Hw|]);
    [apply String.eqb_eq|apply String.eqb_eq]; exact H.
Qed.

Lemma existsb_blocking_split ws :
  existsb (fun w => FoodEx2Validator.isSeverity "ERROR" w ||
                    FoodEx2Validator.isSeverity "HIGH" w) ws =
  existsb (FoodEx2Validator.isSeverity "ERROR") ws ||
  existsb (FoodEx2Validator.isSeverity "HIGH") ws.
Proof.
  induction ws as [|w ws IH]; simpl; [reflexivity|]. rewrite IH.
  destruct (FoodEx2Validator.isSeverity "ERROR" w),
           (FoodEx2Validator.isSeverity "HIGH" w),
           (existsb (FoodEx2Validator.isSeverity "ERROR") ws); reflexivity.
Qed.

(** X7. The overall severity of a result is the gravest severity among its
    warnings, on the scale ERROR, HIGH, LOW, NONE; a warning with any other
    severity does not count. The result is valid exactly when the overall
    severity is LOW or NONE, and with a colour table that has a colour for
    NONE the semaphore colour is never missing. *)
Theorem severity_summarises_warnings
  (db : Database) (colors : list (string * FoodEx2Validator.Color))
  (vbaResult : VBAValidator.Result) (brResult srResult : option (list Warning)) :
  let r := FoodEx2Validator.formatResult db colors vbaResult brResult srResult in
  let has sev := exists w, In w (FoodEx2Validator.warnings r) /\ severity w = sev in
  In (FoodEx2Validator.severity r) ["ERROR"; "HIGH"; "LOW"; "NONE"] /\
  (FoodEx2Validator.severity r = "ERROR" <-> has "ERROR") /\
  (FoodEx2Validator.severity r = "HIGH" <-> has "HIGH" /\ ~ has "ERROR") /\
  (FoodEx2Validator.severity r = "LOW" <-> has "LOW" /\ ~ has "HIGH" /\ ~ has "ERROR") /\
  (FoodEx2Validator.valid r = true <->
   FoodEx2Validator.severity r = "LOW" \/ FoodEx2Validator.severity r = "NONE") /\
  (assoc "NONE" colors <> None -> FoodEx2Validator.semaphoreColor r <> None).
Proof.
  intros r has.
  destruct (formatResult_fields db colors vbaResult brResult srResult)
    as (Hw & Hv & Hs & _).
  fold r in Hw, Hv, Hs.
  assert (Hsem : FoodEx2Validator.semaphoreColor r =
                 FoodEx2Validator.getSemaphoreColor colors (FoodEx2Validator.severity r))
    by reflexivity.
  unfold has. rewrite Hsem, Hv, Hs, Hw. clear Hsem Hv Hs Hw has.
  set (ws := VBAValidator.warnings vbaResult ++ default [] brResult ++ default [] srResult).
  rewrite existsb_blocking_split.
  pose proof (existsb_isSeverity "ERROR" ws) as HE.
  pose proof (existsb_isSeverity "HIGH" ws) as HH.
  pose proof (existsb_isSeverity "LOW" ws) as HL.
  unfold FoodEx2Validator.getOverallSeverity, FoodEx2Validator.getSemaphoreColor.
  destruct (existsb (FoodEx2Validator.isSeverity "ERROR") ws);
    [|destruct (existsb (FoodEx2Validator.isSeverity "HIGH") ws);
      [|destruct (existsb (FoodEx2Validator.isSeverity "LOW") ws)]];
    simpl; (split; [tauto|]);
    (repeat (split; [intuition (try discriminate; try congruence)|]));
    intros Hn;
    repeat match goal with |- context [assoc ?k colors] => destruct (assoc k colors) end;
    congruence.
Qed.

Lemma in_hard_of_blocking ws w :
  In w ws -> blocking w ->
  In w (fst (fst (FoodEx2Validator.categorizeWarnings ws))).
Proof.
  intros Hw Hb. apply In_hardWarnings. split; [exact Hw|].
  destruct Hb as [-> | ->]; [left|right]; reflexivity.
Qed.

(** X8. An invalid result always shows at least one hard warning. The
    converse holds when the severities are written in capitals, as they
    are in the default message table; in general it does not, since the
    buckets are filled after putting the severity in capitals and the valid
    flag is not: a warning of severity [high] is hard and does not block. *)
Theorem invalid_results_have_hard_warnings
  (db : Database) (colors : list (string * FoodEx2Validator.Color))
  (vbaResult : VBAValidator.Result) (brResult srResult : option (list Warning)) :
  let r := FoodEx2Validator.formatResult db colors vbaResult brResult srResult in
  (FoodEx2Validator.valid r = false -> FoodEx2Validator.hardWarnings r <> []) /\
  ((forall w, In w (FoodEx2Validator.warnings r) -> toUpperCase (severity w) = severity w) ->
   (FoodEx2Validator.valid r = true <-> FoodEx2Validator.hardWarnings r = [])) /\
  (forall w, In w (FoodEx2Validator.warnings r) -> severity w = "high" ->
     In w (FoodEx2Validator.hardWarnings r) /\ ~ blocking w).
Proof.
  intros r.
  destruct (formatResult_fields db colors vbaResult brResult srResult)
    as (Hw & Hv & _ & _ & _ & _ & _ & Hcat & _).
  fold r in Hw, Hv, Hcat. rewrite Hw, Hv.
  set (ws := VBAValidator.warnings vbaResult ++ default [] brResult ++ default [] srResult) in *.
  assert (Hhard : FoodEx2Validator.hardWarnings r =
                  fst (fst (FoodEx2Validator.categorizeWarnings ws))) by (rewrite <- Hcat; reflexivity).
  rewrite Hhard. clear Hw Hv Hcat Hhard.
  assert (Hinv : existsb (fun w => FoodEx2Validator.isSeverity "ERROR" w ||
                                   FoodEx2Validator.isSeverity "HIGH" w) ws = true ->
                 fst (fst (FoodEx2Validator.categorizeWarnings ws)) <> []).
  { intros H. apply existsb_exists in H as (w & Hw & Hb).
    assert (In w (fst (fst (FoodEx2Validator.categorizeWarnings ws)))) as Hin.
    { apply in_hard_of_blocking; [exact Hw|].
      unfold FoodEx2Validator.isSeverity in Hb.
      apply orb_true_iff in Hb as [Hb|Hb]; apply String.eqb_eq in Hb; [left|right]; exact Hb. }
    intros E. rewrite E in Hin. exact Hin. }
  split; [|split].
  - rewrite negb_false_iff. exact Hinv.
  - intros Hcap. rewrite negb_true_iff. split.
    + intros Hnb. destruct (fst (fst (FoodEx2Validator.categorizeWarnings ws))) as [|w l] eqn:E;
        [reflexivity|exfalso].
      assert (Hin : In w (fst (fst (FoodEx2Validator.categorizeWarnings ws))))
        by (rewrite E; left; reflexivity).
      apply In_hardWarnings in Hin as [Hin Hsev].
      rewrite (Hcap w Hin) in Hsev.
      apply (proj1 (existsb_blocking ws) Hnb w Hin). exact Hsev.
    + intros E. destruct (existsb _ ws) eqn:Hb; [|reflexivity].
      exfalso. exact (Hinv eq_refl E).
  - intros w Hw Hsev. split.
    + apply In_hardWarnings. split; [exact Hw|].
      rewrite Hsev. right. reflexivity.
    + intros [H|H]; rewrite Hsev in H; discriminate.
Qed.

Lemma filter_length_le {A} (p : A -> bool) l : length (List.filter p l) <= length l.
Proof. induction l as [|x l IH]; simpl; [lia|]. destruct (p x); simpl; lia. Qed.

(** X9. The counts of a result: the warnings of severity ERROR, HIGH, LOW
    and NONE are counted apart, [total] counts all of them, and the four
    counts add up to the total exactly when every warning has one of these
    four severities; a warning with another severity is counted in the
    total alone. *)
Theorem warning_counts_add_up (ws : list Warning) :
  let c := FoodEx2Validator.getWarningCounts ws in
  FoodEx2Validator.total c = length ws /\
  FoodEx2Validator.error c + FoodEx2Validator.high c + FoodEx2Validator.low c +
    FoodEx2Validator.info c <= FoodEx2Validator.total c /\
  (FoodEx2Validator.error c + FoodEx2Validator.high c + FoodEx2Validator.low c +
     FoodEx2Validator.info c = FoodEx2Validator.total c <->
   forall w, In w ws -> In (severity w) ["ERROR"; "HIGH"; "LOW"; "NONE"]) /\
  (FoodEx2Validator.error c = 0 /\ FoodEx2Validator.high c = 0 <->
   forall w, In w ws -> ~ blocking w).
Proof.
  unfold FoodEx2Validator.getWarningCounts. simpl. split; [reflexivity|].
  assert (Hone : forall w,
            (if FoodEx2Validator.isSeverity "ERROR" w then 1 else 0) +
            (if FoodEx2Validator.isSeverity "HIGH" w then 1 else 0) +
            (if FoodEx2Validator.isSeverity "LOW" w then 1 else 0) +
            (if FoodEx2Validator.isSeverity "NONE" w then 1 else 0) <= 1 /\
            ((if FoodEx2Validator.isSeverity "ERROR" w then 1 else 0) +
             (if FoodEx2Validator.isSeverity "HIGH" w then 1 else 0) +
             (if FoodEx2Validator.isSeverity "LOW" w then 1 else 0) +
             (if FoodEx2Validator.isSeverity "NONE" w then 1 else 0) = 1 <->
             In (severity w) ["ERROR"; "HIGH"; "LOW"; "NONE"])).
  { intros w. unfold FoodEx2Validator.isSeverity. simpl.
    destruct (String.eqb_spec (severity w) "ERROR") as [->|E]; [simpl; split; [lia|tauto]|].
    destruct (String.eqb_spec (severity w) "HIGH") as [->|H]; [simpl; split; [lia|tauto]|].
    destruct (String.eqb_spec (severity w) "LOW") as [->|L]; [simpl; split; [lia|tauto]|].
    destruct (String.eqb_spec (severity w) "NONE") as [->|N]; [simpl; split; [lia|tauto]|].
    simpl. split; [lia|]. split; [lia|]. intuition congruence. }
  assert (Hsum : length (List.filter (FoodEx2Validator.isSeverity "ERROR") ws) +
                 length (List.filter (FoodEx2Validator.isSeverity "HIGH") ws) +
                 length (List.filter (FoodEx2Validator.isSeverity "LOW") ws) +
                 length (List.filter (FoodEx2Validator.isSeverity "NONE") ws) <= length ws /\
                 (length (List.filter (FoodEx2Validator.isSeverity "ERROR") ws) +
                  length (List.filter (FoodEx2Validator.isSeverity "HIGH") ws) +
                  length (List.filter (FoodEx2Validator.isSeverity "LOW") ws) +
                  length (List.filter (FoodEx2Validator.isSeverity "NONE") ws) = length ws <->
                  forall w, In w ws -> In (severity w) ["ERROR"; "HIGH"; "LOW"; "NONE"])).
  { induction ws as [|w ws [IH1 IH2]]; [simpl; split; [lia|]; split; [intros _ ? []|reflexivity]|].
    destruct (Hone w) as [H1 H2]. cbn [List.filter].
    destruct (FoodEx2Validator.isSeverity "ERROR" w),
             (FoodEx2Validator.isSeverity "HIGH" w),
             (FoodEx2Validator.isSeverity "LOW" w),
             (FoodEx2Validator.isSeverity "NONE" w);
      cbn [length] in *; simpl in H1, H2; try lia;
      (split; [lia|]); (split;
        [intros Hs x [<-|Hx]; [apply H2; lia|apply IH2; [lia|exact Hx]]
        |intros Hall;
         assert (Hw : In (severity w) ["ERROR"; "HIGH"; "LOW"; "NONE"]) by (apply Hall; left; reflexivity);
         assert (Hr : forall x, In x ws -> In (severity x) ["ERROR"; "HIGH"; "LOW"; "NONE"])
           by (intros x Hx; apply Hall; right; exact Hx);
         apply H2 in Hw; apply IH2 in Hr; lia]). }
  destruct Hsum as [Hle Heq]. split; [exact Hle|]. split; [exact Heq|].
  rewrite <- existsb_blocking, existsb_blocking_split, orb_false_iff.
  rewrite !filter_isSeverity_0. tauto.
Qed.


(** ** The structural checks on the facet list *)

(** *** Duplicates *)

Lemma duplicates_loop_spec facets :
  forall pre seen dups,
    List.NoDup dups ->
    (forall f, In f seen <-> In f pre) ->
    (forall f, In f dups <-> 1 < count_occ String.string_dec pre f) ->
    List.NoDup (VBAValidator.duplicates_loop facets seen dups) /\
    (forall f, In f (VBAValidator.duplicates_loop facets seen dups) <->
               1 < count_occ String.string_dec (pre ++ facets) f).
Proof.
  induction facets as [|x facets IH]; intros pre seen dups Hnd Hseen Hdups.
  - simpl. rewrite app_nil_r. auto.
  - cbn [VBAValidator.duplicates_loop].
    replace (pre ++ x :: facets) with ((pre ++ [x]) ++ facets)
      by (rewrite <- app_assoc; reflexivity).
    assert (Hcount : forall f, count_occ String.string_dec (pre ++ [x]) f =
                       count_occ String.string_dec pre f +
                       (if String.string_dec x f then 1 else 0)).
    { intros f. rewrite count_occ_app. simpl. destruct (String.string_dec x f); reflexivity. }
    destruct (includes seen x) eqn:Hs.
    + apply includes_In, Hseen in Hs.
      assert (Hx : 1 <= count_occ String.string_dec pre x)
        by (apply (count_occ_In String.string_dec) in Hs; lia).
      apply IH.
      * destruct (includes dups x) eqn:Hd; [exact Hnd|].
        apply List.NoDup_app; [exact Hnd|repeat constructor; intros []|].
        intros f Hf [<-|[]]. apply includes_In in Hf. congruence.
      * intros f. rewrite Hseen, in_app_iff. simpl. intuition (subst; auto).
      * intros f. rewrite Hcount.
        destruct (String.string_dec x f) as [<-|Hne].
        -- destruct (includes dups x) eqn:Hd.
           ++ apply includes_In in Hd. split; [lia|intros _; exact Hd].
           ++ rewrite in_app_iff. simpl. split; [lia|auto].
        -- destruct (includes dups x) eqn:Hd.
           ++ rewrite Hdups. lia.
           ++ rewrite in_app_iff, Hdups. simpl. split; [intros [H|[H|[]]]; [lia|congruence]|lia].
    + assert (Hx : ~ In x pre).
      { intros H. apply Hseen, includes_In in H. congruence. }
      apply (count_occ_not_In String.string_dec) in Hx.
      apply IH.
      * exact Hnd.
      * intros f. rewrite !in_app_iff, Hseen. simpl. tauto.
      * intros f. rewrite Hcount, Hdups.
        destruct (String.string_dec x f) as [<-|Hne]; lia.
Qed.

(** X10. [checkDuplicateFacets] pushes one warning VBA-DUPLICATE, of severity
    HIGH, for every facet that occurs more than once in the list, however
    often it occurs, and nothing else; a list without repetition gets no
    warning. *)
Theorem one_warning_per_duplicate (facets : list string) (ws : list Warning) :
  exists dups,
    VBAValidator.checkDuplicateFacets facets ws =
      ws ++ map (fun d => warning "VBA-DUPLICATE"
                   ("Duplicate facet '" +:+ d +:+
                    "' found (same facet cannot be used multiple times)")
                   "HIGH" "DUPLICATE_FACET") dups /\
    List.NoDup dups /\
    (forall f, In f dups <-> 1 < count_occ String.string_dec facets f) /\
    (List.NoDup facets <-> dups = []).
Proof.
  exists (VBAValidator.duplicates_loop facets [] []).
  destruct (duplicates_loop_spec facets [] [] [])
    as [Hnd Hin]; [constructor|tauto|simpl; intros; split; [tauto|lia]|].
  simpl in Hin. split; [reflexivity|]. split; [exact Hnd|]. split; [exact Hin|].
  rewrite (List.NoDup_count_occ String.string_dec). split.
  - intros H. destruct (VBAValidator.duplicates_loop facets [] []) as [|d l]; [reflexivity|].
    exfalso. specialize (H d). assert (In d (d :: l)) as Hd by (left; reflexivity).
    apply Hin in Hd. lia.
  - intros E f. rewrite E in Hin. specialize (Hin f). simpl in Hin.
    destruct (Nat.le_gt_cases (count_occ String.string_dec facets f) 1); [assumption|].
    exfalso. apply Hin. assumption.
Qed.

(** *** Single cardinality *)

(** The number of facets of a group in a list. *)
Lemma assoc_count_incr k g obj :
  default 0 (assoc g (VBAValidator.count_incr k obj)) =
  default 0 (assoc g obj) + (if String.eqb g k then 1 else 0).
Proof.
  induction obj as [|[k' n] obj IH]; simpl.
  - destruct (String.eqb g k); reflexivity.
  - destruct (String.eqb_spec k k') as [<-|Hk]; simpl.
    + destruct (String.eqb g k); simpl; lia.
    + destruct (String.eqb_spec g k') as [->|Hg]; simpl.
      * destruct (String.eqb_spec k' k); [congruence|lia].
      * exact IH.
Qed.

Lemma count_incr_keys k obj x :
  In x (map fst (VBAValidator.count_incr k obj)) <-> x = k \/ In x (map fst obj).
Proof.
  induction obj as [|[k' n] obj IH]; simpl; [intuition|].
  destruct (String.eqb_spec k k') as [<-|Hk]; simpl; [intuition|].
  rewrite IH. tauto.
Qed.

Lemma count_incr_NoDup k obj :
  List.NoDup (map fst obj) -> List.NoDup (map fst (VBAValidator.count_incr k obj)).
Proof.
  induction obj as [|[k' n] obj IH]; simpl; intros H.
  - repeat constructor. intros [].
  - inversion H as [|? ? Hnin Hnd]; subst.
    destruct (String.eqb_spec k k') as [<-|Hk]; simpl.
    + constructor; assumption.
    + constructor; [|apply IH; exact Hnd].
      rewrite count_incr_keys. intros [E|E]; [congruence|contradiction].
Qed.

Lemma count_incr_pos k obj :
  (forall g n, In (g, n) obj -> 0 < n) ->
  forall g n, In (g, n) (VBAValidator.count_incr k obj) -> 0 < n.
Proof.
  induction obj as [|[k' m] obj IH]; simpl; intros Hpos g n.
  - intros [E|[]]. injection E as <- <-. lia.
  - destruct (String.eqb k k'); simpl.
    + intros [E|Hin]; [injection E as <- <-; lia|]. apply (Hpos g n). auto.
    + intros [E|Hin]; [apply (Hpos g n); auto|].
      apply (IH (fun g n H => Hpos g n (or_intror H)) g n Hin).
Qed.

Lemma assoc_In {V} g (v : V) obj :
  List.NoDup (map fst obj) -> (In (g, v) obj <-> assoc g obj = Some v).
Proof.
  induction obj as [|[k' v'] obj IH]; simpl; intros H.
  - split; [intros []|discriminate].
  - inversion H as [|? ? Hnin Hnd]; subst.
    destruct (String.eqb_spec g k') as [->|Hg].
    + split.
      * intros [E|Hin]; [congruence|]. exfalso. apply Hnin.
        apply in_map_iff. exists (k', v). auto.
      * intros E. left. congruence.
    + rewrite <- (IH Hnd). split; [intros [E|Hin]; [congruence|exact Hin]|auto].
Qed.

Lemma countGroups_spec facets :
  let counts := VBAValidator.countGroups facets in
  List.NoDup (map fst counts) /\
  (forall g n, In (g, n) counts <->
     0 < n /\ n = length (List.filter (fun f => String.eqb (split_dot_nth 0 f) g) facets)).
Proof.
  unfold VBAValidator.countGroups.
  assert (H : forall obj,
            List.NoDup (map fst obj) -> (forall g n, In (g, n) obj -> 0 < n) ->
            let counts := fold_left (fun obj facet =>
                            VBAValidator.count_incr (split_dot_nth 0 facet) obj) facets obj in
            List.NoDup (map fst counts) /\ (forall g n, In (g, n) counts -> 0 < n) /\
            (forall g, default 0 (assoc g counts) =
               default 0 (assoc g obj) +
               length (List.filter (fun f => String.eqb (split_dot_nth 0 f) g) facets))).
  { induction facets as [|f facets IH]; intros obj Hnd Hpos; simpl.
    - split; [exact Hnd|]. split; [exact Hpos|]. intros; lia.
    - destruct (IH (VBAValidator.count_incr (split_dot_nth 0 f) obj)
                  (count_incr_NoDup _ _ Hnd) (count_incr_pos _ _ Hpos)) as (H1 & H2 & H3).
      split; [exact H1|]. split; [exact H2|]. intros g. rewrite H3, assoc_count_incr.
      rewrite (String.eqb_sym g). destruct (String.eqb (split_dot_nth 0 f) g); simpl; lia. }
  destruct (H [] (List.NoDup_nil _) (fun g n (F : In (g, n) []) => match F with end))
    as (Hnd & Hpos & Hcount).
  split; [exact Hnd|]. intros g n. specialize (Hcount g). simpl in Hcount.
  rewrite (assoc_In g n _ Hnd). split.
  - intros E. split; [apply (Hpos g), (assoc_In g n _ Hnd); exact E|].
    rewrite E in Hcount. exact Hcount.
  - intros [Hn ->].
    destruct (assoc g _) as [m|] eqn:E; simpl in Hcount; [congruence|lia].
Qed.

Lemma fold_left_push_ext {A} (step : list Warning -> A -> list Warning)
  (c : A -> bool) (w : A -> Warning) l ws :
  (forall ws e, step ws e = if c e then ws ++ [w e] else ws) ->
  fold_left step l ws = ws ++ map w (List.filter c l).
Proof.
  intros Hstep. revert ws. induction l as [|x l IH]; intros ws; simpl.
  - rewrite app_nil_r. reflexivity.
  - rewrite IH, Hstep. destruct (c x); simpl; [rewrite <- app_assoc|]; reflexivity.
Qed.

Lemma for_each_push_ext {A} (l : list A) (f : A -> M unit) (c : A -> bool)
  (w : A -> Warning) s :
  (forall x, f x = if c x then push (w x) else mret tt) ->
  for_each l f s =
  Some (tt, mkState (ancestorCache s) (warnings s ++ map w (List.filter c l))).
Proof.
  intros Hf. revert s. induction l as [|x l IH]; intros s; simpl.
  - rewrite app_nil_r. destruct s; reflexivity.
  - rewrite bind_run, Hf. destruct (c x); simpl; rewrite IH; simpl.
    + rewrite <- app_assoc. reflexivity.
    + reflexivity.
Qed.

(** X11. A facet group of single cardinality that occurs more than once among
    the facets is reported twice, once by the structural validator and once
    by the rules: [checkSingleCardinalityFacets] pushes one warning
    VBA-CARDINALITY, of severity HIGH, for each such group, and [checkBR25]
    pushes one BR25 warning for each of the same groups, in the same order.
    No other group is reported. (The facets that reach the two checks are
    well formed, so the groups are not array indices and are enumerated in
    the order of their first occurrence.) *)
Theorem single_cardinality_reported_twice
  (msgs : gmap string WarningMessage) (facets : list string)
  (ws : list Warning) (s : State) :
  Forall FacetShape facets ->
  exists groups,
    VBAValidator.checkSingleCardinalityFacets facets ws =
      ws ++ map (fun g => warning "VBA-CARDINALITY"
                   ("Multiple instances of facet group " +:+ g +:+
                    " not allowed (BR25: Single cardinality enforcement)")
                   "HIGH" "CARDINALITY_VIOLATION") groups /\
    BusinessRulesValidator.checkBR25 msgs facets s =
      Some (tt, mkState (ancestorCache s)
                  (warnings s ++ map (BusinessRulesValidator.createWarning msgs "BR25") groups)) /\
    List.NoDup groups /\
    (forall g, In g groups <->
       In g VBAValidator.SINGLE_CARDINALITY_GROUPS /\
       1 < length (List.filter (fun f => String.eqb (split_dot_nth 0 f) g) facets)).
Proof.
  intros _.
  set (cond := fun e : string * nat =>
         includes VBAValidator.SINGLE_CARDINALITY_GROUPS (fst e) && Nat.ltb 1 (snd e)).
  exists (map fst (List.filter cond (VBAValidator.countGroups facets))).
  destruct (countGroups_spec facets) as [Hnd Hin].
  split; [|split; [|split]].
  - unfold VBAValidator.checkSingleCardinalityFacets.
    rewrite map_map.
    apply (fold_left_push_ext _ cond
             (fun e => warning "VBA-CARDINALITY"
                ("Multiple instances of facet group " +:+ fst e +:+
                 " not allowed (BR25: Single cardinality enforcement)")
                "HIGH" "CARDINALITY_VIOLATION")).
    intros ws0 [g n]. reflexivity.
  - unfold BusinessRulesValidator.checkBR25. rewrite map_map.
    apply (for_each_push_ext _ _ cond
             (fun e => BusinessRulesValidator.createWarning msgs "BR25" (fst e))).
    intros [g n]. reflexivity.
  - clear Hin. induction (VBAValidator.countGroups facets) as [|[g n] l IH]; simpl;
      [constructor|].
    inversion Hnd as [|? ? Hnin Hnd']; subst.
    destruct (cond (g, n)); simpl; [|apply IH; exact Hnd'].
    constructor; [|apply IH; exact Hnd'].
    intros H. apply Hnin. apply in_map_iff in H as ([g' n'] & E & H'). simpl in E. subst g'.
    apply filter_In in H' as [H' _]. apply in_map_iff. exists (g, n'). auto.
  - intros g. rewrite in_map_iff. split.
    + intros ([g' n] & E & H). simpl in E. subst g'.
      apply filter_In in H as [H Hc]. apply Hin in H as [_ ->].
      unfold cond in Hc. cbn [fst snd] in Hc. apply andb_true_iff in Hc as [Hc1 Hc2].
      apply includes_In in Hc1. apply Nat.ltb_lt in Hc2. auto.
    + intros [Hs Hc].
      exists (g, length (List.filter (fun f => String.eqb (split_dot_nth 0 f) g) facets)).
      split; [reflexivity|]. apply filter_In. split.
      * apply Hin. split; [lia|reflexivity].
      * unfold cond. cbn [fst snd]. apply andb_true_iff. split.
        -- apply includes_In. exact Hs.
        -- apply Nat.ltb_lt. exact Hc.
Qed.

Lemma single_cardinality_reported_twice_witness :
  Forall FacetShape ["F01.A0F6E"; "F28.A07JS"; "F01.A0F6F"] /\
  exists groups,
    VBAValidator.checkSingleCardinalityFacets ["F01.A0F6E"; "F28.A07JS"; "F01.A0F6F"] [] =
      [] ++ map (fun g => warning "VBA-CARDINALITY"
                   ("Multiple instances of facet group " +:+ g +:+
                    " not allowed (BR25: Single cardinality enforcement)")
                   "HIGH" "CARDINALITY_VIOLATION") groups /\
    BusinessRulesValidator.checkBR25 DataLoader.getDefaultWarningMessages
      ["F01.A0F6E"; "F28.A07JS"; "F01.A0F6F"] emptyState =
      Some (tt, mkState (ancestorCache emptyState)
                  (warnings emptyState ++
                   map (BusinessRulesValidator.createWarning
                          DataLoader.getDefaultWarningMessages "BR25") groups)) /\
    List.NoDup groups /\
    (forall g, In g groups <->
       In g VBAValidator.SINGLE_CARDINALITY_GROUPS /\
       1 < length (List.filter (fun f => String.eqb (split_dot_nth 0 f) g)
                     ["F01.A0F6E"; "F28.A07JS"; "F01.A0F6F"])).
Proof.
  assert (H : Forall FacetShape ["F01.A0F6E"; "F28.A07JS"; "F01.A0F6F"]).
  { repeat constructor; apply facetFormatWarning_None; reflexivity. }
  split; [exact H|].
  exact (single_cardinality_reported_twice DataLoader.getDefaultWarningMessages
           ["F01.A0F6E"; "F28.A07JS"; "F01.A0F6F"] [] emptyState H).
Defined.

(** *** The facet string in normal form *)

Lemma split_on_pieces_clean p s : Forall (fun x => clean p x = true) (split_on p s).
Proof.
  unfold clean. induction s as [|c s IH]; simpl.
  - repeat constructor.
  - destruct (p c) eqn:Hc.
    + constructor; [reflexivity|exact IH].
    + destruct (split_on p s) as [|w ws]; [repeat constructor; simpl; rewrite Hc; reflexivity|].
      inversion IH as [|? ? Hw Hws]; subst.
      constructor; [simpl; rewrite Hc, Hw; reflexivity|exact Hws].
Qed.

Lemma split_on_separated p f r :
  (forall c, In c ["#"; "$"]%char -> p c = true) ->
  Forall (fun x => clean p x = true) (f :: r) ->
  split_on p (f +:+ dollarTail r) = f :: r.
Proof.
  intros Hp. revert f. induction r as [|g r IH]; intros f Hall.
  - simpl. rewrite append_nil_r. apply split_on_clean. inversion Hall; assumption.
  - inversion Hall as [|? ? Hf Hrest]; subst.
    cbn [dollarTail].
    change ("$" +:+ g +:+ dollarTail r) with (String "$"%char (g +:+ dollarTail r)).
    rewrite split_on_app; [|exact Hf|apply Hp; simpl; auto].
    rewrite (IH g Hrest). reflexivity.
Qed.

Lemma parseFacetString_fragments s :
  Forall (fun f => clean is_hash_or_dollar f = true /\ truthy (trim f) = true)
         (VBAValidator.parseFacetString s).
Proof.
  unfold VBAValidator.parseFacetString. destruct (negb (truthy s)); [constructor|].
  apply List.Forall_forall. intros f Hf. apply filter_In in Hf as [Hf Ht].
  split; [|exact Ht].
  pose proof (split_on_pieces_clean is_hash_or_dollar s) as H.
  rewrite List.Forall_forall in H. apply H. exact Hf.
Qed.

Lemma parseFacetString_buildFacetString_gen facets :
  Forall (fun f => clean is_hash_or_dollar f = true /\ truthy (trim f) = true) facets ->
  VBAValidator.parseFacetString (VBAValidator.buildFacetString facets) = facets.
Proof.
  intros Hall. destruct facets as [|f r]; [reflexivity|].
  rewrite buildFacetString_cons. unfold VBAValidator.parseFacetString.
  change ("#" +:+ f +:+ dollarTail r) with (String "#"%char (f +:+ dollarTail r)).
  cbn [truthy String.eqb negb split_on is_hash_or_dollar Ascii.eqb Bool.eqb orb].
  rewrite split_on_separated.
  - transitivity (List.filter (fun x => truthy (trim x)) (f :: r)); [reflexivity|].
    apply filter_all. eapply List.Forall_impl; [|exact Hall]. intros x [_ H]. exact H.
  - intros c [<-|[<-|[]]]; reflexivity.
  - eapply List.Forall_impl; [|exact Hall]. intros x [H _]. exact H.
Qed.

(** X12. Parsing a facet string and building it again gives a normal form:
    whatever mixture of [#] and [$] the input uses and however many empty
    or blank pieces it has, the fragments [parseFacetString] returns hold no
    separator and are not blank, and the string [buildFacetString] makes of
    them is parsed back into the same fragments. White space around a
    fragment is kept. *)
Theorem facet_string_normal_form (facetString : string) :
  let fragments := VBAValidator.parseFacetString facetString in
  Forall (fun f => clean is_hash_or_dollar f = true /\ trim f <> "") fragments /\
  VBAValidator.parseFacetString (VBAValidator.buildFacetString fragments) = fragments /\
  VBAValidator.buildFacetString
    (VBAValidator.parseFacetString (VBAValidator.buildFacetString fragments))
  = VBAValidator.buildFacetString fragments.
Proof.
  intros fragments. pose proof (parseFacetString_fragments facetString) as H.
  fold fragments in H.
  split; [|split].
  - eapply List.Forall_impl; [|exact H]. intros f [H1 H2]. split; [exact H1|].
    apply truthy_true. exact H2.
  - apply parseFacetString_buildFacetString_gen. exact H.
  - rewrite parseFacetString_buildFacetString_gen by exact H. reflexivity.
Qed.

(** *** The groups suggested for a misplaced descriptor *)

Lemma assoc_Some_In {V} k (v : V) l : assoc k l = Some v -> In (k, v) l.
Proof.
  induction l as [|[k' v'] l IH]; simpl; [discriminate|].
  destruct (String.eqb_spec k k') as [->|_]; [intros E; left; congruence|auto].
Qed.

Lemma hierarchyMap_inverse g h :
  In (g, h) VBAValidator.hierarchyMap ->
  VBAValidator.hierarchyCodeOf g = h /\
  assoc h VBAValidator.hierarchyToFacetMap = Some g /\
  String.length g = 3 /\ clean is_dot g = true /\
  exists n, assoc g VBAValidator.facetGroupNames = Some n /\ truthy g && truthy n = true.
Proof.
  intros H. simpl in H.
  repeat (destruct H as [H|H];
          [injection H as <- <-; repeat split; eexists; split; reflexivity|]).
  destruct H.
Qed.

Lemma hierarchyToFacetMap_In h g :
  assoc h VBAValidator.hierarchyToFacetMap = Some g -> In (g, h) VBAValidator.hierarchyMap.
Proof.
  intros H. apply assoc_Some_In in H. unfold VBAValidator.hierarchyToFacetMap in H.
  apply in_map_iff in H as ([g' h'] & E & H). simpl in E. injection E as <- <-. exact H.
Qed.

Lemma find_is_Some {A} (p : A -> bool) l :
  (exists x, In x l /\ p x = true) <-> find p l <> None.
Proof.
  split.
  - intros (x & Hx & Hp) E. apply (find_none _ _ E) in Hx. congruence.
  - destruct (find p l) as [x|] eqn:E; [|congruence]. intros _.
    apply find_some in E. eauto.
Qed.

Lemma In_insert_sorted x y l : In y (insert_sorted x l) <-> y = x \/ In y l.
Proof.
  induction l as [|z l IH]; simpl; [intuition congruence|].
  destruct (String.leb x z); simpl; [intuition congruence|].
  rewrite IH. intuition congruence.
Qed.

Lemma In_sort_strings y l : In y (sort_strings l) <-> In y l.
Proof.
  induction l as [|x l IH]; simpl; [reflexivity|].
  rewrite In_insert_sorted, IH. intuition congruence.
Qed.

Lemma select_hierarchies_of_In db d h :
  In h (select_hierarchies_of db d) <-> select_hierarchy_row db d h <> None.
Proof.
  unfold select_hierarchies_of, select_hierarchy_row.
  rewrite In_sort_strings, uniq_In, in_map_iff, <- find_is_Some. split.
  - intros (row & <- & Hrow). apply filter_In in Hrow as [Hin Ht].
    exists row. split; [exact Hin|]. rewrite Ht, String.eqb_refl. reflexivity.
  - intros (row & Hin & Hp). apply andb_true_iff in Hp as [Ht Hh].
    apply String.eqb_eq in Hh. exists row. split; [exact Hh|].
    apply filter_In. auto.
Qed.

Lemma split_dot_two g d :
  clean is_dot g = true -> clean is_dot d = true ->
  split_dot_nth 0 (g +:+ "." +:+ d) = g /\ split_dot_nth 1 (g +:+ "." +:+ d) = d.
Proof.
  intros Hg Hd. unfold split_dot_nth.
  change (g +:+ "." +:+ d) with (g +:+ String "."%char d).
  rewrite split_on_app by (exact Hg || reflexivity).
  rewrite split_on_clean by exact Hd. split; reflexivity.
Qed.

Lemma split_dot_nth_clean i s : clean is_dot (split_dot_nth i s) = true.
Proof.
  unfold split_dot_nth. pose proof (split_on_pieces_clean is_dot s) as H.
  revert i. induction H as [|x l Hx _ IH]; intros [|i]; simpl; auto.
Qed.

Lemma append_inj_length (a a' b b' : string) :
  String.length a = String.length a' -> a +:+ b = a' +:+ b' -> a = a' /\ b = b'.
Proof.
  revert a'. induction a as [|c a IH]; intros [|c' a']; simpl; try discriminate.
  - auto.
  - intros Hl. rewrite !append_cons. intros E. injection E as -> E.
    destruct (IH a' (eq_add_S _ _ Hl) E) as [-> ->]. auto.
Qed.

Lemma In_validFacetGroupsOf s hs :
  In s (VBAValidator.validFacetGroupsOf hs) <->
  exists g h n, In h hs /\ In (g, h) VBAValidator.hierarchyMap /\
                assoc g VBAValidator.facetGroupNames = Some n /\
                s = g +:+ " (" +:+ n +:+ ")".
Proof.
  unfold VBAValidator.validFacetGroupsOf. rewrite in_flat_map. split.
  - intros (h & Hh & Hs).
    destruct (assoc h VBAValidator.hierarchyToFacetMap) as [g|] eqn:Eg; [|destruct Hs].
    apply hierarchyToFacetMap_In in Eg.
    destruct (hierarchyMap_inverse g h Eg) as (_ & _ & _ & _ & n & En & Ht).
    rewrite En, Ht in Hs. destruct Hs as [<-|[]]. exists g, h, n. auto.
  - intros (g & h & n & Hh & Hgh & En & ->). exists h. split; [exact Hh|].
    destruct (hierarchyMap_inverse g h Hgh) as (_ & -> & _ & _ & n' & En' & Ht).
    rewrite En' in *. injection En as <-. rewrite Ht. left. reflexivity.
Qed.

Lemma hierarchyMap_assoc g h :
  In (g, h) VBAValidator.hierarchyMap -> assoc g VBAValidator.hierarchyMap = Some h.
Proof.
  intros H. simpl in H.
  repeat (destruct H as [H|H]; [injection H as <- <-; reflexivity|]).
  destruct H.
Qed.

(** X13. What [validateFacetDescriptor] pushes and what its suggestion
    lists. The check pushes at most one warning, VBA-FACET404 or
    VBA-CATEGORY, always of severity ERROR, and answers true exactly when it
    pushes none. The suggestion of a VBA-CATEGORY warning lists labels "Fxx
    (name)" of groups of [hierarchyMap] only, and it lists the label of such
    a group exactly when the same descriptor, written under that group, is
    accepted by the check. A group outside [hierarchyMap] (a reserved group
    such as F05, which the check accepts through the hierarchy named by the
    group id in lower case) is never listed. *)
Theorem category_suggestions_are_accepted
  (db : Database) (facetCode : string) (ws : list Warning) :
  exists ext,
    snd (VBAValidator.validateFacetDescriptor db facetCode ws) = ws ++ ext /\
    length ext <= 1 /\
    Forall (fun w => severity w = "ERROR" /\
                     (rule w = "VBA-FACET404" \/ rule w = "VBA-CATEGORY")) ext /\
    (fst (VBAValidator.validateFacetDescriptor db facetCode ws) = true <-> ext = []) /\
    forall w valid_groups,
      In w ext -> validGroups w = Some valid_groups ->
      rule w = "VBA-CATEGORY" /\ severity w = "ERROR" /\
      fst (VBAValidator.validateFacetDescriptor db facetCode ws) = false /\
      (forall label, In label valid_groups ->
         exists g h n,
           In (g, h) VBAValidator.hierarchyMap /\
           assoc g VBAValidator.facetGroupNames = Some n /\
           label = g +:+ " (" +:+ n +:+ ")") /\
      (forall g h n ws0,
         In (g, h) VBAValidator.hierarchyMap ->
         assoc g VBAValidator.facetGroupNames = Some n ->
         (In (g +:+ " (" +:+ n +:+ ")") valid_groups <->
          VBAValidator.validateFacetDescriptor db (g +:+ "." +:+ split_dot_nth 1 facetCode) ws0
            = (true, ws0))) /\
      (forall g n,
         GroupShape g -> assoc g VBAValidator.hierarchyMap = None ->
         ~ In (g +:+ " (" +:+ n +:+ ")") valid_groups).
Proof.
  unfold VBAValidator.validateFacetDescriptor at 1 2 3.
  set (d := split_dot_nth 1 facetCode).
  destruct (select_term db d) as [row|] eqn:Hrow.
  2:{ eexists. split; [reflexivity|]. split; [simpl; lia|].
      split; [constructor; [split; [reflexivity|left; reflexivity]|constructor]|].
      split; [simpl; split; discriminate|].
      intros w vg [<-|[]]. discriminate. }
  destruct (select_hierarchy_row db d _) as [hr|] eqn:Hh.
  { exists []. split; [simpl; rewrite app_nil_r; reflexivity|].
    split; [simpl; lia|]. split; [constructor|]. split; [simpl; tauto|].
    intros w vg []. }
  eexists. split; [reflexivity|]. split; [simpl; lia|].
  split; [constructor; [split; [reflexivity|right; reflexivity]|constructor]|].
  split; [simpl; split; discriminate|].
  intros w vg [<-|[]] Hvg. simpl in Hvg.
  injection Hvg as <-. split; [reflexivity|]. split; [reflexivity|]. split; [reflexivity|].
  split; [|split].
  - intros label Hl. apply In_validFacetGroupsOf in Hl as (g & h & n & _ & Hgh & Hn & ->).
    exists g, h, n. auto.
  - intros g h n ws0 Hgh Hn.
    destruct (hierarchyMap_inverse g h Hgh) as (Hcode & Hinv & Hlen & Hclean & _).
    assert (Hd : clean is_dot d = true) by apply split_dot_nth_clean.
    destruct (split_dot_two g d Hclean Hd) as [H0 H1].
    assert (Hacc : VBAValidator.validateFacetDescriptor db (g +:+ "." +:+ d) ws0 = (true, ws0)
                   <-> select_hierarchy_row db d h <> None).
    { unfold VBAValidator.validateFacetDescriptor. rewrite H0, H1, Hrow, Hcode.
      destruct (select_hierarchy_row db d h); split; congruence. }
    rewrite Hacc, <- select_hierarchies_of_In, In_validFacetGroupsOf. split.
    + intros (g' & h' & n' & Hh' & Hgh' & Hn' & E).
      destruct (hierarchyMap_inverse g' h' Hgh') as (Hcode' & _ & Hlen' & _).
      apply append_inj_length in E as [E _]; [|congruence]. subst g'.
      assert (h = h') as -> by congruence. exact Hh'.
    + intros Hin. exists g, h, n. auto.
  - intros g n (d1 & d2 & -> & _ & _) Hnone Hin.
    apply In_validFacetGroupsOf in Hin as (g' & h' & n' & _ & Hgh' & _ & E).
    destruct (hierarchyMap_inverse g' h' Hgh') as (_ & _ & Hlen' & _).
    apply append_inj_length in E as [E _]; [|simpl; congruence]. subst g'.
    apply hierarchyMap_assoc in Hgh'. congruence.
Qed.


(** ** The memo table does not show in the results *)

Lemma cacheKey_has_colon t h : clean is_colon (HierarchyHelper.cacheKey t h) = false.
Proof.
  unfold clean. induction t as [|c t IH]; rewrite ?cacheKey_nil, ?cacheKey_cons; simpl.
  - reflexivity.
  - rewrite IH. apply andb_false_r.
Qed.

(** With hierarchies that have no colon in their code, a cache key names
    one term and one hierarchy. *)
Lemma cacheKey_inj_hierarchy t h t' h' :
  noColon h -> noColon h' ->
  HierarchyHelper.cacheKey t h = HierarchyHelper.cacheKey t' h' -> t = t' /\ h = h'.
Proof.
  unfold noColon. intros Hh Hh'. revert t'.
  induction t as [|c t IH]; intros [|c' t'] H;
    rewrite ?cacheKey_nil, ?cacheKey_cons in H.
  - injection H as ->. auto.
  - injection H as _ H. rewrite H, cacheKey_has_colon in Hh. discriminate.
  - injection H as _ H. rewrite <- H, cacheKey_has_colon in Hh'. discriminate.
  - injection H as -> H. destruct (IH t' H) as [-> ->]. auto.
Qed.

Section MemoFacts.

Variable db : Database.
Variable fuel : nat.
Variable msgs : gmap string WarningMessage.
Variable fps : list ForbiddenProcess.

Lemma MemoOk_empty : MemoOk db fuel ∅.
Proof. intros key l H. rewrite lookup_empty in H. discriminate. Qed.

Lemma MemoOk_lookup c t h l :
  MemoOk db fuel c -> noColon h -> c !! HierarchyHelper.cacheKey t h = Some l ->
  exists l0 n, HierarchyHelper.ancestorsQuery db fuel t h = Some l0 /\
               l = l0 ++ repeat (Some t) n /\ (h <> "report" -> n = 0).
Proof.
  intros Hc Hh Hl. destruct (Hc _ _ Hl) as (t' & h' & l0 & n & Hk & Hh' & Hq & -> & Hn).
  destruct (cacheKey_inj_hierarchy _ _ _ _ Hh Hh' Hk) as [-> ->]. eauto.
Qed.

Lemma MemoOk_insert c t h l0 :
  MemoOk db fuel c -> noColon h ->
  HierarchyHelper.ancestorsQuery db fuel t h = Some l0 ->
  MemoOk db fuel (<[HierarchyHelper.cacheKey t h := l0]> c).
Proof.
  intros Hc Hh Hq key l H.
  destruct (decide (HierarchyHelper.cacheKey t h = key)) as [<-|Hne].
  - rewrite lookup_insert_eq in H. injection H as <-.
    exists t, h, l0, 0. simpl. rewrite app_nil_r. auto.
  - rewrite lookup_insert_ne in H by exact Hne. exact (Hc _ _ H).
Qed.

Lemma MemoOk_push c t :
  MemoOk db fuel c ->
  MemoOk db fuel (alter (fun l => l ++ [Some t]) (HierarchyHelper.cacheKey t "report") c).
Proof.
  intros Hc key l H.
  destruct (decide (HierarchyHelper.cacheKey t "report" = key)) as [<-|Hne].
  - rewrite lookup_alter_eq in H.
    destruct (c !! HierarchyHelper.cacheKey t "report") as [l1|] eqn:Hl; [|discriminate].
    injection H as <-.
    destruct (MemoOk_lookup c t "report" l1 Hc eq_refl Hl) as (l0 & n & Hq & -> & _).
    exists t, "report", l0, (S n).
    split; [reflexivity|]. split; [reflexivity|]. split; [exact Hq|].
    split; [|congruence].
    rewrite <- app_assoc. f_equal. change [Some t] with (repeat (Some t) 1).
    rewrite <- repeat_app. f_equal. lia.
  - rewrite lookup_alter_ne in H by exact Hne. exact (Hc _ _ H).
Qed.

(** [getAncestors] on a memo table in order: the rows of the query, with
    copies of the term after them in the reporting hierarchy; no result
    exactly when the query gives none. *)
Lemma getAncestors_memo t h s :
  MemoOk db fuel (ancestorCache s) -> noColon h ->
  match HierarchyHelper.getAncestors db fuel t h s with
  | Some (l, s') =>
      exists l0 n, HierarchyHelper.ancestorsQuery db fuel t h = Some l0 /\
                   l = l0 ++ repeat (Some t) n /\ (h <> "report" -> n = 0) /\
                   MemoOk db fuel (ancestorCache s') /\ warnings s' = warnings s /\
                   ancestorCache s' !! HierarchyHelper.cacheKey t h = Some l
  | None => HierarchyHelper.ancestorsQuery db fuel t h = None
  end.
Proof.
  intros Hc Hh. unfold HierarchyHelper.getAncestors.
  destruct (ancestorCache s !! HierarchyHelper.cacheKey t h) as [l|] eqn:Hl.
  - destruct (MemoOk_lookup _ _ _ _ Hc Hh Hl) as (l0 & n & Hq & -> & Hn).
    exists l0, n. split; [exact Hq|]. split; [reflexivity|]. split; [exact Hn|].
    split; [exact Hc|]. split; [reflexivity|exact Hl].
  - destruct (HierarchyHelper.ancestorsQuery db fuel t h) as [l0|] eqn:Hq; [|reflexivity].
    exists l0, 0. simpl. rewrite app_nil_r.
    split; [reflexivity|]. split; [reflexivity|]. split; [reflexivity|].
    split; [apply MemoOk_insert; assumption|]. split; [reflexivity|].
    apply lookup_insert_eq.
Qed.

(** The same call on two states that are alike. *)
Lemma getAncestors_alike t h s1 s2 :
  Alike db fuel s1 s2 -> noColon h ->
  match HierarchyHelper.getAncestors db fuel t h s1,
        HierarchyHelper.getAncestors db fuel t h s2 with
  | Some (l1, s1'), Some (l2, s2') =>
      exists l0 n1 n2,
        l1 = l0 ++ repeat (Some t) n1 /\ l2 = l0 ++ repeat (Some t) n2 /\
        (h <> "report" -> n1 = 0 /\ n2 = 0) /\ Alike db fuel s1' s2' /\
        ancestorCache s1' !! HierarchyHelper.cacheKey t h = Some l1 /\
        ancestorCache s2' !! HierarchyHelper.cacheKey t h = Some l2
  | None, None => True
  | _, _ => False
  end.
Proof.
  intros (Hw & H1 & H2) Hh.
  pose proof (getAncestors_memo t h s1 H1 Hh) as G1.
  pose proof (getAncestors_memo t h s2 H2 Hh) as G2.
  destruct (HierarchyHelper.getAncestors db fuel t h s1) as [[l1 s1']|],
           (HierarchyHelper.getAncestors db fuel t h s2) as [[l2 s2']|].
  - destruct G1 as (l0 & n1 & Hq1 & -> & Hn1 & M1 & W1 & K1).
    destruct G2 as (l0' & n2 & Hq2 & -> & Hn2 & M2 & W2 & K2).
    assert (l0' = l0) as -> by congruence.
    exists l0, n1, n2. repeat split; auto. congruence.
  - destruct G1 as (l0 & _ & Hq & _). congruence.
  - destruct G2 as (l0 & _ & Hq & _). congruence.
  - exact I.
Qed.

Lemma Transparent_ret {A} (x : A) : Transparent db fuel (mret x).
Proof. intros s1 s2 H. simpl. auto. Qed.

Lemma Transparent_bind {A B} (c : M A) (f : A -> M B) :
  Transparent db fuel c -> (forall x, Transparent db fuel (f x)) ->
  Transparent db fuel (c ≫= f).
Proof.
  intros Hc Hf s1 s2 H. rewrite !bind_run. specialize (Hc s1 s2 H).
  unfold SameOutcome in Hc.
  destruct (c s1) as [[x1 s1']|], (c s2) as [[x2 s2']|]; try contradiction; [|exact I].
  destruct Hc as [<- Hc]. apply Hf. exact Hc.
Qed.

Lemma Transparent_push w : Transparent db fuel (push w).
Proof.
  intros s1 s2 (Hw & H1 & H2). simpl. split; [reflexivity|].
  split; [simpl; rewrite Hw; reflexivity|]. split; assumption.
Qed.

Lemma Transparent_getWarnings : Transparent db fuel getWarnings.
Proof. intros s1 s2 H. simpl. split; [apply H|exact H]. Qed.

Lemma Transparent_for_each {A} (l : list A) (f : A -> M unit) :
  (forall x, In x l -> Transparent db fuel (f x)) -> Transparent db fuel (for_each l f).
Proof.
  induction l as [|x l IH]; intros Hf; simpl; [apply Transparent_ret|].
  apply Transparent_bind; [apply Hf; left; reflexivity|].
  intros _. apply IH. intros y Hy. apply Hf. right. exact Hy.
Qed.

Lemma Transparent_some_await {A} (l : list A) (f : A -> M bool) :
  (forall x, In x l -> Transparent db fuel (f x)) -> Transparent db fuel (some_await l f).
Proof.
  induction l as [|x l IH]; intros Hf; simpl; [apply Transparent_ret|].
  apply Transparent_bind; [apply Hf; left; reflexivity|].
  intros [|]; [apply Transparent_ret|]. apply IH. intros y Hy. apply Hf. right. exact Hy.
Qed.

Lemma includesCode_app l1 l2 p :
  HierarchyHelper.includesCode (l1 ++ l2) p =
  HierarchyHelper.includesCode l1 p || HierarchyHelper.includesCode l2 p.
Proof. unfold HierarchyHelper.includesCode. apply existsb_app. Qed.

Lemma includesCode_copies c n p :
  c <> p -> HierarchyHelper.includesCode (repeat (Some c) n) p = false.
Proof.
  intros Hne. induction n as [|n IH]; simpl; [reflexivity|].
  rewrite IH, orb_false_r. apply String.eqb_neq. congruence.
Qed.

Lemma Transparent_isChildOf c p h :
  noColon h -> Transparent db fuel (HierarchyHelper.isChildOf db fuel c p h).
Proof.
  intros Hh. unfold HierarchyHelper.isChildOf.
  destruct (String.eqb_spec c p) as [->|Hne]; [apply Transparent_ret|].
  intros s1 s2 H. rewrite !bind_run.
  pose proof (getAncestors_alike c h s1 s2 H Hh) as G.
  destruct (HierarchyHelper.getAncestors db fuel c h s1) as [[l1 s1']|],
           (HierarchyHelper.getAncestors db fuel c h s2) as [[l2 s2']|];
    try contradiction; [|exact I].
  destruct G as (l0 & n1 & n2 & -> & -> & _ & Ha & _). simpl. split; [|exact Ha].
  rewrite !includesCode_app, !includesCode_copies by exact Hne. reflexivity.
Qed.

Lemma Transparent_isParentOf p c h :
  noColon h -> Transparent db fuel (HierarchyHelper.isParentOf db fuel p c h).
Proof. apply Transparent_isChildOf. Qed.

Lemma Transparent_isChildOfAny c ps h :
  noColon h -> h <> "report" ->
  Transparent db fuel (HierarchyHelper.isChildOfAny db fuel c ps h).
Proof.
  intros Hh Hr. unfold HierarchyHelper.isChildOfAny.
  intros s1 s2 H. rewrite !bind_run.
  pose proof (getAncestors_alike c h s1 s2 H Hh) as G.
  destruct (HierarchyHelper.getAncestors db fuel c h s1) as [[l1 s1']|],
           (HierarchyHelper.getAncestors db fuel c h s2) as [[l2 s2']|];
    try contradiction; [|exact I].
  destruct G as (l0 & n1 & n2 & -> & -> & Hn & Ha & _).
  destruct (Hn Hr) as [-> ->]. simpl. auto.
Qed.

(** Copies of the term at the end of its ancestors add no forbidden process
    and change no ordinal code. *)
Lemma uniq_from_app_seen seen x y :
  (forall e, In e y -> In e seen \/ In e x) ->
  uniq_from seen (x ++ y) = uniq_from seen x.
Proof.
  revert seen. induction x as [|a x IH]; intros seen Hy; simpl.
  - induction y as [|b y IHy]; simpl; [reflexivity|].
    destruct (Hy b (or_introl eq_refl)) as [Hb|[]].
    apply includes_In in Hb. rewrite Hb. apply IHy. intros e He. apply Hy. right. exact He.
  - destruct (includes seen a) eqn:Ha.
    + apply IH. intros e He. destruct (Hy e He) as [H|[<-|H]]; auto.
      left. apply includes_In. exact Ha.
    + f_equal. apply IH. intros e He. destruct (Hy e He) as [H|[<-|H]]; simpl; auto.
Qed.

Lemma forbiddenOf_app l1 l2 :
  BusinessRulesValidator.forbiddenOf fps (l1 ++ l2) =
  BusinessRulesValidator.forbiddenOf fps l1 ++ BusinessRulesValidator.forbiddenOf fps l2.
Proof. unfold BusinessRulesValidator.forbiddenOf. apply flat_map_app. Qed.

Lemma forbidden_with_copies l0 t n :
  uniq (BusinessRulesValidator.forbiddenOf fps ((l0 ++ repeat (Some t) n) ++ [Some t])) =
  uniq (BusinessRulesValidator.forbiddenOf fps (l0 ++ [Some t])).
Proof.
  unfold uniq. rewrite <- app_assoc.
  replace (repeat (Some t) n ++ [Some t]) with ([Some t] ++ repeat (Some t) n).
  2:{ change [Some t] with (repeat (Some t) 1). rewrite <- !repeat_app. f_equal. lia. }
  rewrite app_assoc, (forbiddenOf_app (l0 ++ [Some t])).
  apply uniq_from_app_seen. intros e He. right.
  rewrite forbiddenOf_app. apply in_or_app. right.
  apply In_forbiddenOf in He as (fp & Hfp & Hp & Hin).
  apply In_forbiddenOf. exists fp. split; [exact Hfp|]. split; [exact Hp|].
  apply repeat_spec in Hin. rewrite Hin. left. reflexivity.
Qed.

Lemma ordinal_with_copies l0 t n p :
  BusinessRulesValidator.ordinalAmong fps ((l0 ++ repeat (Some t) n) ++ [Some t]) p =
  BusinessRulesValidator.ordinalAmong fps (l0 ++ [Some t]) p.
Proof.
  rewrite <- app_assoc. apply ordinalAmong_app_congr. apply ordinalAmong_copies.
Qed.

(** The two helpers that push the term onto the array of its ancestors. *)
Lemma pushing_helper_transparent {A} (t : string) (result : list (option string) -> A) :
  (forall l0 n, result ((l0 ++ repeat (Some t) n) ++ [Some t]) = result (l0 ++ [Some t])) ->
  Transparent db fuel
    (ancestors ← HierarchyHelper.getAncestors db fuel t "report";
     _ ← HierarchyHelper.pushToAncestors (HierarchyHelper.cacheKey t "report") (Some t);
     mret (result (ancestors ++ [Some t]))).
Proof.
  intros Hres s1 s2 H. rewrite !bind_run.
  pose proof (getAncestors_alike t "report" s1 s2 H eq_refl) as G.
  destruct (HierarchyHelper.getAncestors db fuel t "report" s1) as [[l1 s1']|],
           (HierarchyHelper.getAncestors db fuel t "report" s2) as [[l2 s2']|];
    try contradiction; [|exact I].
  destruct G as (l0 & n1 & n2 & -> & -> & _ & (Hw & M1 & M2) & _). simpl.
  rewrite !Hres. split; [reflexivity|]. split; [exact Hw|].
  split; apply MemoOk_push; assumption.
Qed.

Lemma Transparent_getForbiddenProcesses t :
  Transparent db fuel (BusinessRulesValidator.getForbiddenProcesses db fuel fps t).
Proof.
  apply (pushing_helper_transparent t
           (fun l => uniq (BusinessRulesValidator.forbiddenOf fps l))).
  intros l0 n. apply forbidden_with_copies.
Qed.

Lemma Transparent_getProcessOrdinalCode t p :
  Transparent db fuel (BusinessRulesValidator.getProcessOrdinalCode db fuel fps t p).
Proof.
  apply (pushing_helper_transparent t
           (fun l => BusinessRulesValidator.ordinalAmong fps l p)).
  intros l0 n. apply ordinal_with_copies.
Qed.

Lemma Transparent_collectProcesses t facets implicit acc :
  Transparent db fuel
    (BusinessRulesValidator.collectProcesses db fuel fps t facets implicit acc).
Proof.
  revert acc. induction facets as [|f facets IH]; intros acc; simpl;
    [apply Transparent_ret|].
  apply Transparent_bind; [apply Transparent_getProcessOrdinalCode|intros; apply IH].
Qed.

Lemma Transparent_getProcessesWithOrdinalCodes baseTerm facets :
  Transparent db fuel
    (BusinessRulesValidator.getProcessesWithOrdinalCodes db fuel fps baseTerm facets).
Proof.
  unfold BusinessRulesValidator.getProcessesWithOrdinalCodes. cbv zeta.
  apply Transparent_bind; intros; apply Transparent_collectProcesses.
Qed.

Create HintDb transparent.

#[local] Hint Resolve Transparent_ret Transparent_push Transparent_getWarnings
  Transparent_getForbiddenProcesses Transparent_getProcessOrdinalCode
  Transparent_getProcessesWithOrdinalCodes : transparent.

#[local] Hint Extern 1 (Transparent _ _ (HierarchyHelper.isChildOf _ _ _ _ _)) =>
  apply Transparent_isChildOf; reflexivity : transparent.

#[local] Hint Extern 1 (Transparent _ _ (HierarchyHelper.isChildOfAny _ _ _ _ _)) =>
  apply Transparent_isChildOfAny; [reflexivity|discriminate] : transparent.

(** One step of a proof that a composed action is transparent. *)
Ltac transparent_step :=
  match goal with
  | |- Transparent _ _ (if ?b then _ else _) => destruct b
  | |- Transparent _ _ (match ?x with _ => _ end) => destruct x
  | |- Transparent _ _ (_ ≫= _) => apply Transparent_bind; [|intros]
  | |- Transparent _ _ (for_each _ _) => apply Transparent_for_each; intros
  | |- Transparent _ _ (some_await _ _) => apply Transparent_some_await; intros
  | |- Transparent _ _ _ => solve [auto with transparent]
  end.

Ltac transparent := cbv zeta; repeat transparent_step.

Lemma Transparent_checkBR11_generics p gs :
  Transparent db fuel (BusinessRulesValidator.checkBR11_generics db fuel msgs p gs).
Proof. induction gs as [|g gs IH]; simpl; transparent. Qed.

Lemma Transparent_checkBR16_implicit g c l :
  noColon (toLowerCase g) ->
  Transparent db fuel (BusinessRulesValidator.checkBR16_implicit db fuel msgs g c l).
Proof.
  intros Hg. induction l as [|x l IH]; simpl; [apply Transparent_ret|].
  apply Transparent_bind.
  - destruct (negb _); [apply Transparent_isParentOf; exact Hg|apply Transparent_ret].
  - intros [|]; [apply Transparent_push|exact IH].
Qed.

Lemma GroupShape_lower_noColon g : GroupShape g -> noColon (toLowerCase g).
Proof.
  intros (d1 & d2 & -> & H1 & H2). unfold noColon, clean. simpl.
  assert (H : forall d, is_digit d = true -> negb (is_colon (lower_char d)) = true).
  { intros d. destruct d as [[] [] [] [] [] [] [] []]; try discriminate; reflexivity. }
  rewrite (H d1 H1), (H d2 H2). reflexivity.
Qed.

Lemma FacetShape_group f : FacetShape f -> GroupShape (split_dot_nth 0 f).
Proof.
  intros (_ & l & r & -> & Hl & Hr).
  rewrite (proj1 (split_dot_two l r (GroupShape_no_dot _ Hl) (CodeShape_no_dot _ Hr))).
  exact Hl.
Qed.

Lemma Transparent_checkBR16 baseTerm facets :
  Forall FacetShape facets ->
  Transparent db fuel (BusinessRulesValidator.checkBR16 db fuel msgs baseTerm facets).
Proof.
  intros Hall. unfold BusinessRulesValidator.checkBR16. cbv zeta.
  apply Transparent_for_each. intros f Hf.
  destruct (negb _ || negb _); [apply Transparent_ret|].
  apply Transparent_checkBR16_implicit, GroupShape_lower_noColon, FacetShape_group.
  rewrite List.Forall_forall in Hall. exact (Hall f Hf).
Qed.

#[local] Hint Resolve Transparent_checkBR11_generics : transparent.

Lemma Transparent_runRules baseTerm facets context :
  Forall FacetShape facets ->
  Transparent db fuel (BusinessRulesValidator.runRules db fuel msgs fps baseTerm facets context).
Proof.
  intros Hall. pose proof (Transparent_checkBR16 baseTerm facets Hall) as H16.
  unfold BusinessRulesValidator.runRules.
  repeat (apply Transparent_bind; [|intros _]);
    try exact H16;
    unfold BusinessRulesValidator.checkBR01, BusinessRulesValidator.checkBR03,
      BusinessRulesValidator.checkBR04, BusinessRulesValidator.checkBR05,
      BusinessRulesValidator.checkBR06, BusinessRulesValidator.checkBR07,
      BusinessRulesValidator.checkBR08, BusinessRulesValidator.checkBR10,
      BusinessRulesValidator.checkBR11, BusinessRulesValidator.checkBR12,
      BusinessRulesValidator.checkBR13, BusinessRulesValidator.checkBR14,
      BusinessRulesValidator.checkBR15,
      BusinessRulesValidator.checkBR17, BusinessRulesValidator.checkBR19,
      BusinessRulesValidator.checkBR20, BusinessRulesValidator.checkBR21,
      BusinessRulesValidator.checkBR22, BusinessRulesValidator.checkBR23,
      BusinessRulesValidator.checkBR24, BusinessRulesValidator.checkBR25,
      BusinessRulesValidator.checkBR26, BusinessRulesValidator.checkBR27,
      BusinessRulesValidator.checkBR28;
    transparent.
Qed.

End MemoFacts.


Lemma validateBusinessRules_alike db fuel msgs fps t facets context c1 c2 :
  Forall FacetShape facets -> MemoOk db fuel c1 -> MemoOk db fuel c2 ->
  match BusinessRulesValidator.validateBusinessRules db fuel msgs fps t facets context c1,
        BusinessRulesValidator.validateBusinessRules db fuel msgs fps t facets context c2 with
  | Some (ws1, c1'), Some (ws2, c2') =>
      ws1 = ws2 /\ MemoOk db fuel c1' /\ MemoOk db fuel c2'
  | None, None => True
  | _, _ => False
  end.
Proof.
  intros Hall H1 H2. unfold BusinessRulesValidator.validateBusinessRules.
  pose proof (Transparent_runRules db fuel msgs fps t facets context Hall
                (mkState c1 []) (mkState c2 [])) as H.
  assert (Ha : Alike db fuel (mkState c1 []) (mkState c2 []))
    by (split; [reflexivity|split; assumption]).
  specialize (H Ha). unfold SameOutcome in H.
  destruct (BusinessRulesValidator.runRules db fuel msgs fps t facets context (mkState c1 []))
    as [[[] s1]|],
    (BusinessRulesValidator.runRules db fuel msgs fps t facets context (mkState c2 []))
    as [[[] s2]|]; try contradiction; [|exact I].
  destruct H as (_ & Hw & M1 & M2). auto.
Qed.

Lemma cleanedFacets_shape db b fs :
  Forall FacetShape
    (default [] (VBAValidator.cleanedFacets (VBAValidator.validateFoodEx2Code db b fs))).
Proof.
  apply List.Forall_forall. intros f Hf.
  apply (proj1 (validateFoodEx2Code_facets db b fs) f Hf).
Qed.

(** The results of one code on two memo tables in order. *)
Lemma validateCode_alike db fuel msgs fps colors sr o fullCode c1 c2 :
  MemoOk db fuel c1 -> MemoOk db fuel c2 ->
  match FoodEx2Validator.validateCode db fuel msgs fps colors sr o fullCode c1,
        FoodEx2Validator.validateCode db fuel msgs fps colors sr o fullCode c2 with
  | Some (r1, c1'), Some (r2, c2') => r1 = r2 /\ MemoOk db fuel c1' /\ MemoOk db fuel c2'
  | None, None => True
  | _, _ => False
  end.
Proof.
  intros H1 H2. unfold FoodEx2Validator.validateCode, FoodEx2Validator.runVBAValidation.
  destruct (FoodEx2Validator.parseFullCode fullCode) as [b fs].
  destruct (FoodEx2Validator.skipVBAValidation o); [exact I|].
  destruct (negb _ && FoodEx2Validator.stopOnStructuralError o); [auto|].
  unfold FoodEx2Validator.runBusinessRulesValidation.
  destruct (VBAValidator.baseTerm _) as [t|]; [|auto].
  destruct (FoodEx2Validator.skipBusinessRules o); [auto|].
  pose proof (validateBusinessRules_alike db fuel msgs fps t _ (FoodEx2Validator.context o)
                c1 c2 (cleanedFacets_shape db b fs) H1 H2) as H.
  destruct (BusinessRulesValidator.validateBusinessRules _ _ _ _ _ _ _ c1) as [[ws1 c1']|],
           (BusinessRulesValidator.validateBusinessRules _ _ _ _ _ _ _ c2) as [[ws2 c2']|];
    try contradiction; [|exact I].
  destruct H as (-> & M1 & M2). auto.
Qed.

(** X14. The memo table of the ancestor queries does not show in the
    results. Started on two memo tables that are each in order (the empty
    one is, and so is every table a validation leaves behind), a validation
    gives no result on either or the same result on both, and leaves both
    tables in order; this holds although the rules push the base term onto
    the memoised array of its ancestors at every look-up of a forbidden
    process or an ordinal code. *)
Theorem memo_table_is_transparent
  (db : Database) (fuel : nat) (msgs : gmap string WarningMessage)
  (fps : list ForbiddenProcess) (colors : list (string * FoodEx2Validator.Color))
  (sr : Term -> list string -> string -> string -> list Warning)
  (o : FoodEx2Validator.Options) (fullCode : string)
  (cache1 cache2 : gmap string (list (option string))) :
  MemoOk db fuel cache1 -> MemoOk db fuel cache2 ->
  match FoodEx2Validator.validateCode db fuel msgs fps colors sr o fullCode cache1,
        FoodEx2Validator.validateCode db fuel msgs fps colors sr o fullCode cache2 with
  | Some (r1, cache1'), Some (r2, cache2') =>
      r1 = r2 /\ MemoOk db fuel cache1' /\ MemoOk db fuel cache2'
  | None, None => True
  | _, _ => False
  end.
Proof. apply validateCode_alike. Qed.

Lemma memo_table_is_transparent_witness :
  exists r c,
    demoValidate "A000L#F28.A07LG" ∅ = Some (r, c) /\
    c !! "A000L:report" = Some [Some "A000K"; Some "A000J"; None; Some "A000L"] /\
    MemoOk demoDb 10 ∅ /\ MemoOk demoDb 10 c /\
    match demoValidate "A000L#F28.A07LG" ∅, demoValidate "A000L#F28.A07LG" c with
    | Some (r1, c1'), Some (r2, c2') =>
        r1 = r2 /\ MemoOk demoDb 10 c1' /\ MemoOk demoDb 10 c2'
    | None, None => True
    | _, _ => False
    end.
Proof.
  pose proof demoFirst_run as Hrun. unfold demoFirst in Hrun.
  eexists _, _. split; [exact Hrun|]. split; [reflexivity|].
  split; [apply MemoOk_empty|].
  pose proof (memo_table_is_transparent demoDb 10 DataLoader.getDefaultWarningMessages
                demoForbidden FoodEx2Validator.getDefaultWarningColors
                SoftRulesValidator.validateSoftRules FoodEx2Service.defaultOptions
                "A000L#F28.A07LG" ∅ ∅ (MemoOk_empty demoDb 10) (MemoOk_empty demoDb 10)) as H0.
  fold (demoValidate "A000L#F28.A07LG" ∅) in H0. rewrite Hrun in H0.
  destruct H0 as (_ & Hc & _). split; [exact Hc|].
  exact (memo_table_is_transparent demoDb 10 DataLoader.getDefaultWarningMessages
           demoForbidden FoodEx2Validator.getDefaultWarningColors
           SoftRulesValidator.validateSoftRules FoodEx2Service.defaultOptions
           "A000L#F28.A07LG" ∅ _ (MemoOk_empty demoDb 10) Hc).
Defined.

Lemma validateCode_on_memo db fuel msgs fps colors sr o fullCode cache r cache' :
  MemoOk db fuel cache ->
  FoodEx2Validator.validateCode db fuel msgs fps colors sr o fullCode cache = Some (r, cache') ->
  MemoOk db fuel cache' /\
  option_map fst (FoodEx2Validator.validateCode db fuel msgs fps colors sr o fullCode ∅)
    = Some r.
Proof.
  intros Hc Hrun.
  pose proof (validateCode_alike db fuel msgs fps colors sr o fullCode cache ∅ Hc
                (MemoOk_empty db fuel)) as H.
  rewrite Hrun in H.
  destruct (FoodEx2Validator.validateCode db fuel msgs fps colors sr o fullCode ∅)
    as [[r0 c0]|]; [|contradiction].
  destruct H as (-> & M & _). auto.
Qed.

Lemma validateBatch_loop_spec db fuel msgs fps colors sr o codes :
  forall i total cb acc pacc cache rs pr cache',
    MemoOk db fuel cache ->
    FoodEx2Validator.validateBatch_loop db fuel msgs fps colors sr o
      codes i total cb acc pacc cache = Some (rs, pr, cache') ->
    exists rs',
      rs = acc ++ rs' /\ map fst rs' = codes /\
      Forall (fun cr =>
                option_map fst (FoodEx2Validator.validateCode db fuel msgs fps colors sr o
                                  (fst cr) ∅) = Some (snd cr)) rs' /\
      pr = pacc ++ (if cb then map (fun k => (k, total)) (seq (i + 1) (length codes)) else []) /\
      MemoOk db fuel cache'.
Proof.
  induction codes as [|c codes IH]; intros i total cb acc pacc cache rs pr cache' Hc H;
    simpl in H.
  - injection H as <- <- <-. exists []. rewrite app_nil_r. simpl.
    destruct cb; rewrite ?app_nil_r; auto.
  - destruct (FoodEx2Validator.validateCode db fuel msgs fps colors sr o c cache)
      as [[r c1]|] eqn:Hrun; [|discriminate].
    destruct (validateCode_on_memo _ _ _ _ _ _ _ _ _ _ _ Hc Hrun) as [Hc1 Hr].
    destruct (IH _ _ _ _ _ _ _ _ _ Hc1 H) as (rs' & -> & Hcodes & Hall & -> & Hc').
    exists ((c, r) :: rs'). rewrite <- app_assoc. split; [reflexivity|].
    split; [simpl; rewrite Hcodes; reflexivity|]. split; [constructor; assumption|].
    split; [|exact Hc'].
    destruct cb; [|reflexivity]. rewrite <- app_assoc. simpl.
    replace (S i + 1) with (S (i + 1)) by lia. reflexivity.
Qed.

(** X15. A batch gives one result for each code, in the order of the codes,
    and each of them is the result the code gets when it is validated alone
    by a validator with an empty memo table: the table that the batch fills
    as it goes does not change any result. A progress callback, when there
    is one, is called once after each code, with the numbers 1 to n and the
    total n. *)
Theorem batch_results_are_individual_results
  (db : Database) (fuel : nat) (msgs : gmap string WarningMessage)
  (fps : list ForbiddenProcess) (colors : list (string * FoodEx2Validator.Color))
  (sr : Term -> list string -> string -> string -> list Warning)
  (o : FoodEx2Validator.Options) (codes : list string) (progressCallback : bool)
  (cache : gmap string (list (option string)))
  (results : list (string * FoodEx2Validator.Result)) (progress : list (nat * nat))
  (cache' : gmap string (list (option string))) :
  MemoOk db fuel cache ->
  FoodEx2Validator.validateBatch db fuel msgs fps colors sr o codes progressCallback cache
    = Some (results, progress, cache') ->
  map fst results = codes /\
  Forall (fun cr =>
            option_map fst (FoodEx2Validator.validateCode db fuel msgs fps colors sr o
                              (fst cr) ∅) = Some (snd cr)) results /\
  progress = (if progressCallback
              then map (fun k => (k, length codes)) (seq 1 (length codes)) else []) /\
  MemoOk db fuel cache'.
Proof.
  intros Hc H. unfold FoodEx2Validator.validateBatch in H.
  destruct (validateBatch_loop_spec _ _ _ _ _ _ _ _ _ _ _ _ _ _ _ _ _ Hc H)
    as (rs' & -> & H1 & H2 & -> & H3).
  auto.
Qed.

Lemma batch_results_are_individual_results_witness :
  exists results progress c,
    demoBatchOf ["A000L#F28.A07LG"; "ZZZZZ"; "A000L"] = Some (results, progress, c) /\
    MemoOk demoDb 10 ∅ /\
    map fst results = ["A000L#F28.A07LG"; "ZZZZZ"; "A000L"] /\
    Forall (fun cr => option_map fst (demoValidate (fst cr) ∅) = Some (snd cr)) results /\
    progress = map (fun k => (k, 3)) (seq 1 3) /\
    MemoOk demoDb 10 c.
Proof.
  pose proof demoBatch_run as Hrun. unfold demoBatch in Hrun.
  eexists _, _, _. split; [exact Hrun|]. split; [apply MemoOk_empty|].
  exact (batch_results_are_individual_results demoDb 10 DataLoader.getDefaultWarningMessages
           demoForbidden FoodEx2Validator.getDefaultWarningColors
           SoftRulesValidator.validateSoftRules FoodEx2Service.defaultOptions
           ["A000L#F28.A07LG"; "ZZZZZ"; "A000L"] true ∅ _ _ _
           (MemoOk_empty demoDb 10) Hrun).
Defined.

(** *** The statistics of a batch *)

Lemma formatResult_valid_by_severity db colors vba brw srw :
  let r := FoodEx2Validator.formatResult db colors vba brw srw in
  FoodEx2Validator.valid r =
  negb (String.eqb (FoodEx2Validator.severity r) "ERROR" ||
        String.eqb (FoodEx2Validator.severity r) "HIGH").
Proof.
  intros r. destruct (formatResult_fields db colors vba brw srw) as (_ & Hv & Hs & _).
  fold r in Hv, Hs. rewrite Hv, Hs, existsb_blocking_split.
  unfold FoodEx2Validator.getOverallSeverity.
  destruct (existsb (FoodEx2Validator.isSeverity "ERROR") _); [reflexivity|].
  destruct (existsb (FoodEx2Validator.isSeverity "HIGH") _); [reflexivity|].
  destruct (existsb (FoodEx2Validator.isSeverity "LOW") _); reflexivity.
Qed.

Lemma validateCode_valid_by_severity db fuel msgs fps colors sr o fullCode cache r cache' :
  FoodEx2Validator.validateCode db fuel msgs fps colors sr o fullCode cache = Some (r, cache') ->
  FoodEx2Validator.valid r =
  negb (String.eqb (FoodEx2Validator.severity r) "ERROR" ||
        String.eqb (FoodEx2Validator.severity r) "HIGH").
Proof.
  intros H. apply validateCode_inv in H. cbv zeta in H.
  destruct H as [(-> & _ & _)|(brw & _ & ->)]; apply formatResult_valid_by_severity.
Qed.

Lemma validateBatch_loop_results db fuel msgs fps colors sr o codes :
  forall i total cb acc pacc cache rs pr cache',
    FoodEx2Validator.validateBatch_loop db fuel msgs fps colors sr o
      codes i total cb acc pacc cache = Some (rs, pr, cache') ->
    exists rs',
      rs = acc ++ rs' /\ length rs' = length codes /\
      Forall (fun cr =>
                FoodEx2Validator.valid (snd cr) =
                negb (String.eqb (FoodEx2Validator.severity (snd cr)) "ERROR" ||
                      String.eqb (FoodEx2Validator.severity (snd cr)) "HIGH")) rs'.
Proof.
  induction codes as [|c codes IH]; intros i total cb acc pacc cache rs pr cache' H;
    simpl in H.
  - injection H as <- <- <-. exists []. rewrite app_nil_r. auto.
  - destruct (FoodEx2Validator.validateCode db fuel msgs fps colors sr o c cache)
      as [[r c1]|] eqn:Hrun; [|discriminate].
    destruct (IH _ _ _ _ _ _ _ _ _ H) as (rs' & -> & Hlen & Hall).
    exists ((c, r) :: rs'). rewrite <- app_assoc. split; [reflexivity|].
    split; [simpl; rewrite Hlen; reflexivity|].
    constructor; [|exact Hall]. simpl. eapply validateCode_valid_by_severity. exact Hrun.
Qed.

(** X16. The statistics of a batch, as the batch endpoint computes them from
    the results of [validateBatch]: the total is the number of codes; the
    valid and the invalid results make up the total; a result is invalid
    exactly when its overall severity is ERROR or HIGH, so the number of
    invalid results is the sum of [errors] and [highWarnings]. For an empty
    batch the success rate is the text NaN%. *)
Theorem batch_statistics
  (db : Database) (fuel : nat) (msgs : gmap string WarningMessage)
  (fps : list ForbiddenProcess) (colors : list (string * FoodEx2Validator.Color))
  (sr : Term -> list string -> string -> string -> list Warning)
  (codes : list string) (onProgress : bool)
  (cache : gmap string (list (option string)))
  (results : list (string * FoodEx2Validator.Result)) (progress : list (nat * nat))
  (cache' : gmap string (list (option string))) :
  FoodEx2Service.validateBatch db fuel msgs fps colors sr codes onProgress cache
    = Some (results, progress, cache') ->
  let stats := FoodEx2Validator.getValidationStats results in
  FoodEx2Validator.stats_total stats = length codes /\
  FoodEx2Validator.stats_valid stats + FoodEx2Validator.stats_invalid stats =
    FoodEx2Validator.stats_total stats /\
  FoodEx2Validator.stats_invalid stats =
    FoodEx2Validator.stats_errors stats + FoodEx2Validator.stats_highWarnings stats /\
  FoodEx2Validator.stats_valid stats >= FoodEx2Validator.stats_lowWarnings stats /\
  (codes = [] -> FoodEx2Validator.stats_successRate stats = "NaN%").
Proof.
  intros H. unfold FoodEx2Service.validateBatch, FoodEx2Validator.validateBatch in H.
  apply validateBatch_loop_results in H as (rs & -> & Hlen & Hall).
  simpl. split; [exact Hlen|].
  assert (Hcount :
    length (List.filter (fun r => FoodEx2Validator.valid (snd r)) rs) +
    (length (List.filter (fun r => String.eqb (FoodEx2Validator.severity (snd r)) "ERROR") rs) +
     length (List.filter (fun r => String.eqb (FoodEx2Validator.severity (snd r)) "HIGH") rs))
    = length rs /\
    length (List.filter (fun r => String.eqb (FoodEx2Validator.severity (snd r)) "LOW") rs)
    <= length (List.filter (fun r => FoodEx2Validator.valid (snd r)) rs)).
  { clear Hlen. induction Hall as [|[c r] rs Hr _ [IH1 IH2]]; simpl; [lia|].
    simpl in Hr. rewrite Hr.
    destruct (String.eqb_spec (FoodEx2Validator.severity r) "ERROR") as [E|E];
      [rewrite E; simpl; lia|].
    destruct (String.eqb_spec (FoodEx2Validator.severity r) "HIGH") as [E2|E2];
      [rewrite E2; simpl; lia|].
    simpl. destruct (String.eqb (FoodEx2Validator.severity r) "LOW"); simpl; lia. }
  destruct Hcount as [Hsum Hlow].
  split; [lia|]. split; [lia|]. split; [lia|].
  intros ->. destruct rs; [reflexivity|discriminate].
Qed.

Lemma batch_statistics_witness :
  exists results progress c,
    demoBatchOf ["A000L#F28.A07LG"; "ZZZZZ"; "A000L"] = Some (results, progress, c) /\
    FoodEx2Validator.stats_successRate (FoodEx2Validator.getValidationStats results)
      = "33.33%" /\
    let stats := FoodEx2Validator.getValidationStats results in
    FoodEx2Validator.stats_total stats = 3 /\
    FoodEx2Validator.stats_valid stats + FoodEx2Validator.stats_invalid stats =
      FoodEx2Validator.stats_total stats /\
    FoodEx2Validator.stats_invalid stats =
      FoodEx2Validator.stats_errors stats + FoodEx2Validator.stats_highWarnings stats /\
    FoodEx2Validator.stats_valid stats >= FoodEx2Validator.stats_lowWarnings stats /\
    (["A000L#F28.A07LG"; "ZZZZZ"; "A000L"] = [] ->
     FoodEx2Validator.stats_successRate stats = "NaN%").
Proof.
  pose proof demoBatch_run as Hrun. unfold demoBatch in Hrun.
  eexists _, _, _. split; [exact Hrun|]. split; [vm_compute; reflexivity|].
  exact (batch_statistics demoDb 10 DataLoader.getDefaultWarningMessages
           demoForbidden FoodEx2Validator.getDefaultWarningColors
           SoftRulesValidator.validateSoftRules
           ["A000L#F28.A07LG"; "ZZZZZ"; "A000L"] true ∅ _ _ _ Hrun).
Defined.


(** ** The hierarchy helper *)

Lemma includesCode_In l p : HierarchyHelper.includesCode l p = true <-> In (Some p) l.
Proof.
  unfold HierarchyHelper.includesCode. rewrite existsb_exists. split.
  - intros ([x|] & Hx & Hp); [|discriminate]. apply String.eqb_eq in Hp. subst. exact Hx.
  - intros H. exists (Some p). split; [exact H|]. apply String.eqb_refl.
Qed.

(** X17. [isChildOf] decides the ancestor relation of the hierarchy: on a
    memo table in order it answers true exactly when the two codes differ
    and the second is the parent of the first, or the parent of its parent,
    and so on, in the hierarchy asked for. A term is never a child of
    itself. The copies of a term that other callers have pushed onto its
    memoised ancestors do not change the answer. *)
Theorem isChildOf_decides_ancestry
  (db : Database) (fuel : nat) (childCode parentCode hierarchyCode : string)
  (s : State) (answer : bool) (s' : State) :
  MemoOk db fuel (ancestorCache s) -> noColon hierarchyCode ->
  HierarchyHelper.isChildOf db fuel childCode parentCode hierarchyCode s = Some (answer, s') ->
  (answer = true <->
   childCode <> parentCode /\ Ancestor db hierarchyCode parentCode childCode) /\
  HierarchyHelper.isParentOf db fuel parentCode childCode hierarchyCode s = Some (answer, s') /\
  MemoOk db fuel (ancestorCache s') /\ warnings s' = warnings s.
Proof.
  intros Hc Hh H. split; [|split; [exact H|]]; revert H;
    unfold HierarchyHelper.isChildOf;
    (destruct (String.eqb_spec childCode parentCode) as [->|Hne];
     [intros H; injection H as <- <-|]).
  - split; [discriminate|]. intros [Hn _]. congruence.
  - rewrite bind_run.
    pose proof (getAncestors_memo db fuel childCode hierarchyCode s Hc Hh) as G.
    destruct (HierarchyHelper.getAncestors db fuel childCode hierarchyCode s)
      as [[l s1]|]; [|discriminate].
    destruct G as (l0 & n & Hq & -> & _). intros H. injection H as <- <-.
    rewrite includesCode_app, includesCode_copies, orb_false_r by exact Hne.
    rewrite includesCode_In, (Chain_In db hierarchyCode childCode l0 parentCode
                                (ancestorsQuery_Chain _ _ _ _ _ Hq)).
    tauto.
  - auto.
  - rewrite bind_run.
    pose proof (getAncestors_memo db fuel childCode hierarchyCode s Hc Hh) as G.
    destruct (HierarchyHelper.getAncestors db fuel childCode hierarchyCode s)
      as [[l s1]|]; [|discriminate].
    destruct G as (l0 & n & _ & _ & _ & M & W & _). intros H. injection H as <- <-. auto.
Qed.

Lemma isChildOf_decides_ancestry_witness :
  MemoOk demoDb 10 (ancestorCache emptyState) /\ noColon "process" /\
  HierarchyHelper.isChildOf demoDb 10 "A07LG" "A07XS" "process" emptyState
    = Some (true, mkState {[ "A07LG:process" := [Some "A07XS"; None] ]} []) /\
  (true = true <-> "A07LG" <> "A07XS" /\ Ancestor demoDb "process" "A07XS" "A07LG") /\
  HierarchyHelper.isParentOf demoDb 10 "A07XS" "A07LG" "process" emptyState
    = Some (true, mkState {[ "A07LG:process" := [Some "A07XS"; None] ]} []) /\
  MemoOk demoDb 10 {[ "A07LG:process" := [Some "A07XS"; None] ]} /\
  warnings (mkState {[ "A07LG:process" := [Some "A07XS"; None] ]} []) = warnings emptyState.
Proof.
  assert (Hrun : HierarchyHelper.isChildOf demoDb 10 "A07LG" "A07XS" "process" emptyState
                 = Some (true, mkState {[ "A07LG:process" := [Some "A07XS"; None] ]} []))
    by reflexivity.
  split; [apply MemoOk_empty|]. split; [reflexivity|]. split; [exact Hrun|].
  exact (isChildOf_decides_ancestry demoDb 10 "A07LG" "A07XS" "process" emptyState true _
           (MemoOk_empty demoDb 10) eq_refl Hrun).
Defined.

(** *** Cycles *)

Lemma Chain_suffix db h t l a :
  Chain db h t l -> In (Some a) l ->
  exists l', Chain db h a l' /\ length l' < length l.
Proof.
  induction 1 as [t Hrow|t row Hrow Hp|t row p l Hrow Hp Hch IH]; simpl.
  - intros [].
  - intros [H|[]]. discriminate.
  - intros [H|H].
    + injection H as ->. exists l. split; [exact Hch|lia].
    + destruct (IH H) as (l' & Hl' & Hlen). exists l'. split; [exact Hl'|lia].
Qed.

Lemma no_Chain_on_cycle db h a l : Ancestor db h a a -> ~ Chain db h a l.
Proof.
  intros Hcyc Hch. pose proof (proj2 (Chain_In db h a l a Hch) Hcyc) as Hin.
  destruct (Chain_suffix db h a l a Hch Hin) as (l' & Hl' & Hlen).
  rewrite (Chain_functional db h a l' l Hl' Hch) in Hlen. lia.
Qed.

(** X18. On a hierarchy with a cycle the ancestor query has no answer: when
    a term, or one of its ancestors, is its own ancestor, the recursive
    query of [getAncestors] does not finish, however many levels it is
    given, and the call gives no result unless the memo table already holds
    an entry for the term. *)
Theorem cyclic_hierarchy_has_no_answer
  (db : Database) (termCode hierarchyCode onCycle : string) :
  onCycle = termCode \/ Ancestor db hierarchyCode onCycle termCode ->
  Ancestor db hierarchyCode onCycle onCycle ->
  forall fuel,
    HierarchyHelper.ancestorsQuery db fuel termCode hierarchyCode = None /\
    forall s,
      ancestorCache s !! HierarchyHelper.cacheKey termCode hierarchyCode = None ->
      HierarchyHelper.getAncestors db fuel termCode hierarchyCode s = None.
Proof.
  intros Hon Hcyc fuel.
  assert (Hq : HierarchyHelper.ancestorsQuery db fuel termCode hierarchyCode = None).
  { destruct (HierarchyHelper.ancestorsQuery db fuel termCode hierarchyCode) as [l|] eqn:Hq;
      [exfalso|reflexivity].
    apply ancestorsQuery_Chain in Hq.
    destruct Hon as [->|Hanc].
    - exact (no_Chain_on_cycle _ _ _ _ Hcyc Hq).
    - apply (Chain_In _ _ _ _ _ Hq) in Hanc.
      destruct (Chain_suffix _ _ _ _ _ Hq Hanc) as (l' & Hl' & _).
      exact (no_Chain_on_cycle _ _ _ _ Hcyc Hl'). }
  split; [exact Hq|]. intros s Hs. unfold HierarchyHelper.getAncestors.
  rewrite Hs, Hq. reflexivity.
Qed.

Lemma demo_cycle : Ancestor demoCyclicDb "report" "A0C1A" "A0C1A".
Proof.
  eapply Ancestor_step.
  - eexists. split; reflexivity.
  - apply Ancestor_parent. eexists. split; reflexivity.
Qed.

Lemma cyclic_hierarchy_has_no_answer_witness :
  ("A0C1A" = "A0C1C" \/ Ancestor demoCyclicDb "report" "A0C1A" "A0C1C") /\
  Ancestor demoCyclicDb "report" "A0C1A" "A0C1A" /\
  forall fuel,
    HierarchyHelper.ancestorsQuery demoCyclicDb fuel "A0C1C" "report" = None /\
    forall s,
      ancestorCache s !! HierarchyHelper.cacheKey "A0C1C" "report" = None ->
      HierarchyHelper.getAncestors demoCyclicDb fuel "A0C1C" "report" s = None.
Proof.
  assert (H : "A0C1A" = "A0C1C" \/ Ancestor demoCyclicDb "report" "A0C1A" "A0C1C").
  { right. apply Ancestor_parent. eexists. split; reflexivity. }
  split; [exact H|]. split; [exact demo_cycle|].
  exact (cyclic_hierarchy_has_no_answer demoCyclicDb "A0C1C" "report" "A0C1A" H demo_cycle).
Defined.

(** *** The memoised array grows *)

Lemma pushing_helper_grows {A} db fuel (t : string) (result : list (option string) -> A)
  s x s' :
  (ancestors ← HierarchyHelper.getAncestors db fuel t "report";
   _ ← HierarchyHelper.pushToAncestors (HierarchyHelper.cacheKey t "report") (Some t);
   mret (result (ancestors ++ [Some t]))) s = Some (x, s') ->
  exists before,
    (ancestorCache s !! HierarchyHelper.cacheKey t "report" = Some before \/
     ancestorCache s !! HierarchyHelper.cacheKey t "report" = None /\
     HierarchyHelper.ancestorsQuery db fuel t "report" = Some before) /\
    x = result (before ++ [Some t]) /\
    ancestorCache s' !! HierarchyHelper.cacheKey t "report" = Some (before ++ [Some t]) /\
    (forall key, key <> HierarchyHelper.cacheKey t "report" ->
                 ancestorCache s' !! key = ancestorCache s !! key) /\
    warnings s' = warnings s.
Proof.
  rewrite bind_run. unfold HierarchyHelper.getAncestors.
  destruct (ancestorCache s !! HierarchyHelper.cacheKey t "report") as [l|] eqn:Hl.
  - intros H. injection H as <- <-. exists l. simpl.
    split; [auto|]. split; [reflexivity|]. split.
    + rewrite lookup_alter_eq, Hl. reflexivity.
    + split; [|reflexivity]. intros key Hk. apply lookup_alter_ne. congruence.
  - destruct (HierarchyHelper.ancestorsQuery db fuel t "report") as [l|] eqn:Hq;
      [|discriminate].
    intros H. injection H as <- <-. exists l. simpl.
    split; [auto|]. split; [reflexivity|]. split.
    + rewrite lookup_alter_eq, lookup_insert_eq. reflexivity.
    + split; [|reflexivity]. intros key Hk.
      rewrite lookup_alter_ne, lookup_insert_ne by congruence. reflexivity.
Qed.

(** X19. Every look-up of the forbidden processes of a term, and every
    look-up of the ordinal code of a process for a term, makes the memoised
    array of the ancestors of the term in the reporting hierarchy one
    element longer: the caller pushes the term onto the array that
    [getAncestors] returned, which is the array the memo table holds. The
    other entries of the table and the warnings are left alone. *)
Theorem forbidden_lookup_lengthens_memo
  (db : Database) (fuel : nat) (fps : list ForbiddenProcess)
  (termCode processCode : string) (s : State) :
  let key := HierarchyHelper.cacheKey termCode "report" in
  let grows (s' : State) :=
    exists before,
      (ancestorCache s !! key = Some before \/
       ancestorCache s !! key = None /\
       HierarchyHelper.ancestorsQuery db fuel termCode "report" = Some before) /\
      ancestorCache s' !! key = Some (before ++ [Some termCode]) /\
      (forall k, k <> key -> ancestorCache s' !! k = ancestorCache s !! k) /\
      warnings s' = warnings s in
  (forall l s', BusinessRulesValidator.getForbiddenProcesses db fuel fps termCode s
                  = Some (l, s') -> grows s') /\
  (forall q s', BusinessRulesValidator.getProcessOrdinalCode db fuel fps termCode processCode s
                  = Some (q, s') -> grows s').
Proof.
  intros key grows. split.
  - intros l s' H.
    apply (pushing_helper_grows db fuel termCode
             (fun l => uniq (BusinessRulesValidator.forbiddenOf fps l))) in H
      as (before & H1 & _ & H2 & H3 & H4).
    exists before. auto.
  - intros q s' H.
    apply (pushing_helper_grows db fuel termCode
             (fun l => BusinessRulesValidator.ordinalAmong fps l processCode)) in H
      as (before & H1 & _ & H2 & H3 & H4).
    exists before. auto.
Qed.


(** ** The warnings of the business rules *)

Lemma Emits_ret {A} P (x : A) : Emits P (mret x).
Proof.
  intros s y s' H. injection H as <- <-. exists []. rewrite app_nil_r. auto.
Qed.

Lemma Emits_bind {A B} P (c : M A) (f : A -> M B) :
  Emits P c -> (forall x, Emits P (f x)) -> Emits P (c ≫= f).
Proof.
  intros Hc Hf s y s' H. rewrite bind_run in H.
  destruct (c s) as [[x s1]|] eqn:E; [|discriminate].
  destruct (Hc _ _ _ E) as (e1 & H1 & F1). destruct (Hf _ _ _ _ H) as (e2 & H2 & F2).
  exists (e1 ++ e2). rewrite H2, H1, <- app_assoc. split; [reflexivity|].
  apply Forall_app. auto.
Qed.

Lemma Emits_push (P : Warning -> Prop) w : P w -> Emits P (push w).
Proof.
  intros Hw s y s' H. injection H as <- <-. exists [w]. simpl. auto.
Qed.

Lemma Emits_getWarnings P : Emits P getWarnings.
Proof.
  intros s y s' H. injection H as <- <-. exists []. rewrite app_nil_r. auto.
Qed.

Lemma Emits_for_each {A} P (l : list A) (f : A -> M unit) :
  (forall x, Emits P (f x)) -> Emits P (for_each l f).
Proof.
  intros Hf. induction l as [|x l IH]; simpl; [apply Emits_ret|].
  apply Emits_bind; [apply Hf|intros _; exact IH].
Qed.

Lemma Emits_some_await {A} P (l : list A) (f : A -> M bool) :
  (forall x, Emits P (f x)) -> Emits P (some_await l f).
Proof.
  intros Hf. induction l as [|x l IH]; simpl; [apply Emits_ret|].
  apply Emits_bind; [apply Hf|]. intros [|]; [apply Emits_ret|exact IH].
Qed.

Lemma Emits_pushToAncestors P key x : Emits P (HierarchyHelper.pushToAncestors key x).
Proof.
  intros s y s' H. injection H as <- <-. exists []. simpl. rewrite app_nil_r. auto.
Qed.

Lemma Emits_getAncestors P db fuel t h : Emits P (HierarchyHelper.getAncestors db fuel t h).
Proof.
  intros s y s' H. unfold HierarchyHelper.getAncestors in H.
  destruct (ancestorCache s !! _); [|destruct (HierarchyHelper.ancestorsQuery _ _ _ _)];
    try discriminate; injection H as <- <-; exists []; simpl; rewrite app_nil_r; auto.
Qed.

Lemma Emits_weaken {A} (P Q : Warning -> Prop) (c : M A) :
  (forall w, P w -> Q w) -> Emits P c -> Emits Q c.
Proof.
  intros HPQ Hc s x s' H. destruct (Hc _ _ _ H) as (e & He & F).
  exists e. split; [exact He|]. eapply List.Forall_impl; [exact HPQ|exact F].
Qed.

Create HintDb emits.

#[export] Hint Resolve Emits_ret Emits_getWarnings Emits_pushToAncestors
  Emits_getAncestors : emits.

(** One step of a proof about the warnings a composed action adds; [tac]
    proves that a pushed warning is as required. *)
Ltac emits_step tac :=
  match goal with
  | |- Emits _ (if ?b then _ else _) => destruct b
  | |- Emits _ (match ?x with _ => _ end) => destruct x
  | |- Emits _ (_ ≫= _) => apply Emits_bind; [|intros]
  | |- Emits _ (for_each _ _) => apply Emits_for_each; intros
  | |- Emits _ (some_await _ _) => apply Emits_some_await; intros
  | |- Emits _ (push _) => apply Emits_push; tac
  | |- Emits _ _ => solve [auto with emits]
  end.

Ltac unfold_rules :=
  unfold BusinessRulesValidator.checkBR01, BusinessRulesValidator.checkBR03,
    BusinessRulesValidator.checkBR04, BusinessRulesValidator.checkBR05,
    BusinessRulesValidator.checkBR06, BusinessRulesValidator.checkBR07,
    BusinessRulesValidator.checkBR08, BusinessRulesValidator.checkBR10,
    BusinessRulesValidator.checkBR11, BusinessRulesValidator.checkBR12,
    BusinessRulesValidator.checkBR13, BusinessRulesValidator.checkBR14,
    BusinessRulesValidator.checkBR15, BusinessRulesValidator.checkBR16,
    BusinessRulesValidator.checkBR17, BusinessRulesValidator.checkBR19,
    BusinessRulesValidator.checkBR20, BusinessRulesValidator.checkBR21,
    BusinessRulesValidator.checkBR22, BusinessRulesValidator.checkBR23,
    BusinessRulesValidator.checkBR24, BusinessRulesValidator.checkBR25,
    BusinessRulesValidator.checkBR26, BusinessRulesValidator.checkBR27,
    BusinessRulesValidator.checkBR28,
    BusinessRulesValidator.getForbiddenProcesses,
    BusinessRulesValidator.getProcessesWithOrdinalCodes,
    BusinessRulesValidator.getProcessOrdinalCode,
    HierarchyHelper.isChildOf, HierarchyHelper.isChildOfAny, HierarchyHelper.isParentOf.

Section Emitting.

Variable db : Database.
Variable fuel : nat.
Variable msgs : gmap string WarningMessage.
Variable fps : list ForbiddenProcess.

Lemma Emits_isChildOf P c p h : Emits P (HierarchyHelper.isChildOf db fuel c p h).
Proof. unfold HierarchyHelper.isChildOf. cbv zeta. repeat emits_step idtac. Qed.

Lemma Emits_collectProcesses P t facets implicit acc :
  Emits P (BusinessRulesValidator.collectProcesses db fuel fps t facets implicit acc).
Proof.
  revert acc. induction facets as [|f facets IH]; intros acc; simpl; [apply Emits_ret|].
  apply Emits_bind; [|intros; apply IH].
  unfold BusinessRulesValidator.getProcessOrdinalCode. repeat emits_step idtac.
Qed.

Lemma Emits_checkBR11_generics (P : Warning -> Prop) p gs :
  P (BusinessRulesValidator.createWarning msgs "BR11" p) ->
  Emits P (BusinessRulesValidator.checkBR11_generics db fuel msgs p gs).
Proof.
  intros HP. induction gs as [|g gs IH]; simpl; [apply Emits_ret|].
  apply Emits_bind.
  - destruct (String.eqb p g); [apply Emits_ret|apply Emits_isChildOf].
  - intros [|]; [apply Emits_push; exact HP|exact IH].
Qed.

Lemma Emits_checkBR16_implicit (P : Warning -> Prop) g c l :
  P (BusinessRulesValidator.createWarning msgs "BR16" c) ->
  Emits P (BusinessRulesValidator.checkBR16_implicit db fuel msgs g c l).
Proof.
  intros HP. induction l as [|x l IH]; simpl; [apply Emits_ret|].
  apply Emits_bind.
  - destruct (negb _); [apply Emits_isChildOf|apply Emits_ret].
  - intros [|]; [apply Emits_push; exact HP|exact IH].
Qed.

End Emitting.

#[export] Hint Resolve Emits_isChildOf Emits_collectProcesses : emits.

(** The steps for the rules: the two inner loops take the property of the
    warning they push as a premise. *)
Ltac rule_step tac :=
  match goal with
  | |- Emits _ (BusinessRulesValidator.checkBR11_generics _ _ _ _ _) =>
      apply Emits_checkBR11_generics; tac
  | |- Emits _ (BusinessRulesValidator.checkBR16_implicit _ _ _ _ _ _) =>
      apply Emits_checkBR16_implicit; tac
  | _ => emits_step tac
  end.

Ltac emits tac := unfold_rules; cbv zeta; repeat rule_step tac.

Lemma IsRule_createWarning msgs id x :
  IsRule msgs id (BusinessRulesValidator.createWarning msgs id x).
Proof.
  unfold IsRule, ruleSeverity, BusinessRulesValidator.createWarning.
  destruct (msgs !! id); repeat split.
Qed.

Lemma FromTable_createWarning msgs id x :
  In id businessRules -> FromTable msgs (BusinessRulesValidator.createWarning msgs id x).
Proof. intros H. exists id. split; [exact H|apply IsRule_createWarning]. Qed.

Lemma FromTable_specificWarning db msgs t f :
  FromTable msgs (BusinessRulesValidator.specificWarning db msgs t f).
Proof.
  exists "BR19". split; [simpl; tauto|].
  apply (IsRule_createWarning msgs "BR19" (split_dot_nth 1 f)).
Qed.

Lemma Emits_runRules_FromTable db fuel msgs fps t facets context :
  Emits (FromTable msgs) (BusinessRulesValidator.runRules db fuel msgs fps t facets context).
Proof.
  unfold BusinessRulesValidator.runRules.
  emits ltac:(first [apply FromTable_specificWarning
                    |apply FromTable_createWarning; simpl; tauto]).
Qed.

Lemma demoRules_run :
  BusinessRulesValidator.validateBusinessRules demoDb 10
    DataLoader.getDefaultWarningMessages demoForbidden demoMilk
    ["F28.A07KG"; "F28.A07MR"] "" ∅ = Some (demoRulesWarnings, demoRulesCache).
Proof. vm_compute. reflexivity. Qed.

Lemma validateBusinessRules_inv db fuel msgs fps t facets context cache ws cache' :
  BusinessRulesValidator.validateBusinessRules db fuel msgs fps t facets context cache
    = Some (ws, cache') ->
  exists x s',
    BusinessRulesValidator.runRules db fuel msgs fps t facets context (mkState cache [])
      = Some (x, s') /\ warnings s' = ws.
Proof.
  unfold BusinessRulesValidator.validateBusinessRules. intros H.
  destruct (BusinessRulesValidator.runRules _ _ _ _ _ _ _ _) as [[x s']|]; [|discriminate].
  injection H as <- <-. eauto.
Qed.

Lemma default_severities id w :
  In id businessRules -> IsRule DataLoader.getDefaultWarningMessages id w ->
  (blocking w <-> ~ In (rule w) ["BR10"; "BR11"; "BR12"; "BR22"; "BR23"]).
Proof.
  intros Hin (Hr & Hs & _). unfold blocking. rewrite Hr, Hs.
  simpl in Hin.
  repeat (destruct Hin as [<-|Hin]; [
    vm_compute; split;
      [intros Hb Hn;
       first [solve [destruct Hb as [Hb|Hb]; discriminate Hb]
             |solve [repeat (destruct Hn as [Hn|Hn]; [discriminate Hn|]); exact Hn]]
      |intros Hn; first [right; reflexivity|exfalso; apply Hn; tauto]]|]);
  contradiction.
Qed.

(** X20. Every warning the business rules return is a warning of one of
    twenty-three rules, BR01 to BR28 without BR14 and BR15, whose checks have
    empty bodies; it has the type BUSINESS_RULE and the severity the message
    table gives to its rule (HIGH for a rule the table does not have). With
    the default table the warnings that block are those of the rules other
    than BR10, BR11, BR12, BR22 and BR23. *)
Theorem business_warnings_come_from_the_table
  db fuel msgs fps t facets context cache ws cache' :
  BusinessRulesValidator.validateBusinessRules db fuel msgs fps t facets context cache
    = Some (ws, cache') ->
  Forall (FromTable msgs) ws /\
  (msgs = DataLoader.getDefaultWarningMessages ->
   Forall (fun w => blocking w <->
                    ~ In (rule w) ["BR10"; "BR11"; "BR12"; "BR22"; "BR23"]) ws).
Proof.
  intros H. apply validateBusinessRules_inv in H as (x & s' & H & <-).
  destruct (Emits_runRules_FromTable _ _ _ _ _ _ _ _ _ _ H) as (e & He & F).
  simpl in He. rewrite He. split; [exact F|].
  intros ->. eapply List.Forall_impl; [|exact F].
  intros w (id & Hin & Hw). exact (default_severities id w Hin Hw).
Qed.

Lemma business_warnings_come_from_the_table_witness :
  Forall (FromTable DataLoader.getDefaultWarningMessages) demoRulesWarnings /\
  (DataLoader.getDefaultWarningMessages = DataLoader.getDefaultWarningMessages ->
   Forall (fun w => blocking w <->
                    ~ In (rule w) ["BR10"; "BR11"; "BR12"; "BR22"; "BR23"])
          demoRulesWarnings).
Proof.
  exact (business_warnings_come_from_the_table _ _ _ _ _ _ _ _ _ _ demoRules_run).
Defined.

(** *** The place of the success message *)

Lemma Carries_bind {A B} Pre Mid Post (c : M A) (f : A -> M B) :
  Carries Pre c Mid -> (forall x, Carries Mid (f x) Post) -> Carries Pre (c ≫= f) Post.
Proof.
  intros Hc Hf s y s' HP H. rewrite bind_run in H.
  destruct (c s) as [[x s1]|] eqn:E; [|discriminate].
  eapply Hf; [|exact H]. eapply Hc; [exact HP|exact E].
Qed.

Lemma split_in_front {A} (Q : A -> Prop) (ws e pre : list A) w post :
  ws ++ e = pre ++ w :: post -> Q w -> (forall x, In x e -> ~ Q x) ->
  exists post', post = post' ++ e /\ ws = pre ++ w :: post'.
Proof.
  intros H Hw He. revert ws H. induction pre as [|p pre IH]; intros [|a ws] H; simpl in H.
  - exfalso. apply (He w); [rewrite H; left; reflexivity|exact Hw].
  - injection H as -> H. exists ws. auto.
  - exfalso. apply (He w); [|exact Hw]. rewrite H. right. apply in_or_app. right. left. reflexivity.
  - injection H as -> H. destruct (IH _ H) as (post' & -> & ->). exists post'. auto.
Qed.

Lemma split_in_back {A} (Q : A -> Prop) (ws e pre : list A) w post :
  ws ++ e = pre ++ w :: post -> Q w -> (forall x, In x ws -> ~ Q x) ->
  exists pre', pre = ws ++ pre' /\ e = pre' ++ w :: post.
Proof.
  revert pre. induction ws as [|a ws IH]; intros pre H Hw Hws; simpl in H.
  - exists pre. auto.
  - destruct pre as [|p pre]; simpl in H; injection H as -> H.
    + exfalso. apply (Hws w); [left; reflexivity|exact Hw].
    + destruct (IH _ H Hw) as (pre' & -> & ->); [intros x Hx; apply Hws; right; exact Hx|].
      exists pre'. auto.
Qed.

Lemma Carries_before {A} (c : M A) :
  Emits (fun w => rule w <> "BR22") c -> Carries NoSuccessYet c NoSuccessYet.
Proof.
  intros Hc s x s' HP H. destruct (Hc _ _ _ H) as (e & -> & F).
  intros w Hw. apply in_app_or in Hw as [Hw|Hw]; [apply HP; exact Hw|].
  rewrite List.Forall_forall in F. apply F. exact Hw.
Qed.

Lemma Carries_after {A} t (c : M A) :
  Emits (fun w => rule w <> "BR22") c -> Carries (SuccessInPlace t) c (SuccessInPlace t).
Proof.
  intros Hc s x s' HP H. destruct (Hc _ _ _ H) as (e & -> & F).
  rewrite List.Forall_forall in F.
  intros pre w post Heq Hr.
  destruct (split_in_front (fun w => rule w = "BR22") _ _ _ _ _ Heq Hr) as (post' & -> & Hws).
  { intros y Hy. apply F. exact Hy. }
  destruct (HP _ _ _ Hws Hr) as (H1 & H2 & H3). split; [exact H1|]. split; [|exact H3].
  intros y Hy. rewrite app_assoc in Hy. apply in_app_or in Hy as [Hy|Hy]; [apply H2; exact Hy|].
  apply F. exact Hy.
Qed.

Lemma existsb_blocking_false ws :
  existsb (fun w => String.eqb (severity w) "HIGH" || String.eqb (severity w) "ERROR") ws = false ->
  forall x, In x ws -> ~ blocking x.
Proof.
  intros H x Hx [Hb|Hb].
  - assert (E : existsb (fun w => String.eqb (severity w) "HIGH" || String.eqb (severity w) "ERROR") ws = true).
    { apply existsb_exists. exists x. split; [exact Hx|]. rewrite Hb. reflexivity. }
    congruence.
  - assert (E : existsb (fun w => String.eqb (severity w) "HIGH" || String.eqb (severity w) "ERROR") ws = true).
    { apply existsb_exists. exists x. split; [exact Hx|]. rewrite Hb. reflexivity. }
    congruence.
Qed.

Lemma Carries_checkBR22 msgs t :
  Carries NoSuccessYet (BusinessRulesValidator.checkBR22 msgs t) (SuccessInPlace t).
Proof.
  intros s x s' HP H. unfold BusinessRulesValidator.checkBR22 in H.
  rewrite bind_run in H. unfold getWarnings in H. cbv zeta in H.
  destruct (negb (existsb _ (warnings s))) eqn:E1; simpl in H;
    [destruct (negb (HierarchyHelper.isHierarchyTerm t)) eqn:E2; simpl in H|].
  - injection H as <- <-. simpl. intros pre w post Heq Hr.
    destruct (split_in_back (fun w => rule w = "BR22") _ _ _ _ _ Heq Hr) as (pre' & -> & He).
    { intros y Hy. apply HP. exact Hy. }
    destruct pre' as [|p pre']; simpl in He.
    + injection He as <- <-. rewrite !app_nil_r.
      apply negb_true_iff in E1. apply negb_true_iff in E2.
      split; [apply existsb_blocking_false; exact E1|]. split; [exact HP|exact E2].
    + injection He as _ He. destruct pre'; discriminate He.
  - injection H as <- <-. intros pre w post Heq Hr. exfalso.
    apply (HP w); [rewrite Heq; apply in_or_app; right; left; reflexivity|exact Hr].
  - injection H as <- <-. intros pre w post Heq Hr. exfalso.
    apply (HP w); [rewrite Heq; apply in_or_app; right; left; reflexivity|exact Hr].
Qed.

Ltac not_success :=
  unfold BusinessRulesValidator.specificWarning, BusinessRulesValidator.createWarning;
  cbn; discriminate.

Lemma Carries_runRules db fuel msgs fps t facets context :
  Carries NoSuccessYet
    (BusinessRulesValidator.runRules db fuel msgs fps t facets context) (SuccessInPlace t).
Proof.
  unfold BusinessRulesValidator.runRules.
  repeat (eapply Carries_bind;
    [first [apply Carries_checkBR22
           |apply Carries_before; emits not_success
           |apply Carries_after; emits not_success]
    |intros _]).
  apply Carries_after; emits not_success.
Qed.

(** X21. Among the warnings of the business rules the success message BR22
    comes at most once, only for a base term that is not a hierarchy term,
    and only after warnings that do not block: no warning before it has the
    severity HIGH or ERROR. Warnings after it (BR23 to BR28) can block. *)
Theorem success_message_in_place
  db fuel msgs fps t facets context cache ws cache' pre w post :
  BusinessRulesValidator.validateBusinessRules db fuel msgs fps t facets context cache
    = Some (ws, cache') ->
  ws = pre ++ w :: post -> rule w = "BR22" ->
  (forall x, In x pre -> ~ blocking x) /\
  (forall x, In x (pre ++ post) -> rule x <> "BR22") /\
  HierarchyHelper.isHierarchyTerm t = false.
Proof.
  intros H. apply validateBusinessRules_inv in H as (x & s' & H & <-).
  intros Heq Hr. eapply (Carries_runRules _ _ _ _ _ _ _ _ _ _ _ H); [exact Heq|exact Hr].
  Unshelve. intros y [].
Qed.

Lemma success_message_in_place_witness :
  exists pre w post,
    demoRulesWarnings = pre ++ w :: post /\ rule w = "BR22" /\
    Exists blocking post /\
    (forall x, In x pre -> ~ blocking x) /\
    (forall x, In x (pre ++ post) -> rule x <> "BR22") /\
    HierarchyHelper.isHierarchyTerm demoMilk = false.
Proof.
  exists (firstn 2 demoRulesWarnings), (nth 2 demoRulesWarnings (mkWarning "" "" "" "" None None None None None)),
    (skipn 3 demoRulesWarnings).
  split; [reflexivity|]. split; [reflexivity|].
  split; [apply Exists_cons_hd; right; reflexivity|].
  exact (success_message_in_place _ _ _ _ _ _ _ _ _ _
           (firstn 2 demoRulesWarnings)
           (nth 2 demoRulesWarnings (mkWarning "" "" "" "" None None None None None))
           (skipn 3 demoRulesWarnings) demoRules_run eq_refl eq_refl).
Defined.


(** ** The soft rules *)

Lemma soft_step_none (id : string) (ws : list Warning) :
  exists e, ws = ws ++ e /\
    Forall (fun w => severity w = "NONE" /\ w_type w = "INFO") e /\
    sublist (map rule e) [id].
Proof.
  exists []. rewrite app_nil_r. split; [reflexivity|]. split; [constructor|].
  apply sublist_nil_l.
Qed.

Lemma soft_step_one (id x : string) (ws : list Warning) :
  exists e, ws ++ [SoftRulesValidator.createSoftWarning id x] = ws ++ e /\
    Forall (fun w => severity w = "NONE" /\ w_type w = "INFO") e /\
    sublist (map rule e) [id].
Proof.
  exists [SoftRulesValidator.createSoftWarning id x]. split; [reflexivity|].
  split; [repeat constructor|]. simpl. reflexivity.
Qed.

Ltac soft_step :=
  cbv zeta;
  repeat match goal with
         | |- context [if ?b then _ else _] => destruct b
         end;
  first [apply soft_step_none|apply soft_step_one].

Lemma checkSR5_loop_step ms l b ws :
  exists e, SoftRulesValidator.checkSR5_loop ms l b ws = ws ++ e /\
    Forall (fun w => severity w = "NONE" /\ w_type w = "INFO") e /\
    sublist (map rule e) ["SR5"].
Proof.
  induction l as [|f l IH]; simpl; [apply soft_step_none|].
  destruct (includes ms (split_dot_nth 1 f) && negb b); [apply soft_step_one|exact IH].
Qed.

Lemma validateSoftRules_spec t facets context textInfo :
  Forall (fun w => severity w = "NONE" /\ w_type w = "INFO")
    (SoftRulesValidator.validateSoftRules t facets context textInfo) /\
  sublist (map rule (SoftRulesValidator.validateSoftRules t facets context textInfo))
    ["SR1"; "SR2"; "SR3"; "SR4"; "SR5"; "SR6"; "SR7"; "SR8"].
Proof.
  unfold SoftRulesValidator.validateSoftRules. cbv zeta.
  assert (H1 : exists e, SoftRulesValidator.checkSR1 t facets [] = [] ++ e /\
    Forall (fun w => severity w = "NONE" /\ w_type w = "INFO") e /\ sublist (map rule e) ["SR1"])
    by (unfold SoftRulesValidator.checkSR1; soft_step).
  destruct H1 as (e1 & -> & F1 & S1).
  assert (H2 : exists e, SoftRulesValidator.checkSR2 t facets textInfo ([] ++ e1) = ([] ++ e1) ++ e /\
    Forall (fun w => severity w = "NONE" /\ w_type w = "INFO") e /\ sublist (map rule e) ["SR2"])
    by (unfold SoftRulesValidator.checkSR2; soft_step).
  destruct H2 as (e2 & -> & F2 & S2).
  assert (H3 : exists e, SoftRulesValidator.checkSR3 t facets (([] ++ e1) ++ e2) = (([] ++ e1) ++ e2) ++ e /\
    Forall (fun w => severity w = "NONE" /\ w_type w = "INFO") e /\ sublist (map rule e) ["SR3"])
    by (unfold SoftRulesValidator.checkSR3; soft_step).
  destruct H3 as (e3 & -> & F3 & S3).
  match goal with |- context [SoftRulesValidator.checkSR4 t facets ?ws] =>
    assert (H4 : exists e, SoftRulesValidator.checkSR4 t facets ws = ws ++ e /\
      Forall (fun w => severity w = "NONE" /\ w_type w = "INFO") e /\ sublist (map rule e) ["SR4"])
      by (unfold SoftRulesValidator.checkSR4; soft_step)
  end.
  destruct H4 as (e4 & -> & F4 & S4).
  match goal with |- context [SoftRulesValidator.checkSR5 t facets ?ws] =>
    assert (H5 : exists e, SoftRulesValidator.checkSR5 t facets ws = ws ++ e /\
      Forall (fun w => severity w = "NONE" /\ w_type w = "INFO") e /\ sublist (map rule e) ["SR5"])
      by (unfold SoftRulesValidator.checkSR5; apply checkSR5_loop_step)
  end.
  destruct H5 as (e5 & -> & F5 & S5).
  match goal with |- context [SoftRulesValidator.checkSR6 t facets ?ws] =>
    assert (H6 : exists e, SoftRulesValidator.checkSR6 t facets ws = ws ++ e /\
      Forall (fun w => severity w = "NONE" /\ w_type w = "INFO") e /\ sublist (map rule e) ["SR6"])
      by (unfold SoftRulesValidator.checkSR6; soft_step)
  end.
  destruct H6 as (e6 & -> & F6 & S6).
  match goal with |- context [SoftRulesValidator.checkSR7 t facets ?ws] =>
    assert (H7 : exists e, SoftRulesValidator.checkSR7 t facets ws = ws ++ e /\
      Forall (fun w => severity w = "NONE" /\ w_type w = "INFO") e /\ sublist (map rule e) ["SR7"])
      by (unfold SoftRulesValidator.checkSR7; soft_step)
  end.
  destruct H7 as (e7 & -> & F7 & S7).
  match goal with |- context [SoftRulesValidator.checkSR8 t facets ?ws] =>
    assert (H8 : exists e, SoftRulesValidator.checkSR8 t facets ws = ws ++ e /\
      Forall (fun w => severity w = "NONE" /\ w_type w = "INFO") e /\ sublist (map rule e) ["SR8"])
      by (unfold SoftRulesValidator.checkSR8; soft_step)
  end.
  destruct H8 as (e8 & -> & F8 & S8).
  simpl. split.
  - repeat (apply Forall_app; split); assumption.
  - rewrite !map_app.
    change ["SR1"; "SR2"; "SR3"; "SR4"; "SR5"; "SR6"; "SR7"; "SR8"]
      with (((((((["SR1"] ++ ["SR2"]) ++ ["SR3"]) ++ ["SR4"]) ++ ["SR5"]) ++ ["SR6"])
              ++ ["SR7"]) ++ ["SR8"]).
    repeat (apply sublist_app; [|assumption]). assumption.
Qed.

(** X22. The soft rules give at most eight warnings, in the order SR1 to
    SR8 and none of a rule twice; each has the severity NONE and the type
    INFO, whatever the term, the facets, the context and the text. *)
Theorem soft_rules_inform_in_order (t : Term) (facets : list string)
  (context textInfo : string) :
  let sr := SoftRulesValidator.validateSoftRules t facets context textInfo in
  Forall (fun w => severity w = "NONE" /\ w_type w = "INFO") sr /\
  sublist (map rule sr) ["SR1"; "SR2"; "SR3"; "SR4"; "SR5"; "SR6"; "SR7"; "SR8"] /\
  length sr <= 8.
Proof.
  cbv zeta. destruct (validateSoftRules_spec t facets context textInfo) as [F S].
  split; [exact F|]. split; [exact S|].
  apply sublist_length in S. rewrite length_map in S. exact S.
Qed.

Lemma existsb_app_false {A} (p : A -> bool) l e :
  Forall (fun x => p x = false) e -> existsb p (l ++ e) = existsb p l.
Proof.
  intros F. rewrite existsb_app.
  assert (E : existsb p e = false).
  { induction F as [|x e Hx F IH]; simpl; [reflexivity|]. rewrite Hx. exact IH. }
  rewrite E. apply orb_false_r.
Qed.

Lemma filter_app_none {A} (p : A -> bool) l e :
  Forall (fun x => p x = false) e -> List.filter p (l ++ e) = List.filter p l.
Proof.
  intros F. rewrite List.filter_app.
  assert (E : List.filter p e = []).
  { induction F as [|x e Hx F IH]; simpl; [reflexivity|]. rewrite Hx. exact IH. }
  rewrite E. apply app_nil_r.
Qed.

Lemma filter_app_all {A} (p : A -> bool) l e :
  Forall (fun x => p x = true) e -> List.filter p (l ++ e) = List.filter p l ++ e.
Proof.
  intros F. rewrite List.filter_app. f_equal.
  induction F as [|x e Hx F IH]; simpl; [reflexivity|]. rewrite Hx, IH. reflexivity.
Qed.

Lemma formatResult_informing db colors vba brw srw :
  Forall (fun w => severity w = "NONE" /\ w_type w = "INFO") srw ->
  let r := FoodEx2Validator.formatResult db colors vba (Some brw) (Some srw) in
  let r0 := FoodEx2Validator.formatResult db colors vba (Some brw) (Some []) in
  FoodEx2Validator.warnings r = FoodEx2Validator.warnings r0 ++ srw /\
  FoodEx2Validator.infoWarnings r = FoodEx2Validator.infoWarnings r0 ++ srw /\
  FoodEx2Validator.hardWarnings r = FoodEx2Validator.hardWarnings r0 /\
  FoodEx2Validator.softWarnings r = FoodEx2Validator.softWarnings r0 /\
  FoodEx2Validator.valid r = FoodEx2Validator.valid r0 /\
  FoodEx2Validator.severity r = FoodEx2Validator.severity r0 /\
  FoodEx2Validator.semaphoreColor r = FoodEx2Validator.semaphoreColor r0 /\
  FoodEx2Validator.cleanedCode r = FoodEx2Validator.cleanedCode r0 /\
  FoodEx2Validator.facets r = FoodEx2Validator.facets r0 /\
  FoodEx2Validator.interpretedDescription r = FoodEx2Validator.interpretedDescription r0.
Proof.
  intros F. cbv zeta. unfold FoodEx2Validator.formatResult.
  cbn [default from_option id]. rewrite app_nil_r.
  set (A := VBAValidator.warnings vba ++ brw).
  rewrite (app_assoc (VBAValidator.warnings vba) brw srw). fold A.
  assert (Fsev : forall sev, sev <> "NONE" ->
            Forall (fun w => FoodEx2Validator.isSeverity sev w = false) srw).
  { intros sev Hsev. eapply List.Forall_impl; [|exact F]. intros w [Hw _].
    unfold FoodEx2Validator.isSeverity. rewrite Hw. apply String.eqb_neq. congruence. }
  assert (Fb : forall n, n <> 2 ->
            Forall (fun w => Nat.eqb (FoodEx2Validator.bucketOf w) n = false) srw).
  { intros n Hn. eapply List.Forall_impl; [|exact F]. intros w [Hw _].
    assert (E : FoodEx2Validator.bucketOf w = 2)
      by (apply bucketOf_info; rewrite Hw; reflexivity).
    rewrite E. apply Nat.eqb_neq. congruence. }
  assert (F2 : Forall (fun w => Nat.eqb (FoodEx2Validator.bucketOf w) 2 = true) srw).
  { eapply List.Forall_impl; [|exact F]. intros w [Hw _].
    assert (E : FoodEx2Validator.bucketOf w = 2)
      by (apply bucketOf_info; rewrite Hw; reflexivity).
    rewrite E. reflexivity. }
  assert (Fblk : Forall (fun w => FoodEx2Validator.isSeverity "ERROR" w ||
                                 FoodEx2Validator.isSeverity "HIGH" w = false) srw).
  { eapply List.Forall_impl; [|exact F]. intros w [Hw _].
    unfold FoodEx2Validator.isSeverity. rewrite Hw. reflexivity. }
  assert (Hsev : FoodEx2Validator.getOverallSeverity (A ++ srw)
                 = FoodEx2Validator.getOverallSeverity A).
  { unfold FoodEx2Validator.getOverallSeverity.
    rewrite !existsb_app_false by (apply Fsev; discriminate). reflexivity. }
  unfold FoodEx2Validator.categorizeWarnings. cbn.
  rewrite Hsev.
  rewrite (filter_app_none _ A srw (Fb 0 ltac:(discriminate))).
  rewrite (filter_app_none _ A srw (Fb 1 ltac:(discriminate))).
  rewrite (filter_app_all _ A srw F2).
  rewrite (existsb_app_false _ A srw Fblk).
  repeat split.
Qed.

(** X23. The soft rules never change the verdict: a validation with the
    soft rules gives the result of the same validation with the option
    [skipSoftRules], with the soft-rule warnings added at the end of
    [warnings] and of [infoWarnings]; validity, severity, semaphore colour,
    the hard and the soft warnings, the cleaned code, the facets and the
    memo table are the same. *)
Theorem soft_rules_never_change_the_verdict
  (db : Database) (fuel : nat) (msgs : gmap string WarningMessage)
  (fps : list ForbiddenProcess) (colors : list (string * FoodEx2Validator.Color))
  (o : FoodEx2Validator.Options)
  (fullCode : string) (cache : gmap string (list (option string)))
  (r : FoodEx2Validator.Result) (cache' : gmap string (list (option string))) :
  FoodEx2Validator.validateCode db fuel msgs fps colors
    SoftRulesValidator.validateSoftRules o fullCode cache = Some (r, cache') ->
  let skipping :=
    FoodEx2Validator.mkOptions (FoodEx2Validator.context o)
      (FoodEx2Validator.skipBusinessRules o) (FoodEx2Validator.skipVBAValidation o)
      true (FoodEx2Validator.stopOnStructuralError o)
      (FoodEx2Validator.allowHighWarnings o) in
  exists r0 srw,
    FoodEx2Validator.validateCode db fuel msgs fps colors
      SoftRulesValidator.validateSoftRules skipping fullCode cache = Some (r0, cache') /\
    Forall (fun w => severity w = "NONE" /\ w_type w = "INFO") srw /\
    FoodEx2Validator.warnings r = FoodEx2Validator.warnings r0 ++ srw /\
    FoodEx2Validator.infoWarnings r = FoodEx2Validator.infoWarnings r0 ++ srw /\
    FoodEx2Validator.hardWarnings r = FoodEx2Validator.hardWarnings r0 /\
    FoodEx2Validator.softWarnings r = FoodEx2Validator.softWarnings r0 /\
    FoodEx2Validator.valid r = FoodEx2Validator.valid r0 /\
    FoodEx2Validator.severity r = FoodEx2Validator.severity r0 /\
    FoodEx2Validator.semaphoreColor r = FoodEx2Validator.semaphoreColor r0 /\
    FoodEx2Validator.cleanedCode r = FoodEx2Validator.cleanedCode r0 /\
    FoodEx2Validator.facets r = FoodEx2Validator.facets r0 /\
    FoodEx2Validator.interpretedDescription r = FoodEx2Validator.interpretedDescription r0.
Proof.
  intros H. cbv zeta.
  unfold FoodEx2Validator.validateCode, FoodEx2Validator.runVBAValidation in *.
  destruct (FoodEx2Validator.parseFullCode fullCode) as [b fs].
  cbn [FoodEx2Validator.skipVBAValidation FoodEx2Validator.stopOnStructuralError].
  destruct (FoodEx2Validator.skipVBAValidation o); [discriminate|].
  destruct (negb (VBAValidator.valid _) && FoodEx2Validator.stopOnStructuralError o).
  - injection H as <- <-. eexists _, []. split; [reflexivity|].
    split; [constructor|]. rewrite !app_nil_r. repeat split.
  - unfold FoodEx2Validator.runBusinessRulesValidation in *.
    cbn [FoodEx2Validator.skipBusinessRules FoodEx2Validator.context].
    match type of H with
    | match ?X with _ => _ end = _ => destruct X as [[brw c1]|] eqn:Hbr; [|discriminate]
    end.
    injection H as <- <-.
    eexists _, (FoodEx2Validator.runSoftRulesValidation SoftRulesValidator.validateSoftRules o
                  (VBAValidator.baseTerm (VBAValidator.validateFoodEx2Code db b fs))
                  (default [] (VBAValidator.cleanedFacets (VBAValidator.validateFoodEx2Code db b fs)))).
    split; [reflexivity|].
    assert (F : Forall (fun w => severity w = "NONE" /\ w_type w = "INFO")
                  (FoodEx2Validator.runSoftRulesValidation SoftRulesValidator.validateSoftRules o
                     (VBAValidator.baseTerm (VBAValidator.validateFoodEx2Code db b fs))
                     (default [] (VBAValidator.cleanedFacets (VBAValidator.validateFoodEx2Code db b fs))))).
    { unfold FoodEx2Validator.runSoftRulesValidation.
      destruct (VBAValidator.baseTerm _); [|constructor].
      destruct (FoodEx2Validator.skipSoftRules o); [constructor|].
      apply validateSoftRules_spec. }
    split; [exact F|].
    assert (E0 : FoodEx2Validator.runSoftRulesValidation SoftRulesValidator.validateSoftRules
                   (FoodEx2Validator.mkOptions (FoodEx2Validator.context o)
                      (FoodEx2Validator.skipBusinessRules o) false true
                      (FoodEx2Validator.stopOnStructuralError o)
                      (FoodEx2Validator.allowHighWarnings o))
                   (VBAValidator.baseTerm (VBAValidator.validateFoodEx2Code db b fs))
                   (default [] (VBAValidator.cleanedFacets (VBAValidator.validateFoodEx2Code db b fs)))
                 = []).
    { unfold FoodEx2Validator.runSoftRulesValidation.
      destruct (VBAValidator.baseTerm _); reflexivity. }
    rewrite E0.
    exact (formatResult_informing db colors _ brw _ F).
Qed.

Lemma soft_rules_never_change_the_verdict_witness :
  exists r c,
    FoodEx2Validator.validateCode demoSoftDb 10 DataLoader.getDefaultWarningMessages
      demoForbidden FoodEx2Validator.getDefaultWarningColors
      SoftRulesValidator.validateSoftRules FoodEx2Service.defaultOptions
      "A000L#F28.A0CRK" ∅ = Some (r, c) /\
    map rule (FoodEx2Validator.warnings r) = ["BR11"; "BR22"; "SR5"] /\
    exists r0 srw,
      FoodEx2Validator.validateCode demoSoftDb 10 DataLoader.getDefaultWarningMessages
        demoForbidden FoodEx2Validator.getDefaultWarningColors
        SoftRulesValidator.validateSoftRules
        (FoodEx2Validator.mkOptions "ICT" false false true false false)
        "A000L#F28.A0CRK" ∅ = Some (r0, c) /\
      Forall (fun w => severity w = "NONE" /\ w_type w = "INFO") srw /\
      FoodEx2Validator.warnings r = FoodEx2Validator.warnings r0 ++ srw /\
      FoodEx2Validator.infoWarnings r = FoodEx2Validator.infoWarnings r0 ++ srw /\
      FoodEx2Validator.hardWarnings r = FoodEx2Validator.hardWarnings r0 /\
      FoodEx2Validator.softWarnings r = FoodEx2Validator.softWarnings r0 /\
      FoodEx2Validator.valid r = FoodEx2Validator.valid r0 /\
      FoodEx2Validator.severity r = FoodEx2Validator.severity r0 /\
      FoodEx2Validator.semaphoreColor r = FoodEx2Validator.semaphoreColor r0 /\
      FoodEx2Validator.cleanedCode r = FoodEx2Validator.cleanedCode r0 /\
      FoodEx2Validator.facets r = FoodEx2Validator.facets r0 /\
      FoodEx2Validator.interpretedDescription r = FoodEx2Validator.interpretedDescription r0.
Proof.
  pose proof demoSoft_run as Hrun. unfold demoSoft in Hrun.
  eexists _, _. split; [exact Hrun|]. split; [reflexivity|].
  exact (soft_rules_never_change_the_verdict _ _ _ _ _ _ _ _ _ _ Hrun).
Defined.


(** ** When a validation answers *)

Lemma validateCode_answers db fuel msgs fps colors sr o fullCode cache :
  QueriesFinish db fuel -> FoodEx2Validator.skipVBAValidation o = false ->
  exists r cache',
    FoodEx2Validator.validateCode db fuel msgs fps colors sr o fullCode cache
      = Some (r, cache').
Proof.
  intros Hfinish Hskip.
  unfold FoodEx2Validator.validateCode, FoodEx2Validator.runVBAValidation.
  destruct (FoodEx2Validator.parseFullCode fullCode) as [b fs]. rewrite Hskip.
  destruct (negb _ && FoodEx2Validator.stopOnStructuralError o); [eauto|].
  unfold FoodEx2Validator.runBusinessRulesValidation.
  destruct (VBAValidator.baseTerm _) as [t|]; [|eauto].
  destruct (FoodEx2Validator.skipBusinessRules o); [eauto|].
  unfold BusinessRulesValidator.validateBusinessRules.
  destruct (Returns_runRules db fuel msgs fps Hfinish t
              (default [] (VBAValidator.cleanedFacets (VBAValidator.validateFoodEx2Code db b fs)))
              (FoodEx2Validator.context o) (mkState cache [])) as ([] & s' & ->).
  eauto.
Qed.

Lemma validateBatch_loop_answers db fuel msgs fps colors sr o codes :
  QueriesFinish db fuel -> FoodEx2Validator.skipVBAValidation o = false ->
  forall i total cb acc pacc cache,
  exists rs pr cache',
    FoodEx2Validator.validateBatch_loop db fuel msgs fps colors sr o
      codes i total cb acc pacc cache = Some (rs, pr, cache').
Proof.
  intros Hfinish Hskip. induction codes as [|c codes IH]; intros; simpl; [eauto|].
  destruct (validateCode_answers db fuel msgs fps colors sr o c cache Hfinish Hskip)
    as (r & c1 & ->).
  apply IH.
Qed.

Lemma validateBatch_loop_None db fuel msgs fps colors sr o codes :
  forall i total cb acc pacc cache,
    MemoOk db fuel cache ->
    (FoodEx2Validator.validateBatch_loop db fuel msgs fps colors sr o
       codes i total cb acc pacc cache = None <->
     exists c, In c codes /\
       FoodEx2Validator.validateCode db fuel msgs fps colors sr o c ∅ = None).
Proof.
  induction codes as [|c codes IH]; intros i total cb acc pacc cache Hc; simpl.
  - split; [discriminate|]. intros (c & [] & _).
  - pose proof (validateCode_alike db fuel msgs fps colors sr o c cache ∅ Hc
                  (MemoOk_empty db fuel)) as Ha.
    destruct (FoodEx2Validator.validateCode db fuel msgs fps colors sr o c cache)
      as [[r c1]|] eqn:Hrun.
    + destruct (FoodEx2Validator.validateCode db fuel msgs fps colors sr o c ∅)
        as [[r0 c0]|] eqn:Hrun0; [|contradiction].
      destruct Ha as (_ & Hc1 & _).
      rewrite (IH _ _ _ _ _ _ Hc1). split.
      * intros (x & Hx & Hn). exists x. auto.
      * intros (x & [<-|Hx] & Hn); [congruence|]. exists x. auto.
    + destruct (FoodEx2Validator.validateCode db fuel msgs fps colors sr o c ∅)
        as [[r0 c0]|] eqn:Hrun0; [contradiction|].
      split; [|reflexivity]. intros _. exists c. auto.
Qed.

(** X24. A batch fails as a whole: [validateBatch] gives no results at all
    exactly when one of its codes is a code whose validation, taken alone on
    a fresh validator, fails. The results of the codes validated before the
    failing one are lost with it. *)
Theorem batch_fails_as_a_whole
  (db : Database) (fuel : nat) (msgs : gmap string WarningMessage)
  (fps : list ForbiddenProcess) (colors : list (string * FoodEx2Validator.Color))
  (sr : Term -> list string -> string -> string -> list Warning)
  (o : FoodEx2Validator.Options) (codes : list string) (progressCallback : bool)
  (cache : gmap string (list (option string))) :
  MemoOk db fuel cache ->
  (FoodEx2Validator.validateBatch db fuel msgs fps colors sr o codes progressCallback cache
     = None <->
   exists c, In c codes /\
     FoodEx2Validator.validateCode db fuel msgs fps colors sr o c ∅ = None).
Proof.
  intros Hc. unfold FoodEx2Validator.validateBatch.
  apply validateBatch_loop_None. exact Hc.
Qed.

Lemma batch_fails_as_a_whole_witness :
  FoodEx2Validator.validateBatch demoCyclicDb 10 DataLoader.getDefaultWarningMessages
    demoForbidden FoodEx2Validator.getDefaultWarningColors
    SoftRulesValidator.validateSoftRules FoodEx2Service.defaultOptions
    ["ZZZZZ"; "A0C1C"] false ∅ = None.
Proof.
  apply (batch_fails_as_a_whole demoCyclicDb 10); [apply MemoOk_empty|].
  exists "A0C1C". split; [right; left; reflexivity|exact demoCyclic_run].
Defined.

(** X25. Where the recursive ancestor query finishes on every term, a
    validator that does not skip the structural validation answers every
    code and every batch, whatever its other options and whatever the state
    of its memo table; a batch then has one result for each code. *)
Theorem validator_always_answers
  (db : Database) (fuel : nat) (msgs : gmap string WarningMessage)
  (fps : list ForbiddenProcess) (colors : list (string * FoodEx2Validator.Color))
  (sr : Term -> list string -> string -> string -> list Warning)
  (o : FoodEx2Validator.Options) :
  QueriesFinish db fuel -> FoodEx2Validator.skipVBAValidation o = false ->
  (forall fullCode cache, exists r cache',
     FoodEx2Validator.validateCode db fuel msgs fps colors sr o fullCode cache
       = Some (r, cache')) /\
  (forall codes progressCallback cache, exists results progress cache',
     FoodEx2Validator.validateBatch db fuel msgs fps colors sr o codes progressCallback cache
       = Some (results, progress, cache') /\
     length results = length codes).
Proof.
  intros Hfinish Hskip. split.
  - intros fullCode cache. apply validateCode_answers; assumption.
  - intros codes cb cache. unfold FoodEx2Validator.validateBatch.
    destruct (validateBatch_loop_answers db fuel msgs fps colors sr o codes Hfinish Hskip
                0 (length codes) cb [] [] cache) as (rs & pr & c' & H).
    exists rs, pr, c'. split; [exact H|].
    apply validateBatch_loop_results in H as (rs' & -> & Hlen & _).
    simpl. exact Hlen.
Qed.

Lemma validator_always_answers_witness :
  (forall fullCode cache, exists r cache',
     FoodEx2Validator.validateCode demoDb 10 DataLoader.getDefaultWarningMessages
       demoForbidden FoodEx2Validator.getDefaultWarningColors
       SoftRulesValidator.validateSoftRules FoodEx2Service.defaultOptions fullCode cache
       = Some (r, cache')) /\
  (forall codes progressCallback cache, exists results progress cache',
     FoodEx2Validator.validateBatch demoDb 10 DataLoader.getDefaultWarningMessages
       demoForbidden FoodEx2Validator.getDefaultWarningColors
       SoftRulesValidator.validateSoftRules FoodEx2Service.defaultOptions
       codes progressCallback cache = Some (results, progress, cache') /\
     length results = length codes).
Proof.
  apply (validator_always_answers demoDb 10); [|reflexivity].
  apply queriesFinishOnRows_sound; [lia|reflexivity].
Defined.


(** ** The rules on forbidden processes without their data *)

Lemma Emits_bind_yields {A B} P (Q : A -> Prop) (c : M A) (f : A -> M B) :
  Emits P c -> Yields Q c -> (forall x, Q x -> Emits P (f x)) -> Emits P (c ≫= f).
Proof.
  intros Hc Hq Hf s y s' H. rewrite bind_run in H.
  destruct (c s) as [[x s1]|] eqn:E; [|discriminate].
  destruct (Hc _ _ _ E) as (e1 & H1 & F1).
  destruct (Hf x (Hq _ _ _ E) _ _ _ H) as (e2 & H2 & F2).
  exists (e1 ++ e2). rewrite H2, H1, <- app_assoc. split; [reflexivity|].
  apply Forall_app. auto.
Qed.

Lemma forbiddenOf_nil l : BusinessRulesValidator.forbiddenOf [] l = [].
Proof. induction l as [|a l IH]; [reflexivity|exact IH]. Qed.

Lemma ordinalAmong_nil l p : BusinessRulesValidator.ordinalAmong [] l p = inject_Z 0.
Proof. induction l as [|a l IH]; [reflexivity|exact IH]. Qed.

Lemma Yields_getForbiddenProcesses_nil db fuel t :
  Yields (fun l => l = []) (BusinessRulesValidator.getForbiddenProcesses db fuel [] t).
Proof.
  intros s x s' H. unfold BusinessRulesValidator.getForbiddenProcesses in H.
  rewrite bind_run in H.
  destruct (HierarchyHelper.getAncestors db fuel t "report" s) as [[anc s1]|]; [|discriminate].
  rewrite bind_run in H.
  destruct (HierarchyHelper.pushToAncestors _ _ s1) as [[[] s2]|]; [|discriminate].
  injection H as <- <-. rewrite forbiddenOf_nil. reflexivity.
Qed.

Lemma Yields_getProcessOrdinalCode_nil db fuel t p :
  Yields (fun q => q = inject_Z 0)
    (BusinessRulesValidator.getProcessOrdinalCode db fuel [] t p).
Proof.
  intros s x s' H. unfold BusinessRulesValidator.getProcessOrdinalCode in H.
  rewrite bind_run in H.
  destruct (HierarchyHelper.getAncestors db fuel t "report" s) as [[anc s1]|]; [|discriminate].
  rewrite bind_run in H.
  destruct (HierarchyHelper.pushToAncestors _ _ s1) as [[[] s2]|]; [|discriminate].
  injection H as <- <-. apply ordinalAmong_nil.
Qed.

Lemma Yields_collectProcesses_nil db fuel t facets implicit :
  forall acc,
    Forall (fun p => BusinessRulesValidator.p_ordinalCode p = inject_Z 0) acc ->
    Yields (Forall (fun p => BusinessRulesValidator.p_ordinalCode p = inject_Z 0))
      (BusinessRulesValidator.collectProcesses db fuel [] t facets implicit acc).
Proof.
  induction facets as [|f facets IH]; intros acc Hacc s x s' H; simpl in H.
  - injection H as <- <-. exact Hacc.
  - rewrite bind_run in H.
    destruct (BusinessRulesValidator.getProcessOrdinalCode db fuel [] t (split_dot_nth 1 f) s)
      as [[q s1]|] eqn:E; [|discriminate].
    apply Yields_getProcessOrdinalCode_nil in E. subst q.
    eapply IH; [|exact H]. apply Forall_app. split; [exact Hacc|]. repeat constructor.
Qed.

Lemma Yields_getProcessesWithOrdinalCodes_nil db fuel t facets :
  Yields (Forall (fun p => BusinessRulesValidator.p_ordinalCode p = inject_Z 0))
    (BusinessRulesValidator.getProcessesWithOrdinalCodes db fuel [] t facets).
Proof.
  intros s x s' H. unfold BusinessRulesValidator.getProcessesWithOrdinalCodes in H.
  cbv zeta in H. rewrite bind_run in H.
  destruct (BusinessRulesValidator.collectProcesses db fuel [] (code t) _ true [] s)
    as [[ps s1]|] eqn:E; [|discriminate].
  eapply Yields_collectProcesses_nil; [|exact H].
  eapply Yields_collectProcesses_nil; [|exact E]. constructor.
Qed.

Lemma ordinalGroupsOf_zero ps :
  Forall (fun p => BusinessRulesValidator.p_ordinalCode p = inject_Z 0) ps ->
  BusinessRulesValidator.ordinalGroupsOf ps = [].
Proof.
  unfold BusinessRulesValidator.ordinalGroupsOf. intros F.
  assert (H : forall g,
             fold_left (fun groups proc =>
                 if Qnonzero (BusinessRulesValidator.p_ordinalCode proc)
                 then obj_push (BusinessRulesValidator.p_ordinalCode proc)
                        (BusinessRulesValidator.p_code proc) groups
                 else groups) ps g = g).
  { induction F as [|p ps Hp F IH]; intros g; simpl; [reflexivity|].
    rewrite Hp. apply IH. }
  apply H.
Qed.

Lemma decimal_zero ps :
  Forall (fun p => BusinessRulesValidator.p_ordinalCode p = inject_Z 0) ps ->
  List.filter (fun p => negb (Qis_integer (BusinessRulesValidator.p_ordinalCode p))) ps = [].
Proof.
  induction 1 as [|p ps Hp F IH]; simpl; [reflexivity|]. rewrite Hp. exact IH.
Qed.

Section NoData.

Variable db : Database.
Variable fuel : nat.
Variable msgs : gmap string WarningMessage.

Lemma Emits_checkBR19_nil P t facets :
  Emits P (BusinessRulesValidator.checkBR19 db fuel msgs [] t facets).
Proof.
  unfold BusinessRulesValidator.checkBR19.
  destruct (negb (HierarchyHelper.isRawCommodity t)); [apply Emits_ret|].
  eapply Emits_bind_yields;
    [emits idtac|apply Yields_getForbiddenProcesses_nil|].
  intros l Hl. cbv beta in Hl. subst l. apply Emits_for_each. intros f. cbn. apply Emits_ret.
Qed.

Lemma Emits_checkBR26_nil P t facets :
  Emits P (BusinessRulesValidator.checkBR26 db fuel msgs [] t facets).
Proof.
  unfold BusinessRulesValidator.checkBR26.
  destruct (negb (HierarchyHelper.isDerivative t)); [apply Emits_ret|].
  eapply Emits_bind_yields;
    [emits idtac|apply Yields_getProcessesWithOrdinalCodes_nil|].
  intros ps Hps. cbv beta in Hps. cbv zeta. rewrite (ordinalGroupsOf_zero ps Hps). apply Emits_ret.
Qed.

Lemma Emits_checkBR27_nil P t facets :
  Emits P (BusinessRulesValidator.checkBR27 db fuel msgs [] t facets).
Proof.
  unfold BusinessRulesValidator.checkBR27.
  destruct (negb (HierarchyHelper.isDerivative t)); [apply Emits_ret|].
  eapply Emits_bind_yields;
    [emits idtac|apply Yields_getProcessesWithOrdinalCodes_nil|].
  intros ps Hps. cbv beta in Hps. cbv zeta. rewrite (decimal_zero ps Hps). apply Emits_ret.
Qed.

Lemma Emits_runRules_nil t facets context :
  Emits (fun w => ~ In (rule w) ["BR19"; "BR26"; "BR27"])
    (BusinessRulesValidator.runRules db fuel msgs [] t facets context).
Proof.
  unfold BusinessRulesValidator.runRules.
  repeat (apply Emits_bind;
    [first [apply Emits_checkBR19_nil|apply Emits_checkBR26_nil|apply Emits_checkBR27_nil
           |emits ltac:(cbn; intros H; repeat (destruct H as [H|H]; [discriminate H|]); exact H)]
    |intros _]).
  emits ltac:(cbn; intros H; repeat (destruct H as [H|H]; [discriminate H|]); exact H).
Qed.

End NoData.

Lemma demoRulesNoData_run :
  BusinessRulesValidator.validateBusinessRules demoDb 10
    DataLoader.getDefaultWarningMessages [] demoMilk
    ["F28.A07KG"; "F28.A07MR"] "" ∅ = demoRulesNoData.
Proof. vm_compute. reflexivity. Qed.

(** X26. Without the records of the forbidden processes (an empty list is
    what the loader gives when their file cannot be read) the business
    rules never give a warning of BR19, BR26 or BR27, whatever the term and
    its facets: no process is forbidden and every ordinal code is 0. *)
Theorem no_process_data_no_process_warnings
  db fuel msgs t facets context cache ws cache' :
  BusinessRulesValidator.validateBusinessRules db fuel msgs [] t facets context cache
    = Some (ws, cache') ->
  Forall (fun w => ~ In (rule w) ["BR19"; "BR26"; "BR27"]) ws.
Proof.
  intros H. apply validateBusinessRules_inv in H as (x & s' & H & <-).
  destruct (Emits_runRules_nil _ _ _ _ _ _ _ _ _ H) as (e & He & F).
  simpl in He. rewrite He. exact F.
Qed.

Lemma no_process_data_no_process_warnings_witness :
  exists ws c,
    BusinessRulesValidator.validateBusinessRules demoDb 10
      DataLoader.getDefaultWarningMessages [] demoMilk
      ["F28.A07KG"; "F28.A07MR"] "" ∅ = Some (ws, c) /\
    In "BR26" (map rule demoRulesWarnings) /\
    Forall (fun w => ~ In (rule w) ["BR19"; "BR26"; "BR27"]) ws.
Proof.
  pose proof demoRulesNoData_run as Hrun. unfold demoRulesNoData in Hrun.
  eexists _, _. split; [exact Hrun|]. split; [right; right; right; left; reflexivity|].
  exact (no_process_data_no_process_warnings _ _ _ _ _ _ _ _ _ Hrun).
Defined.


(** ** The colour file *)

Lemma ltrim_forall q s : string_forall q s = true -> string_forall q (ltrim s) = true.
Proof.
  induction s as [|c s IH]; simpl; [auto|]. intros H.
  destruct (is_space c); [|exact H].
  apply andb_true_iff in H as [_ H]. auto.
Qed.

Lemma rtrim_forall q s : string_forall q s = true -> string_forall q (rtrim s) = true.
Proof.
  induction s as [|c s IH]; simpl; [auto|]. intros H.
  apply andb_true_iff in H as [Hc H].
  destruct (is_space c && String.eqb (rtrim s) ""); [reflexivity|].
  simpl. rewrite Hc. auto.
Qed.

Lemma trim_clean p s : clean p s = true -> clean p (trim s) = true.
Proof. unfold clean, trim. intros H. apply rtrim_forall, ltrim_forall, H. Qed.

Lemma split_on_head_clean p s : clean p (nth 0 (split_on p s) "") = true.
Proof.
  pose proof (split_on_pieces_clean p s) as F.
  destruct (split_on p s) as [|w ws]; [reflexivity|].
  inversion F; assumption.
Qed.

Lemma obj_set_keys {V} k (v : V) obj :
  map fst (obj_set k v obj) =
  if includes (map fst obj) k then map fst obj else map fst obj ++ [k].
Proof.
  induction obj as [|[k' v'] obj IH]; simpl; [reflexivity|].
  destruct (String.eqb k k'); simpl; [reflexivity|].
  rewrite IH. unfold includes. destruct (existsb _ _); reflexivity.
Qed.

Lemma obj_set_Forall {V} (P : string * V -> Prop) k v obj :
  (forall k', P (k', v)) -> Forall P obj -> Forall P (obj_set k v obj).
Proof.
  intros Hv F. induction F as [|[k' v'] obj Hx F IH]; simpl.
  - repeat constructor. apply Hv.
  - destruct (String.eqb k k'); constructor; auto.
Qed.

Lemma obj_set_NoDup {V} k (v : V) obj :
  List.NoDup (map fst obj) -> List.NoDup (map fst (obj_set k v obj)).
Proof.
  intros H. rewrite obj_set_keys. unfold includes.
  destruct (existsb (String.eqb k) (map fst obj)) eqn:E; [exact H|].
  apply List.NoDup_app; [exact H|repeat constructor; intros []|].
  intros x Hx [Hk|[]]. subst x.
  assert (existsb (String.eqb k) (map fst obj) = true); [|congruence].
  apply existsb_exists. exists k. split; [exact Hx|apply String.eqb_refl].
Qed.

Lemma parseColorLine_inv colors line :
  Forall (fun kc => clean is_comma (FoodEx2Validator.rgb (snd kc)) = true) colors /\
  List.NoDup (map fst colors) ->
  Forall (fun kc => clean is_comma (FoodEx2Validator.rgb (snd kc)) = true)
    (parseColorLine colors line) /\
  List.NoDup (map fst (parseColorLine colors line)).
Proof.
  intros [F N]. unfold parseColorLine. cbv zeta.
  destruct (nth_error (split_on is_semicolon line) 1) as [colorInfo|]; [|auto].
  destruct (truthy _ && truthy colorInfo); [|auto].
  split; [|apply obj_set_NoDup; exact N].
  apply obj_set_Forall; [|exact F].
  intros k'. cbn [snd FoodEx2Validator.rgb]. apply trim_clean, split_on_head_clean.
Qed.

(** X27. The colour file cannot give an rgb triple. Every colour that
    [loadWarningColors] reads from a file has an rgb text without a comma
    (the text of the colour is cut at its commas: the first piece is the
    rgb, the second the description, the others are dropped), and each
    severity has one colour. So no content of the file gives the default
    colours, whose rgb texts are triples such as 255,165,0. *)
Theorem colour_file_gives_no_rgb_triple (content : string) :
  let colors := loadWarningColors (Some content) in
  Forall (fun kc => clean is_comma (FoodEx2Validator.rgb (snd kc)) = true) colors /\
  List.NoDup (map fst colors) /\
  colors <> FoodEx2Validator.getDefaultWarningColors.
Proof.
  cbv zeta. unfold loadWarningColors. cbv zeta.
  assert (H : forall lines colors,
    Forall (fun kc => clean is_comma (FoodEx2Validator.rgb (snd kc)) = true) colors /\
    List.NoDup (map fst colors) ->
    Forall (fun kc => clean is_comma (FoodEx2Validator.rgb (snd kc)) = true)
      (fold_left parseColorLine lines colors) /\
    List.NoDup (map fst (fold_left parseColorLine lines colors))).
  { induction lines as [|l lines IH]; intros colors Hc; simpl; [exact Hc|].
    apply IH, parseColorLine_inv, Hc. }
  destruct (H (List.filter (fun line => truthy (trim line)) (split_on is_newline content)) [])
    as [F N]; [split; constructor|].
  split; [exact F|]. split; [exact N|].
  intros E. rewrite E in F. inversion F as [|x l Hx _]. discriminate Hx.
Qed.

(** ** The texts of the rule catalogue *)

Lemma split_two_not_nil a b s : split_two a b s <> [].
Proof.
  destruct s as [|c [|d s]]; simpl; try discriminate.
  destruct (Ascii.eqb c a && Ascii.eqb d b); [discriminate|].
  destruct (match s with EmptyString => _ | String _ _ => _ end); discriminate.
Qed.

Lemma split_two_step a b c d s :
  split_two a b (String c (String d s)) =
  if Ascii.eqb c a && Ascii.eqb d b then EmptyString :: split_two a b s
  else match split_two a b (String d s) with
       | [] => [String c EmptyString]
       | w :: ws => String c w :: ws
       end.
Proof. reflexivity. Qed.

Lemma concat_cons_head sep c w ws :
  String.concat sep (String c w :: ws) = String c (String.concat sep (w :: ws)).
Proof. destruct ws; reflexivity. Qed.

Lemma join_split_two_le n : forall s,
  String.length s <= n -> join "> " (split_two ">" " " s) = s.
Proof.
  unfold join. induction n as [|n IH]; intros s Hn.
  - destruct s; [reflexivity|simpl in Hn; lia].
  - destruct s as [|c [|d s]]; [reflexivity|reflexivity|].
    rewrite split_two_step.
    destruct (Ascii.eqb_spec c ">") as [->|Hc]; [destruct (Ascii.eqb_spec d " ") as [->|Hd]|];
      cbn [andb].
    + pose proof (split_two_not_nil ">" " " s) as Hne.
      pose proof (IH s ltac:(simpl in Hn; lia)) as E.
      destruct (split_two ">" " " s) as [|w ws]; [contradiction|].
      change (String.concat "> " (EmptyString :: w :: ws))
        with (String ">" (String " " (String.concat "> " (w :: ws)))).
      rewrite E. reflexivity.
    + pose proof (split_two_not_nil ">" " " (String d s)) as Hne.
      pose proof (IH (String d s) ltac:(simpl in Hn |- *; lia)) as E.
      destruct (split_two ">" " " (String d s)) as [|w ws]; [contradiction|].
      rewrite concat_cons_head, E. reflexivity.
    + pose proof (split_two_not_nil ">" " " (String d s)) as Hne.
      pose proof (IH (String d s) ltac:(simpl in Hn |- *; lia)) as E.
      destruct (split_two ">" " " (String d s)) as [|w ws]; [contradiction|].
      rewrite concat_cons_head, E. reflexivity.
Qed.

Lemma join_split_two s : join "> " (split_two ">" " " s) = s.
Proof. apply (join_split_two_le (String.length s)). lia. Qed.

Lemma Contains_tail c s sub : Contains s sub -> Contains (String c s) sub.
Proof. intros (pre & post & ->). exists (String c pre), post. reflexivity. Qed.

Lemma split_two_prefix p text :
  ~ Contains p "> " ->
  split_two ">" " " (p +:+ "> " +:+ text) = p :: split_two ">" " " text.
Proof.
  induction p as [|c p IH]; intros Hp; [reflexivity|].
  assert (Hp' : ~ Contains p "> ") by (intros H; apply Hp, Contains_tail, H).
  specialize (IH Hp').
  destruct p as [|d p].
  - change (String c "" +:+ "> " +:+ text) with (String c (String ">" (String " " text))).
    rewrite split_two_step.
    change (Ascii.eqb ">" " ") with false. rewrite andb_false_r.
    change (split_two ">" " " (String ">" (String " " text)))
      with (EmptyString :: split_two ">" " " text).
    reflexivity.
  - change (String c (String d p) +:+ "> " +:+ text)
      with (String c (String d (p +:+ "> " +:+ text))).
    rewrite split_two_step.
    destruct (Ascii.eqb_spec c ">") as [->|Hc]; [destruct (Ascii.eqb_spec d " ") as [->|Hd]|];
      cbn [andb].
    + exfalso. apply Hp. exists "", p. reflexivity.
    + change (String d (p +:+ "> " +:+ text)) with (String d p +:+ "> " +:+ text).
      rewrite IH. reflexivity.
    + change (String d (p +:+ "> " +:+ text)) with (String d p +:+ "> " +:+ text).
      rewrite IH. reflexivity.
Qed.

Lemma split_two_whole s : ~ Contains s "> " -> split_two ">" " " s = [s].
Proof.
  induction s as [|c s IH]; intros Hs; [reflexivity|].
  assert (Hs' : ~ Contains s "> ") by (intros H; apply Hs, Contains_tail, H).
  specialize (IH Hs').
  destruct s as [|d s]; [reflexivity|].
  rewrite split_two_step.
  destruct (Ascii.eqb_spec c ">") as [->|Hc]; [destruct (Ascii.eqb_spec d " ") as [->|Hd]|];
    cbn [andb].
  - exfalso. apply Hs. exists "", s. reflexivity.
  - rewrite IH. reflexivity.
  - rewrite IH. reflexivity.
Qed.

(** X28. [cleanRuleText] takes the rule code off a catalogue text: of a text
    made of a prefix, the two characters > and space, and a rest, it gives
    back the rest unchanged, however many further > it holds, when the
    prefix has no > followed by a space in it; a text without these two
    characters in a row is given back as it is. *)
Theorem clean_rule_text_strips_the_code (p text : string) :
  ~ Contains p "> " ->
  FoodEx2Validator.cleanRuleText (p +:+ "> " +:+ text) = text /\
  FoodEx2Validator.cleanRuleText p = p.
Proof.
  intros Hp. unfold FoodEx2Validator.cleanRuleText. cbv zeta. split.
  - assert (Ht : truthy (p +:+ "> " +:+ text) = true) by (destruct p; reflexivity).
    rewrite Ht. cbn [negb]. rewrite (split_two_prefix p text Hp).
    pose proof (split_two_not_nil ">" " " text) as Hne.
    pose proof (join_split_two text) as E.
    destruct (split_two ">" " " text) as [|w ws]; [contradiction|].
    cbn [length Nat.ltb Nat.leb tl]. exact E.
  - destruct p as [|c p]; [reflexivity|].
    change (negb (truthy (String c p))) with false. cbv iota.
    rewrite (split_two_whole _ Hp). reflexivity.
Qed.

Lemma not_Contains_BR01 : ~ Contains "BR01" "> ".
Proof.
  intros (pre & post & H).
  destruct pre as [|a [|b [|c [|d [|e pre]]]]]; discriminate H.
Qed.

Lemma clean_rule_text_strips_the_code_witness :
  FoodEx2Validator.cleanRuleText "BR01> a > b" = "a > b" /\
  FoodEx2Validator.cleanRuleText "BR01" = "BR01".
Proof.
  exact (clean_rule_text_strips_the_code "BR01" "a > b" not_Contains_BR01).
Defined.
